(** * IPL data analysis: ingestion, normalization and KPI aggregation

    A shallow embedding of [data_loader.py] (clean_data and its helpers) and
    [data_processor.py] (calculate_kpis, save_precomputed_stats), followed by
    the properties of the specification that are settled on it.

    Layout: Python values and string methods ([Py]); the pandas operations the
    two modules call ([Pandas]); the rows of the two tables ([Match],
    [Delivery]); the loader ([DataLoader]); the processor ([DataProcessor]);
    two small data sets ([LoaderExamples], [League]); the notions the
    theorems are stated with (the [...Spec] modules) and the caller of the
    two modules ([App]); then, topic by topic, the lemmas ([...Facts]) and
    the theorems ([...Theorems]). *)

From Stdlib Require Import ZArith NArith List String Ascii Bool Lia.
From Stdlib Require Import DecimalString Permutation Sorted.
Import ListNotations.
Open Scope Z_scope.

(* ================================================================== *)
(** ** Python values, strings and exceptions *)
(* ================================================================== *)

Module Py.

(** A Python [str] is a sequence of Unicode code points. *)
Definition char := N.
Definition str := list char.

(** Literals of the source are ASCII; [u "text"] is the [str] they denote. *)
Definition u (s : string) : str := map N_of_ascii (list_ascii_of_string s).
Arguments u s%_string.

Definition ch (a : ascii) : char := N_of_ascii a.
Arguments ch a%_char.

Definition str_eqb (a b : str) : bool :=
  if list_eq_dec N.eq_dec a b then true else false.

(** [x in [a; b; ...]] for strings. *)
Definition str_in (x : str) (l : list str) : bool := existsb (str_eqb x) l.

(** ['c' in s] for a one-character needle. *)
Definition contains (c : char) (s : str) : bool := existsb (N.eqb c) s.

(** *** Character classes

    [str.isspace]: the code points Python treats as whitespace (the complete
    list: bidirectional type WS, B or S, or category Zs). *)
Definition whitespace : list char :=
  [9; 10; 11; 12; 13; 28; 29; 30; 31; 32; 133; 160; 5760;
   8192; 8193; 8194; 8195; 8196; 8197; 8198; 8199; 8200; 8201; 8202;
   8232; 8233; 8239; 8287; 12288]%N.

Definition isspace (c : char) : bool := existsb (N.eqb c) whitespace.

Definition is_ascii (c : char) : bool := (c <? 128)%N.
Definition is_upper (c : char) : bool := ((65 <=? c) && (c <=? 90))%N.
Definition is_lower (c : char) : bool := ((97 <=? c) && (c <=? 122))%N.
Definition is_digit (c : char) : bool := ((48 <=? c) && (c <=? 57))%N.

(** *** Case data

    Python takes case mappings from the Unicode character database. The
    development carries the ASCII letters and the three code points outside
    ASCII whose case mapping is an ASCII letter: U+0131 (dotless i, upper and
    title case [I]), U+017F (long s, upper and title case [S]) and U+212A
    (Kelvin sign, lower case [k]). Every other code point is carried through
    unchanged and counts as caseless. *)
Definition dotless_i : char := 305%N.
Definition long_s : char := 383%N.
Definition kelvin : char := 8490%N.

Definition lower_char (c : char) : char :=
  if is_upper c then (c + 32)%N
  else if (c =? kelvin)%N then ch "k"
  else c.

Definition title_char (c : char) : char :=
  if is_lower c then (c - 32)%N
  else if (c =? dotless_i)%N then ch "I"
  else if (c =? long_s)%N then ch "S"
  else c.

Definition is_cased (c : char) : bool :=
  is_upper c || is_lower c
  || (c =? dotless_i)%N || (c =? long_s)%N || (c =? kelvin)%N.

(** *** String methods *)

(** [s.lower()] *)
Definition lower (s : str) : str := map lower_char s.

(** [s.title()]: a character that follows a cased character is lower-cased,
    any other character is title-cased. *)
Fixpoint title_from (previous_is_cased : bool) (s : str) : str :=
  match s with
  | [] => []
  | c :: t =>
      (if previous_is_cased then lower_char c else title_char c)
        :: title_from (is_cased c) t
  end.

Definition title (s : str) : str := title_from false s.

(** [s.lstrip()], [s.rstrip()], [s.strip()] *)
Fixpoint lstrip (s : str) : str :=
  match s with
  | [] => []
  | c :: t => if isspace c then lstrip t else s
  end.

Definition rstrip (s : str) : str := rev (lstrip (rev s)).
Definition strip (s : str) : str := rstrip (lstrip s).

(** [s.split(sep)] for a one-character separator: never empty. *)
Fixpoint split (sep : char) (s : str) : list str :=
  match s with
  | [] => [[]]
  | c :: t =>
      if (c =? sep)%N then [] :: split sep t
      else match split sep t with
           | h :: r => (c :: h) :: r
           | [] => [[c]]
           end
  end.

(** [l[-1]] on a list of strings. *)
Definition last_item (l : list str) : str := last l [].

(** *** Exceptions *)

Inductive exn : Type :=
| KeyError (key : string)
| NameError (name : string)
| ValueError
| TypeError
| Exception_ (cause : exn).   (* [Exception(f"...{str(e)}")] raised from [e] *)

Inductive result (A : Type) : Type :=
| Ok (a : A)
| Raise (e : exn).
Arguments Ok {A} a.
Arguments Raise {A} e.

Definition bind {A B} (r : result A) (k : A -> result B) : result B :=
  match r with
  | Ok a => k a
  | Raise e => Raise e
  end.

Fixpoint mapM {A B} (f : A -> result B) (l : list A) : result (list B) :=
  match l with
  | [] => Ok []
  | a :: t =>
      bind (f a) (fun b => bind (mapM f t) (fun bs => Ok (b :: bs)))
  end.

(** *** [int(s)] and [str(x)] *)

Definition digit_value (c : char) : Z := Z.of_N (c - 48)%N.

(** Decimal digits, single underscores allowed between digits. *)
Fixpoint digits (acc : Z) (after_underscore : bool) (s : str) : option Z :=
  match s with
  | [] => if after_underscore then None else Some acc
  | c :: t =>
      if is_digit c then digits (10 * acc + digit_value c) false t
      else if (c =? ch "_")%N && negb after_underscore then digits acc true t
      else None
  end.

(** [int(s)], base 10: surrounding whitespace is dropped, one sign is
    allowed, the rest must be digits. ASCII digits only. *)
Definition int_of_str (s : str) : result Z :=
  let t := strip s in
  let '(negative, body) :=
    match t with
    | c :: r => if (c =? ch "-")%N then (true, r)
                else if (c =? ch "+")%N then (false, r)
                else (false, t)
    | [] => (false, t)
    end in
  match body with
  | c :: _ =>
      if is_digit c then
        match digits 0 false body with
        | Some v => Ok (if negative then - v else v)
        | None => Raise ValueError
        end
      else Raise ValueError
  | [] => Raise ValueError
  end.

(** A cell of an object column read from CSV: text, an integer, or the
    missing value (a float NaN). *)
Inductive cell : Type :=
| CStr (s : str)
| CInt (z : Z)
| CNaN.

Definition str_of_int (z : Z) : str := u (NilEmpty.string_of_int (Z.to_int z)).

(** [str(x)] *)
Definition py_str (x : cell) : str :=
  match x with
  | CStr s => s
  | CInt z => str_of_int z
  | CNaN => u "nan"
  end.

End Py.

Import Py.

Declare Scope py_scope.
Delimit Scope py_scope with py.
Notation "x <- c ;; k" := (bind c (fun x => k))
  (at level 61, c at next level, right associativity) : py_scope.
Open Scope py_scope.

(* ================================================================== *)
(** ** The pandas operations used by the two modules *)
(* ================================================================== *)

Module Pandas.

(** A DataFrame: the labels of the columns it has, and its rows. A row is a
    record with one field per column of the dataset; a field whose label is
    not among [columns] is never read, every access goes through a check
    that raises [KeyError]. Text columns have object dtype: a cell is a
    string or missing ([None], pandas' NaN). *)
Record frame (R : Type) : Type := Frame {
  columns : list string;
  rows : list R
}.
Arguments Frame {R} columns rows.
Arguments columns {R} f.
Arguments rows {R} f.

Definition has_column {R} (f : frame R) (label : string) : bool :=
  existsb (String.eqb label) (columns f).

(** [f[label]] as a check: [KeyError] when the column is absent. *)
Definition need {R} (f : frame R) (label : string) : result unit :=
  if has_column f label then Ok tt else Raise (KeyError label).

(** [f[label]]: the cells of one column. *)
Definition column {R A} (f : frame R) (label : string) (field : R -> A)
  : result (list A) :=
  _ <- need f label ;; Ok (map field (rows f)).

Definition with_rows {R} (f : frame R) (l : list R) : frame R :=
  Frame (columns f) l.

(** [f[label] = ...] on the header: a new label goes last. *)
Definition add_column (label : string) (cols : list string) : list string :=
  if existsb (String.eqb label) cols then cols else cols ++ [label].

(** [s.fillna(v)] on one cell. *)
Definition fillna {A} (v : A) (c : option A) : option A :=
  match c with
  | Some a => Some a
  | None => Some v
  end.

(** *** Ordering of group keys *)

Class Ord (K : Type) : Type := compare : K -> K -> comparison.

#[export] Instance Ord_Z : Ord Z := Z.compare.

Fixpoint str_compare (a b : str) : comparison :=
  match a, b with
  | [], [] => Eq
  | [], _ :: _ => Lt
  | _ :: _, [] => Gt
  | x :: a', y :: b' =>
      match (x ?= y)%N with
      | Eq => str_compare a' b'
      | c => c
      end
  end.

#[export] Instance Ord_str : Ord str := str_compare.

#[export] Instance Ord_pair {A B} `{Ord A} `{Ord B} : Ord (A * B) :=
  fun p q =>
    match compare (fst p) (fst q) with
    | Eq => compare (snd p) (snd q)
    | c => c
    end.

Definition key_eqb {K} `{Ord K} (a b : K) : bool :=
  match compare a b with
  | Eq => true
  | _ => false
  end.

(** *** groupby

    [groupby(keys)] with the defaults [sort=True, dropna=True]: one group per
    distinct key, in ascending key order; rows with a missing key are left
    out; the rows of a group keep their order. *)
Section GroupBy.
Context {R K : Type} `{Ord K}.

Fixpoint insert_key (k : K) (l : list K) : list K :=
  match l with
  | [] => [k]
  | h :: t =>
      match compare k h with
      | Lt => k :: l
      | Eq => l
      | Gt => h :: insert_key k t
      end
  end.

Definition unique_sorted (l : list K) : list K :=
  fold_right insert_key [] l.

Definition present_keys (key : R -> option K) (l : list R) : list K :=
  flat_map (fun r => match key r with Some k => [k] | None => [] end) l.

Definition in_group (key : R -> option K) (k : K) (r : R) : bool :=
  match key r with
  | Some k' => key_eqb k' k
  | None => false
  end.

Definition groupby (key : R -> option K) (l : list R) : list (K * list R) :=
  map (fun k => (k, filter (in_group key k) l))
      (unique_sorted (present_keys key l)).

(** [groupby(...)[col].agg()]: one value per group. *)
Definition aggregate {V} (f : list R -> V) (g : list (K * list R))
  : list (K * V) :=
  map (fun kg => (fst kg, f (snd kg))) g.
End GroupBy.

(** [.sum()], [.count()] (cells that are not missing) and [.size()]. *)
Definition sum_of {R} (val : R -> Z) (g : list R) : Z :=
  fold_right Z.add 0 (map val g).

Definition count_of {R A} (val : R -> option A) (g : list R) : Z :=
  Z.of_nat (List.length (filter (fun r => match val r with Some _ => true | None => false end) g)).

Definition size_of {R} (g : list R) : Z := Z.of_nat (List.length g).

(** *** idxmax and loc

    After [reset_index()] the row labels are the positions 0, 1, ...;
    [idxmax] gives the label of the first row that attains the maximum. *)
Definition with_index {A} (l : list A) : list (nat * A) :=
  combine (seq 0 (List.length l)) l.

Fixpoint first_max {A} (val : A -> Z) (best : A) (l : list A) : A :=
  match l with
  | [] => best
  | x :: t =>
      if val best <? val x then first_max val x t else first_max val best t
  end.

Definition idxmax {A} (val : A -> Z) (g : list (nat * A)) : list nat :=
  match g with
  | [] => []
  | x :: t => [fst (first_max (fun p => val (snd p)) x t)]
  end.

(** [t.loc[labels]]: the rows with these labels, in the order of [labels]. *)
Definition loc {A} (t : list A) (labels : list nat) : list A :=
  flat_map (fun i => match nth_error t i with Some a => [a] | None => [] end)
           labels.

(** [t.loc[t.groupby(key)[val].idxmax()]] *)
Definition loc_idxmax {A K} `{Ord K} (key : A -> K) (val : A -> Z)
  (t : list A) : list A :=
  loc t (flat_map (fun g => idxmax val (snd g))
                  (groupby (fun r => Some (key (snd r))) (with_index t))).

(** *** Sorting

    [sort_values]: insertion of each element before the first one it may
    precede; elements that compare equal keep their order. pandas leaves the
    order of ties to the sorting algorithm. *)
Section Sorting.
Context {A : Type} (precedes : A -> A -> bool).

Fixpoint insert_sorted (x : A) (l : list A) : list A :=
  match l with
  | [] => [x]
  | h :: t => if precedes x h then x :: l else h :: insert_sorted x t
  end.

Definition sort_by (l : list A) : list A := fold_right insert_sorted [] l.
End Sorting.

(** [sort_values(ascending=False)] on integer values. *)
Definition sort_desc {A} (val : A -> Z) (l : list A) : list A :=
  sort_by (fun x h => val h <=? val x) l.

(** [sort_values(ascending=False)] on float values: NaN goes last. *)
Definition nan_last_desc (x h : option Z) : bool :=
  match x, h with
  | Some a, Some b => b <=? a
  | Some _, None => true
  | None, Some _ => false
  | None, None => true
  end.

Definition sort_desc_nan {A} (val : A -> option Z) (l : list A) : list A :=
  sort_by (fun x h => nan_last_desc (val x) (val h)) l.

(** [sort_index()] on integer labels. *)
Definition sort_asc {A} (key : A -> Z) (l : list A) : list A :=
  sort_by (fun x h => key x <=? key h) l.

(** [.head(n)] *)
Definition head {A} (n : nat) (l : list A) : list A := firstn n l.

(** *** Series

    [value_counts()]: the distinct values that are not missing, in order of
    first appearance, each with its number of occurrences, sorted by
    descending count. *)
Fixpoint uniques (l : list str) : list str :=
  match l with
  | [] => []
  | x :: t => x :: filter (fun y => negb (str_eqb y x)) (uniques t)
  end.

Definition occurrences (x : str) (l : list str) : Z :=
  Z.of_nat (List.length (filter (str_eqb x) l)).

Definition dropna {A} (l : list (option A)) : list A :=
  flat_map (fun c => match c with Some a => [a] | None => [] end) l.

Definition value_counts (l : list (option str)) : list (str * Z) :=
  let present := dropna l in
  sort_desc snd (map (fun x => (x, occurrences x present)) (uniques present)).

(** [s[label]] on a Series with unique labels. *)
Fixpoint lookup {V} (k : str) (s : list (str * V)) : option V :=
  match s with
  | [] => None
  | (k', v) :: t => if str_eqb k k' then Some v else lookup k t
  end.

(** The labels of [a - b]: those of [a] when both have the same labels or
    [b] has none, those of [b] when [a] has none, and otherwise the sorted
    union. *)
Definition str_list_eqb (a b : list str) : bool :=
  if list_eq_dec (list_eq_dec N.eq_dec) a b then true else false.

Definition align_labels (a b : list str) : list str :=
  if str_list_eqb a b then a
  else match a, b with
       | _, [] => a
       | [], _ => b
       | _, _ => unique_sorted (a ++ b)
       end.

(** [a - b] on two integer Series: NaN where a label is missing on either
    side. *)
Definition series_sub (a b : list (str * Z)) : list (str * option Z) :=
  map (fun k => (k, match lookup k a, lookup k b with
                    | Some x, Some y => Some (x - y)
                    | _, _ => None
                    end))
      (align_labels (map fst a) (map fst b)).

(** [s.fillna(other)] with a Series: a missing value takes the value
    [other] has at the same label. *)
Definition series_fillna (s : list (str * option Z)) (other : list (str * Z))
  : list (str * option Z) :=
  map (fun kv => match snd kv with
                 | Some v => kv
                 | None => (fst kv, lookup (fst kv) other)
                 end) s.

(** *** merge

    [left.merge(right, left_on=..., right_on=..., how='left')]: every left
    row, in order, once for each right row with the same key, or once with
    missing right columns when there is none. *)
Definition merge_left {L R} (lkey : L -> Z) (rkey : R -> Z)
  (left : list L) (right : list R) : list (L * option R) :=
  flat_map (fun l =>
    match filter (fun r => rkey r =? lkey l) right with
    | [] => [(l, None)]
    | hits => map (fun r => (l, Some r)) hits
    end) left.

(** *** pivot, fillna, cumsum

    [t.pivot(index, columns, values)] on rows [((index, column), value)]:
    [ValueError] when an (index, column) pair occurs twice; otherwise one
    row label per distinct index value and one column per distinct column
    value, both ascending, and a missing cell where no row gives a value. *)
Definition pair_eqb (p q : Z * str) : bool :=
  (fst p =? fst q) && str_eqb (snd p) (snd q).

Fixpoint has_duplicates (l : list (Z * str)) : bool :=
  match l with
  | [] => false
  | p :: t => existsb (pair_eqb p) t || has_duplicates t
  end.

Fixpoint cell_at (i : Z) (c : str) (t : list (Z * str * Z)) : option Z :=
  match t with
  | [] => None
  | (k, v) :: r => if pair_eqb (i, c) k then Some v else cell_at i c r
  end.

Record grid (V : Type) : Type := Grid {
  index : list Z;
  series : list (str * list V)   (* per column: its values down the index *)
}.
Arguments Grid {V} index series.
Arguments index {V} g.
Arguments series {V} g.

Definition pivot (t : list (Z * str * Z)) : result (grid (option Z)) :=
  if has_duplicates (map fst t) then Raise ValueError
  else
    let idx := unique_sorted (map (fun r => fst (fst r)) t) in
    let cols := unique_sorted (map (fun r => snd (fst r)) t) in
    Ok (Grid idx (map (fun c => (c, map (fun i => cell_at i c t) idx)) cols)).

(** [g.sort_index()]: rows in ascending label order. *)
Definition sort_index {V} (g : grid V) : grid V :=
  let order := sort_asc snd (with_index (index g)) in
  Grid (map snd order)
       (map (fun cv => (fst cv, loc (snd cv) (map fst order))) (series g)).

Definition grid_fillna (v : Z) (g : grid (option Z)) : grid Z :=
  Grid (index g)
       (map (fun cv => (fst cv, map (fun c => match c with Some x => x | None => v end) (snd cv)))
            (series g)).

Fixpoint running_sum (acc : Z) (l : list Z) : list Z :=
  match l with
  | [] => []
  | x :: t => (acc + x) :: running_sum (acc + x) t
  end.

Definition cumsum (g : grid Z) : grid Z :=
  Grid (index g) (map (fun cv => (fst cv, running_sum 0 (snd cv))) (series g)).

End Pandas.

Import Pandas.

(* ================================================================== *)
(** ** The two tables *)
(* ================================================================== *)

(** A row of the matches table. [S] is the type of the season cell: a raw
    [cell] as read from the file, an integer after [clean_season]. *)
Module Match.
Record row (S : Type) : Type := Row {
  id : Z;
  season : S;
  city : option str;
  venue : option str;
  team1 : option str;
  team2 : option str;
  toss_winner : option str;
  winner : option str;
  result_margin : option Z;
  method : option str;
  player_of_match : option str;
  home_team : option str
}.
Arguments Row {S}.
Arguments id {S} r.
Arguments season {S} r.
Arguments city {S} r.
Arguments venue {S} r.
Arguments team1 {S} r.
Arguments team2 {S} r.
Arguments toss_winner {S} r.
Arguments winner {S} r.
Arguments result_margin {S} r.
Arguments method {S} r.
Arguments player_of_match {S} r.
Arguments home_team {S} r.
End Match.

(** A row of the deliveries table. [S] is the type of the season cell:
    [unit] in the raw table, which has no such column; [option Z] after the
    merge, where it is missing for a delivery without a match; [Z] after
    [astype(int)]. *)
Module Delivery.
Record row (S : Type) : Type := Row {
  match_id : Z;
  season : S;
  batter : str;
  bowler : str;
  batsman_runs : Z;
  total_runs : Z;
  dismissal_kind : option str;
  player_dismissed : option str;
  fielder : option str;
  extras_type : option str;
  batting_team : option str;
  bowling_team : option str
}.
Arguments Row {S}.
Arguments match_id {S} r.
Arguments season {S} r.
Arguments batter {S} r.
Arguments bowler {S} r.
Arguments batsman_runs {S} r.
Arguments total_runs {S} r.
Arguments dismissal_kind {S} r.
Arguments player_dismissed {S} r.
Arguments fielder {S} r.
Arguments extras_type {S} r.
Arguments batting_team {S} r.
Arguments bowling_team {S} r.

(** The same delivery with another season cell. *)
Definition with_season {S T} (d : row S) (s : T) : row T :=
  Row (match_id d) s (batter d) (bowler d) (batsman_runs d) (total_runs d)
      (dismissal_kind d) (player_dismissed d) (fielder d) (extras_type d)
      (batting_team d) (bowling_team d).
End Delivery.

(** What the program prints. *)
Inductive line : Type :=
| Unmatched_deliveries (unmatched : Z)
    (* "Warning: {unmatched} deliveries could not be matched with a season.
       These will be excluded." *)
| Missing_column (e : exn) (calculation : string)
    (* "Warning: Missing column {e} for {calculation} calculation." *)
| Error_calculating (calculation : string) (e : exn)
    (* "Warning: Error calculating {calculation}: {e}" *)
| Failed_to_save (key : string)
    (* "Warning: Failed to save {key}.json: {e}" *)
| Failed_to_create_directory.
    (* "Warning: Failed to create directory for precomputed stats: {e}" *)

(* ================================================================== *)
(** ** data_loader.py *)
(* ================================================================== *)

Module DataLoader.

(** [clean_season], nested in [clean_data]. *)
Definition clean_season (season_str : cell) : result Z :=
  let season_str := py_str season_str in
  if str_in season_str [u "2020/21"; u "2020-21"] then Ok 2020
  else if contains (ch "/") season_str || contains (ch "-") season_str then
    let year :=
      if contains (ch "/") season_str
      then last_item (split (ch "/") season_str)
      else last_item (split (ch "-") season_str) in
    let year := strip year in
    let year := if (List.length year =? 2)%nat then u "20" ++ year else year in
    int_of_str year
  else int_of_str season_str.


(** [team_mapping], as the dict literal lists it. *)
Definition team_mapping : list (str * str) :=
  [ (u "delhi daredevils", u "Delhi Capitals");
    (u "deccan chargers", u "Sunrisers Hyderabad");
    (u "kings xi punjab", u "Punjab Kings");
    (u "royal challengers bengaluru", u "Royal Challengers Bangalore");
    (u "royal challengers bangalore", u "Royal Challengers Bangalore");
    (u "rising pune supergiant", u "Rising Pune Supergiants");
    (u "rising pune supergaints", u "Rising Pune Supergiants");
    (u "rising pune supergiants", u "Rising Pune Supergiants");
    (u "gujarat lions", u "Gujarat Titans");
    (u "pune warriors", u "Rising Pune Supergiants");
    (u "delhi capitals ", u "Delhi Capitals");
    (u "sunrisers hyderabad ", u "Sunrisers Hyderabad");
    (u "punjab kings ", u "Punjab Kings");
    (u "royal challengers bangalore ", u "Royal Challengers Bangalore");
    (u "rising pune supergiants ", u "Rising Pune Supergiants");
    (u "kolkata knight riders ", u "Kolkata Knight Riders");
    (u "mumbai indians ", u "Mumbai Indians");
    (u "chennai super kings ", u "Chennai Super Kings");
    (u "rajasthan royals ", u "Rajasthan Royals");
    (u "gujarat titans ", u "Gujarat Titans");
    (u "lucknow super giants ", u "Lucknow Super Giants");
    (u "delhi capitals", u "Delhi Capitals");
    (u "sunrisers hyderabad", u "Sunrisers Hyderabad");
    (u "punjab kings", u "Punjab Kings");
    (u "kolkata knight riders", u "Kolkata Knight Riders");
    (u "mumbai indians", u "Mumbai Indians");
    (u "chennai super kings", u "Chennai Super Kings");
    (u "rajasthan royals", u "Rajasthan Royals");
    (u "gujarat titans", u "Gujarat Titans");
    (u "lucknow super giants", u "Lucknow Super Giants") ].

(** [normalize_team_name]: only a string is changed. *)
Definition normalize_team_name (name : option str) : option str :=
  match name with
  | Some s => Some (lower (strip s))
  | None => None
  end.

(** [col.map(team_mapping).fillna(col)] on one cell: the mapped name, or the
    cell itself when the table has no such key. *)
Definition map_team (name : option str) : option str :=
  match name with
  | Some s =>
      match lookup s team_mapping with
      | Some canonical => Some canonical
      | None => Some s
      end
  | None => None
  end.

(** [col.str.title()] on one cell. *)
Definition str_title (name : option str) : option str :=
  match name with
  | Some s => Some (title s)
  | None => None
  end.

(** The body of the loop over the team columns, on one cell. *)
Definition standardize_team (name : option str) : option str :=
  let name := normalize_team_name name in
  let name := map_team name in
  let name := normalize_team_name name in
  let name := map_team name in
  str_title name.

(** [s.replace('None', pd.NA)] on one cell. *)
Definition replace_None_NA (c : option str) : option str :=
  match c with
  | Some s => if str_eqb s (u "None") then None else Some s
  | None => None
  end.

(** The fills of the matches table, row by row, after the season column
    has been cleaned to [s]. *)
Definition fill_match (m : Match.row cell) (s : Z) : Match.row Z :=
  Match.Row (Match.id m) s
    (fillna (u "Unknown") (Match.city m))
    (Match.venue m)
    (Match.team1 m)
    (Match.team2 m)
    (fillna (u "None") (Match.toss_winner m))
    (fillna (u "No Result") (Match.winner m))
    (fillna 0 (Match.result_margin m))
    (fillna (u "Normal") (Match.method m))
    (fillna (u "None") (Match.player_of_match m))
    (Match.team1 m).

(** The fills of the deliveries table, row by row. *)
Definition fill_delivery (d : Delivery.row unit) : Delivery.row unit :=
  Delivery.Row (Delivery.match_id d) tt
    (Delivery.batter d) (Delivery.bowler d)
    (Delivery.batsman_runs d) (Delivery.total_runs d)
    (fillna (u "None") (Delivery.dismissal_kind d))
    (fillna (u "None") (Delivery.player_dismissed d))
    (replace_None_NA (fillna (u "None") (Delivery.fielder d)))
    (fillna (u "None") (Delivery.extras_type d))
    (fillna (u "Unknown") (Delivery.batting_team d))
    (fillna (u "Unknown") (Delivery.bowling_team d)).

(** The loop over ['team1', 'team2', 'winner', 'toss_winner', 'home_team'],
    each column standardized when the table has it. *)
Definition standardize_teams (cols : list string) (m : Match.row Z)
  : Match.row Z :=
  let on label c :=
    if existsb (String.eqb label) cols then standardize_team c else c in
  Match.Row (Match.id m) (Match.season m) (Match.city m) (Match.venue m)
    (on "team1"%string (Match.team1 m))
    (on "team2"%string (Match.team2 m))
    (on "toss_winner"%string (Match.toss_winner m))
    (on "winner"%string (Match.winner m))
    (Match.result_margin m) (Match.method m) (Match.player_of_match m)
    (on "home_team"%string (Match.home_team m)).

(** [deliveries.merge(matches[['id', 'season']], left_on='match_id',
    right_on='id', how='left')]: the season of every match row with the
    delivery's match id, or a missing season. *)
Definition merge_season (deliveries : list (Delivery.row unit))
  (matches : list (Match.row Z)) : list (Delivery.row (option Z)) :=
  map (fun lr => Delivery.with_season (fst lr) (option_map Match.season (snd lr)))
      (merge_left Delivery.match_id Match.id deliveries matches).

Definition season_isna (d : Delivery.row (option Z)) : bool :=
  match Delivery.season d with
  | Some _ => false
  | None => true
  end.

(** [astype(int)] on one row: a missing value cannot be cast. *)
Definition astype_int (d : Delivery.row (option Z)) : result (Delivery.row Z) :=
  match Delivery.season d with
  | Some s => Ok (Delivery.with_season d s)
  | None => Raise ValueError
  end.

Definition needs {R} (f : frame R) (labels : list string) : result unit :=
  fold_right (fun label rest => _ <- need f label ;; rest) (Ok tt) labels.

(** The statements of [clean_data] up to the merge: the filled matches
    table and the merged deliveries. *)
Definition fill_and_merge (matches : frame (Match.row cell))
  (deliveries : frame (Delivery.row unit))
  : result (frame (Match.row Z) * list (Delivery.row (option Z))) :=
  (* Clean matches *)
  _ <- need matches "season" ;;
  seasons <- mapM clean_season (map Match.season (rows matches)) ;;
  _ <- needs matches ["city"; "winner"; "result_margin"; "player_of_match";
                      "method"; "team1"; "toss_winner"]%string ;;
  let matches :=
    Frame (add_column "home_team" (columns matches))
          (map (fun ms => fill_match (fst ms) (snd ms))
               (combine (rows matches) seasons)) in
  (* Clean deliveries *)
  _ <- needs deliveries ["dismissal_kind"; "player_dismissed"; "fielder";
                         "extras_type"; "batting_team"; "bowling_team"]%string ;;
  let filled := map fill_delivery (rows deliveries) in
  (* Merge season from matches *)
  _ <- need matches "id" ;;
  _ <- need deliveries "match_id" ;;
  let merged := merge_season filled (rows matches) in
  (* a season column on the left gives season_x and season_y *)
  _ <- (if has_column deliveries "season"
        then Raise (KeyError "season") else Ok tt) ;;
  Ok (matches, merged).

(** [clean_data]: the cleaned tables, or the exception raised, and what was
    printed. *)
Definition clean_data (matches : frame (Match.row cell))
  (deliveries : frame (Delivery.row unit))
  : result (frame (Match.row Z) * frame (Delivery.row Z)) * list line :=
  match fill_and_merge matches deliveries with
  | Raise e => (Raise e, [])
  | Ok (matches, merged) =>
      let unmatched := Z.of_nat (List.length (filter season_isna merged)) in
      let printed :=
        if 0 <? unmatched then [Unmatched_deliveries unmatched] else [] in
      let merged :=
        if 0 <? unmatched
        then filter (fun d => negb (season_isna d)) merged
        else merged in
      (typed <- mapM astype_int merged ;;
       (* an id column on the left gives id_x and id_y, and no id to drop *)
       _ <- (if has_column deliveries "id"
             then Raise (KeyError "id") else Ok tt) ;;
       let deliveries := Frame (columns deliveries ++ ["season"%string]) typed in
       (* Standardize team names *)
       let matches :=
         with_rows matches
           (map (standardize_teams (columns matches)) (rows matches)) in
       Ok (matches, deliveries),
       printed)
  end.

End DataLoader.

Import DataLoader.

(* ================================================================== *)
(** ** data_processor.py *)
(* ================================================================== *)

Module TeamTotal.
(** A row of [team_totals[['match_id', 'batting_team', 'opponent',
    'total_runs']]]. *)
Record row : Type := Row {
  match_id : Z;
  batting_team : str;
  opponent : option str;
  total_runs : Z
}.
End TeamTotal.

Module DataProcessor.

(** The values held by the [kpis] dict: an integer, a Series, or one of the
    DataFrames the function builds. [pd.Series()] is [Series []] and
    [pd.DataFrame()] is [EmptyFrame]. *)
Inductive kpi : Type :=
| Scalar (n : Z)
| Series (s : list (str * Z))
| FloatSeries (s : list (str * option Z))
| SeasonLeaders (t : list (Z * str * Z))   (* season, player, metric *)
| TeamTotals (t : list TeamTotal.row)
| Cumulative (g : grid Z)
| EmptyFrame.

(** A dict with string keys: insertion order, one entry per key. *)
Definition dict : Type := list (string * kpi).

Fixpoint dict_get (k : string) (d : dict) : option kpi :=
  match d with
  | [] => None
  | (k', v) :: t => if String.eqb k k' then Some v else dict_get k t
  end.

Fixpoint dict_set (k : string) (v : kpi) (d : dict) : dict :=
  match d with
  | [] => [(k, v)]
  | (k', v') :: t =>
      if String.eqb k k' then (k, v) :: t else (k', v') :: dict_set k v t
  end.

(** The state of a call: the dict, the two locals that one block assigns
    and a later block reads (unbound until assigned), and the output. *)
Record state : Type := State {
  kpis : dict;
  team_wins : option (list (str * Z));
  wickets : option (frame (Delivery.row Z));
  stdout : list line
}.

Definition initial_state : state := State [] None None [].

(** Statements: they change the state and may raise; a raised exception
    keeps the changes made before it. *)
Definition M (A : Type) : Type := state -> result A * state.

Definition ret {A} (a : A) : M A := fun s => (Ok a, s).

Definition bindM {A B} (m : M A) (k : A -> M B) : M B :=
  fun s =>
    match m s with
    | (Ok a, s') => k a s'
    | (Raise e, s') => (Raise e, s')
    end.

Definition lift {A} (r : result A) : M A := fun s => (r, s).

Definition print (l : line) : M unit :=
  fun s => (Ok tt, State (kpis s) (team_wins s) (wickets s) (stdout s ++ [l])).

(** [kpis[k] = v] *)
Definition set_kpi (k : string) (v : kpi) : M unit :=
  fun s => (Ok tt, State (dict_set k v (kpis s)) (team_wins s) (wickets s) (stdout s)).

(** [kpis[k]] *)
Definition get_kpi (k : string) : M kpi :=
  fun s =>
    match dict_get k (kpis s) with
    | Some v => (Ok v, s)
    | None => (Raise (KeyError k), s)
    end.

Definition assign_team_wins (w : list (str * Z)) : M unit :=
  fun s => (Ok tt, State (kpis s) (Some w) (wickets s) (stdout s)).

Definition read_team_wins : M (list (str * Z)) :=
  fun s =>
    match team_wins s with
    | Some w => (Ok w, s)
    | None => (Raise (NameError "team_wins"), s)
    end.

Definition assign_wickets (w : frame (Delivery.row Z)) : M unit :=
  fun s => (Ok tt, State (kpis s) (team_wins s) (Some w) (stdout s)).

Definition read_wickets : M (frame (Delivery.row Z)) :=
  fun s =>
    match wickets s with
    | Some w => (Ok w, s)
    | None => (Raise (NameError "wickets"), s)
    end.

(** [try: body except <classes> as e: handler] *)
Definition try_except {A} (body : M A) (catches : exn -> bool)
  (handler : exn -> M A) : M A :=
  fun s =>
    match body s with
    | (Ok a, s') => (Ok a, s')
    | (Raise e, s') => if catches e then handler e s' else (Raise e, s')
    end.

Definition is_KeyError (e : exn) : bool :=
  match e with KeyError _ => true | _ => false end.
Definition is_NameError (e : exn) : bool :=
  match e with NameError _ => true | _ => false end.
Definition is_KeyError_or_ValueError (e : exn) : bool :=
  match e with KeyError _ | ValueError => true | _ => false end.
Definition is_Exception (e : exn) : bool := true.

Declare Scope stmt_scope.
Delimit Scope stmt_scope with stmt.
Notation "x <~ c ;; k" := (bindM c (fun x => k))
  (at level 61, c at next level, right associativity) : stmt_scope.
Notation "c ;;; k" := (bindM c (fun _ => k))
  (at level 61, right associativity) : stmt_scope.
Open Scope stmt_scope.

(** *** Selections and aggregations on a frame *)

(** [f[p(f[label])]]: the rows whose cell satisfies [p]. *)
Definition where_ {R A} (f : frame R) (label : string) (field : R -> A)
  (p : A -> bool) : result (frame R) :=
  _ <- need f label ;;
  Ok (with_rows f (filter (fun r => p (field r)) (rows f))).

(** [f.groupby(keys)[value].agg()] *)
Definition groupby_agg {R K V} `{Ord K} (f : frame R) (keys : list string)
  (key : R -> option K) (value : string) (agg : list R -> V)
  : result (list (K * V)) :=
  _ <- needs f keys ;;
  _ <- need f value ;;
  Ok (aggregate agg (groupby key (rows f))).

Definition cell_is (v : str) (c : option str) : bool :=
  match c with
  | Some s => str_eqb s v
  | None => false
  end.

Definition isin (l : list str) (c : option str) : bool :=
  match c with
  | Some s => str_in s l
  | None => false
  end.

Definition series_of (v : kpi) : result (list (str * Z)) :=
  match v with
  | Series s => Ok s
  | _ => Raise TypeError
  end.

(** The dismissal kinds that credit the bowler. *)
Definition bowler_wickets : list str :=
  [u "caught"; u "bowled"; u "lbw"; u "stumped"; u "caught and bowled";
   u "hit wicket"].

(** [deliveries.groupby(['season', 'batter'])['batsman_runs'].sum()
    .reset_index()] *)
Definition runs_per_season (deliveries : frame (Delivery.row Z))
  : result (list (Z * str * Z)) :=
  groupby_agg deliveries ["season"; "batter"]%string
    (fun d => Some (Delivery.season d, Delivery.batter d))
    "batsman_runs" (sum_of Delivery.batsman_runs).

(** [t.loc[t.groupby('season')[metric].idxmax()]] *)
Definition season_leaders (t : list (Z * str * Z)) : list (Z * str * Z) :=
  loc_idxmax (fun r => fst (fst r)) snd t.

(** [f.groupby(['season', player])[value].count().reset_index()] *)
Definition count_per_season {A} (f : frame (Delivery.row Z)) (player : string)
  (who : Delivery.row Z -> str) (value : string)
  (cell : Delivery.row Z -> option A) : result (list (Z * str * Z)) :=
  groupby_agg f ["season"%string; player]
    (fun d => Some (Delivery.season d, who d))
    value (count_of cell).

(** [f.groupby(player)[value].count().sort_values(ascending=False)
    .head(10)] *)
Definition top10_count {A} (f : frame (Delivery.row Z)) (player : string)
  (who : Delivery.row Z -> option str) (value : string)
  (cell : Delivery.row Z -> option A) : result (list (str * Z)) :=
  t <- groupby_agg f [player] who value (count_of cell) ;;
  Ok (head 10 (sort_desc snd t)).

(** A row of [team_totals] after the merge with [match_teams]: the group
    key and the sum, and the match row when there is one. *)
Definition merged_total : Type := (Z * str * Z) * option (Match.row Z).

Definition row_match_id (row : merged_total) : Z := fst (fst (fst row)).
Definition row_batting_team (row : merged_total) : str := snd (fst (fst row)).
Definition row_total_runs (row : merged_total) : Z := snd (fst row).
Definition row_team1 (row : merged_total) : option str :=
  match snd row with
  | Some m => Match.team1 m
  | None => None
  end.
Definition row_team2 (row : merged_total) : option str :=
  match snd row with
  | Some m => Match.team2 m
  | None => None
  end.

(** [get_opponent], nested in [calculate_kpis]. *)
Definition get_opponent (row : merged_total) : option str :=
  if cell_is (row_batting_team row) (row_team1 row)
  then row_team2 row
  else row_team1 row.

(** *** The blocks of [calculate_kpis], one per [try] statement *)

Section Blocks.
Variable matches : frame (Match.row Z).
Variable deliveries : frame (Delivery.row Z).

(* Total matches *)
Definition total_matches_block : M unit :=
  try_except
    (set_kpi "total_matches" (Scalar (Z.of_nat (List.length (rows matches)))))
    is_Exception
    (fun e => print (Error_calculating "total matches" e) ;;;
              set_kpi "total_matches" (Scalar 0)).

(* Matches per team *)
Definition team_matches_block : M unit :=
  try_except
    (team1 <~ lift (column matches "team1" Match.team1) ;;
     team2 <~ lift (column matches "team2" Match.team2) ;;
     set_kpi "team_matches" (Series (value_counts (team1 ++ team2))))
    is_KeyError
    (fun e => print (Missing_column e "team matches") ;;;
              set_kpi "team_matches" (Series [])).

(* Most wins *)
Definition most_wins_block : M unit :=
  try_except
    (decided <~ lift (where_ matches "winner" Match.winner
                        (fun w => negb (cell_is (u "No Result") w))) ;;
     winner <~ lift (column decided "winner" Match.winner) ;;
     let team_wins := value_counts winner in
     assign_team_wins team_wins ;;;
     set_kpi "most_wins"
       (if negb (match team_wins with [] => true | _ => false end)
        then Series team_wins else Series []))
    is_KeyError
    (fun e => print (Missing_column e "most wins") ;;;
              set_kpi "most_wins" (Series [])).

(* Most losses *)
Definition most_losses_block : M unit :=
  try_except
    (v <~ get_kpi "team_matches" ;;
     team_matches <~ lift (series_of v) ;;
     team_wins <~ read_team_wins ;;
     v' <~ get_kpi "team_matches" ;;
     other <~ lift (series_of v') ;;
     set_kpi "most_losses"
       (FloatSeries
          (head 1 (sort_desc_nan snd
             (series_fillna (series_sub team_matches team_wins) other)))))
    is_NameError
    (fun e => print (Error_calculating "most losses" e) ;;;
              set_kpi "most_losses" (Series [])).

(* Toss wins *)
Definition toss_wins_block : M unit :=
  try_except
    (toss_winner <~ lift (column matches "toss_winner" Match.toss_winner) ;;
     let toss_wins := value_counts toss_winner in
     set_kpi "toss_wins" (Series toss_wins) ;;;
     v <~ get_kpi "toss_wins" ;;
     toss_wins <~ lift (series_of v) ;;
     set_kpi "most_toss_wins"
       (if negb (match toss_wins with [] => true | _ => false end)
        then Series (head 1 toss_wins) else Series []))
    is_KeyError
    (fun e => print (Missing_column e "toss wins") ;;;
              set_kpi "toss_wins" (Series []) ;;;
              set_kpi "most_toss_wins" (Series [])).

(* Orange Cap *)
Definition orange_cap_block : M unit :=
  try_except
    (runs <~ lift (runs_per_season deliveries) ;;
     set_kpi "orange_cap" (SeasonLeaders (season_leaders runs)))
    is_KeyError
    (fun e => print (Missing_column e "orange cap") ;;;
              set_kpi "orange_cap" EmptyFrame).

(* Purple Cap *)
Definition purple_cap_block : M unit :=
  try_except
    (w <~ lift (where_ deliveries "dismissal_kind" Delivery.dismissal_kind
                  (isin bowler_wickets)) ;;
     assign_wickets w ;;;
     wickets_per_season <~
       lift (count_per_season w "bowler" Delivery.bowler
               "player_dismissed" Delivery.player_dismissed) ;;
     set_kpi "purple_cap" (SeasonLeaders (season_leaders wickets_per_season)))
    is_KeyError
    (fun e => print (Missing_column e "purple cap") ;;;
              set_kpi "purple_cap" EmptyFrame).

(* Most runs overall *)
Definition most_runs_total_block : M unit :=
  try_except
    (t <~ lift (groupby_agg deliveries ["batter"]%string
                  (fun d => Some (Delivery.batter d))
                  "batsman_runs" (sum_of Delivery.batsman_runs)) ;;
     set_kpi "most_runs_total" (Series (head 10 (sort_desc snd t))))
    is_KeyError
    (fun e => print (Missing_column e "most runs") ;;;
              set_kpi "most_runs_total" (Series [])).

(* Most wickets overall *)
Definition most_wickets_total_block : M unit :=
  try_except
    (w <~ read_wickets ;;
     t <~ lift (top10_count w "bowler" (fun d => Some (Delivery.bowler d))
                  "player_dismissed" Delivery.player_dismissed) ;;
     set_kpi "most_wickets_total" (Series t))
    is_NameError
    (fun e => print (Error_calculating "most wickets" e) ;;;
              set_kpi "most_wickets_total" (Series [])).

(** The blocks for sixes and for fours differ in the run value and in
    the names only. *)
Definition boundaries_block (runs : Z) (total per_season what : string)
  : M unit :=
  try_except
    (hits <~ lift (where_ deliveries "batsman_runs" Delivery.batsman_runs
                     (fun r => r =? runs)) ;;
     t <~ lift (top10_count hits "batter" (fun d => Some (Delivery.batter d))
                  "batsman_runs" (fun d => Some (Delivery.batsman_runs d))) ;;
     set_kpi total (Series t) ;;;
     hits_per_season <~
       lift (count_per_season hits "batter" Delivery.batter
               "batsman_runs" (fun d => Some (Delivery.batsman_runs d))) ;;
     set_kpi per_season (SeasonLeaders (season_leaders hits_per_season)))
    is_KeyError
    (fun e => print (Missing_column e what) ;;;
              set_kpi total (Series []) ;;;
              set_kpi per_season EmptyFrame).

(* Most sixes *)
Definition most_sixes_block : M unit :=
  boundaries_block 6 "most_sixes" "most_sixes_per_season" "sixes".

(* Most fours *)
Definition most_fours_block : M unit :=
  boundaries_block 4 "most_fours" "most_fours_per_season" "fours".

(** The blocks for catches, stumpings and run-outs differ in the
    dismissal kind and in the names only. *)
Definition fielding_block (kind : str) (key what : string) : M unit :=
  try_except
    (dismissals <~ lift (where_ deliveries "dismissal_kind"
                           Delivery.dismissal_kind (cell_is kind)) ;;
     t <~ lift (top10_count dismissals "fielder" Delivery.fielder
                  "player_dismissed" Delivery.player_dismissed) ;;
     set_kpi key (Series t))
    is_KeyError
    (fun e => print (Missing_column e what) ;;;
              set_kpi key (Series [])).

(* Most catches *)
Definition most_catches_block : M unit :=
  fielding_block (u "caught") "most_catches" "catches".

(* Most stumps *)
Definition most_stumps_block : M unit :=
  fielding_block (u "stumped") "most_stumps" "stumps".

(* Most run-outs *)
Definition most_run_outs_block : M unit :=
  fielding_block (u "run out") "most_run_outs" "run-outs".

(* Most matches played *)
Definition most_matches_played_block : M unit :=
  try_except
    (sizes <~ lift (_ <- needs deliveries ["batter"; "match_id"]%string ;;
                    Ok (aggregate (@size_of (Delivery.row Z))
                          (groupby (fun d => Some (Delivery.batter d,
                                                   Delivery.match_id d))
                                   (rows deliveries)))) ;;
     let player_matches :=
       aggregate (count_of (fun r : str * Z * Z => Some (snd (fst r))))
                 (groupby (fun r : str * Z * Z => Some (fst (fst r))) sizes) in
     set_kpi "most_matches_played"
       (Series (head 10 (sort_desc snd player_matches))))
    is_KeyError
    (fun e => print (Missing_column e "matches played") ;;;
              set_kpi "most_matches_played" (Series [])).

(* Highest team totals with opponent *)
Definition team_totals : result (list TeamTotal.row) :=
  _ <- needs matches ["id"; "team1"; "team2"]%string ;;
  totals <- groupby_agg deliveries ["match_id"; "batting_team"]%string
              (fun d => match Delivery.batting_team d with
                        | Some b => Some (Delivery.match_id d, b)
                        | None => None
                        end)
              "total_runs" (sum_of Delivery.total_runs) ;;
  let merged : list merged_total :=
    merge_left (fun t : Z * str * Z => fst (fst t)) Match.id
               totals (rows matches) in
  Ok (map (fun row =>
             TeamTotal.Row (row_match_id row) (row_batting_team row)
                           (get_opponent row) (row_total_runs row))
          merged).

Definition highest_team_totals_block : M unit :=
  try_except
    (t <~ lift team_totals ;;
     set_kpi "highest_team_totals"
       (TeamTotals (head 10 (sort_desc TeamTotal.total_runs t))))
    is_KeyError
    (fun e => print (Missing_column e "team totals") ;;;
              set_kpi "highest_team_totals" EmptyFrame).

(* Most player of the match awards *)
Definition most_pom_awards_block : M unit :=
  try_except
    (awarded <~ lift (where_ matches "player_of_match" Match.player_of_match
                        (fun p => negb (cell_is (u "None") p))) ;;
     player_of_match <~
       lift (column awarded "player_of_match" Match.player_of_match) ;;
     set_kpi "most_pom_awards" (Series (head 10 (value_counts player_of_match))))
    is_KeyError
    (fun e => print (Missing_column e "player of the match awards") ;;;
              set_kpi "most_pom_awards" (Series [])).

(* Stadium matches *)
Definition stadium_matches_block : M unit :=
  try_except
    (venue <~ lift (column matches "venue" Match.venue) ;;
     set_kpi "stadium_matches" (Series (value_counts venue)))
    is_KeyError
    (fun e => print (Missing_column e "stadium matches") ;;;
              set_kpi "stadium_matches" (Series [])).

(* Cumulative runs *)
Definition cumulative_runs : result (grid Z) :=
  runs <- runs_per_season deliveries ;;
  let top_batters :=
    map fst (head 5 (sort_desc snd
      (aggregate (sum_of (fun r : Z * str * Z => snd r))
                 (groupby (fun r : Z * str * Z => Some (snd (fst r))) runs)))) in
  (* Pivot, sort seasons, fill NaNs with 0, then compute cumulative sum *)
  g <- pivot (filter (fun r => str_in (snd (fst r)) top_batters) runs) ;;
  Ok (cumsum (grid_fillna 0 (sort_index g))).

Definition cumulative_runs_block : M unit :=
  try_except
    (g <~ lift cumulative_runs ;;
     set_kpi "cumulative_runs" (Cumulative g))
    is_KeyError_or_ValueError
    (fun e => print (Error_calculating "cumulative runs" e) ;;;
              set_kpi "cumulative_runs" EmptyFrame).

(** The statements of the outer [try], in order. *)
Definition blocks : list (M unit) :=
  [ total_matches_block; team_matches_block; most_wins_block;
    most_losses_block; toss_wins_block; orange_cap_block;
    purple_cap_block; most_runs_total_block; most_wickets_total_block;
    most_sixes_block; most_fours_block; most_catches_block;
    most_stumps_block; most_run_outs_block; most_matches_played_block;
    highest_team_totals_block; most_pom_awards_block;
    stadium_matches_block; cumulative_runs_block ].
End Blocks.

Fixpoint run (bs : list (M unit)) : M unit :=
  match bs with
  | [] => ret tt
  | b :: rest => b ;;; run rest
  end.

(** [calculate_kpis]: the dict, or the exception that the outer handler
    raises from the one that escaped a block, and what was printed. *)
Definition calculate_kpis (matches : frame (Match.row Z))
  (deliveries : frame (Delivery.row Z)) : result dict * list line :=
  match run (blocks matches deliveries) initial_state with
  | (Ok _, s) => (Ok (kpis s), stdout s)
  | (Raise e, s) => (Raise (Exception_ e), stdout s)
  end.

(** *** save_precomputed_stats

    What the function meets outside the program: whether the directory can
    be made, and whether [to_json] succeeds for a key. *)
Record filesystem : Type := Filesystem {
  makedirs_ok : bool;
  to_json_ok : string -> bool
}.

(** [isinstance(data, (pd.DataFrame, pd.Series))] *)
Definition is_table (v : kpi) : bool :=
  match v with
  | Scalar _ => false
  | _ => true
  end.

(** [data.empty] *)
Definition empty (v : kpi) : bool :=
  match v with
  | Scalar _ => false
  | Series s => match s with [] => true | _ => false end
  | FloatSeries s => match s with [] => true | _ => false end
  | SeasonLeaders t => match t with [] => true | _ => false end
  | TeamTotals t => match t with [] => true | _ => false end
  | Cumulative g =>
      match index g, series g with
      | [], _ | _, [] => true
      | _, _ => false
      end
  | EmptyFrame => true
  end.

(** The files written, as (name, data serialized), and what was printed. *)
Fixpoint save_items (fs : filesystem) (items : dict)
  : list (string * kpi) * list line :=
  match items with
  | [] => ([], [])
  | (key, data) :: rest =>
      let '(files, printed) := save_items fs rest in
      if is_table data && negb (empty data) then
        if to_json_ok fs key
        then ((key ++ ".json", data)%string :: files, printed)
        else (files, Failed_to_save key :: printed)
      else (files, printed)
  end.

Definition save_precomputed_stats (fs : filesystem) (kpis : dict)
  : list (string * kpi) * list line :=
  if makedirs_ok fs then save_items fs kpis
  else ([], [Failed_to_create_directory]).

End DataProcessor.

Import DataProcessor.

Module LoaderExamples.

Definition match_columns : list string :=
  ["id"; "season"; "city"; "venue"; "team1"; "team2"; "toss_winner";
   "winner"; "result_margin"; "method"; "player_of_match"]%string.

Definition delivery_columns : list string :=
  ["match_id"; "batter"; "bowler"; "batsman_runs"; "total_runs";
   "dismissal_kind"; "player_dismissed"; "fielder"; "extras_type";
   "batting_team"; "bowling_team"]%string.

(** The scenario of the specification: one match of the 2020/21 season won
    by "deccan chargers". *)
Definition one_match : frame (Match.row cell) :=
  Frame match_columns
    [Match.Row 1 (CStr (u "2020/21")) None (Some (u "Wankhede"))
       (Some (u "Deccan Chargers")) (Some (u "Mumbai Indians"))
       None (Some (u "deccan chargers")) None None None None].

Definition ball (mid : Z) (bat bowl : string) (runs : Z)
  (kind who field : option str) : Delivery.row unit :=
  Delivery.Row mid tt (u bat) (u bowl) runs runs kind who field None
    (Some (u "Deccan Chargers")) None.

Definition three_balls : frame (Delivery.row unit) :=
  Frame delivery_columns
    [ball 1 "A" "B" 4 None None None;
     ball 7 "A" "B" 6 None None None;
     ball 1 "A" "B" 0 (Some (u "caught")) (Some (u "A")) (Some (u "C"))].

(** What [clean_data] makes of the two example tables. *)
Definition cleaned : frame (Match.row Z) * frame (Delivery.row Z) :=
  Eval vm_compute in
    match fst (clean_data one_match three_balls) with
    | Ok tables => tables
    | Raise _ => (Frame [] [], Frame [] [])
    end.

End LoaderExamples.

(** A small league: four matches over two seasons, and a few balls of
    each. The 2009 matches have no boundary and no wicket that is credited
    to a bowler. *)
Module League.
Import LoaderExamples.

Definition fixture (id : Z) (season : cell) (team1 team2 : string)
  (winner : option str) (venue award : string) : Match.row cell :=
  Match.Row id season (Some (u "Kolkata")) (Some (u venue))
    (Some (u team1)) (Some (u team2)) (Some (u team1)) winner
    (Some 5) None (Some (u award)) None.

Definition raw_matches : frame (Match.row cell) :=
  Frame match_columns
    [ fixture 1 (CStr (u "2007/08")) "Kolkata Knight Riders"
        "Royal Challengers Bangalore" (Some (u "Kolkata Knight Riders"))
        "Eden Gardens" "BB McCullum";
      fixture 2 (CInt 2009) "Deccan Chargers" "Mumbai Indians" None
        "Newlands" "None";
      fixture 3 (CInt 2009) "Mumbai Indians" "Kolkata Knight Riders"
        (Some (u "Mumbai Indians")) "Newlands" "SR Tendulkar";
      fixture 4 (CInt 2009) "Royal Challengers Bangalore" "Mumbai Indians"
        (Some (u "Mumbai Indians")) "Kingsmead" "SR Tendulkar" ].

Definition bowled (mid : Z) (team bat bowl : string) (runs : Z)
  (kind who field : option str) : Delivery.row unit :=
  Delivery.Row mid tt (u bat) (u bowl) runs runs kind who field None
    (Some (u team)) None.

Definition raw_deliveries : frame (Delivery.row unit) :=
  Frame delivery_columns
    [ bowled 1 "Kolkata Knight Riders" "BB McCullum" "Z Khan" 4 None None None;
      bowled 1 "Kolkata Knight Riders" "BB McCullum" "Z Khan" 6 None None None;
      bowled 1 "Kolkata Knight Riders" "BB McCullum" "P Kumar" 6 None None None;
      bowled 1 "Kolkata Knight Riders" "SC Ganguly" "Z Khan" 0
        (Some (u "caught")) (Some (u "SC Ganguly")) (Some (u "JH Kallis"));
      bowled 1 "Royal Challengers Bangalore" "R Dravid" "I Sharma" 2
        None None None;
      bowled 2 "Deccan Chargers" "AC Gilchrist" "Z Khan" 1 None None None;
      bowled 3 "Mumbai Indians" "SR Tendulkar" "I Sharma" 3 None None None;
      bowled 3 "Kolkata Knight Riders" "BB McCullum" "SL Malinga" 1
        (Some (u "run out")) (Some (u "BB McCullum")) (Some (u "SR Tendulkar"));
      bowled 4 "Mumbai Indians" "SR Tendulkar" "P Kumar" 2 None None None ].

Definition tables : frame (Match.row Z) * frame (Delivery.row Z) :=
  Eval vm_compute in
    match fst (clean_data raw_matches raw_deliveries) with
    | Ok t => t
    | Raise _ => (Frame [] [], Frame [] [])
    end.

Definition matches : frame (Match.row Z) := fst tables.
Definition deliveries : frame (Delivery.row Z) := snd tables.

(** What [calculate_kpis] returns for the league. *)
Definition kpis : dict :=
  Eval vm_compute in
    match fst (calculate_kpis matches deliveries) with
    | Ok d => d
    | Raise _ => []
    end.

(** The same tables without one column. *)
Definition without {R} (label : string) (f : frame R) : frame R :=
  Frame (filter (fun c => negb (String.eqb c label)) (columns f)) (rows f).

(** A file system on which nothing fails. *)
Definition sound_disk : filesystem := Filesystem true (fun _ => true).

End League.

(* ================================================================== *)
(** ** What the theorems speak of *)
(* ================================================================== *)

Module SeasonSpec.

(** A string of ASCII decimal digits and the number it writes. *)
Definition all_digits (s : str) : Prop := Forall (fun c => is_digit c = true) s.

Definition number_of (s : str) : Z :=
  fold_left (fun acc c => 10 * acc + digit_value c) s 0.

(** A four-digit year: four decimal digits, the first one not zero. *)
Definition year4 (s : str) : Prop :=
  List.length s = 4%nat /\ all_digits s /\ hd (ch "0") s <> ch "0".

Definition is_sep (c : char) : Prop := c = ch "/" \/ c = ch "-".

(** The valid season labels and the year each one stands for, in the words
    of the specification: a plain four-digit year (as an integer cell or as
    text); the dual-label season, fixed to 2020; a range, which collapses to
    its trailing year; a range with a two-digit trailing year, which is
    expanded by prefixing "20". *)
Inductive season_label : cell -> Z -> Prop :=
| label_int z :
    1000 <= z <= 9999 -> season_label (CInt z) z
| label_year y :
    year4 y -> season_label (CStr y) (number_of y)
| label_dual sep :
    is_sep sep -> season_label (CStr (u "2020" ++ sep :: u "21")) 2020
| label_range_long a sep b :
    List.length a = 4%nat -> all_digits a -> is_sep sep -> year4 b ->
    season_label (CStr (a ++ sep :: b)) (number_of b)
| label_range_short a sep b :
    List.length a = 4%nat -> all_digits a -> is_sep sep ->
    List.length b = 2%nat -> all_digits b ->
    (a, b) <> (u "2020", u "21") ->
    season_label (CStr (a ++ sep :: b)) (number_of (u "20" ++ b)).

(** Integer cells: [str] then [int] gives the year back. Checked over the
    whole range of four-digit years. *)
Definition int_cell_ok (z : Z) : bool :=
  match clean_season (CInt z) with
  | Ok y => y =? z
  | Raise _ => false
  end.

End SeasonSpec.

Module TeamNameSpec.

Definition ascii_only (s : str) : Prop := Forall (fun c => is_ascii c = true) s.

Definition no_lead (s : str) : Prop :=
  match s with
  | [] => True
  | c :: _ => isspace c = false
  end.

Definition no_trail (s : str) : Prop := no_lead (rev s).

(** The normal form of a name: stripped, then lower-cased. *)
Definition normal (s : str) : str := lower (strip s).

(** What the second half of the loop body makes of a canonical name. *)
Definition finish (canonical : str) : option str :=
  str_title (map_team (normalize_team_name (Some canonical))).

Definition option_str_eqb (a b : option str) : bool :=
  match a, b with
  | Some x, Some y => str_eqb x y
  | None, None => true
  | _, _ => false
  end.

End TeamNameSpec.

Module LoaderSpec.

(** The deliveries that the merge, the dropna and the cast leave: every
    delivery once for each match row with its match id, with that row's
    season. *)
Definition joined (ds : list (Delivery.row unit)) (ms : list (Match.row Z))
  : list (Delivery.row Z) :=
  flat_map (fun d =>
    map (fun m => Delivery.with_season d (Match.season m))
        (filter (fun m => Match.id m =? Delivery.match_id d) ms)) ds.

(** A delivery has a match when some match row carries its match id. *)
Definition has_match {S T} (ms : list (Match.row S)) (d : Delivery.row T) : bool :=
  existsb (fun m => Match.id m =? Delivery.match_id d) ms.

(** The deliveries that have no match row. *)
Definition unmatched_deliveries (matches : frame (Match.row cell))
  (deliveries : frame (Delivery.row unit)) : list (Delivery.row unit) :=
  filter (fun d => negb (has_match (rows matches) d)) (rows deliveries).

End LoaderSpec.

Module StmtSpec.

(** A computation that raises nothing but [KeyError]. *)
Definition only_KeyError {A} (r : result A) : Prop :=
  forall e, r = Raise e -> is_KeyError e = true.

(** A statement that never raises. *)
Definition never_raises (m : M unit) : Prop :=
  forall s, exists s', m s = (Ok tt, s').

(** A statement that leaves the local [wickets] as it is. *)
Definition keeps_wickets (m : M unit) : Prop :=
  forall s, wickets (snd (m s)) = wickets s.

(** A statement keeps the entry of key [k] when, whatever it does, the dict
    gives the same for [k] before and after. *)
Definition keeps {A} (k : string) (m : M A) : Prop :=
  forall s, dict_get k (kpis (snd (m s))) = dict_get k (kpis s).

End StmtSpec.

Module GroupSpec.

(** The laws of a key order. *)
Class OrdLaws (K : Type) `{Ord K} : Prop := {
  compare_eq : forall a b : K, compare a b = Eq <-> a = b;
  compare_antisym : forall a b : K, compare b a = CompOpp (compare a b);
  compare_trans : forall a b c : K,
    compare a b = Lt -> compare b c = Lt -> compare a c = Lt
}.

(** Strictly ascending keys. *)
Definition key_lt {K} `{Ord K} (a b : K) : Prop := compare a b = Lt.

(** The group key of a labelled row. *)
Definition index_key {A K} (key : A -> K) (r : nat * A) : option K :=
  Some (key (snd r)).

(** One row per group: the first row of the group that attains the
    maximum. *)
Definition leader {A} (val : A -> Z) (g : list (nat * A)) : list A :=
  match g with
  | [] => []
  | x :: t => [snd (first_max (fun p => val (snd p)) x t)]
  end.

End GroupSpec.

Module LeaderSpec.

(** The table has these columns. *)
Definition has_columns {R} (f : frame R) (labels : list string) : Prop :=
  Forall (fun c => has_column f c = true) labels.

(** The deliveries of player [p] in season [s]. *)
Definition of_player (who : Delivery.row Z -> str) (s : Z) (p : str)
  (d : Delivery.row Z) : bool :=
  (Delivery.season d =? s) && str_eqb (who d) p.

Definition row_season (r : Z * str * Z) : Z := fst (fst r).

(** A table of season leaders over the deliveries that enter it: at most
    one row for a season; a row for exactly the seasons of the entering
    deliveries; and each row names a player of that season, with the
    player's metric, which no player of the season exceeds. *)
Record leader_table (entering : list (Delivery.row Z))
  (who : Delivery.row Z -> str) (metric : list (Delivery.row Z) -> Z)
  (t : list (Z * str * Z)) : Prop := {
  one_row_per_season : NoDup (map row_season t);
  seasons_covered : forall s,
    In s (map row_season t)
    <-> exists d, In d entering /\ Delivery.season d = s;
  leader_holds_max : forall s p v,
    In (s, p, v) t ->
    (exists d, In d entering /\ Delivery.season d = s /\ who d = p)
    /\ v = metric (filter (of_player who s p) entering)
    /\ forall d', In d' entering -> Delivery.season d' = s ->
         metric (filter (of_player who s (who d')) entering) <= v
}.

(** The deliveries that enter each table. *)
Definition credits_bowler (d : Delivery.row Z) : bool :=
  isin bowler_wickets (Delivery.dismissal_kind d).

Definition scores (runs : Z) (d : Delivery.row Z) : bool :=
  Delivery.batsman_runs d =? runs.

End LeaderSpec.

Module SaveSpec.

(** The entries that are written: tables and Series that are not empty. *)
Definition saved (entry : string * kpi) : bool :=
  is_table (snd entry) && negb (empty (snd entry)).

(** The artifact of an entry: a file named by the key, holding the
    entry's data. *)
Definition artifact (entry : string * kpi) : string * kpi :=
  ((fst entry ++ ".json")%string, snd entry).

End SaveSpec.

Module SeriesSpec.

(** Two elements are in order when the first may precede the second. *)
Definition ordered {A} (le : A -> A -> bool) (a b : A) : Prop :=
  le a b = true.

(** [counts l]: the Series before sorting. *)
Definition counts (present : list str) : list (str * Z) :=
  map (fun x => (x, occurrences x present)) (uniques present).

(** The value of a label in [(a - b).fillna(a)]: the difference where both
    have the label, the value of [a] where only [a] has it, NaN where [a]
    has not. *)
Definition difference (a b : list (str * Z)) (t : str) : option Z :=
  match lookup t a, lookup t b with
  | Some x, Some y => Some (x - y)
  | Some x, None => Some x
  | None, _ => None
  end.

End SeriesSpec.

Module TeamSpec.

(** The team is listed as team1 or as team2 of some match. *)
Definition appears (ms : list (Match.row Z)) (t : str) : Prop :=
  In (Some t) (map Match.team1 ms ++ map Match.team2 ms).

(** Matches played: the times the team is listed as team1, plus the times
    it is listed as team2; a match without a result counts. *)
Definition played (ms : list (Match.row Z)) (t : str) : Z :=
  occurrences t (dropna (map Match.team1 ms))
  + occurrences t (dropna (map Match.team2 ms)).

Definition decided (w : option str) : bool := negb (cell_is (u "No Result") w).

(** Matches won: the rows whose winner is the team; "No Result" is no
    winner. *)
Definition won (ms : list (Match.row Z)) (t : str) : Z :=
  occurrences t (dropna (filter decided (map Match.winner ms))).

Definition lost (ms : list (Match.row Z)) (t : str) : Z :=
  played ms t - won ms t.

(** The rows that list the team, as team1 or as team2. *)
Definition lists (t : str) (m : Match.row Z) : bool :=
  cell_is t (Match.team1 m) || cell_is t (Match.team2 m).

(** The three Series of the blocks, from the rows of the matches. *)
Definition team_matches_series (ms : list (Match.row Z)) : list (str * Z) :=
  value_counts (map Match.team1 ms ++ map Match.team2 ms).

Definition team_wins_series (ms : list (Match.row Z)) : list (str * Z) :=
  value_counts (filter decided (map Match.winner ms)).

Definition most_losses_series (ms : list (Match.row Z))
  : list (str * option Z) :=
  head 1 (sort_desc_nan snd
    (series_fillna (series_sub (team_matches_series ms) (team_wins_series ms))
                   (team_matches_series ms))).

End TeamSpec.

Module TotalsSpec.

(** The deliveries of a batting team in a match. *)
Definition of_innings (mid : Z) (team : str) (d : Delivery.row Z) : bool :=
  (Delivery.match_id d =? mid) && cell_is team (Delivery.batting_team d).

(** The opponent by elimination from the two teams of the match. *)
Definition opponent_of (m : Match.row Z) (team : str) : option str :=
  if cell_is team (Match.team1 m) then Match.team2 m else Match.team1 m.

(** A row of the team totals before sorting: the sum of total_runs over
    the deliveries of a (match, batting team) pair that has deliveries,
    with the opponent taken from a match row with that id, or missing when
    no match row has it. *)
Definition innings_row (ms : list (Match.row Z)) (ds : list (Delivery.row Z))
  (r : TeamTotal.row) : Prop :=
  (exists d, In d ds
             /\ Delivery.match_id d = TeamTotal.match_id r
             /\ Delivery.batting_team d = Some (TeamTotal.batting_team r))
  /\ TeamTotal.total_runs r
     = sum_of Delivery.total_runs
         (filter (of_innings (TeamTotal.match_id r) (TeamTotal.batting_team r)) ds)
  /\ ((exists m, In m ms /\ Match.id m = TeamTotal.match_id r
                 /\ TeamTotal.opponent r = opponent_of m (TeamTotal.batting_team r))
      \/ ((forall m, In m ms -> Match.id m <> TeamTotal.match_id r)
          /\ TeamTotal.opponent r = None)).

Definition descending (l : list TeamTotal.row) : Prop :=
  StronglySorted (fun a b => TeamTotal.total_runs b <= TeamTotal.total_runs a) l.

Definition innings_key (d : Delivery.row Z) : option (Z * str) :=
  match Delivery.batting_team d with
  | Some b => Some (Delivery.match_id d, b)
  | None => None
  end.

Definition make_row (row : merged_total) : TeamTotal.row :=
  TeamTotal.Row (row_match_id row) (row_batting_team row)
                (get_opponent row) (row_total_runs row).

(** The rows of [team_totals] before the sort. *)
Definition all_totals (matches : frame (Match.row Z))
  (deliveries : frame (Delivery.row Z)) : list TeamTotal.row :=
  map make_row
    (merge_left (fun t : Z * str * Z => fst (fst t)) Match.id
       (aggregate (sum_of Delivery.total_runs)
          (groupby innings_key (rows deliveries)))
       (rows matches)).

End TotalsSpec.

Module CumulativeSpec.
Import LeaderSpec.

(** The runs of a batter in a season. *)
Definition season_runs (ds : list (Delivery.row Z)) (batter : str) (s : Z) : Z :=
  sum_of Delivery.batsman_runs (filter (of_player Delivery.batter s batter) ds).

(** The runs per (season, batter), the five batters with the most runs,
    the rows of these batters, and the grid made of them. *)
Definition season_table (ds : list (Delivery.row Z)) : list (Z * str * Z) :=
  aggregate (sum_of Delivery.batsman_runs)
    (groupby (fun d => Some (Delivery.season d, Delivery.batter d)) ds).

Definition top_batters (ds : list (Delivery.row Z)) : list str :=
  map fst (head 5 (sort_desc snd
    (aggregate (sum_of (fun r : Z * str * Z => snd r))
       (groupby (fun r : Z * str * Z => Some (snd (fst r)))
                (season_table ds))))).

Definition top_rows (ds : list (Delivery.row Z)) : list (Z * str * Z) :=
  filter (fun r => str_in (snd (fst r)) (top_batters ds)) (season_table ds).

Definition seasons (ds : list (Delivery.row Z)) : list Z :=
  unique_sorted (map (fun r => fst (fst r)) (top_rows ds)).

Definition batters (ds : list (Delivery.row Z)) : list str :=
  unique_sorted (map (fun r => snd (fst r)) (top_rows ds)).

Definition pivoted (ds : list (Delivery.row Z)) : grid (option Z) :=
  Grid (seasons ds)
       (map (fun c => (c, map (fun i => cell_at i c (top_rows ds)) (seasons ds)))
            (batters ds)).

Definition cumulative_grid (ds : list (Delivery.row Z)) : grid Z :=
  cumsum (grid_fillna 0 (pivoted ds)).

End CumulativeSpec.

(* ================================================================== *)
(** ** Further notions: cleaning, outcomes, rankings, fallbacks *)
(* ================================================================== *)

Module CleaningSpec.

(** [c.fillna(v)] read back: the cell, or [v] where it was missing. *)
Definition or_default {A} (v : A) (c : option A) : A :=
  match c with
  | Some a => a
  | None => v
  end.

(** The columns that [clean_data] reads from each table by name. *)
Definition required_match_columns : list string :=
  ["season"; "city"; "winner"; "result_margin"; "player_of_match"; "method";
   "team1"; "toss_winner"; "id"]%string.

Definition required_delivery_columns : list string :=
  ["dismissal_kind"; "player_dismissed"; "fielder"; "extras_type";
   "batting_team"; "bowling_team"; "match_id"]%string.

(** A cleaned match row [m'] beside the row [m] it comes from: the columns
    that are filled, and those that are left alone. *)
Definition match_defaults (m : Match.row cell) (m' : Match.row Z) : Prop :=
  Match.id m' = Match.id m
  /\ clean_season (Match.season m) = Ok (Match.season m')
  /\ Match.venue m' = Match.venue m
  /\ Match.city m' = Some (or_default (u "Unknown") (Match.city m))
  /\ Match.result_margin m' = Some (or_default 0 (Match.result_margin m))
  /\ Match.method m' = Some (or_default (u "Normal") (Match.method m))
  /\ Match.player_of_match m'
     = Some (or_default (u "None") (Match.player_of_match m)).

(** The team columns of a cleaned match row: each is standardized, the
    home team is the first team, and a missing winner or toss winner reads
    "No Result" or "None". *)
Definition team_columns (has_team2 : bool) (m : Match.row cell)
  (m' : Match.row Z) : Prop :=
  Match.team1 m' = standardize_team (Match.team1 m)
  /\ (has_team2 = true -> Match.team2 m' = standardize_team (Match.team2 m))
  /\ Match.home_team m' = Match.team1 m'
  /\ Match.winner m'
     = match Match.winner m with
       | Some w => standardize_team (Some w)
       | None => Some (u "No Result")
       end
  /\ Match.toss_winner m'
     = match Match.toss_winner m with
       | Some w => standardize_team (Some w)
       | None => Some (u "None")
       end.

(** A season cell that [clean_season] rejects. *)
Definition bad_season (m : Match.row cell) : Prop :=
  exists e, clean_season (Match.season m) = Raise e.

(** A key of the alias table that ends in whitespace. *)
Definition ends_in_space (k : str) : bool :=
  match rev k with
  | c :: _ => isspace c
  | [] => false
  end.

(** A delivery as it was before the season was attached. *)
Definition without_season {S} (d : Delivery.row S) : Delivery.row unit :=
  Delivery.with_season d tt.

End CleaningSpec.

Module AliasSpec.
Import CleaningSpec.

(** The alias table without the entries whose key ends in whitespace. *)
Definition trimmed_mapping : list (str * str) :=
  filter (fun kc => negb (ends_in_space (fst kc))) team_mapping.

(** The name one pass makes of a normal form: its canonical name when the
    table has it, its title case otherwise. *)
Definition canonical (normal_form : str) : str :=
  match lookup normal_form team_mapping with
  | Some c => c
  | None => title normal_form
  end.

End AliasSpec.

Module OutcomeSpec.

(** The keys of the dict, in the order in which [calculate_kpis] first
    assigns them. *)
Definition kpi_keys : list string :=
  ["total_matches"; "team_matches"; "most_wins"; "most_losses"; "toss_wins";
   "most_toss_wins"; "orange_cap"; "purple_cap"; "most_runs_total";
   "most_wickets_total"; "most_sixes"; "most_sixes_per_season"; "most_fours";
   "most_fours_per_season"; "most_catches"; "most_stumps"; "most_run_outs";
   "most_matches_played"; "highest_team_totals"; "most_pom_awards";
   "stadium_matches"; "cumulative_runs"]%string.

(** The keys that each block assigns, block by block. *)
Definition block_keys : list (list string) :=
  [ ["total_matches"]; ["team_matches"]; ["most_wins"]; ["most_losses"];
    ["toss_wins"; "most_toss_wins"]; ["orange_cap"]; ["purple_cap"];
    ["most_runs_total"]; ["most_wickets_total"];
    ["most_sixes"; "most_sixes_per_season"];
    ["most_fours"; "most_fours_per_season"]; ["most_catches"];
    ["most_stumps"]; ["most_run_outs"]; ["most_matches_played"];
    ["highest_team_totals"]; ["most_pom_awards"]; ["stadium_matches"];
    ["cumulative_runs"] ]%string.

Definition keys (d : dict) : list string := map fst d.

(** Assigning [ks] to a dict with the keys [l]: a new key goes last. *)
Definition assign_keys (ks l : list string) : list string :=
  fold_left (fun l k => add_column k l) ks l.

(** A statement that, when it completes, has assigned the keys [ks]. *)
Definition assigns (ks : list string) (b : M unit) : Prop :=
  forall s s', b s = (Ok tt, s') -> keys (kpis s') = assign_keys ks (keys (kpis s)).

(** A statement that leaves the local [team_wins] as it is. *)
Definition keeps_team_wins (m : M unit) : Prop :=
  forall s, team_wins (snd (m s)) = team_wins s.

(** The deliveries that the purple cap block binds to [wickets]. *)
Definition wicket_deliveries (deliveries : frame (Delivery.row Z))
  : frame (Delivery.row Z) :=
  with_rows deliveries
    (filter (fun d => isin bowler_wickets (Delivery.dismissal_kind d))
            (rows deliveries)).

(** The block of the overall wickets fails on these deliveries. *)
Definition wickets_leak (deliveries : frame (Delivery.row Z)) : bool :=
  has_column deliveries "dismissal_kind"
  && negb (has_column deliveries "bowler"
           && has_column deliveries "player_dismissed").

(** A computation, or a statement, that raises nothing but the exceptions
    of [P]. *)
Definition only {A} (P : exn -> bool) (r : result A) : Prop :=
  forall e, r = Raise e -> P e = true.

Definition raises_only {A} (P : exn -> bool) (m : M A) : Prop :=
  forall s e s', m s = (Raise e, s') -> P e = true.

End OutcomeSpec.

Module KpiSpec.
Import LeaderSpec TeamSpec TotalsSpec CumulativeSpec OutcomeSpec.

(** The columns that [calculate_kpis] reads by name. *)
Definition match_columns_read : list string :=
  ["team1"; "team2"; "winner"; "toss_winner"; "id"; "player_of_match";
   "venue"]%string.

Definition delivery_columns_read : list string :=
  ["season"; "batter"; "batsman_runs"; "dismissal_kind"; "bowler";
   "player_dismissed"; "fielder"; "match_id"; "batting_team";
   "total_runs"]%string.

(** [.sort_values(ascending=False).head(10)] *)
Definition top10 {K} (t : list (K * Z)) : list (K * Z) :=
  head 10 (sort_desc snd t).

(** The tables that the blocks aggregate, from the rows. *)
Definition toss_wins_series (ms : list (Match.row Z)) : list (str * Z) :=
  value_counts (map Match.toss_winner ms).

Definition batter_runs (ds : list (Delivery.row Z)) : list (str * Z) :=
  aggregate (sum_of Delivery.batsman_runs)
    (groupby (fun d => Some (Delivery.batter d)) ds).

Definition bowler_dismissals (ds : list (Delivery.row Z)) : list (str * Z) :=
  aggregate (count_of Delivery.player_dismissed)
    (groupby (fun d => Some (Delivery.bowler d)) (filter credits_bowler ds)).

Definition season_dismissals (ds : list (Delivery.row Z))
  : list (Z * str * Z) :=
  aggregate (count_of Delivery.player_dismissed)
    (groupby (fun d => Some (Delivery.season d, Delivery.bowler d))
             (filter credits_bowler ds)).

Definition boundary_counts (runs : Z) (ds : list (Delivery.row Z))
  : list (str * Z) :=
  aggregate (count_of (fun d => Some (Delivery.batsman_runs d)))
    (groupby (fun d => Some (Delivery.batter d)) (filter (scores runs) ds)).

Definition season_boundaries (runs : Z) (ds : list (Delivery.row Z))
  : list (Z * str * Z) :=
  aggregate (count_of (fun d => Some (Delivery.batsman_runs d)))
    (groupby (fun d => Some (Delivery.season d, Delivery.batter d))
             (filter (scores runs) ds)).

Definition dismissed_as (kind : str) (d : Delivery.row Z) : bool :=
  cell_is kind (Delivery.dismissal_kind d).

Definition fielder_counts (kind : str) (ds : list (Delivery.row Z))
  : list (str * Z) :=
  aggregate (count_of Delivery.player_dismissed)
    (groupby Delivery.fielder (filter (dismissed_as kind) ds)).

Definition innings_sizes (ds : list (Delivery.row Z)) : list (str * Z * Z) :=
  aggregate (@size_of (Delivery.row Z))
    (groupby (fun d => Some (Delivery.batter d, Delivery.match_id d)) ds).

Definition matches_batted (ds : list (Delivery.row Z)) : list (str * Z) :=
  aggregate (count_of (fun r : str * Z * Z => Some (snd (fst r))))
    (groupby (fun r : str * Z * Z => Some (fst (fst r))) (innings_sizes ds)).

Definition awarded (p : option str) : bool := negb (cell_is (u "None") p).

Definition award_counts (ms : list (Match.row Z)) : list (str * Z) :=
  value_counts (filter awarded (map Match.player_of_match ms)).

Definition venue_counts (ms : list (Match.row Z)) : list (str * Z) :=
  value_counts (map Match.venue ms).

(** The state after [kpis[k] = v]. *)
Definition put (k : string) (v : kpi) (s : state) : state :=
  State (dict_set k v (kpis s)) (team_wins s) (wickets s) (stdout s).

(** The dict that [calculate_kpis] builds when no block fails, entry by
    entry, from the two tables. *)
Definition computed (matches : frame (Match.row Z))
  (deliveries : frame (Delivery.row Z)) : dict :=
  let ms := rows matches in
  let ds := rows deliveries in
  [ ("total_matches", Scalar (Z.of_nat (List.length ms)));
    ("team_matches", Series (team_matches_series ms));
    ("most_wins", Series (team_wins_series ms));
    ("most_losses", FloatSeries (most_losses_series ms));
    ("toss_wins", Series (toss_wins_series ms));
    ("most_toss_wins", Series (head 1 (toss_wins_series ms)));
    ("orange_cap", SeasonLeaders (season_leaders (season_table ds)));
    ("purple_cap", SeasonLeaders (season_leaders (season_dismissals ds)));
    ("most_runs_total", Series (top10 (batter_runs ds)));
    ("most_wickets_total", Series (top10 (bowler_dismissals ds)));
    ("most_sixes", Series (top10 (boundary_counts 6 ds)));
    ("most_sixes_per_season",
     SeasonLeaders (season_leaders (season_boundaries 6 ds)));
    ("most_fours", Series (top10 (boundary_counts 4 ds)));
    ("most_fours_per_season",
     SeasonLeaders (season_leaders (season_boundaries 4 ds)));
    ("most_catches", Series (top10 (fielder_counts (u "caught") ds)));
    ("most_stumps", Series (top10 (fielder_counts (u "stumped") ds)));
    ("most_run_outs", Series (top10 (fielder_counts (u "run out") ds)));
    ("most_matches_played", Series (top10 (matches_batted ds)));
    ("highest_team_totals",
     TeamTotals (head 10 (sort_desc TeamTotal.total_runs
                            (all_totals matches deliveries))));
    ("most_pom_awards", Series (head 10 (award_counts ms)));
    ("stadium_matches", Series (venue_counts ms));
    ("cumulative_runs", Cumulative (cumulative_grid ds)) ]%string.

End KpiSpec.

Module RankingSpec.
Import LeaderSpec KpiSpec.

(** A Series in descending order of its values. *)
Definition by_value_desc {K} (l : list (K * Z)) : Prop :=
  StronglySorted (fun a b => snd b <= snd a) l.

(** [top] is the head of a ranking: together with the entries [rest] that
    were cut off it holds exactly the rows [is_row], one per label, in
    descending order of value, and it holds [n] of them, or all when there
    are fewer. No entry that was cut off exceeds one that was kept. *)
Definition top_of {K} (n : nat) (is_row : K -> Z -> Prop)
  (top : list (K * Z)) : Prop :=
  exists rest,
    (forall k v, In (k, v) (top ++ rest) <-> is_row k v)
    /\ NoDup (map fst (top ++ rest))
    /\ by_value_desc (top ++ rest)
    /\ List.length top = Nat.min n (List.length (top ++ rest))
    /\ (forall x y, In x top -> In y rest -> snd y <= snd x).

(** [s] counts the cells: one entry per distinct value that is not
    missing, with its number of occurrences, in descending order. *)
Definition counts_of (cells : list (option str)) (s : list (str * Z)) : Prop :=
  NoDup (map fst s)
  /\ by_value_desc s
  /\ forall t v, In (t, v) s
                 <-> In (Some t) cells /\ v = occurrences t (dropna cells).

(** The sum of the values of a Series. *)
Definition total (s : list (str * Z)) : Z := fold_right Z.add 0 (map snd s).

(** The deliveries of a batter, of a bowler, of a fielder. *)
Definition by_batter (p : str) (d : Delivery.row Z) : bool :=
  str_eqb (Delivery.batter d) p.

Definition by_bowler (p : str) (d : Delivery.row Z) : bool :=
  str_eqb (Delivery.bowler d) p.

Definition by_fielder (p : str) (d : Delivery.row Z) : bool :=
  cell_is p (Delivery.fielder d).

(** The number of cells of a column that are not missing. *)
Definition present {R A} (cell : R -> option A) (l : list R) : Z :=
  count_of cell l.

(** The matches in which a player faced a delivery. *)
Definition matches_of (p : str) (ds : list (Delivery.row Z)) : list Z :=
  unique_sorted (map Delivery.match_id (filter (by_batter p) ds)).

(** The rows of the rankings, player by player. *)
Definition runs_row (ds : list (Delivery.row Z)) (p : str) (v : Z) : Prop :=
  (exists d, In d ds /\ Delivery.batter d = p)
  /\ v = sum_of Delivery.batsman_runs (filter (by_batter p) ds).

Definition boundary_row (runs : Z) (ds : list (Delivery.row Z))
  (p : str) (v : Z) : Prop :=
  (exists d, In d ds /\ scores runs d = true /\ Delivery.batter d = p)
  /\ v = Z.of_nat (List.length
                     (filter (fun d => scores runs d && by_batter p d) ds)).

Definition wickets_row (ds : list (Delivery.row Z)) (p : str) (v : Z) : Prop :=
  (exists d, In d ds /\ credits_bowler d = true /\ Delivery.bowler d = p)
  /\ v = present Delivery.player_dismissed
           (filter (fun d => credits_bowler d && by_bowler p d) ds).

Definition fielding_row (kind : str) (ds : list (Delivery.row Z))
  (p : str) (v : Z) : Prop :=
  (exists d, In d ds /\ dismissed_as kind d = true
             /\ Delivery.fielder d = Some p)
  /\ v = present Delivery.player_dismissed
           (filter (fun d => dismissed_as kind d && by_fielder p d) ds).

Definition batted_row (ds : list (Delivery.row Z)) (p : str) (v : Z) : Prop :=
  (exists d, In d ds /\ Delivery.batter d = p)
  /\ v = Z.of_nat (List.length (matches_of p ds)).

Definition count_row (cells : list (option str)) (t : str) (v : Z) : Prop :=
  In (Some t) cells /\ v = occurrences t (dropna cells).

Definition award_row (cells : list (option str)) (p : str) (v : Z) : Prop :=
  p <> u "None" /\ count_row cells p v.

End RankingSpec.

(** The league with a column missing from the deliveries. *)
Module LeagueCases.

Definition no_season : frame (Delivery.row Z) :=
  League.without "season" League.deliveries.

Definition kpis_no_season : dict :=
  Eval vm_compute in
    match fst (calculate_kpis League.matches no_season) with
    | Ok d => d
    | Raise _ => []
    end.

Definition printed_no_season : list line :=
  Eval vm_compute in snd (calculate_kpis League.matches no_season).

Definition no_winner : frame (Match.row Z) :=
  League.without "winner" League.matches.

Definition kpis_no_winner : dict :=
  Eval vm_compute in
    match fst (calculate_kpis no_winner League.deliveries) with
    | Ok d => d
    | Raise _ => []
    end.

Definition printed_no_winner : list line :=
  Eval vm_compute in snd (calculate_kpis no_winner League.deliveries).

End LeagueCases.

Module DefaultSpec.

(** A statement that only adds to the output. *)
Definition extends_stdout (m : M unit) : Prop :=
  forall s, exists l, stdout (snd (m s)) = stdout s ++ l.

(** For each key with a default: the columns of the matches and of the
    deliveries whose absence makes the block fall back, and the default
    it stores. *)
Definition defaults : list (string * (list string * list string) * kpi) :=
  [ ("team_matches", (["team1"; "team2"], []), Series []);
    ("most_wins", (["winner"], []), Series []);
    ("most_losses", (["winner"], []), Series []);
    ("toss_wins", (["toss_winner"], []), Series []);
    ("most_toss_wins", (["toss_winner"], []), Series []);
    ("orange_cap", ([], ["season"; "batter"; "batsman_runs"]), EmptyFrame);
    ("purple_cap",
     ([], ["dismissal_kind"; "season"; "bowler"; "player_dismissed"]),
     EmptyFrame);
    ("most_runs_total", ([], ["batter"; "batsman_runs"]), Series []);
    ("most_wickets_total", ([], ["dismissal_kind"]), Series []);
    ("most_sixes", ([], ["batsman_runs"; "batter"; "season"]), Series []);
    ("most_sixes_per_season", ([], ["batsman_runs"; "batter"; "season"]),
     EmptyFrame);
    ("most_fours", ([], ["batsman_runs"; "batter"; "season"]), Series []);
    ("most_fours_per_season", ([], ["batsman_runs"; "batter"; "season"]),
     EmptyFrame);
    ("most_catches", ([], ["dismissal_kind"; "fielder"; "player_dismissed"]),
     Series []);
    ("most_stumps", ([], ["dismissal_kind"; "fielder"; "player_dismissed"]),
     Series []);
    ("most_run_outs", ([], ["dismissal_kind"; "fielder"; "player_dismissed"]),
     Series []);
    ("most_matches_played", ([], ["batter"; "match_id"]), Series []);
    ("highest_team_totals",
     (["id"; "team1"; "team2"], ["match_id"; "batting_team"; "total_runs"]),
     EmptyFrame);
    ("most_pom_awards", (["player_of_match"], []), Series []);
    ("stadium_matches", (["venue"], []), Series []);
    ("cumulative_runs", ([], ["season"; "batter"; "batsman_runs"]),
     EmptyFrame) ]%string.

(** A column of the entry is absent from its table. *)
Definition lacks (matches : frame (Match.row Z))
  (deliveries : frame (Delivery.row Z)) (cols : list string * list string)
  : Prop :=
  exists c, (In c (fst cols) /\ has_column matches c = false)
            \/ (In c (snd cols) /\ has_column deliveries c = false).

End DefaultSpec.

(* ================================================================== *)
(** ** streamlit_app.py: the caller of the two modules *)
(* ================================================================== *)

Module App.

(** [get_kpis]: the KPIs are computed, saved and returned; an exception of
    [calculate_kpis] is not caught. The value is what the first call
    returns, the files it writes and what it prints; the decorator caches
    the value for later calls. *)
Definition get_kpis (fs : filesystem) (matches : frame (Match.row Z))
  (deliveries : frame (Delivery.row Z))
  : result dict * list (string * kpi) * list line :=
  match calculate_kpis matches deliveries with
  | (Ok kpis, printed) =>
      let '(files, warnings) := save_precomputed_stats fs kpis in
      (Ok kpis, files, printed ++ warnings)
  | (Raise e, printed) => (Raise e, [], printed)
  end.

End App.

Module SaveFailureSpec.
Import SaveSpec OutcomeSpec.

(** The entries that are written, and those whose write fails. *)
Definition written (fs : filesystem) (entry : string * kpi) : bool :=
  saved entry && to_json_ok fs (fst entry).

Definition failed (fs : filesystem) (entry : string * kpi) : bool :=
  saved entry && negb (to_json_ok fs (fst entry)).

Definition file_name (k : string) : string := (k ++ ".json")%string.

(** The keys that can be written: all but total_matches. *)
Definition table_keys : list string := tl kpi_keys.

End SaveFailureSpec.

(* ================================================================== *)
(** ** Facts about the string methods *)
(* ================================================================== *)

Module PyFacts.
Import SeasonSpec.

Lemma is_digit_range c : is_digit c = true <-> (48 <= c <= 57)%N.
Proof.
  unfold is_digit. rewrite andb_true_iff, !N.leb_le. tauto.
Qed.

Lemma existsb_false {A} (f : A -> bool) l :
  existsb f l = false <-> Forall (fun x => f x = false) l.
Proof.
  induction l as [|a l IH]; simpl.
  - split; auto.
  - rewrite orb_false_iff, IH. split.
    + intros [? ?]. constructor; assumption.
    + intros H. inversion H. auto.
Qed.

Lemma digit_not_space c : is_digit c = true -> isspace c = false.
Proof.
  intros H. apply is_digit_range in H.
  unfold isspace, whitespace. apply existsb_false.
  repeat constructor; apply N.eqb_neq; lia.
Qed.

Lemma all_digits_no_char s c :
  all_digits s -> is_digit c = false -> contains c s = false.
Proof.
  intros Hs Hc. apply existsb_false.
  eapply Forall_impl; [|exact Hs]. cbv beta. intros a Ha.
  apply N.eqb_neq. intros ->. congruence.
Qed.

Lemma lstrip_nonspace c s : isspace c = false -> lstrip (c :: s) = c :: s.
Proof. intros H. simpl. now rewrite H. Qed.

Lemma strip_fixed s :
  (forall c t, s = c :: t -> isspace c = false) ->
  (forall c t, rev s = c :: t -> isspace c = false) ->
  strip s = s.
Proof.
  intros Hh Hl. unfold strip, rstrip.
  assert (E1 : lstrip s = s).
  { destruct s as [|c t]; [reflexivity|].
    apply lstrip_nonspace. eapply Hh. reflexivity. }
  rewrite E1.
  assert (E2 : lstrip (rev s) = rev s).
  { destruct (rev s) as [|c t] eqn:E; [reflexivity|].
    apply lstrip_nonspace. eapply Hl. reflexivity. }
  rewrite E2. apply rev_involutive.
Qed.

Lemma strip_all_digits s : all_digits s -> strip s = s.
Proof.
  intros H. apply strip_fixed.
  - intros c t ->. inversion H; subst. now apply digit_not_space.
  - intros c t E. apply digit_not_space.
    assert (Hin : In c (rev s)) by (rewrite E; now left).
    apply in_rev in Hin.
    unfold all_digits in H. rewrite Forall_forall in H. auto.
Qed.

Lemma digits_all_digits s : forall acc,
  all_digits s ->
  digits acc false s = Some (fold_left (fun a c => 10 * a + digit_value c) s acc).
Proof.
  induction s as [|c t IH]; intros acc H; simpl.
  - reflexivity.
  - inversion H as [|? ? Hc Ht]; subst. rewrite Hc. now apply IH.
Qed.

Lemma int_of_str_all_digits s :
  all_digits s -> s <> [] -> int_of_str s = Ok (number_of s).
Proof.
  intros H Hne. unfold int_of_str. rewrite (strip_all_digits s H).
  destruct s as [|c t]; [congruence|].
  inversion H as [|? ? Hc Ht]; subst.
  pose proof (proj1 (is_digit_range c) Hc) as Hr.
  assert (E1 : (c =? ch "-")%N = false) by (apply N.eqb_neq; cbv; lia).
  assert (E2 : (c =? ch "+")%N = false) by (apply N.eqb_neq; cbv; lia).
  rewrite E1, E2, Hc.
  rewrite (digits_all_digits (c :: t) 0 H). reflexivity.
Qed.

(** Splitting at a separator that occurs once. *)
Lemma split_no_sep sep s : contains sep s = false -> split sep s = [s].
Proof.
  induction s as [|c t IH]; simpl; intros H; [reflexivity|].
  apply orb_false_iff in H. destruct H as [Hc Ht].
  rewrite N.eqb_sym, Hc, (IH Ht). reflexivity.
Qed.

Lemma split_app_sep sep a b :
  contains sep a = false -> split sep (a ++ sep :: b) = a :: split sep b.
Proof.
  induction a as [|c t IH]; simpl; intros H.
  - now rewrite N.eqb_refl.
  - apply orb_false_iff in H. destruct H as [Hc Ht].
    rewrite N.eqb_sym, Hc, (IH Ht). reflexivity.
Qed.

Lemma contains_app c a b : contains c (a ++ b) = contains c a || contains c b.
Proof. unfold contains. apply existsb_app. Qed.

Lemma contains_mid c a b : contains c (a ++ c :: b) = true.
Proof.
  unfold contains. rewrite existsb_app. cbn [existsb].
  rewrite N.eqb_refl. apply orb_true_r.
Qed.

Lemma last_segment sep a b :
  contains sep a = false -> contains sep b = false ->
  last_item (split sep (a ++ sep :: b)) = b.
Proof.
  intros Ha Hb. rewrite (split_app_sep _ _ _ Ha), (split_no_sep _ _ Hb).
  reflexivity.
Qed.

Lemma str_eqb_eq a b : str_eqb a b = true <-> a = b.
Proof.
  unfold str_eqb. destruct (list_eq_dec N.eq_dec a b); split; congruence.
Qed.

Lemma str_eqb_refl a : str_eqb a a = true.
Proof. now apply str_eqb_eq. Qed.

Lemma str_eqb_neq a b : str_eqb a b = false <-> a <> b.
Proof.
  unfold str_eqb. destruct (list_eq_dec N.eq_dec a b); split; congruence.
Qed.

Lemma number_of_4 a b c d :
  number_of [a; b; c; d]
  = 1000 * digit_value a + 100 * digit_value b + 10 * digit_value c + digit_value d.
Proof. unfold number_of. cbn [fold_left]. lia. Qed.

Lemma number_of_2 a b : number_of [a; b] = 10 * digit_value a + digit_value b.
Proof. unfold number_of. cbn [fold_left]. lia. Qed.

Lemma digit_value_range c : is_digit c = true -> 0 <= digit_value c <= 9.
Proof. intros H. apply is_digit_range in H. unfold digit_value. lia. Qed.

End PyFacts.


Module SeasonFacts.
Import PyFacts SeasonSpec.

Example clean_season_slash : clean_season (CStr (u "2007/08")) = Ok 2008.
Proof. reflexivity. Qed.
Example clean_season_dual : clean_season (CStr (u "2020/21")) = Ok 2020.
Proof. reflexivity. Qed.
Example clean_season_int : clean_season (CInt 2015) = Ok 2015.
Proof. reflexivity. Qed.
Example clean_season_nan : clean_season CNaN = Raise ValueError.
Proof. reflexivity. Qed.

Lemma str_in_two x a b :
  x <> a -> x <> b -> str_in x [a; b] = false.
Proof.
  intros Ha Hb. unfold str_in. simpl.
  rewrite (proj2 (str_eqb_neq x a) Ha), (proj2 (str_eqb_neq x b) Hb).
  reflexivity.
Qed.

Lemma length_neq (a b : str) : List.length a <> List.length b -> a <> b.
Proof. intros H ->. now apply H. Qed.

Lemma year4_bounds y : year4 y -> 1000 <= number_of y <= 9999.
Proof.
  intros (Hlen & Hd & Hnz).
  destruct y as [|a [|b [|c [|d [|? ?]]]]]; try discriminate Hlen.
  rewrite number_of_4.
  inversion Hd as [|? ? Ha H1]; subst.
  inversion H1 as [|? ? Hb H2]; subst.
  inversion H2 as [|? ? Hc H3]; subst.
  inversion H3 as [|? ? Hd' _]; subst.
  pose proof (digit_value_range _ Ha).
  pose proof (digit_value_range _ Hb).
  pose proof (digit_value_range _ Hc).
  pose proof (digit_value_range _ Hd').
  assert (digit_value a <> 0).
  { simpl in Hnz. apply is_digit_range in Ha. unfold digit_value.
    intro E. apply Hnz. cbv. change (ch "0") with 48%N in *. lia. }
  lia.
Qed.

Lemma year4_nonempty y : year4 y -> y <> [].
Proof. intros (Hlen & _) ->. discriminate. Qed.

Lemma slash_not_digit : is_digit (ch "/") = false. Proof. reflexivity. Qed.
Lemma dash_not_digit : is_digit (ch "-") = false. Proof. reflexivity. Qed.

Lemma clean_season_digits s :
  all_digits s -> s <> [] -> s <> u "2020/21" -> s <> u "2020-21" ->
  clean_season (CStr s) = Ok (number_of s).
Proof.
  intros Hd Hne H1 H2. unfold clean_season, py_str.
  rewrite (str_in_two _ _ _ H1 H2).
  rewrite (all_digits_no_char s _ Hd slash_not_digit).
  rewrite (all_digits_no_char s _ Hd dash_not_digit).
  simpl. now apply int_of_str_all_digits.
Qed.

(** A range [a sep b] that is not one of the two dual labels: the function
    parses the stripped trailing part, prefixed by "20" when it has two
    characters. *)
Lemma clean_season_range a sep b :
  all_digits a -> all_digits b -> is_sep sep ->
  a ++ sep :: b <> u "2020/21" -> a ++ sep :: b <> u "2020-21" ->
  clean_season (CStr (a ++ sep :: b))
  = int_of_str (if (List.length b =? 2)%nat then u "20" ++ b else b).
Proof.
  intros Ha Hb Hsep H1 H2. unfold clean_season, py_str.
  rewrite (str_in_two _ _ _ H1 H2).
  pose proof (all_digits_no_char a _ Ha slash_not_digit) as Has.
  pose proof (all_digits_no_char a _ Ha dash_not_digit) as Had.
  pose proof (all_digits_no_char b _ Hb slash_not_digit) as Hbs.
  pose proof (all_digits_no_char b _ Hb dash_not_digit) as Hbd.
  destruct Hsep as [-> | ->].
  - assert (E : contains (ch "/") (a ++ ch "/" :: b) = true).
    { apply contains_mid. }
    rewrite E. simpl orb. cbv iota.
    rewrite (last_segment _ _ _ Has Hbs), (strip_all_digits b Hb).
    reflexivity.
  - assert (E : contains (ch "/") (a ++ ch "-" :: b) = false).
    { rewrite contains_app, Has. unfold contains in *. cbn [existsb orb].
      rewrite Hbs. reflexivity. }
    assert (E' : contains (ch "-") (a ++ ch "-" :: b) = true).
    { apply contains_mid. }
    rewrite E, E'. simpl orb. cbv iota.
    rewrite (last_segment _ _ _ Had Hbd), (strip_all_digits b Hb).
    reflexivity.
Qed.

Lemma int_cells_checked :
  forallb (fun a =>
    forallb (fun r => int_cell_ok (1000 * Z.of_nat a + Z.of_nat r))
            (seq 0 1000))
    (seq 1 9) = true.
Proof. vm_compute. reflexivity. Qed.

Lemma clean_season_int_cell z :
  1000 <= z <= 9999 -> clean_season (CInt z) = Ok z.
Proof.
  intros Hz. pose proof int_cells_checked as H.
  rewrite forallb_forall in H.
  assert (Ha : In (Z.to_nat (z / 1000)) (seq 1 9)).
  { apply in_seq.
    assert (1 <= z / 1000 < 10)
      by (split; [apply Z.div_le_lower_bound | apply Z.div_lt_upper_bound]; lia).
    lia. }
  specialize (H _ Ha). rewrite forallb_forall in H.
  assert (Hr : In (Z.to_nat (z mod 1000)) (seq 0 1000)).
  { apply in_seq. pose proof (Z.mod_pos_bound z 1000). lia. }
  specialize (H _ Hr).
  replace (1000 * Z.of_nat (Z.to_nat (z / 1000)) + Z.of_nat (Z.to_nat (z mod 1000)))
    with z in H.
  - unfold int_cell_ok in H.
    destruct (clean_season (CInt z)) as [y|e]; [|discriminate].
    apply Z.eqb_eq in H. now subst.
  - pose proof (Z.div_mod z 1000).
    pose proof (Z.mod_pos_bound z 1000).
    assert (0 <= z / 1000) by (apply Z.div_pos; lia).
    lia.
Qed.

End SeasonFacts.

Module SeasonTheorems.
Import PyFacts SeasonSpec SeasonFacts.

(** C2. Every valid season label (a plain four-digit year, a slash- or
    dash-split range, a range with a two-digit trailing year, the dual label
    of 2020) is cleaned to the single four-digit integer it stands for: a
    range gives its trailing year, a two-digit trailing year is prefixed by
    "20", and "2020/21" and "2020-21" give 2020. *)
Theorem clean_season_valid_labels (x : cell) (y : Z) :
  season_label x y -> clean_season x = Ok y /\ 1000 <= y <= 9999.
Proof.
  intros H. destruct H as
    [z Hz | s Hy | sep Hsep | a sep b Hla Ha Hsep Hb | a sep b Hla Ha Hsep Hlb Hb Hnd].
  - split; [now apply clean_season_int_cell | assumption].
  - split; [|now apply year4_bounds].
    destruct Hy as (Hlen & Hd & Hnz).
    apply clean_season_digits; auto.
    + intros ->. discriminate.
    + apply length_neq. rewrite Hlen. discriminate.
    + apply length_neq. rewrite Hlen. discriminate.
  - destruct Hsep as [-> | ->]; split; try reflexivity; lia.
  - split; [|now apply year4_bounds].
    pose proof Hb as (Hlen & Hd & Hnz).
    rewrite clean_season_range; auto.
    + rewrite Hlen. simpl. apply int_of_str_all_digits; auto.
      now apply year4_nonempty.
    + apply length_neq. rewrite length_app. simpl. rewrite Hla, Hlen.
      discriminate.
    + apply length_neq. rewrite length_app. simpl. rewrite Hla, Hlen.
      discriminate.
  - assert (Hd20 : all_digits (u "20" ++ b)).
    { apply Forall_app. split; [repeat constructor | assumption]. }
    assert (Hne : forall c, is_sep c -> a ++ sep :: b <> u "2020" ++ c :: u "21").
    { intros c _ E. apply Hnd.
      assert (E4 : firstn 4 (a ++ sep :: b) = firstn 4 (u "2020" ++ c :: u "21"))
        by now rewrite E.
      assert (S4 : skipn 5 (a ++ sep :: b) = skipn 5 (u "2020" ++ c :: u "21"))
        by now rewrite E.
      destruct a as [|a1 [|a2 [|a3 [|a4 [|? ?]]]]]; try discriminate Hla.
      cbv in E4, S4. subst b. injection E4 as -> -> -> ->. reflexivity. }
    rewrite clean_season_range; auto.
    + rewrite Hlb. simpl Nat.eqb. cbv iota.
      rewrite int_of_str_all_digits; auto.
      * split; [reflexivity|].
        destruct b as [|b1 [|b2 [|? ?]]]; try discriminate Hlb.
        change (u "20" ++ [b1; b2]) with [ch "2"; ch "0"; b1; b2].
        rewrite number_of_4.
        inversion Hb as [|? ? Hb1 Hb']; subst.
        inversion Hb' as [|? ? Hb2 _]; subst.
        pose proof (digit_value_range _ Hb1).
        pose proof (digit_value_range _ Hb2).
        change (digit_value (ch "2")) with 2.
        change (digit_value (ch "0")) with 0. lia.
      * discriminate.
    + apply (Hne (ch "/")). now left.
    + apply (Hne (ch "-")). now right.
Qed.

(** The label "2009/10" of the 2010 season. *)
Lemma clean_season_valid_labels_witness :
  clean_season (CStr (u "2009/10")) = Ok 2010 /\ 1000 <= 2010 <= 9999.
Proof.
  apply (clean_season_valid_labels (CStr (u "2009" ++ ch "/" :: u "10"))
           (number_of (u "20" ++ u "10"))).
  apply label_range_short.
  - reflexivity.
  - repeat constructor.
  - left. reflexivity.
  - reflexivity.
  - repeat constructor.
  - discriminate.
Defined.

End SeasonTheorems.

(* ================================================================== *)
(** ** Team names *)
(* ================================================================== *)

Module TeamFacts.
Import PyFacts TeamNameSpec.

(** *** Whitespace at the ends of a string *)

Lemma lstrip_no_lead s : no_lead (lstrip s).
Proof.
  induction s as [|c t IH]; simpl; [exact I|].
  destruct (isspace c) eqn:E; [exact IH | exact E].
Qed.

Lemma lstrip_fixed s : no_lead s -> lstrip s = s.
Proof. destruct s as [|c t]; simpl; [reflexivity|]. now intros ->. Qed.

(** What [lstrip] removes is whitespace. *)
Lemma lstrip_split s :
  exists w, s = w ++ lstrip s /\ Forall (fun c => isspace c = true) w.
Proof.
  induction s as [|c t (w & E & Hw)]; simpl.
  - exists []. split; [reflexivity | constructor].
  - destruct (isspace c) eqn:Ec.
    + exists (c :: w). split; [simpl; now f_equal | now constructor].
    + exists []. split; [reflexivity | constructor].
Qed.

Lemma rstrip_split s :
  exists w, s = rstrip s ++ w /\ Forall (fun c => isspace c = true) w.
Proof.
  destruct (lstrip_split (rev s)) as (w & E & Hw).
  exists (rev w). split.
  - unfold rstrip. rewrite <- rev_app_distr, <- E. symmetry. apply rev_involutive.
  - apply Forall_rev. exact Hw.
Qed.

Lemma rstrip_no_trail s : no_trail (rstrip s).
Proof. unfold no_trail, rstrip. rewrite rev_involutive. apply lstrip_no_lead. Qed.

Lemma rstrip_no_lead s : no_lead s -> no_lead (rstrip s).
Proof.
  intros H. destruct (rstrip_split s) as (w & E & Hw).
  destruct (rstrip s) as [|c t] eqn:Er; [exact I|].
  rewrite E in H. exact H.
Qed.

Lemma rstrip_fixed s : no_trail s -> rstrip s = s.
Proof.
  intros H. unfold rstrip. rewrite (lstrip_fixed _ H). apply rev_involutive.
Qed.

Lemma strip_no_lead s : no_lead (strip s).
Proof. apply rstrip_no_lead, lstrip_no_lead. Qed.

Lemma strip_no_trail s : no_trail (strip s).
Proof. apply rstrip_no_trail. Qed.

Lemma strip_clean s : no_lead s -> no_trail s -> strip s = s.
Proof.
  intros H1 H2. unfold strip. rewrite (lstrip_fixed _ H1). now apply rstrip_fixed.
Qed.

(** A character map that keeps whitespace whitespace commutes with
    stripping. *)
Section SpacePreserving.
Variable f : char -> char.
Hypothesis f_space : forall c, isspace (f c) = isspace c.

Lemma lstrip_map s : lstrip (map f s) = map f (lstrip s).
Proof.
  induction s as [|c t IH]; simpl; [reflexivity|].
  rewrite f_space. destruct (isspace c); [exact IH | reflexivity].
Qed.

Lemma strip_map s : strip (map f s) = map f (strip s).
Proof.
  unfold strip, rstrip.
  rewrite lstrip_map, <- map_rev, lstrip_map, map_rev. reflexivity.
Qed.
End SpacePreserving.

(** *** Case maps *)

Lemma is_upper_range c : is_upper c = true <-> (65 <= c <= 90)%N.
Proof. unfold is_upper. rewrite andb_true_iff, !N.leb_le. tauto. Qed.

Lemma is_lower_range c : is_lower c = true <-> (97 <= c <= 122)%N.
Proof. unfold is_lower. rewrite andb_true_iff, !N.leb_le. tauto. Qed.

Lemma not_space_in_range (c lo hi : N) :
  (lo <= c <= hi)%N -> (33 <= lo)%N -> (hi <= 132)%N -> isspace c = false.
Proof.
  intros Hc Hlo Hhi. unfold isspace, whitespace. apply existsb_false.
  repeat constructor; apply N.eqb_neq; lia.
Qed.

Lemma isspace_kelvin : isspace kelvin = false. Proof. reflexivity. Qed.
Lemma isspace_dotless_i : isspace dotless_i = false. Proof. reflexivity. Qed.
Lemma isspace_long_s : isspace long_s = false. Proof. reflexivity. Qed.

Lemma isspace_lower_char c : isspace (lower_char c) = isspace c.
Proof.
  unfold lower_char. destruct (is_upper c) eqn:Eu.
  - apply is_upper_range in Eu.
    rewrite (not_space_in_range c 65 90), (not_space_in_range (c + 32)%N 97 122);
      try reflexivity; lia.
  - destruct (N.eqb_spec c kelvin) as [-> | _]; reflexivity.
Qed.

Lemma isspace_title_char c : isspace (title_char c) = isspace c.
Proof.
  unfold title_char. destruct (is_lower c) eqn:El.
  - apply is_lower_range in El.
    rewrite (not_space_in_range c 97 122), (not_space_in_range (c - 32)%N 65 90);
      try reflexivity; lia.
  - destruct (N.eqb_spec c dotless_i) as [-> | _]; [reflexivity|].
    destruct (N.eqb_spec c long_s) as [-> | _]; reflexivity.
Qed.

Lemma lower_char_idem c : lower_char (lower_char c) = lower_char c.
Proof.
  unfold lower_char at 2. destruct (is_upper c) eqn:Eu.
  - pose proof (proj1 (is_upper_range c) Eu) as Hr.
    unfold lower_char. rewrite Eu.
    assert (E : is_upper (c + 32)%N = false).
    { apply not_true_iff_false. rewrite is_upper_range. lia. }
    rewrite E.
    destruct (N.eqb_spec (c + 32)%N kelvin) as [E' | _]; [|reflexivity].
    unfold kelvin in E'. lia.
  - destruct (N.eqb_spec c kelvin) as [-> | Hk]; [reflexivity|].
    unfold lower_char. rewrite Eu.
    destruct (N.eqb_spec c kelvin); [contradiction | reflexivity].
Qed.

Lemma lower_idem s : lower (lower s) = lower s.
Proof.
  unfold lower. rewrite map_map. apply map_ext. apply lower_char_idem.
Qed.

Lemma strip_lower s : strip (lower s) = lower (strip s).
Proof. apply strip_map. apply isspace_lower_char. Qed.

(** On ASCII, lower-casing undoes title-casing. *)
Lemma lower_title_char c :
  is_ascii c = true -> lower_char (title_char c) = lower_char c.
Proof.
  unfold is_ascii. rewrite N.ltb_lt. intros Hc.
  unfold title_char. destruct (is_lower c) eqn:El.
  - apply is_lower_range in El. unfold lower_char.
    assert (E1 : is_upper (c - 32)%N = true) by (apply is_upper_range; lia).
    assert (E2 : is_upper c = false).
    { apply not_true_iff_false. rewrite is_upper_range. lia. }
    rewrite E1, E2.
    destruct (N.eqb_spec c kelvin) as [E' | _]; [unfold kelvin in E'; lia|].
    lia.
  - destruct (N.eqb_spec c dotless_i) as [E | _]; [unfold dotless_i in E; lia|].
    destruct (N.eqb_spec c long_s) as [E | _]; [unfold long_s in E; lia|].
    reflexivity.
Qed.

Lemma lower_title_from s : forall b,
  ascii_only s -> lower (title_from b s) = lower s.
Proof.
  induction s as [|c t IH]; intros b H; simpl; [reflexivity|].
  inversion H as [|? ? Hc Ht]; subst. f_equal.
  - destruct b; [apply lower_char_idem | now apply lower_title_char].
  - now apply IH.
Qed.

(** Title-casing keeps the whitespace where it is. *)
Lemma title_from_spaces s : forall b,
  map isspace (title_from b s) = map isspace s.
Proof.
  induction s as [|c t IH]; intros b; simpl; [reflexivity|].
  f_equal; [|apply IH].
  destruct b; [apply isspace_lower_char | apply isspace_title_char].
Qed.

Lemma no_lead_spaces s t :
  map isspace s = map isspace t -> no_lead s -> no_lead t.
Proof.
  destruct s as [|a s'], t as [|b t']; simpl; try discriminate; auto.
  intros E H. injection E as E _. congruence.
Qed.

Lemma no_trail_spaces s t :
  map isspace s = map isspace t -> no_trail s -> no_trail t.
Proof.
  intros E. unfold no_trail. apply no_lead_spaces.
  rewrite !map_rev. now f_equal.
Qed.

Lemma title_clean s : no_lead s -> no_trail s -> strip (title s) = title s.
Proof.
  intros H1 H2. apply strip_clean.
  - eapply no_lead_spaces; [|exact H1]. symmetry. apply title_from_spaces.
  - eapply no_trail_spaces; [|exact H2]. symmetry. apply title_from_spaces.
Qed.

Lemma lower_no_lead s : no_lead s -> no_lead (lower s).
Proof.
  apply no_lead_spaces. unfold lower. rewrite map_map.
  apply map_ext. intros c. symmetry. apply isspace_lower_char.
Qed.

Lemma lower_no_trail s : no_trail s -> no_trail (lower s).
Proof.
  apply no_trail_spaces. unfold lower. rewrite map_map.
  apply map_ext. intros c. symmetry. apply isspace_lower_char.
Qed.

(** *** ASCII strings stay ASCII *)

Lemma lstrip_incl s c : In c (lstrip s) -> In c s.
Proof.
  induction s as [|a t IH]; simpl; [auto|].
  destruct (isspace a); [intros H; right; auto | auto].
Qed.

Lemma strip_incl s c : In c (strip s) -> In c s.
Proof.
  unfold strip, rstrip. intros H. apply in_rev in H.
  apply lstrip_incl in H. apply in_rev in H. now apply lstrip_incl.
Qed.

Lemma ascii_only_strip s : ascii_only s -> ascii_only (strip s).
Proof.
  unfold ascii_only. rewrite !Forall_forall. intros H c Hc.
  apply H. now apply strip_incl.
Qed.

Lemma is_ascii_lower_char c : is_ascii c = true -> is_ascii (lower_char c) = true.
Proof.
  unfold is_ascii. rewrite !N.ltb_lt. intros Hc. unfold lower_char.
  destruct (is_upper c) eqn:Eu.
  - apply is_upper_range in Eu. lia.
  - destruct (N.eqb_spec c kelvin); [cbv; reflexivity | exact Hc].
Qed.

Lemma ascii_only_lower s : ascii_only s -> ascii_only (lower s).
Proof.
  unfold ascii_only, lower. intros H. apply Forall_map.
  eapply Forall_impl; [|exact H]. apply is_ascii_lower_char.
Qed.

(** *** The alias table *)

Lemma lookup_In {V} k (v : V) l : lookup k l = Some v -> In (k, v) l.
Proof.
  induction l as [|[k' v'] t IH]; simpl; [discriminate|].
  destruct (str_eqb k k') eqn:E.
  - apply str_eqb_eq in E. subst. intros [= ->]. now left.
  - intros H. right. auto.
Qed.

Lemma option_str_eqb_eq a b : option_str_eqb a b = true -> a = b.
Proof.
  destruct a, b; simpl; try discriminate; auto.
  intros H. apply str_eqb_eq in H. now subst.
Qed.

(** Every entry of the table leads to a name that the loop body leaves
    alone: checked entry by entry. *)
Lemma team_mapping_stable :
  forallb (fun kv => option_str_eqb (standardize_team (finish (snd kv)))
                                    (finish (snd kv)))
          team_mapping = true.
Proof. vm_compute. reflexivity. Qed.

Lemma mapped_name_stable k canonical :
  lookup k team_mapping = Some canonical ->
  standardize_team (finish canonical) = finish canonical.
Proof.
  intros H. apply lookup_In in H.
  pose proof team_mapping_stable as T. rewrite forallb_forall in T.
  apply option_str_eqb_eq. exact (T _ H).
Qed.

Lemma normal_idem s : normal (normal s) = normal s.
Proof.
  unfold normal. rewrite (strip_lower (strip s)).
  rewrite (strip_clean (strip s)) by (apply strip_no_lead || apply strip_no_trail).
  apply lower_idem.
Qed.

Lemma normal_no_lead s : no_lead (normal s).
Proof. apply lower_no_lead, strip_no_lead. Qed.

Lemma normal_no_trail s : no_trail (normal s).
Proof. apply lower_no_trail, strip_no_trail. Qed.

Lemma normal_title s :
  ascii_only s -> normal (title (normal s)) = normal s.
Proof.
  intros H. unfold normal at 1.
  rewrite title_clean by (apply normal_no_lead || apply normal_no_trail).
  unfold title. rewrite lower_title_from.
  - unfold normal. apply lower_idem.
  - unfold normal. now apply ascii_only_lower, ascii_only_strip.
Qed.

(** The loop body on a name whose normal form is not a key. *)
Lemma standardize_unmapped s :
  lookup (normal s) team_mapping = None ->
  standardize_team (Some s) = Some (title (normal s)).
Proof.
  intros H. unfold standardize_team. cbn [normalize_team_name map_team].
  fold (normal s). rewrite H. cbn [normalize_team_name map_team].
  fold (normal (normal s)). rewrite normal_idem, H. reflexivity.
Qed.

Lemma standardize_mapped s canonical :
  lookup (normal s) team_mapping = Some canonical ->
  standardize_team (Some s) = finish canonical.
Proof.
  intros H. unfold standardize_team. cbn [normalize_team_name map_team].
  fold (normal s). rewrite H. reflexivity.
Qed.

End TeamFacts.

Module TeamTheorems.
Import PyFacts TeamNameSpec TeamFacts.

(** C3, as amended. Team-name canonicalization (strip and lower-case, alias
    lookup, both twice, then title-casing) is idempotent on every name made
    of ASCII characters, whether or not its normal form is a key of the
    alias table. *)
Theorem standardize_team_idempotent_ascii (name : str) :
  ascii_only name ->
  standardize_team (standardize_team (Some name)) = standardize_team (Some name).
Proof.
  intros H. destruct (lookup (normal name) team_mapping) as [canonical|] eqn:E.
  - rewrite (standardize_mapped _ _ E). eapply mapped_name_stable. exact E.
  - rewrite (standardize_unmapped _ E).
    rewrite standardize_unmapped; rewrite (normal_title _ H); [reflexivity | exact E].
Qed.

Lemma standardize_team_idempotent_ascii_witness :
  standardize_team (standardize_team (Some (u " Kings XI Punjab")))
  = standardize_team (Some (u " Kings XI Punjab")).
Proof.
  apply (standardize_team_idempotent_ascii (u " Kings XI Punjab")).
  unfold ascii_only. repeat constructor.
Defined.

(** C3, as stated, fails outside ASCII: the long s (U+017F) is lower case
    and its title case is [S], so "rising pune ſupergiant" is first written
    "Rising Pune Supergiant", which a second pass maps through the alias
    table to "Rising Pune Supergiants". *)
Lemma standardize_team_not_idempotent :
  standardize_team (Some (u "rising pune " ++ long_s :: u "upergiant"))
    = Some (u "Rising Pune Supergiant")
  /\ standardize_team (Some (u "Rising Pune Supergiant"))
    = Some (u "Rising Pune Supergiants")
  /\ standardize_team
       (standardize_team (Some (u "rising pune " ++ long_s :: u "upergiant")))
     <> standardize_team (Some (u "rising pune " ++ long_s :: u "upergiant")).
Proof.
  split; [reflexivity|]. split; [reflexivity|].
  vm_compute. discriminate.
Qed.

End TeamTheorems.

(* ================================================================== *)
(** ** clean_data *)
(* ================================================================== *)

Module LoaderFacts.
Import PyFacts LoaderSpec.

Lemma mapM_Ok {A B} (f : A -> result B) l l' :
  mapM f l = Ok l' -> Forall2 (fun a b => f a = Ok b) l l'.
Proof.
  revert l'. induction l as [|a t IH]; simpl; intros l' H.
  - injection H as <-. constructor.
  - destruct (f a) as [b|] eqn:Ea; simpl in H; [|discriminate].
    destruct (mapM f t) as [bs|] eqn:Et; simpl in H; [|discriminate].
    injection H as <-. constructor; auto.
Qed.

Lemma Forall2_length_eq {A B} (P : A -> B -> Prop) l l' :
  Forall2 P l l' -> List.length l = List.length l'.
Proof. induction 1; simpl; congruence. Qed.

Lemma filter_nil_iff {A} (p : A -> bool) l :
  filter p l = [] <-> existsb p l = false.
Proof.
  induction l as [|a t IH]; simpl; [tauto|].
  destruct (p a); simpl; [split; discriminate | exact IH].
Qed.

Lemma filter_all {A} (p : A -> bool) l :
  Forall (fun a => p a = true) l -> filter p l = l.
Proof.
  induction 1 as [|a t Ha _ IH]; simpl; [reflexivity|].
  rewrite Ha. now f_equal.
Qed.

Lemma with_season_twice {S T U} (d : Delivery.row S) (s : T) (s' : U) :
  Delivery.with_season (Delivery.with_season d s) s' = Delivery.with_season d s'.
Proof. reflexivity. Qed.

Lemma merge_season_cons d ds ms :
  merge_season (d :: ds) ms
  = match filter (fun m => Match.id m =? Delivery.match_id d) ms with
    | [] => [Delivery.with_season d None]
    | hits => map (fun m => Delivery.with_season d (Some (Match.season m))) hits
    end ++ merge_season ds ms.
Proof.
  unfold merge_season, merge_left. cbn [flat_map]. rewrite map_app. f_equal.
  destruct (filter (fun m => Match.id m =? Delivery.match_id d) ms) as [|m hits];
    [reflexivity|].
  cbn [map fst snd option_map]. f_equal. rewrite map_map. reflexivity.
Qed.

(** The missing seasons of the merge are those of the deliveries without a
    match. *)
Lemma merge_season_isna ds ms :
  List.length (filter season_isna (merge_season ds ms))
  = List.length (filter (fun d => negb (has_match ms d)) ds).
Proof.
  induction ds as [|d t IH]; [reflexivity|].
  rewrite merge_season_cons, filter_app, length_app, IH.
  cbn [filter].
  assert (Hm : has_match ms d
               = negb (match filter (fun m => Match.id m =? Delivery.match_id d) ms
                       with [] => true | _ => false end)).
  { unfold has_match.
    destruct (filter (fun m => Match.id m =? Delivery.match_id d) ms) eqn:E.
    - apply filter_nil_iff in E. exact E.
    - apply not_false_iff_true. rewrite <- filter_nil_iff, E. discriminate. }
  rewrite Hm.
  destruct (filter (fun m => Match.id m =? Delivery.match_id d) ms) as [|m hits].
  - reflexivity.
  - cbn [negb].
    replace (filter season_isna _) with (@nil (Delivery.row (option Z))); [reflexivity|].
    symmetry. apply filter_nil_iff, existsb_false.
    apply Forall_map. apply Forall_forall. intros; reflexivity.
Qed.

(** Dropping the missing seasons and casting the rest gives the join. *)
Lemma astype_dropna ds ms :
  mapM astype_int (filter (fun d => negb (season_isna d)) (merge_season ds ms))
  = Ok (joined ds ms).
Proof.
  induction ds as [|d t IH]; [reflexivity|].
  rewrite merge_season_cons, filter_app. unfold joined. cbn [flat_map].
  fold (joined t ms).
  destruct (filter (fun m => Match.id m =? Delivery.match_id d) ms) as [|m hits].
  - cbn [filter season_isna Delivery.season Delivery.with_season negb map app].
    exact IH.
  - generalize (m :: hits). intros l.
    induction l as [|x l IHl]; [exact IH|].
    cbn [map filter app season_isna Delivery.season Delivery.with_season negb mapM].
    unfold astype_int at 1.
    cbn [Delivery.season Delivery.with_season bind].
    rewrite IHl. reflexivity.
Qed.

Lemma dropna_if_any (l : list (Delivery.row (option Z))) :
  (if 0 <? Z.of_nat (List.length (filter season_isna l))
   then filter (fun d => negb (season_isna d)) l else l)
  = filter (fun d => negb (season_isna d)) l.
Proof.
  destruct (0 <? _) eqn:E; [reflexivity|].
  apply Z.ltb_ge in E.
  assert (E0 : filter season_isna l = []).
  { destruct (filter season_isna l); [reflexivity | simpl in E; lia]. }
  symmetry. apply filter_all.
  apply filter_nil_iff, existsb_false in E0.
  eapply Forall_impl; [|exact E0]. cbv beta. intros a ->. reflexivity.
Qed.

Lemma need_Ok {R} (f : frame R) label u0 :
  need f label = Ok u0 -> has_column f label = true.
Proof. unfold need. destruct (has_column f label); [reflexivity | discriminate]. Qed.

(** What [fill_and_merge] returns when it returns. *)
Lemma fill_and_merge_Ok matches deliveries m2 merged :
  fill_and_merge matches deliveries = Ok (m2, merged) ->
  exists seasons,
    mapM clean_season (map Match.season (rows matches)) = Ok seasons
    /\ m2 = Frame (add_column "home_team" (columns matches))
                  (map (fun ms => fill_match (fst ms) (snd ms))
                       (combine (rows matches) seasons))
    /\ merged = merge_season (map fill_delivery (rows deliveries)) (rows m2).
Proof.
  unfold fill_and_merge. intros H.
  destruct (need matches "season") as [[]|]; cbn [bind] in H; [|discriminate].
  destruct (mapM clean_season _) as [seasons|] eqn:Es; cbn [bind] in H; [|discriminate].
  destruct (needs matches _) as [[]|]; cbn [bind] in H; [|discriminate].
  destruct (needs deliveries _) as [[]|]; cbn [bind] in H; [|discriminate].
  match type of H with
  | bind ?n _ = _ => destruct n as [[]|]; cbn [bind] in H; [|discriminate]
  end.
  destruct (need deliveries "match_id") as [[]|]; cbn [bind] in H; [|discriminate].
  destruct (has_column deliveries "season"); cbn [bind] in H; [discriminate|].
  injection H as <- <-. exists seasons. auto.
Qed.

(** What [clean_data] returns when it returns. *)
Lemma clean_data_Ok matches deliveries ms' ds' printed :
  clean_data matches deliveries = (Ok (ms', ds'), printed) ->
  exists seasons,
    let filled := map (fun ms => fill_match (fst ms) (snd ms))
                      (combine (rows matches) seasons) in
    let unmatched :=
      Z.of_nat (List.length (filter (fun d => negb (has_match filled d))
                                    (map fill_delivery (rows deliveries)))) in
    mapM clean_season (map Match.season (rows matches)) = Ok seasons
    /\ rows ms' = map (standardize_teams (add_column "home_team" (columns matches)))
                      filled
    /\ rows ds' = joined (map fill_delivery (rows deliveries)) filled
    /\ printed = (if 0 <? unmatched then [Unmatched_deliveries unmatched] else []).
Proof.
  unfold clean_data. intros H.
  destruct (fill_and_merge matches deliveries) as [[m2 merged]|] eqn:E;
    [|discriminate].
  apply fill_and_merge_Ok in E. destruct E as (seasons & Es & -> & ->).
  exists seasons. cbn zeta. cbn [rows columns] in *.
  rewrite dropna_if_any, astype_dropna in H. cbn [bind] in H.
  destruct (has_column deliveries "id"); cbn [bind] in H; [discriminate|].
  injection H as <- <- <-. cbn [rows with_rows columns].
  rewrite merge_season_isna. auto.
Qed.

Lemma fill_match_ids (ms : list (Match.row cell)) seasons :
  List.length ms = List.length seasons ->
  map Match.id (map (fun p => fill_match (fst p) (snd p)) (combine ms seasons))
  = map Match.id ms.
Proof.
  revert seasons. induction ms as [|m t IH]; intros [|s ss] H;
    try discriminate; [reflexivity|].
  simpl. f_equal. apply IH. simpl in H. congruence.
Qed.

Lemma has_match_ids {S S' T} (ms : list (Match.row S)) (ms' : list (Match.row S'))
  (d : Delivery.row T) :
  map Match.id ms = map Match.id ms' -> has_match ms d = has_match ms' d.
Proof.
  unfold has_match. revert ms'.
  induction ms as [|m t IH]; intros [|m' t'] H; try discriminate; [reflexivity|].
  simpl in *. injection H as -> H. f_equal. now apply IH.
Qed.

Lemma in_joined d' ds ms :
  In d' (joined ds ms) <->
  exists d m, In d ds /\ In m ms /\ Match.id m = Delivery.match_id d
              /\ d' = Delivery.with_season d (Match.season m).
Proof.
  unfold joined. rewrite in_flat_map. split.
  - intros (d & Hd & H). apply in_map_iff in H. destruct H as (m & <- & Hm).
    apply filter_In in Hm. destruct Hm as (Hm & E). apply Z.eqb_eq in E.
    exists d, m. auto.
  - intros (d & m & Hd & Hm & E & ->). exists d. split; [exact Hd|].
    apply in_map_iff. exists m. split; [reflexivity|].
    apply filter_In. split; [exact Hm | now apply Z.eqb_eq].
Qed.

End LoaderFacts.

Module LoaderTheorems.
Import PyFacts LoaderSpec LoaderFacts.

Lemma filter_map_length {A B} (f : A -> B) (p : B -> bool) l :
  List.length (filter p (map f l)) = List.length (filter (fun a => p (f a)) l).
Proof.
  induction l as [|a t IH]; simpl; [reflexivity|].
  destruct (p (f a)); simpl; congruence.
Qed.

Lemma filled_has_match (ms : list (Match.row cell)) seasons {T} (d : Delivery.row T) :
  mapM clean_season (map Match.season ms) = Ok seasons ->
  has_match (map (fun p => fill_match (fst p) (snd p)) (combine ms seasons)) d
  = has_match ms d.
Proof.
  intros H. apply has_match_ids. apply fill_match_ids.
  apply mapM_Ok, Forall2_length_eq in H. now rewrite length_map in H.
Qed.

(** C4. When [clean_data] returns, the season column of the deliveries is
    an integer column (the cast [astype(int)] went through, so no season is
    missing), every retained delivery carries the season of a match row
    whose id is its match id, a delivery without a match row leaves no row
    in the output, a delivery with one is retained, and the deliveries
    without a match are counted and reported in one warning, printed
    exactly when there are any. *)
Theorem clean_data_season_join matches deliveries ms' ds' printed :
  clean_data matches deliveries = (Ok (ms', ds'), printed) ->
  (forall d', In d' (rows ds') ->
     exists m', In m' (rows ms')
                /\ Match.id m' = Delivery.match_id d'
                /\ Delivery.season d' = Match.season m')
  /\ (forall d, In d (rows deliveries) -> has_match (rows matches) d = false ->
        forall d', In d' (rows ds') ->
          Delivery.match_id d' <> Delivery.match_id d)
  /\ (forall d, In d (rows deliveries) -> has_match (rows matches) d = true ->
        exists s, In (Delivery.with_season (fill_delivery d) s) (rows ds'))
  /\ printed
     = match unmatched_deliveries matches deliveries with
       | [] => []
       | l => [Unmatched_deliveries (Z.of_nat (List.length l))]
       end.
Proof.
  intros H. apply clean_data_Ok in H. cbv zeta in H.
  destruct H as (seasons & Es & Hms & Hds & Hp).
  set (filled := map (fun ms => fill_match (fst ms) (snd ms))
                     (combine (rows matches) seasons)) in *.
  assert (Hhas : forall T (d : Delivery.row T),
             has_match filled d = has_match (rows matches) d).
  { intros T d. now apply filled_has_match. }
  split; [|split; [|split]].
  - intros d' Hd'. rewrite Hds in Hd'. apply in_joined in Hd'.
    destruct Hd' as (d & m & Hd & Hm & E & ->).
    exists (standardize_teams (add_column "home_team" (columns matches)) m).
    split; [rewrite Hms; now apply in_map|].
    split; [exact E | reflexivity].
  - intros d Hd Hno d' Hd' E. rewrite Hds in Hd'. apply in_joined in Hd'.
    destruct Hd' as (d0 & m & Hd0 & Hm & E0 & ->).
    cbn [Delivery.match_id Delivery.with_season] in E.
    rewrite <- (Hhas _ d) in Hno. unfold has_match in Hno.
    apply existsb_false in Hno. rewrite Forall_forall in Hno.
    specialize (Hno m Hm). apply Z.eqb_neq in Hno. congruence.
  - intros d Hd Hyes. rewrite <- (Hhas _ d) in Hyes. unfold has_match in Hyes.
    apply existsb_exists in Hyes. destruct Hyes as (m & Hm & E).
    apply Z.eqb_eq in E. exists (Match.season m). rewrite Hds.
    apply in_joined. exists (fill_delivery d), m.
    split; [now apply in_map|]. split; [exact Hm|]. split; [exact E | reflexivity].
  - rewrite Hp. unfold unmatched_deliveries.
    rewrite filter_map_length.
    rewrite (filter_ext _ (fun d => negb (has_match (rows matches) d)))
      by (intros d; now rewrite Hhas).
    destruct (filter _ (rows deliveries)) as [|x l]; [reflexivity|].
    replace (0 <? Z.of_nat (List.length (x :: l))) with true; [reflexivity|].
    symmetry. apply Z.ltb_lt. simpl. lia.
Qed.

(** The scenario of the specification: the delivery of match 7 has no
    match row; it is left out and the warning counts it. *)
Lemma clean_data_season_join_witness :
  clean_data LoaderExamples.one_match LoaderExamples.three_balls
  = (Ok (fst LoaderExamples.cleaned, snd LoaderExamples.cleaned),
     [Unmatched_deliveries 1])
  /\ map Delivery.match_id (rows (snd LoaderExamples.cleaned)) = [1; 1]
  /\ map Delivery.season (rows (snd LoaderExamples.cleaned)) = [2020; 2020]
  /\ (forall d', In d' (rows (snd LoaderExamples.cleaned)) ->
        exists m', In m' (rows (fst LoaderExamples.cleaned))
                   /\ Match.id m' = Delivery.match_id d'
                   /\ Delivery.season d' = Match.season m').
Proof.
  assert (E : clean_data LoaderExamples.one_match LoaderExamples.three_balls
              = (Ok (fst LoaderExamples.cleaned, snd LoaderExamples.cleaned),
                 [Unmatched_deliveries 1]))
    by (vm_compute; reflexivity).
  split; [exact E|]. split; [reflexivity|]. split; [reflexivity|].
  exact (proj1 (clean_data_season_join _ _ _ _ _ E)).
Defined.

(** C7, as amended. When [clean_data] returns, every retained delivery
    comes from an input delivery with its missing dismissal kind and
    dismissed player replaced by "None" and its missing batting and bowling
    team replaced by "Unknown"; the fielder is different: it is missing in
    the output wherever it was missing, or was the text "None", in the
    input. *)
Theorem clean_data_delivery_defaults matches deliveries ms' ds' printed :
  clean_data matches deliveries = (Ok (ms', ds'), printed) ->
  forall d', In d' (rows ds') ->
    exists d, In d (rows deliveries)
      /\ Delivery.match_id d' = Delivery.match_id d
      /\ Delivery.dismissal_kind d'
         = Some (match Delivery.dismissal_kind d with Some k => k | None => u "None" end)
      /\ Delivery.player_dismissed d'
         = Some (match Delivery.player_dismissed d with Some k => k | None => u "None" end)
      /\ Delivery.batting_team d'
         = Some (match Delivery.batting_team d with Some k => k | None => u "Unknown" end)
      /\ Delivery.bowling_team d'
         = Some (match Delivery.bowling_team d with Some k => k | None => u "Unknown" end)
      /\ Delivery.fielder d'
         = match Delivery.fielder d with
           | Some f => if str_eqb f (u "None") then None else Some f
           | None => None
           end.
Proof.
  intros H d' Hd'. apply clean_data_Ok in H. cbv zeta in H.
  destruct H as (seasons & _ & _ & Hds & _).
  rewrite Hds in Hd'. apply in_joined in Hd'.
  destruct Hd' as (d0 & m & Hd0 & _ & _ & ->).
  apply in_map_iff in Hd0. destruct Hd0 as (d & <- & Hd).
  exists d. split; [exact Hd|].
  cbn [Delivery.with_season fill_delivery Delivery.match_id
       Delivery.dismissal_kind Delivery.player_dismissed Delivery.batting_team
       Delivery.bowling_team Delivery.fielder].
  repeat split.
  - now destruct (Delivery.dismissal_kind d).
  - now destruct (Delivery.player_dismissed d).
  - now destruct (Delivery.batting_team d).
  - now destruct (Delivery.bowling_team d).
  - now destruct (Delivery.fielder d).
Qed.

Lemma clean_data_delivery_defaults_witness :
  clean_data LoaderExamples.one_match LoaderExamples.three_balls
  = (Ok (fst LoaderExamples.cleaned, snd LoaderExamples.cleaned),
     [Unmatched_deliveries 1])
  /\ map Delivery.dismissal_kind (rows (snd LoaderExamples.cleaned))
     = [Some (u "None"); Some (u "caught")]
  /\ forall d', In d' (rows (snd LoaderExamples.cleaned)) ->
       exists d, In d (rows LoaderExamples.three_balls)
         /\ Delivery.match_id d' = Delivery.match_id d
         /\ Delivery.dismissal_kind d'
            = Some (match Delivery.dismissal_kind d with Some k => k | None => u "None" end)
         /\ Delivery.player_dismissed d'
            = Some (match Delivery.player_dismissed d with Some k => k | None => u "None" end)
         /\ Delivery.batting_team d'
            = Some (match Delivery.batting_team d with Some k => k | None => u "Unknown" end)
         /\ Delivery.bowling_team d'
            = Some (match Delivery.bowling_team d with Some k => k | None => u "Unknown" end)
         /\ Delivery.fielder d'
            = match Delivery.fielder d with
              | Some f => if str_eqb f (u "None") then None else Some f
              | None => None
              end.
Proof.
  assert (E : clean_data LoaderExamples.one_match LoaderExamples.three_balls
              = (Ok (fst LoaderExamples.cleaned, snd LoaderExamples.cleaned),
                 [Unmatched_deliveries 1]))
    by (vm_compute; reflexivity).
  split; [exact E|]. split; [reflexivity|].
  exact (clean_data_delivery_defaults _ _ _ _ _ E).
Defined.

(** C7, as stated, fails on the fielder column: the first delivery of the
    example has no fielder, and none in the output either, where the text
    "None" was expected. *)
Lemma clean_data_fielder_stays_missing :
  map Delivery.fielder (rows LoaderExamples.three_balls)
    = [None; None; Some (u "C")]
  /\ clean_data LoaderExamples.one_match LoaderExamples.three_balls
     = (Ok (fst LoaderExamples.cleaned, snd LoaderExamples.cleaned),
        [Unmatched_deliveries 1])
  /\ map Delivery.fielder (rows (snd LoaderExamples.cleaned))
     = [None; Some (u "C")]
  /\ (Forall (fun f => f <> None)
             (map Delivery.fielder (rows (snd LoaderExamples.cleaned)))
      -> False).
Proof.
  split; [reflexivity|]. split; [vm_compute; reflexivity|].
  split; [reflexivity|].
  intros H. inversion H as [|? ? Hne _]. now apply Hne.
Qed.

End LoaderTheorems.

(* ================================================================== *)
(** ** calculate_kpis: statements and the dict *)
(* ================================================================== *)

Module StmtFacts.
Import StmtSpec.

Lemma dict_get_set_same k v d : dict_get k (dict_set k v d) = Some v.
Proof.
  induction d as [|[k' v'] t IH]; simpl.
  - now rewrite String.eqb_refl.
  - destruct (String.eqb k k') eqn:E; simpl.
    + now rewrite String.eqb_refl.
    + now rewrite E.
Qed.

Lemma dict_get_set_other k k' v d :
  k <> k' -> dict_get k (dict_set k' v d) = dict_get k d.
Proof.
  intros Hne. induction d as [|[k0 v0] t IH]; simpl.
  - destruct (String.eqb_spec k k'); [contradiction | reflexivity].
  - destruct (String.eqb_spec k' k0) as [-> | Hk0]; simpl.
    + destruct (String.eqb_spec k k0); [contradiction | reflexivity].
    + destruct (String.eqb_spec k k0); [reflexivity | exact IH].
Qed.

Lemma keeps_ret {A} k (a : A) : keeps k (ret a).
Proof. intros s. reflexivity. Qed.

Lemma keeps_lift {A} k (r : result A) : keeps k (lift r).
Proof. intros s. reflexivity. Qed.

Lemma keeps_print k l : keeps k (print l).
Proof. intros s. reflexivity. Qed.

Lemma keeps_get_kpi k k' : keeps k (get_kpi k').
Proof. intros s. unfold get_kpi. now destruct (dict_get k' (kpis s)). Qed.

Lemma keeps_read_team_wins k : keeps k read_team_wins.
Proof. intros s. unfold read_team_wins. now destruct (team_wins s). Qed.

Lemma keeps_read_wickets k : keeps k read_wickets.
Proof. intros s. unfold read_wickets. now destruct (wickets s). Qed.

Lemma keeps_assign_team_wins k w : keeps k (assign_team_wins w).
Proof. intros s. reflexivity. Qed.

Lemma keeps_assign_wickets k w : keeps k (assign_wickets w).
Proof. intros s. reflexivity. Qed.

Lemma keeps_set_kpi k k' v : k <> k' -> keeps k (set_kpi k' v).
Proof. intros H s. simpl. now apply dict_get_set_other. Qed.

Lemma keeps_bind {A B} k (m : M A) (f : A -> M B) :
  keeps k m -> (forall a, keeps k (f a)) -> keeps k (bindM m f).
Proof.
  intros Hm Hf s. unfold bindM. specialize (Hm s).
  destruct (m s) as [[a|e] s1]; simpl in *.
  - rewrite (Hf a s1). exact Hm.
  - exact Hm.
Qed.

Lemma keeps_try {A} k (m : M A) catches (h : exn -> M A) :
  keeps k m -> (forall e, keeps k (h e)) -> keeps k (try_except m catches h).
Proof.
  intros Hm Hh s. unfold try_except. specialize (Hm s).
  destruct (m s) as [[a|e] s1]; simpl in *.
  - exact Hm.
  - destruct (catches e); simpl; [|exact Hm].
    rewrite (Hh e s1). exact Hm.
Qed.

Lemma keeps_run k bs : Forall (keeps k) bs -> keeps k (run bs).
Proof.
  induction 1 as [|b t Hb _ IH]; simpl.
  - apply keeps_ret.
  - apply keeps_bind; [exact Hb | intros _; exact IH].
Qed.

Ltac keeps_tac :=
  repeat first
    [ apply keeps_try | apply keeps_bind | intro
    | apply keeps_set_kpi; first [assumption | discriminate]
    | apply keeps_print | apply keeps_lift | apply keeps_get_kpi
    | apply keeps_read_team_wins | apply keeps_read_wickets
    | apply keeps_assign_team_wins | apply keeps_assign_wickets
    | apply keeps_ret ].

(** Running a list of statements to the end. *)
Lemma run_cons_Ok b rest s s' :
  run (b :: rest) s = (Ok tt, s') ->
  exists s1, b s = (Ok tt, s1) /\ run rest s1 = (Ok tt, s').
Proof.
  simpl. unfold bindM. destruct (b s) as [[[]|e] s1]; [|discriminate].
  intros H. exists s1. auto.
Qed.

Lemma run_app_Ok bs1 bs2 s s' :
  run (bs1 ++ bs2) s = (Ok tt, s') ->
  exists s1, run bs1 s = (Ok tt, s1) /\ run bs2 s1 = (Ok tt, s').
Proof.
  revert s. induction bs1 as [|b t IH]; intros s H.
  - exists s. auto.
  - change ((b :: t) ++ bs2) with (b :: (t ++ bs2)) in H.
    apply run_cons_Ok in H. destruct H as (s1 & Hb & Hr).
    apply IH in Hr. destruct Hr as (s2 & Ht & Hr).
    exists s2. split; [|exact Hr].
    simpl. unfold bindM. now rewrite Hb.
Qed.

(** Each block writes its own keys only. *)
Section BlockKeys.
Variable matches : frame (Match.row Z).
Variable deliveries : frame (Delivery.row Z).
Variable k : string.

Lemma keeps_total_matches :
  k <> "total_matches"%string -> keeps k (total_matches_block matches).
Proof. intros. unfold total_matches_block. keeps_tac. Qed.

Lemma keeps_team_matches :
  k <> "team_matches"%string -> keeps k (team_matches_block matches).
Proof. intros. unfold team_matches_block. keeps_tac. Qed.

Lemma keeps_most_wins :
  k <> "most_wins"%string -> keeps k (most_wins_block matches).
Proof. intros. unfold most_wins_block. keeps_tac. Qed.

Lemma keeps_most_losses :
  k <> "most_losses"%string -> keeps k most_losses_block.
Proof. intros. unfold most_losses_block. keeps_tac. Qed.

Lemma keeps_toss_wins :
  k <> "toss_wins"%string -> k <> "most_toss_wins"%string ->
  keeps k (toss_wins_block matches).
Proof. intros. unfold toss_wins_block. keeps_tac. Qed.

Lemma keeps_orange_cap :
  k <> "orange_cap"%string -> keeps k (orange_cap_block deliveries).
Proof. intros. unfold orange_cap_block. keeps_tac. Qed.

Lemma keeps_purple_cap :
  k <> "purple_cap"%string -> keeps k (purple_cap_block deliveries).
Proof. intros. unfold purple_cap_block. keeps_tac. Qed.

Lemma keeps_most_runs_total :
  k <> "most_runs_total"%string -> keeps k (most_runs_total_block deliveries).
Proof. intros. unfold most_runs_total_block. keeps_tac. Qed.

Lemma keeps_most_wickets_total :
  k <> "most_wickets_total"%string -> keeps k most_wickets_total_block.
Proof. intros. unfold most_wickets_total_block. keeps_tac. Qed.

Lemma keeps_boundaries runs total per_season what :
  k <> total -> k <> per_season ->
  keeps k (boundaries_block deliveries runs total per_season what).
Proof. intros. unfold boundaries_block. keeps_tac. Qed.

Lemma keeps_fielding kind key what :
  k <> key -> keeps k (fielding_block deliveries kind key what).
Proof. intros. unfold fielding_block. keeps_tac. Qed.

Lemma keeps_most_matches_played :
  k <> "most_matches_played"%string ->
  keeps k (most_matches_played_block deliveries).
Proof. intros. unfold most_matches_played_block. keeps_tac. Qed.

Lemma keeps_highest_team_totals :
  k <> "highest_team_totals"%string ->
  keeps k (highest_team_totals_block matches deliveries).
Proof. intros. unfold highest_team_totals_block. keeps_tac. Qed.

Lemma keeps_most_pom_awards :
  k <> "most_pom_awards"%string -> keeps k (most_pom_awards_block matches).
Proof. intros. unfold most_pom_awards_block. keeps_tac. Qed.

Lemma keeps_stadium_matches :
  k <> "stadium_matches"%string -> keeps k (stadium_matches_block matches).
Proof. intros. unfold stadium_matches_block. keeps_tac. Qed.

Lemma keeps_cumulative_runs :
  k <> "cumulative_runs"%string -> keeps k (cumulative_runs_block deliveries).
Proof. intros. unfold cumulative_runs_block. keeps_tac. Qed.
End BlockKeys.

(** Every block but the one that writes a key keeps it. *)
Ltac keeps_block :=
  lazymatch goal with
  | |- keeps _ (total_matches_block _) => apply keeps_total_matches
  | |- keeps _ (team_matches_block _) => apply keeps_team_matches
  | |- keeps _ (most_wins_block _) => apply keeps_most_wins
  | |- keeps _ most_losses_block => apply keeps_most_losses
  | |- keeps _ (toss_wins_block _) => apply keeps_toss_wins
  | |- keeps _ (orange_cap_block _) => apply keeps_orange_cap
  | |- keeps _ (purple_cap_block _) => apply keeps_purple_cap
  | |- keeps _ (most_runs_total_block _) => apply keeps_most_runs_total
  | |- keeps _ most_wickets_total_block => apply keeps_most_wickets_total
  | |- keeps _ (most_sixes_block _) => apply keeps_boundaries
  | |- keeps _ (most_fours_block _) => apply keeps_boundaries
  | |- keeps _ (most_catches_block _) => apply keeps_fielding
  | |- keeps _ (most_stumps_block _) => apply keeps_fielding
  | |- keeps _ (most_run_outs_block _) => apply keeps_fielding
  | |- keeps _ (most_matches_played_block _) => apply keeps_most_matches_played
  | |- keeps _ (highest_team_totals_block _ _) => apply keeps_highest_team_totals
  | |- keeps _ (most_pom_awards_block _) => apply keeps_most_pom_awards
  | |- keeps _ (stadium_matches_block _) => apply keeps_stadium_matches
  | |- keeps _ (cumulative_runs_block _) => apply keeps_cumulative_runs
  end; discriminate.

Ltac keeps_blocks := repeat (constructor; [keeps_block|]); constructor.

(** The entry a key has after the block that writes it is the entry it has
    when [calculate_kpis] returns. *)
Lemma entry_after_block k (pre post : list (M unit)) (w : M unit) s0 s' :
  Forall (keeps k) post ->
  run (pre ++ w :: post) s0 = (Ok tt, s') ->
  exists s1 s2, run pre s0 = (Ok tt, s1) /\ w s1 = (Ok tt, s2)
                /\ dict_get k (kpis s') = dict_get k (kpis s2).
Proof.
  intros Hpost H. apply run_app_Ok in H. destruct H as (s1 & Hpre & H).
  apply run_cons_Ok in H. destruct H as (s2 & Hw & H).
  exists s1, s2. split; [exact Hpre|]. split; [exact Hw|].
  pose proof (keeps_run k post Hpost s2) as K. rewrite H in K. exact K.
Qed.

Lemma calculate_kpis_Ok matches deliveries d printed :
  calculate_kpis matches deliveries = (Ok d, printed) ->
  exists s', run (blocks matches deliveries) initial_state = (Ok tt, s')
             /\ d = kpis s' /\ printed = stdout s'.
Proof.
  unfold calculate_kpis.
  destruct (run (blocks matches deliveries) initial_state) as [[[]|e] s'];
    [|discriminate].
  intros [= <- <-]. exists s'. auto.
Qed.

End StmtFacts.

(* ================================================================== *)
(** ** Group keys, groupby and idxmax *)
(* ================================================================== *)

Module GroupFacts.
Import PyFacts GroupSpec.

#[export] Instance OrdLaws_Z : OrdLaws Z.
Proof.
  split; unfold compare, Ord_Z.
  - apply Z.compare_eq_iff.
  - intros a b. apply Z.compare_antisym.
  - intros a b c. rewrite !Z.compare_lt_iff. lia.
Qed.

Lemma str_compare_eq a : forall b, str_compare a b = Eq <-> a = b.
Proof.
  induction a as [|x a IH]; intros [|y b]; simpl;
    try (split; [discriminate | discriminate]); [tauto|].
  destruct (x ?= y)%N eqn:E.
  - apply N.compare_eq_iff in E. subst. rewrite IH. split; congruence.
  - split; [discriminate|]. intros [= -> _]. rewrite N.compare_refl in E. discriminate.
  - split; [discriminate|]. intros [= -> _]. rewrite N.compare_refl in E. discriminate.
Qed.

Lemma str_compare_antisym a : forall b,
  str_compare b a = CompOpp (str_compare a b).
Proof.
  induction a as [|x a IH]; intros [|y b]; simpl; try reflexivity.
  rewrite (N.compare_antisym x y).
  destruct (x ?= y)%N; simpl; auto.
Qed.

Lemma str_compare_trans a : forall b c,
  str_compare a b = Lt -> str_compare b c = Lt -> str_compare a c = Lt.
Proof.
  induction a as [|x a IH]; intros [|y b] [|z c]; simpl; try discriminate; auto.
  destruct (x ?= y)%N eqn:Exy; try discriminate;
  destruct (y ?= z)%N eqn:Eyz; try discriminate; intros H1 H2.
  - apply N.compare_eq_iff in Exy, Eyz. subst. rewrite N.compare_refl. eauto.
  - apply N.compare_eq_iff in Exy. subst. now rewrite Eyz.
  - apply N.compare_eq_iff in Eyz. subst. now rewrite Exy.
  - rewrite N.compare_lt_iff in Exy, Eyz.
    assert (E : (x ?= z)%N = Lt) by (apply N.compare_lt_iff; lia).
    now rewrite E.
Qed.

#[export] Instance OrdLaws_str : OrdLaws str.
Proof.
  split; unfold compare, Ord_str.
  - intros a b. apply str_compare_eq.
  - intros a b. apply str_compare_antisym.
  - intros a b c. apply str_compare_trans.
Qed.

#[export] Instance OrdLaws_pair {A B} `{OrdLaws A} `{OrdLaws B} : OrdLaws (A * B).
Proof.
  split; unfold compare, Ord_pair.
  - intros [a1 b1] [a2 b2]. simpl.
    destruct (compare a1 a2) eqn:E.
    + apply compare_eq in E. subst. rewrite compare_eq. split; congruence.
    + split; [discriminate|]. intros [= -> _].
      assert (E' : compare a2 a2 = Eq) by now apply compare_eq. congruence.
    + split; [discriminate|]. intros [= -> _].
      assert (E' : compare a2 a2 = Eq) by now apply compare_eq. congruence.
  - intros [a1 b1] [a2 b2]. simpl.
    rewrite (compare_antisym a1 a2).
    destruct (compare a1 a2); simpl; auto. apply compare_antisym.
  - intros [a1 b1] [a2 b2] [a3 b3]. simpl.
    destruct (compare a1 a2) eqn:E12; try discriminate;
    destruct (compare a2 a3) eqn:E23; try discriminate; intros Hab Hbc.
    + apply compare_eq in E12, E23. subst.
      assert (E' : compare a3 a3 = Eq) by now apply compare_eq.
      rewrite E'. eapply compare_trans; eauto.
    + apply compare_eq in E12. subst. now rewrite E23.
    + apply compare_eq in E23. subst. now rewrite E12.
    + now rewrite (compare_trans _ _ _ E12 E23).
Qed.

Section Keys.
Context {K : Type} `{OrdLaws K}.

Lemma compare_refl (a : K) : compare a a = Eq.
Proof. now apply compare_eq. Qed.

Lemma key_eqb_eq (a b : K) : key_eqb a b = true <-> a = b.
Proof.
  unfold key_eqb. rewrite <- compare_eq.
  destruct (compare a b); split; congruence.
Qed.

Lemma key_eqb_refl (a : K) : key_eqb a a = true.
Proof. now apply key_eqb_eq. Qed.

Lemma insert_key_In (k x : K) l : In x (insert_key k l) <-> x = k \/ In x l.
Proof.
  induction l as [|h t IH]; simpl.
  - intuition.
  - destruct (compare k h) eqn:E; simpl.
    + apply compare_eq in E. subst. intuition.
    + intuition.
    + rewrite IH. intuition.
Qed.

Lemma unique_sorted_In (x : K) l : In x (unique_sorted l) <-> In x l.
Proof.
  induction l as [|h t IH]; simpl; [tauto|].
  rewrite insert_key_In, IH. intuition.
Qed.

Lemma insert_key_sorted (k : K) l :
  StronglySorted key_lt l -> StronglySorted key_lt (insert_key k l).
Proof.
  induction 1 as [|h t Ht IH Hh]; simpl.
  - repeat constructor.
  - destruct (compare k h) eqn:E.
    + now constructor.
    + constructor; [now constructor|]. constructor; [exact E|].
      eapply Forall_impl; [|exact Hh]. intros x Hx.
      unfold key_lt in *. eapply compare_trans; eauto.
    + constructor; [exact IH|]. apply Forall_forall. intros x Hx.
      apply insert_key_In in Hx. destruct Hx as [-> | Hx].
      * unfold key_lt. rewrite (compare_antisym k h), E. reflexivity.
      * rewrite Forall_forall in Hh. auto.
Qed.

Lemma unique_sorted_sorted (l : list K) : StronglySorted key_lt (unique_sorted l).
Proof.
  induction l as [|h t IH]; simpl; [constructor | now apply insert_key_sorted].
Qed.

Lemma sorted_NoDup (l : list K) : StronglySorted key_lt l -> NoDup l.
Proof.
  induction 1 as [|h t Ht IH Hh]; constructor; [|exact IH].
  intros Hin. rewrite Forall_forall in Hh. specialize (Hh h Hin).
  unfold key_lt in Hh. rewrite compare_refl in Hh. discriminate.
Qed.

Lemma unique_sorted_NoDup (l : list K) : NoDup (unique_sorted l).
Proof. apply sorted_NoDup, unique_sorted_sorted. Qed.

(** *** groupby *)

Context {R : Type}.
Variable key : R -> option K.

Lemma present_keys_In k (l : list R) :
  In k (present_keys key l) <-> exists r, In r l /\ key r = Some k.
Proof.
  unfold present_keys. rewrite in_flat_map. split.
  - intros (r & Hr & Hk). exists r. split; [exact Hr|].
    destruct (key r) as [k'|]; simpl in Hk; [|contradiction].
    destruct Hk as [-> | []]. reflexivity.
  - intros (r & Hr & E). exists r. split; [exact Hr|]. rewrite E. now left.
Qed.

Lemma in_group_iff k r : in_group key k r = true <-> key r = Some k.
Proof.
  unfold in_group. destruct (key r) as [k'|].
  - rewrite key_eqb_eq. split; congruence.
  - split; discriminate.
Qed.

Lemma groupby_keys (l : list R) :
  map fst (groupby key l) = unique_sorted (present_keys key l).
Proof. unfold groupby. rewrite map_map. apply map_id. Qed.

Lemma groupby_In k g (l : list R) :
  In (k, g) (groupby key l) <->
  In k (present_keys key l) /\ g = filter (in_group key k) l.
Proof.
  unfold groupby. rewrite in_map_iff. split.
  - intros (k' & E & Hk). injection E as -> <-.
    apply (proj1 (unique_sorted_In _ _)) in Hk. split; [exact Hk | reflexivity].
  - intros (Hk & ->). exists k. split; [reflexivity|]. now apply unique_sorted_In.
Qed.

Lemma aggregate_keys {V} (f : list R -> V) (l : list R) :
  map fst (aggregate f (groupby key l)) = unique_sorted (present_keys key l).
Proof.
  unfold aggregate. rewrite map_map. cbn [fst]. apply groupby_keys.
Qed.

Lemma aggregate_In {V} (f : list R -> V) k v (l : list R) :
  In (k, v) (aggregate f (groupby key l)) <->
  (exists r, In r l /\ key r = Some k) /\ v = f (filter (in_group key k) l).
Proof.
  unfold aggregate. rewrite in_map_iff. split.
  - intros ([k' g] & [= -> <-] & Hin). apply groupby_In in Hin.
    destruct Hin as (Hk & ->). apply present_keys_In in Hk. auto.
  - intros (Hk & ->). exists (k, filter (in_group key k) l).
    split; [reflexivity|]. apply groupby_In. split; [|reflexivity].
    now apply present_keys_In.
Qed.

Lemma aggregate_NoDup {V} (f : list R -> V) (l : list R) :
  NoDup (map fst (aggregate f (groupby key l))).
Proof. rewrite aggregate_keys. apply unique_sorted_NoDup. Qed.
End Keys.

(** *** idxmax and loc *)

Lemma first_max_In {A} (val : A -> Z) l : forall best,
  In (first_max val best l) (best :: l).
Proof.
  induction l as [|x t IH]; intros best; simpl; [now left|].
  destruct (val best <? val x).
  - right. apply IH.
  - destruct (IH best) as [E | Hin]; auto.
Qed.

Lemma first_max_ge {A} (val : A -> Z) l : forall best x,
  In x (best :: l) -> val x <= val (first_max val best l).
Proof.
  induction l as [|y t IH]; intros best x Hx; simpl.
  - destruct Hx as [-> | []]. lia.
  - destruct (val best <? val y) eqn:E.
    + apply Z.ltb_lt in E. destruct Hx as [-> | Hx].
      * specialize (IH y y (or_introl eq_refl)). lia.
      * apply IH. exact Hx.
    + apply Z.ltb_ge in E. destruct Hx as [-> | [-> | Hx]].
      * apply IH. now left.
      * specialize (IH best best (or_introl eq_refl)). lia.
      * apply IH. now right.
Qed.

Lemma combine_seq_nth {A} (l : list A) : forall start i a,
  In (i, a) (combine (seq start (List.length l)) l) ->
  (start <= i)%nat /\ nth_error l (i - start) = Some a.
Proof.
  induction l as [|x t IH]; intros start i a Hin; simpl in Hin; [contradiction|].
  destruct Hin as [[= <- <-] | Hin].
  - split; [lia|]. now rewrite Nat.sub_diag.
  - apply IH in Hin. destruct Hin as (Hle & Hn). split; [lia|].
    replace (i - start)%nat with (S (i - S start)) by lia. exact Hn.
Qed.

Lemma with_index_nth {A} (l : list A) i a :
  In (i, a) (with_index l) -> nth_error l i = Some a.
Proof.
  intros H. apply combine_seq_nth in H. destruct H as (_ & H).
  now rewrite Nat.sub_0_r in H.
Qed.

Lemma with_index_snd {A} (l : list A) : map snd (with_index l) = l.
Proof.
  unfold with_index. generalize 0%nat.
  induction l as [|x t IH]; intros n; simpl; [reflexivity|].
  f_equal. apply IH.
Qed.

Lemma with_index_In {A} (l : list A) a :
  In a l -> exists i, In (i, a) (with_index l).
Proof.
  intros H. rewrite <- (with_index_snd l) in H.
  apply in_map_iff in H. destruct H as ([i a'] & E & H). simpl in E. subst.
  now exists i.
Qed.

Lemma loc_idxmax_group {A} (val : A -> Z) (t : list A) (g : list (nat * A)) :
  incl g (with_index t) -> loc t (idxmax val g) = leader val g.
Proof.
  intros Hg. destruct g as [|x r]; [reflexivity|].
  unfold idxmax, leader, loc. cbn [flat_map]. rewrite app_nil_r.
  pose proof (first_max_In (fun p => val (snd p)) r x) as Hin.
  apply Hg in Hin.
  destruct (first_max (fun p => val (snd p)) x r) as [i a].
  apply with_index_nth in Hin. cbn [fst snd]. now rewrite Hin.
Qed.

Lemma loc_flat_map {A B} (t : list A) (f : B -> list nat) (l : list B) :
  loc t (flat_map f l) = flat_map (fun b => loc t (f b)) l.
Proof.
  unfold loc. induction l as [|b r IH]; simpl; [reflexivity|].
  rewrite flat_map_app. f_equal. exact IH.
Qed.

Lemma flat_map_ext_in {A B} (f g : A -> list B) l :
  (forall a, In a l -> f a = g a) -> flat_map f l = flat_map g l.
Proof.
  induction l as [|a t IH]; intros H; simpl; [reflexivity|].
  rewrite (H a (or_introl eq_refl)). f_equal. apply IH.
  intros; apply H; now right.
Qed.

Section Leaders.
Context {A K : Type} `{OrdLaws K}.
Variable key : A -> K.
Variable val : A -> Z.
Variable t : list A.


Lemma loc_idxmax_leaders :
  loc_idxmax key val t
  = flat_map (fun g => leader val (snd g)) (groupby (index_key key) (with_index t)).
Proof.
  unfold loc_idxmax.
  change (fun r : nat * A => Some (key (snd r))) with (index_key key). rewrite loc_flat_map.
  apply flat_map_ext_in. intros [k g] Hin.
  apply groupby_In in Hin. destruct Hin as (_ & ->).
  apply loc_idxmax_group. intros x Hx. apply filter_In in Hx. tauto.
Qed.

Lemma index_keys : present_keys (index_key key) (with_index t) = map key t.
Proof.
  rewrite <- (with_index_snd t) at 2. unfold present_keys, index_key.
  induction (with_index t) as [|x r IH]; simpl; [reflexivity|]. now f_equal.
Qed.

Lemma group_nonempty k :
  In k (map key t) -> filter (in_group (index_key key) k) (with_index t) <> [].
Proof.
  intros Hk E. apply in_map_iff in Hk. destruct Hk as (a & <- & Ha).
  apply with_index_In in Ha. destruct Ha as (i & Hi).
  assert (Hin : In (i, a) (filter (in_group (index_key key) (key a)) (with_index t))).
  { apply filter_In. split; [exact Hi|]. apply in_group_iff. reflexivity. }
  rewrite E in Hin. contradiction.
Qed.

(** The keys of the leader rows are the distinct keys of the table, in
    ascending order. *)
Lemma leaders_keys :
  map key (loc_idxmax key val t) = unique_sorted (map key t).
Proof.
  rewrite loc_idxmax_leaders. unfold groupby. rewrite index_keys.
  assert (Hall : forall k, In k (unique_sorted (map key t)) -> In k (map key t))
    by (intros k; apply unique_sorted_In).
  induction (unique_sorted (map key t)) as [|k ks IH]; [reflexivity|].
  cbn [map flat_map snd]. rewrite map_app, IH by (intros; apply Hall; now right).
  pose proof (group_nonempty k (Hall k (or_introl eq_refl))) as Hne.
  destruct (filter (in_group (index_key key) k) (with_index t)) as [|x r] eqn:E;
    [congruence|].
  cbn [leader map app]. f_equal.
  pose proof (first_max_In (fun p => val (snd p)) r x) as Hin.
  rewrite <- E in Hin. apply filter_In in Hin. destruct Hin as (_ & Hin).
  apply in_group_iff in Hin. unfold index_key in Hin. congruence.
Qed.

(** A leader row is a row of the table, and no row with its key has a
    larger value. *)
Lemma leaders_max r :
  In r (loc_idxmax key val t) ->
  In r t /\ forall r', In r' t -> key r' = key r -> val r' <= val r.
Proof.
  rewrite loc_idxmax_leaders. rewrite in_flat_map.
  intros ([k g] & Hg & Hr). apply groupby_In in Hg. destruct Hg as (_ & ->).
  cbn [snd] in Hr.
  destruct (filter (in_group (index_key key) k) (with_index t)) as [|x rest] eqn:E;
    [contradiction|].
  destruct Hr as [<- | []].
  pose proof (first_max_In (fun p => val (snd p)) rest x) as Hin.
  rewrite <- E in Hin. apply filter_In in Hin. destruct Hin as (Hin & Hk).
  apply in_group_iff in Hk. unfold index_key in Hk. injection Hk as Hk.
  split.
  - rewrite <- (with_index_snd t). apply in_map. exact Hin.
  - intros r' Hr' Ekey. apply with_index_In in Hr'. destruct Hr' as (i & Hi).
    apply (first_max_ge (fun p => val (snd p)) rest x (i, r')).
    rewrite <- E. apply filter_In. split; [exact Hi|].
    apply in_group_iff. unfold index_key. cbn [snd]. congruence.
Qed.
End Leaders.

End GroupFacts.

(* ================================================================== *)
(** ** Per-season leaders *)
(* ================================================================== *)


Module LeaderFacts.
Import PyFacts GroupSpec GroupFacts StmtSpec StmtFacts LeaderSpec.

Lemma bool_ext (a b : bool) : (a = true <-> b = true) -> a = b.
Proof. destruct a, b; intuition congruence. Qed.

Lemma need_has {R} (f : frame R) c : has_column f c = true -> need f c = Ok tt.
Proof. unfold need. now intros ->. Qed.

Lemma needs_has {R} (f : frame R) labels :
  has_columns f labels -> needs f labels = Ok tt.
Proof.
  induction 1 as [|c t Hc _ IH]; [reflexivity|].
  unfold needs in *. cbn [fold_right]. rewrite (need_has _ _ Hc). exact IH.
Qed.

Lemma groupby_agg_has {R K V} `{Ord K} (f : frame R) keys
  (key : R -> option K) value (agg : list R -> V) :
  has_columns f keys -> has_column f value = true ->
  groupby_agg f keys key value agg = Ok (aggregate agg (groupby key (rows f))).
Proof.
  intros Hk Hv. unfold groupby_agg.
  now rewrite (needs_has _ _ Hk), (need_has _ _ Hv).
Qed.

Lemma where_has {R A} (f : frame R) label (field : R -> A) p :
  has_column f label = true ->
  where_ f label field p
  = Ok (with_rows f (filter (fun r => p (field r)) (rows f))).
Proof. intros H. unfold where_. now rewrite (need_has _ _ H). Qed.

Lemma column_has {R A} (f : frame R) label (field : R -> A) :
  has_column f label = true -> column f label field = Ok (map field (rows f)).
Proof. intros H. unfold column. now rewrite (need_has _ _ H). Qed.

Lemma has_column_with_rows {R} (f : frame R) l c :
  has_column (with_rows f l) c = has_column f c.
Proof. reflexivity. Qed.

Lemma has_columns_with_rows {R} (f : frame R) l labels :
  has_columns f labels -> has_columns (with_rows f l) labels.
Proof. exact (fun H => H). Qed.

Lemma has_columns_In {R} (f : frame R) labels c :
  has_columns f labels -> In c labels -> has_column f c = true.
Proof. unfold has_columns. rewrite Forall_forall. auto. Qed.

Lemma has_columns_sub {R} (f : frame R) labels sub :
  has_columns f labels -> incl sub labels -> has_columns f sub.
Proof.
  unfold has_columns. rewrite !Forall_forall. intros H Hs c Hc. auto.
Qed.

(** The group of a (season, player) key is the deliveries of the player
    in the season. *)
Lemma in_group_of_player (who : Delivery.row Z -> str) s p d :
  in_group (fun d => Some (Delivery.season d, who d)) (s, p) d
  = of_player who s p d.
Proof.
  apply bool_ext. rewrite in_group_iff. unfold of_player.
  rewrite andb_true_iff, Z.eqb_eq, str_eqb_eq. split.
  - intros [= -> ->]. auto.
  - intros [-> ->]. reflexivity.
Qed.

(** The leaders of a table aggregated by (season, player). *)
Lemma season_leaders_table entering who metric :
  leader_table entering who metric
    (season_leaders
       (aggregate metric
          (groupby (fun d => Some (Delivery.season d, who d)) entering))).
Proof.
  set (key := fun d : Delivery.row Z => Some (Delivery.season d, who d)).
  set (t := aggregate metric (groupby key entering)).
  assert (Hrow : forall s p v,
    In (s, p, v) t <->
    (exists d, In d entering /\ Delivery.season d = s /\ who d = p)
    /\ v = metric (filter (of_player who s p) entering)).
  { intros s p v. unfold t. rewrite aggregate_In.
    rewrite (filter_ext _ _ (in_group_of_player who s p)).
    split; intros ((d & Hd & E) & Hv); (split; [|exact Hv]); exists d.
    - unfold key in E. injection E as <- <-. auto.
    - destruct E as (<- & <-). auto. }
  assert (Hseason : forall s,
    In s (map row_season t) <-> exists d, In d entering /\ Delivery.season d = s).
  { intros s. rewrite in_map_iff. split.
    - intros ([[s' p] v] & <- & Hin). apply Hrow in Hin.
      destruct Hin as ((d & Hd & Es & _) & _). exists d. auto.
    - intros (d & Hd & <-).
      exists (Delivery.season d, who d,
              metric (filter (of_player who (Delivery.season d) (who d)) entering)).
      split; [reflexivity|]. apply Hrow. split; [|reflexivity]. exists d. auto. }
  unfold season_leaders. split.
  - change row_season with (fun r : Z * str * Z => fst (fst r)).
    rewrite leaders_keys. apply unique_sorted_NoDup.
  - intros s. change row_season with (fun r : Z * str * Z => fst (fst r)).
    rewrite leaders_keys, unique_sorted_In. apply Hseason.
  - intros s p v Hin. apply leaders_max in Hin. destruct Hin as (Hin & Hmax).
    apply Hrow in Hin. destruct Hin as (Hex & Hv).
    split; [exact Hex|]. split; [exact Hv|].
    intros d' Hd' Es.
    apply (Hmax (s, who d', metric (filter (of_player who s (who d')) entering)));
      [|reflexivity].
    apply Hrow. split; [|reflexivity]. exists d'. auto.
Qed.

(** *** The four blocks *)

Section Blocks.
Variable deliveries : frame (Delivery.row Z).

Lemma orange_cap_entry s1 r s2 :
  has_columns deliveries ["season"; "batter"; "batsman_runs"]%string ->
  orange_cap_block deliveries s1 = (r, s2) ->
  dict_get "orange_cap" (kpis s2)
  = Some (SeasonLeaders (season_leaders
      (aggregate (sum_of Delivery.batsman_runs)
         (groupby (fun d => Some (Delivery.season d, Delivery.batter d))
                  (rows deliveries))))).
Proof.
  intros Hc. unfold orange_cap_block, try_except, bindM, lift, runs_per_season.
  rewrite groupby_agg_has.
  - intros [= _ <-]. apply dict_get_set_same.
  - eapply has_columns_sub; [exact Hc|]. intros c [<-|[<-|[]]]; simpl; auto.
  - eapply has_columns_In; [exact Hc|]. simpl; auto.
Qed.

Lemma purple_cap_entry s1 r s2 :
  has_columns deliveries
    ["dismissal_kind"; "season"; "bowler"; "player_dismissed"]%string ->
  purple_cap_block deliveries s1 = (r, s2) ->
  dict_get "purple_cap" (kpis s2)
  = Some (SeasonLeaders (season_leaders
      (aggregate (count_of Delivery.player_dismissed)
         (groupby (fun d => Some (Delivery.season d, Delivery.bowler d))
                  (filter credits_bowler (rows deliveries)))))).
Proof.
  intros Hc.
  unfold purple_cap_block, try_except, bindM, lift, count_per_season.
  rewrite where_has by (eapply has_columns_In; [exact Hc | simpl; auto]).
  cbn [assign_wickets]. rewrite groupby_agg_has.
  - intros [= _ <-]. apply dict_get_set_same.
  - apply has_columns_with_rows.
    eapply has_columns_sub; [exact Hc|]. intros c [<-|[<-|[]]]; simpl; auto.
  - rewrite has_column_with_rows.
    eapply has_columns_In; [exact Hc|]. simpl; auto.
Qed.

Lemma boundaries_entry runs total per_season what s1 r s2 :
  has_columns deliveries ["batsman_runs"; "batter"; "season"]%string ->
  boundaries_block deliveries runs total per_season what s1 = (r, s2) ->
  dict_get per_season (kpis s2)
  = Some (SeasonLeaders (season_leaders
      (aggregate (count_of (fun d => Some (Delivery.batsman_runs d)))
         (groupby (fun d => Some (Delivery.season d, Delivery.batter d))
                  (filter (scores runs) (rows deliveries)))))).
Proof.
  intros Hc.
  assert (H1 : has_column deliveries "batsman_runs" = true)
    by (eapply has_columns_In; [exact Hc | simpl; auto]).
  assert (H2 : has_column deliveries "batter" = true)
    by (eapply has_columns_In; [exact Hc | simpl; auto]).
  assert (H3 : has_column deliveries "season" = true)
    by (eapply has_columns_In; [exact Hc | simpl; auto]).
  unfold boundaries_block, try_except, bindM, lift, count_per_season, top10_count.
  rewrite where_has by exact H1.
  rewrite !groupby_agg_has; try (repeat constructor; assumption); try assumption.
  cbn [bind set_kpi]. intros [= _ <-]. apply dict_get_set_same.
Qed.
End Blocks.

End LeaderFacts.

Module LeaderTheorems.
Import PyFacts GroupSpec GroupFacts StmtSpec StmtFacts LeaderSpec LeaderFacts.

Lemma nth_error_split {A} (l : list A) n a :
  nth_error l n = Some a -> l = firstn n l ++ a :: skipn (S n) l.
Proof.
  revert l. induction n as [|n IH]; intros [|x t] H; try discriminate.
  - injection H as ->. reflexivity.
  - simpl. f_equal. now apply IH.
Qed.

(** The entry of a key when [calculate_kpis] returns is the one left by the
    block that writes it, when no later block writes the key. *)
Lemma entry_at k n w bs s0 s' :
  nth_error bs n = Some w ->
  Forall (keeps k) (skipn (S n) bs) ->
  run bs s0 = (Ok tt, s') ->
  exists s1 s2, run (firstn n bs) s0 = (Ok tt, s1) /\ w s1 = (Ok tt, s2)
                /\ dict_get k (kpis s') = dict_get k (kpis s2).
Proof.
  intros Hn Hpost Hrun. rewrite (nth_error_split _ _ _ Hn) in Hrun.
  exact (entry_after_block _ _ _ _ _ _ Hpost Hrun).
Qed.

(** C5, as amended. When [calculate_kpis] returns for deliveries that have
    the columns read, each per-season leader table has exactly one row for
    each season in which a delivery enters the table, and the row names a
    player who holds the maximum of the season: every delivery enters the
    orange cap (summed batter runs); the deliveries with a dismissal
    credited to the bowler enter the purple cap (counted dismissed-player
    cells); the deliveries scoring six, or four, enter the sixes and the
    fours leaders (counted balls). A season without such a delivery has no
    row in that table. *)
Theorem season_leader_tables matches deliveries kp printed :
  has_columns deliveries
    ["season"; "batter"; "bowler"; "batsman_runs"; "dismissal_kind";
     "player_dismissed"]%string ->
  calculate_kpis matches deliveries = (Ok kp, printed) ->
  exists orange purple sixes fours,
    dict_get "orange_cap" kp = Some (SeasonLeaders orange)
    /\ leader_table (rows deliveries)
         Delivery.batter (sum_of Delivery.batsman_runs) orange
    /\ dict_get "purple_cap" kp = Some (SeasonLeaders purple)
    /\ leader_table (filter credits_bowler (rows deliveries))
         Delivery.bowler (count_of Delivery.player_dismissed) purple
    /\ dict_get "most_sixes_per_season" kp = Some (SeasonLeaders sixes)
    /\ leader_table (filter (scores 6) (rows deliveries))
         Delivery.batter (count_of (fun d => Some (Delivery.batsman_runs d))) sixes
    /\ dict_get "most_fours_per_season" kp = Some (SeasonLeaders fours)
    /\ leader_table (filter (scores 4) (rows deliveries))
         Delivery.batter (count_of (fun d => Some (Delivery.batsman_runs d))) fours.
Proof.
  intros Hc H. apply calculate_kpis_Ok in H. destruct H as (s' & Hrun & -> & _).
  assert (Hcol : forall c, In c
            ["season"; "batter"; "bowler"; "batsman_runs"; "dismissal_kind";
             "player_dismissed"]%string -> has_column deliveries c = true)
    by (intros c; apply has_columns_In; exact Hc).
  assert (Hsub : forall sub, Forall (fun c => In c
            ["season"; "batter"; "bowler"; "batsman_runs"; "dismissal_kind";
             "player_dismissed"]%string) sub -> has_columns deliveries sub).
  { intros sub Hs. eapply Forall_impl; [|exact Hs]. exact Hcol. }
  clear Hc Hcol.
  do 4 eexists.
  split; [|split; [apply season_leaders_table|]].
  { destruct (entry_at "orange_cap" 5 (orange_cap_block deliveries) (blocks matches deliveries) _ _
                eq_refl ltac:(cbn [skipn blocks]; keeps_blocks) Hrun)
      as (s1 & s2 & _ & Hw & ->).
    eapply orange_cap_entry; [|exact Hw].
    apply Hsub. repeat constructor; cbn [In]; tauto. }
  split; [|split; [apply season_leaders_table|]].
  { destruct (entry_at "purple_cap" 6 (purple_cap_block deliveries) (blocks matches deliveries) _ _
                eq_refl ltac:(cbn [skipn blocks]; keeps_blocks) Hrun)
      as (s1 & s2 & _ & Hw & ->).
    eapply purple_cap_entry; [|exact Hw].
    apply Hsub. repeat constructor; cbn [In]; tauto. }
  split; [|split; [apply season_leaders_table|]].
  { destruct (entry_at "most_sixes_per_season" 9 (most_sixes_block deliveries) (blocks matches deliveries) _ _
                eq_refl ltac:(cbn [skipn blocks]; keeps_blocks) Hrun)
      as (s1 & s2 & _ & Hw & ->).
    eapply boundaries_entry; [|exact Hw].
    apply Hsub. repeat constructor; cbn [In]; tauto. }
  split; [|apply season_leaders_table].
  { destruct (entry_at "most_fours_per_season" 10 (most_fours_block deliveries) (blocks matches deliveries) _ _
                eq_refl ltac:(cbn [skipn blocks]; keeps_blocks) Hrun)
      as (s1 & s2 & _ & Hw & ->).
    eapply boundaries_entry; [|exact Hw].
    apply Hsub. repeat constructor; cbn [In]; tauto. }
Qed.

(** The league: the 2008 season has boundaries and a wicket, the 2009
    season has neither. *)
Lemma season_leader_tables_witness :
  exists orange purple sixes fours,
    dict_get "orange_cap" League.kpis = Some (SeasonLeaders orange)
    /\ leader_table (rows League.deliveries)
         Delivery.batter (sum_of Delivery.batsman_runs) orange
    /\ dict_get "purple_cap" League.kpis = Some (SeasonLeaders purple)
    /\ leader_table (filter credits_bowler (rows League.deliveries))
         Delivery.bowler (count_of Delivery.player_dismissed) purple
    /\ dict_get "most_sixes_per_season" League.kpis = Some (SeasonLeaders sixes)
    /\ leader_table (filter (scores 6) (rows League.deliveries))
         Delivery.batter (count_of (fun d => Some (Delivery.batsman_runs d))) sixes
    /\ dict_get "most_fours_per_season" League.kpis = Some (SeasonLeaders fours)
    /\ leader_table (filter (scores 4) (rows League.deliveries))
         Delivery.batter (count_of (fun d => Some (Delivery.batsman_runs d))) fours.
Proof.
  apply (season_leader_tables League.matches League.deliveries League.kpis []).
  - repeat constructor.
  - vm_compute. reflexivity.
Defined.

(** C5, as stated, fails for the purple cap and for the sixes and fours
    leaders: the league's deliveries have the seasons 2008 and 2009, and
    these three tables have a row for 2008 only. *)
Lemma season_without_leader :
  calculate_kpis League.matches League.deliveries = (Ok League.kpis, [])
  /\ In 2009 (map Delivery.season (rows League.deliveries))
  /\ dict_get "orange_cap" League.kpis
     = Some (SeasonLeaders [(2008, u "BB McCullum", 16); (2009, u "SR Tendulkar", 5)])
  /\ dict_get "purple_cap" League.kpis
     = Some (SeasonLeaders [(2008, u "Z Khan", 1)])
  /\ dict_get "most_sixes_per_season" League.kpis
     = Some (SeasonLeaders [(2008, u "BB McCullum", 2)])
  /\ dict_get "most_fours_per_season" League.kpis
     = Some (SeasonLeaders [(2008, u "BB McCullum", 1)]).
Proof.
  split; [vm_compute; reflexivity|].
  split; [vm_compute; tauto|].
  repeat split; reflexivity.
Qed.

End LeaderTheorems.

(* ================================================================== *)
(** ** Failure isolation and the saved artifacts *)
(* ================================================================== *)


Module IsolationFacts.
Import StmtSpec StmtFacts LeaderSpec LeaderFacts.

Lemma only_Ok {A} (a : A) : only_KeyError (Ok a).
Proof. intros e H. discriminate. Qed.

Lemma only_bind {A B} (r : result A) (f : A -> result B) :
  only_KeyError r -> (forall a, only_KeyError (f a)) -> only_KeyError (bind r f).
Proof.
  intros Hr Hf e. destruct r as [a|e']; simpl.
  - apply Hf.
  - intros [= <-]. now apply Hr.
Qed.

Lemma only_need {R} (f : frame R) c : only_KeyError (need f c).
Proof.
  intros e. unfold need. destruct (has_column f c); [discriminate|].
  intros [= <-]. reflexivity.
Qed.

Lemma only_needs {R} (f : frame R) labels : only_KeyError (needs f labels).
Proof.
  induction labels as [|c t IH]; [apply only_Ok|].
  unfold needs in *. cbn [fold_right].
  apply only_bind; [apply only_need | intros _; exact IH].
Qed.

Lemma only_column {R A} (f : frame R) c (field : R -> A) :
  only_KeyError (column f c field).
Proof. apply only_bind; [apply only_need | intros; apply only_Ok]. Qed.

Lemma only_where {R A} (f : frame R) c (field : R -> A) p :
  only_KeyError (where_ f c field p).
Proof. apply only_bind; [apply only_need | intros; apply only_Ok]. Qed.

Lemma only_groupby_agg {R K V} `{Ord K} (f : frame R) keys
  (key : R -> option K) value (agg : list R -> V) :
  only_KeyError (groupby_agg f keys key value agg).
Proof.
  apply only_bind; [apply only_needs | intros _].
  apply only_bind; [apply only_need | intros; apply only_Ok].
Qed.

(** A block whose body is one computation that raises only [KeyError],
    followed by assignments, under a handler for [KeyError]. *)
Lemma try_KeyError_never_raises {A} (r : result A) (k : A -> M unit)
  (h : exn -> M unit) :
  only_KeyError r ->
  (forall a, never_raises (k a)) -> (forall e, never_raises (h e)) ->
  never_raises (try_except (bindM (lift r) k) is_KeyError h).
Proof.
  intros Hr Hk Hh s. unfold try_except, bindM, lift.
  destruct r as [a|e].
  - destruct (Hk a s) as (s' & E). rewrite E. now exists s'.
  - rewrite (Hr e eq_refl). apply Hh.
Qed.

Lemma set_kpi_never_raises k v : never_raises (set_kpi k v).
Proof. intros s. eexists. reflexivity. Qed.

Lemma print_then_set_never_raises l k v :
  never_raises (bindM (print l) (fun _ => set_kpi k v)).
Proof. intros s. eexists. reflexivity. Qed.

Section Blocks.
Variable matches : frame (Match.row Z).
Variable deliveries : frame (Delivery.row Z).

Lemma total_matches_never_raises : never_raises (total_matches_block matches).
Proof. intros s. eexists. reflexivity. Qed.

Lemma team_matches_never_raises : never_raises (team_matches_block matches).
Proof.
  intros s. unfold team_matches_block, try_except, bindM, lift.
  destruct (column matches "team1" Match.team1) as [t1|e] eqn:E1.
  - destruct (column matches "team2" Match.team2) as [t2|e] eqn:E2.
    + eexists. reflexivity.
    + rewrite (only_column _ _ _ e E2). eexists. reflexivity.
  - rewrite (only_column _ _ _ e E1). eexists. reflexivity.
Qed.

Lemma most_wins_never_raises : never_raises (most_wins_block matches).
Proof.
  intros s. unfold most_wins_block, try_except, bindM, lift.
  destruct (where_ matches "winner" Match.winner _) as [decided|e] eqn:E1.
  - destruct (column decided "winner" Match.winner) as [w|e] eqn:E2.
    + eexists. reflexivity.
    + rewrite (only_column _ _ _ e E2). eexists. reflexivity.
  - rewrite (only_where _ _ _ _ e E1). eexists. reflexivity.
Qed.

(** The block of the losses never raises once team_matches holds a
    Series. *)
Lemma most_losses_never_raises s tm :
  dict_get "team_matches" (kpis s) = Some (Series tm) ->
  exists s', most_losses_block s = (Ok tt, s').
Proof.
  intros Hk.
  unfold most_losses_block, try_except, bindM, get_kpi, read_team_wins, lift.
  rewrite Hk. cbv beta iota. cbn [series_of]. cbv beta iota.
  destruct (team_wins s) as [w|].
  - cbv beta iota. rewrite Hk. cbv beta iota. cbn [series_of].
    eexists. reflexivity.
  - eexists. reflexivity.
Qed.

Lemma toss_wins_never_raises : never_raises (toss_wins_block matches).
Proof.
  intros s. unfold toss_wins_block, try_except, bindM, lift.
  destruct (column matches "toss_winner" Match.toss_winner) as [t|e] eqn:E.
  - unfold set_kpi at 1. cbv beta iota. unfold get_kpi.
    cbn [kpis]. rewrite dict_get_set_same. cbv beta iota. cbn [series_of].
    eexists. reflexivity.
  - rewrite (only_column _ _ _ e E). eexists. reflexivity.
Qed.

Lemma orange_cap_never_raises : never_raises (orange_cap_block deliveries).
Proof.
  apply try_KeyError_never_raises.
  - apply only_groupby_agg.
  - intros; apply set_kpi_never_raises.
  - intros; apply print_then_set_never_raises.
Qed.

Lemma most_runs_total_never_raises :
  never_raises (most_runs_total_block deliveries).
Proof.
  apply try_KeyError_never_raises.
  - apply only_groupby_agg.
  - intros; apply set_kpi_never_raises.
  - intros; apply print_then_set_never_raises.
Qed.

Lemma most_runs_total_keeps_wickets :
  keeps_wickets (most_runs_total_block deliveries).
Proof.
  intros s. unfold most_runs_total_block, try_except, bindM, lift.
  destruct (groupby_agg _ _ _ _ _) as [t|e]; [reflexivity|].
  destruct (is_KeyError e); reflexivity.
Qed.

(** The purple cap block never raises, and it binds [wickets] when the
    deliveries have a dismissal kind, whether or not the rest of the block
    succeeds. *)
Lemma purple_cap_binds_wickets s :
  has_column deliveries "dismissal_kind" = true ->
  exists s', purple_cap_block deliveries s = (Ok tt, s')
    /\ wickets s'
       = Some (with_rows deliveries
                 (filter (fun d => isin bowler_wickets (Delivery.dismissal_kind d))
                         (rows deliveries))).
Proof.
  intros Hc. unfold purple_cap_block, try_except, bindM, lift.
  rewrite (where_has _ _ _ _ Hc). unfold assign_wickets at 1. cbv beta iota.
  destruct (count_per_season _ _ _ _ _) as [t|e] eqn:E.
  - eexists. split; reflexivity.
  - rewrite (only_groupby_agg _ _ _ _ _ e E). eexists. split; reflexivity.
Qed.
End Blocks.

Lemma run_cons_step b rest s s1 :
  b s = (Ok tt, s1) -> run (b :: rest) s = run rest s1.
Proof. intros H. simpl. unfold bindM. now rewrite H. Qed.

Lemma run_cons_raise b rest s e s1 :
  b s = (Raise e, s1) -> run (b :: rest) s = (Raise e, s1).
Proof. intros H. simpl. unfold bindM. now rewrite H. Qed.

End IsolationFacts.

Module ProcessorTheorems.
Import StmtSpec StmtFacts SaveSpec LeaderSpec LeaderFacts IsolationFacts.

(** C1. One KPI's failure can abort all the others. Whenever the
    deliveries have the dismissal_kind column and lack the bowler column,
    the purple cap block binds [wickets], fails on the missing column and
    recovers; the block of the overall wickets, whose handler catches
    [NameError] only, then lets the [KeyError] escape; the outer handler
    raises, and no KPI is returned at all. *)
Theorem missing_bowler_aborts_all matches deliveries :
  has_column deliveries "dismissal_kind" = true ->
  has_column deliveries "bowler" = false ->
  exists printed,
    calculate_kpis matches deliveries
    = (Raise (Exception_ (KeyError "bowler")), printed).
Proof.
  intros Hkind Hbowler. unfold calculate_kpis, blocks.
  destruct (total_matches_never_raises matches initial_state) as (s1 & E1).
  rewrite (run_cons_step _ _ _ _ E1).
  destruct (team_matches_never_raises matches s1) as (s2 & E2).
  rewrite (run_cons_step _ _ _ _ E2).
  destruct (most_wins_never_raises matches s2) as (s3 & E3).
  rewrite (run_cons_step _ _ _ _ E3).
  assert (Htm : exists tm, dict_get "team_matches" (kpis s3) = Some (Series tm)).
  { pose proof (keeps_most_wins matches "team_matches" ltac:(discriminate) s2) as K.
    rewrite E3 in K. cbn [snd] in K. rewrite K.
    revert E2. unfold team_matches_block, try_except, bindM, lift.
    destruct (column matches "team1" Match.team1) as [t1|e].
    - destruct (column matches "team2" Match.team2) as [t2|e].
      + intros [= <-]. eexists. apply dict_get_set_same.
      + destruct (is_KeyError e); [|discriminate].
        intros [= <-]. eexists. apply dict_get_set_same.
    - destruct (is_KeyError e); [|discriminate].
      intros [= <-]. eexists. apply dict_get_set_same. }
  destruct Htm as (tm & Htm).
  destruct (most_losses_never_raises s3 tm Htm) as (s4 & E4).
  rewrite (run_cons_step _ _ _ _ E4).
  destruct (toss_wins_never_raises matches s4) as (s5 & E5).
  rewrite (run_cons_step _ _ _ _ E5).
  destruct (orange_cap_never_raises deliveries s5) as (s6 & E6).
  rewrite (run_cons_step _ _ _ _ E6).
  destruct (purple_cap_binds_wickets deliveries s6 Hkind) as (s7 & E7 & Hw7).
  rewrite (run_cons_step _ _ _ _ E7).
  destruct (most_runs_total_never_raises deliveries s7) as (s8 & E8).
  rewrite (run_cons_step _ _ _ _ E8).
  assert (Hw8 : wickets s8 = wickets s7).
  { pose proof (most_runs_total_keeps_wickets deliveries s7) as K.
    now rewrite E8 in K. }
  rewrite (run_cons_raise most_wickets_total_block _ s8 (KeyError "bowler") s8).
  - eexists. reflexivity.
  - unfold most_wickets_total_block, try_except, bindM, read_wickets, lift.
    rewrite Hw8, Hw7. cbv beta iota.
    unfold top10_count, groupby_agg, needs. cbn [fold_right].
    unfold need at 1. rewrite has_column_with_rows, Hbowler. reflexivity.
Qed.

(** The league without the bowler column. *)
Lemma missing_bowler_aborts_all_witness :
  has_column (League.without "bowler" League.deliveries) "dismissal_kind" = true
  /\ has_column (League.without "bowler" League.deliveries) "bowler" = false
  /\ calculate_kpis League.matches (League.without "bowler" League.deliveries)
     = (Raise (Exception_ (KeyError "bowler")),
        [Missing_column (KeyError "bowler") "purple cap"])
  /\ exists printed,
       calculate_kpis League.matches (League.without "bowler" League.deliveries)
       = (Raise (Exception_ (KeyError "bowler")), printed).
Proof.
  split; [reflexivity|]. split; [reflexivity|].
  split; [vm_compute; reflexivity|].
  apply (missing_bowler_aborts_all League.matches
           (League.without "bowler" League.deliveries)); reflexivity.
Defined.

(** A second way in which one failure reaches another KPI: without the
    season column the count of fours per batter is computed, and the
    handler of the block, entered for the per-season table, overwrites it
    with an empty Series. *)
Lemma missing_season_blanks_most_fours :
  exists d printed,
    calculate_kpis League.matches (League.without "season" League.deliveries)
    = (Ok d, printed)
    /\ In (Missing_column (KeyError "season") "fours") printed
    /\ dict_get "most_fours" d = Some (Series [])
    /\ dict_get "most_fours" League.kpis = Some (Series [(u "BB McCullum", 1)]).
Proof.
  eexists _, _. split; [vm_compute; reflexivity|].
  split; [cbn; tauto|]. split; reflexivity.
Qed.

Lemma save_items_sound fs items :
  (forall k, to_json_ok fs k = true) ->
  save_items fs items = (map artifact (filter saved items), []).
Proof.
  intros Hw. induction items as [|[key data] rest IH]; [reflexivity|].
  cbn [save_items filter]. rewrite IH.
  change (saved (key, data)) with (is_table data && negb (empty data)).
  destruct (is_table data && negb (empty data)); [|reflexivity].
  now rewrite Hw.
Qed.

(** C10, as amended. On a file system where the directory can be made and
    every write succeeds, [save_precomputed_stats] writes exactly one
    artifact, named by the key, for each entry that is a DataFrame or a
    Series and is not empty, in the order of the mapping, and nothing
    else: no artifact for an empty entry, and none for a scalar such as
    [total_matches]. *)
Theorem save_writes_nonempty_tables fs (kp : dict) :
  makedirs_ok fs = true ->
  (forall k, to_json_ok fs k = true) ->
  save_precomputed_stats fs kp = (map artifact (filter saved kp), [])
  /\ (forall k v, In (k, v) kp -> is_table v = false ->
        ~ In (k, v) (filter saved kp))
  /\ (forall k v, In (k, v) kp -> empty v = true ->
        ~ In (k, v) (filter saved kp))
  /\ (forall k v, In (k, v) kp -> is_table v = true -> empty v = false ->
        In ((k ++ ".json")%string, v) (fst (save_precomputed_stats fs kp))).
Proof.
  intros Hd Hw.
  assert (E : save_precomputed_stats fs kp = (map artifact (filter saved kp), [])).
  { unfold save_precomputed_stats. rewrite Hd. now apply save_items_sound. }
  split; [exact E|]. split; [|split].
  - intros k v _ Hs Hin. apply filter_In in Hin. destruct Hin as (_ & Hin).
    unfold saved in Hin. cbn [snd] in Hin. rewrite Hs in Hin. discriminate.
  - intros k v _ He Hin. apply filter_In in Hin. destruct Hin as (_ & Hin).
    unfold saved in Hin. cbn [snd] in Hin. rewrite He, andb_false_r in Hin.
    discriminate.
  - intros k v Hin Ht He. rewrite E. cbn [fst].
    apply in_map_iff. exists (k, v). split; [reflexivity|].
    apply filter_In. split; [exact Hin|].
    unfold saved. cbn [snd]. now rewrite Ht, He.
Qed.

Lemma save_writes_nonempty_tables_witness :
  save_precomputed_stats League.sound_disk League.kpis
  = (map artifact (filter saved League.kpis), [])
  /\ map fst (fst (save_precomputed_stats League.sound_disk League.kpis))
     = ["team_matches.json"; "most_wins.json"; "most_losses.json";
        "toss_wins.json"; "most_toss_wins.json"; "orange_cap.json";
        "purple_cap.json"; "most_runs_total.json"; "most_wickets_total.json";
        "most_sixes.json"; "most_sixes_per_season.json"; "most_fours.json";
        "most_fours_per_season.json"; "most_catches.json";
        "most_run_outs.json"; "most_matches_played.json";
        "highest_team_totals.json"; "most_pom_awards.json";
        "stadium_matches.json"; "cumulative_runs.json"]%string.
Proof.
  split; [|vm_compute; reflexivity].
  apply (save_writes_nonempty_tables League.sound_disk League.kpis).
  - reflexivity.
  - intros k. reflexivity.
Defined.

(** C10, as stated, fails for the scalar: the league's mapping holds
    [total_matches = 4], which is not empty, and no artifact is written for
    it although nothing fails. *)
Lemma total_matches_is_not_saved :
  calculate_kpis League.matches League.deliveries = (Ok League.kpis, [])
  /\ dict_get "total_matches" League.kpis = Some (Scalar 4)
  /\ empty (Scalar 4) = false
  /\ snd (save_precomputed_stats League.sound_disk League.kpis) = []
  /\ existsb (String.eqb "total_matches.json")
       (map fst (fst (save_precomputed_stats League.sound_disk League.kpis)))
     = false.
Proof. repeat split; vm_compute; reflexivity. Qed.

End ProcessorTheorems.

(* ================================================================== *)
(** ** Sorting, value_counts and Series arithmetic *)
(* ================================================================== *)

Module SeriesFacts.
Import PyFacts GroupSpec GroupFacts SeriesSpec.

Section SortBy.
Context {A : Type}.
Variable le : A -> A -> bool.

Lemma insert_sorted_perm x l : Permutation (insert_sorted le x l) (x :: l).
Proof.
  induction l as [|h t IH]; simpl; [reflexivity|].
  destruct (le x h); [reflexivity|].
  rewrite IH. apply perm_swap.
Qed.

Lemma sort_by_perm l : Permutation (sort_by le l) l.
Proof.
  induction l as [|h t IH]; simpl; [reflexivity|].
  rewrite insert_sorted_perm. now constructor.
Qed.

Hypothesis le_total : forall a b, le a b = true \/ le b a = true.
Hypothesis le_trans : forall a b c,
  le a b = true -> le b c = true -> le a c = true.

Lemma insert_sorted_sorted x l :
  StronglySorted (ordered le) l -> StronglySorted (ordered le) (insert_sorted le x l).
Proof.
  induction 1 as [|h t Ht IH Hh]; simpl.
  - repeat constructor.
  - destruct (le x h) eqn:E.
    + constructor; [now constructor|]. constructor; [exact E|].
      eapply Forall_impl; [|exact Hh]. intros y Hy. unfold ordered in *. eauto.
    + constructor; [exact IH|].
      assert (Hhx : le h x = true) by (destruct (le_total x h); congruence).
      apply Forall_forall. intros y Hy.
      apply (Permutation_in _ (insert_sorted_perm x t)) in Hy.
      destruct Hy as [<- | Hy]; [exact Hhx|].
      rewrite Forall_forall in Hh. auto.
Qed.

Lemma sort_by_sorted l : StronglySorted (ordered le) (sort_by le l).
Proof.
  induction l as [|h t IH]; simpl; [constructor | now apply insert_sorted_sorted].
Qed.

(** A sorted list is left as it is. *)
Lemma sort_by_fixed l : StronglySorted (ordered le) l -> sort_by le l = l.
Proof.
  induction 1 as [|h t Ht IH Hh]; simpl; [reflexivity|].
  rewrite IH. destruct t as [|x r]; [reflexivity|].
  simpl. inversion Hh as [|? ? Hx _]; subst. unfold ordered in Hx.
  now rewrite Hx.
Qed.

(** The first element of the sorted list precedes every element. *)
Lemma sort_by_head x r l :
  sort_by le l = x :: r -> forall y, In y l -> le x y = true.
Proof.
  intros E y Hy. pose proof (sort_by_sorted l) as Hs. rewrite E in Hs.
  apply (Permutation_in _ (Permutation_sym (sort_by_perm l))) in Hy.
  rewrite E in Hy. inversion Hs as [|? ? _ Hall]; subst.
  destruct Hy as [<- | Hy].
  - destruct (le_total x x); assumption.
  - rewrite Forall_forall in Hall. now apply Hall.
Qed.
End SortBy.

Lemma sorted_app_le {A} (R : A -> A -> Prop) l1 l2 :
  StronglySorted R (l1 ++ l2) ->
  forall x y, In x l1 -> In y l2 -> R x y.
Proof.
  induction l1 as [|h t IH]; simpl; intros Hs x y Hx Hy; [contradiction|].
  inversion Hs as [|? ? Ht Hh]; subst. destruct Hx as [<- | Hx].
  - rewrite Forall_forall in Hh. apply Hh. apply in_or_app. now right.
  - eapply IH; eauto.
Qed.

Lemma firstn_In {A} n (l : list A) x : In x (firstn n l) -> In x l.
Proof.
  intros H. rewrite <- (firstn_skipn n l). apply in_or_app. now left.
Qed.

Lemma sorted_impl {A} (R S : A -> A -> Prop) l :
  (forall a b, R a b -> S a b) -> StronglySorted R l -> StronglySorted S l.
Proof.
  intros HRS. induction 1 as [|h t Ht IH Hh]; constructor; [exact IH|].
  eapply Forall_impl; [|exact Hh]. intros b. apply HRS.
Qed.

Lemma sorted_firstn {A} (R : A -> A -> Prop) n l :
  StronglySorted R l -> StronglySorted R (firstn n l).
Proof.
  intros H. revert n. induction H as [|h t Ht IH Hh]; intros [|n]; simpl;
    try constructor.
  - apply IH.
  - rewrite Forall_forall in *. intros x Hx. apply Hh.
    eapply firstn_In. exact Hx.
Qed.

(** The two orders used by [sort_values(ascending=False)]. *)
Lemma desc_total {A} (val : A -> Z) a b :
  (val b <=? val a) = true \/ (val a <=? val b) = true.
Proof. rewrite !Z.leb_le. lia. Qed.

Lemma desc_trans {A} (val : A -> Z) a b c :
  (val b <=? val a) = true -> (val c <=? val b) = true ->
  (val c <=? val a) = true.
Proof. rewrite !Z.leb_le. lia. Qed.

Lemma nan_last_total a b : nan_last_desc a b = true \/ nan_last_desc b a = true.
Proof.
  destruct a as [x|], b as [y|]; simpl; auto. rewrite !Z.leb_le. lia.
Qed.

Lemma nan_last_trans a b c :
  nan_last_desc a b = true -> nan_last_desc b c = true ->
  nan_last_desc a c = true.
Proof.
  destruct a as [x|], b as [y|], c as [z|]; simpl; auto; try discriminate.
  rewrite !Z.leb_le. lia.
Qed.

(** *** Lookup in a Series with distinct labels *)

Lemma lookup_Some_In {V} t (v : V) s : lookup t s = Some v -> In (t, v) s.
Proof.
  induction s as [|[k x] r IH]; simpl; [discriminate|].
  destruct (str_eqb t k) eqn:E.
  - apply str_eqb_eq in E. subst. intros [= ->]. now left.
  - intros H. right. auto.
Qed.

Lemma lookup_None {V} t (s : list (str * V)) :
  lookup t s = None <-> ~ In t (map fst s).
Proof.
  induction s as [|[k x] r IH]; simpl; [tauto|].
  destruct (str_eqb t k) eqn:E.
  - apply str_eqb_eq in E. subst. split; [discriminate | tauto].
  - apply str_eqb_neq in E. rewrite IH. split.
    + intros H [H' | H']; [congruence | tauto].
    + tauto.
Qed.

Lemma In_lookup {V} t (v : V) s :
  NoDup (map fst s) -> In (t, v) s -> lookup t s = Some v.
Proof.
  induction s as [|[k x] r IH]; simpl; [tauto|].
  intros Hnd Hin. inversion Hnd as [|? ? Hk Hr]; subst.
  destruct Hin as [[= -> ->] | Hin].
  - now rewrite str_eqb_refl.
  - destruct (str_eqb t k) eqn:E.
    + apply str_eqb_eq in E. subst. exfalso. apply Hk.
      apply in_map_iff. exists (k, v). auto.
    + auto.
Qed.

(** *** value_counts *)

Lemma uniques_In x l : In x (uniques l) <-> In x l.
Proof.
  induction l as [|h t IH]; simpl; [tauto|].
  rewrite filter_In, IH, negb_true_iff, str_eqb_neq.
  destruct (list_eq_dec N.eq_dec h x); intuition congruence.
Qed.

Lemma uniques_NoDup l : NoDup (uniques l).
Proof.
  induction l as [|h t IH]; simpl; constructor.
  - rewrite filter_In, negb_true_iff, str_eqb_neq. tauto.
  - now apply NoDup_filter.
Qed.

Lemma dropna_In {A} (x : A) l : In x (dropna l) <-> In (Some x) l.
Proof.
  unfold dropna. rewrite in_flat_map. split.
  - intros ([y|] & Hy & Hx); simpl in Hx; [|contradiction].
    destruct Hx as [-> | []]. exact Hy.
  - intros H. exists (Some x). split; [exact H | now left].
Qed.

Lemma dropna_app {A} (a b : list (option A)) :
  dropna (a ++ b) = dropna a ++ dropna b.
Proof. unfold dropna. apply flat_map_app. Qed.

Lemma counts_labels present : map fst (counts present) = uniques present.
Proof. unfold counts. rewrite map_map. apply map_id. Qed.

Lemma value_counts_perm l :
  Permutation (value_counts l) (counts (dropna l)).
Proof. unfold value_counts, sort_desc. apply sort_by_perm. Qed.

Lemma value_counts_NoDup l : NoDup (map fst (value_counts l)).
Proof.
  eapply Permutation_NoDup.
  - apply Permutation_map. symmetry. apply value_counts_perm.
  - rewrite counts_labels. apply uniques_NoDup.
Qed.

Lemma value_counts_In t v l :
  In (t, v) (value_counts l)
  <-> In (Some t) l /\ v = occurrences t (dropna l).
Proof.
  split.
  - intros H. apply (Permutation_in _ (value_counts_perm l)) in H.
    unfold counts in H. apply in_map_iff in H.
    destruct H as (x & [= -> <-] & Hx).
    apply (proj1 (uniques_In _ _)) in Hx. apply (proj1 (dropna_In _ _)) in Hx. auto.
  - intros (Hin & ->).
    apply (Permutation_in _ (Permutation_sym (value_counts_perm l))).
    unfold counts. apply in_map_iff. exists t. split; [reflexivity|].
    apply uniques_In, dropna_In. exact Hin.
Qed.

Lemma value_counts_labels t l :
  In t (map fst (value_counts l)) <-> In (Some t) l.
Proof.
  rewrite in_map_iff. split.
  - intros ([k v] & <- & H). apply value_counts_In in H. tauto.
  - intros H. exists (t, occurrences t (dropna l)). split; [reflexivity|].
    apply value_counts_In. auto.
Qed.

Lemma value_counts_lookup t l :
  In (Some t) l -> lookup t (value_counts l) = Some (occurrences t (dropna l)).
Proof.
  intros H. apply In_lookup; [apply value_counts_NoDup|].
  apply value_counts_In. auto.
Qed.

Lemma value_counts_lookup_none t l :
  ~ In (Some t) l -> lookup t (value_counts l) = None.
Proof. intros H. apply lookup_None. now rewrite value_counts_labels. Qed.

Lemma occurrences_pos x l : In x l <-> 0 < occurrences x l.
Proof.
  unfold occurrences. split.
  - intros H.
    assert (Hin : In x (filter (str_eqb x) l))
      by (apply filter_In; split; [exact H | apply str_eqb_refl]).
    destruct (filter (str_eqb x) l); [contradiction | simpl; lia].
  - intros H. destruct (filter (str_eqb x) l) as [|y r] eqn:E; [simpl in H; lia|].
    assert (Hy : In y (filter (str_eqb x) l)) by (rewrite E; now left).
    apply filter_In in Hy. destruct Hy as (Hy & Exy).
    apply str_eqb_eq in Exy. now subst.
Qed.

Lemma occurrences_app x a b :
  occurrences x (a ++ b) = occurrences x a + occurrences x b.
Proof. unfold occurrences. rewrite filter_app, length_app. lia. Qed.

Lemma occurrences_zero x l : ~ In x l -> occurrences x l = 0.
Proof.
  intros H. pose proof (occurrences_pos x l) as P.
  assert (0 <= occurrences x l) by (unfold occurrences; lia).
  destruct (Z.eq_dec (occurrences x l) 0); [assumption|].
  exfalso. apply H, P. lia.
Qed.

(** *** [a - b] and [fillna] *)

Lemma str_list_eqb_eq a b : str_list_eqb a b = true -> a = b.
Proof.
  unfold str_list_eqb.
  destruct (list_eq_dec (list_eq_dec N.eq_dec) a b); [auto | discriminate].
Qed.

Lemma align_labels_In t a b :
  In t (align_labels a b) <-> In t a \/ In t b.
Proof.
  unfold align_labels. destruct (str_list_eqb a b) eqn:E.
  - apply str_list_eqb_eq in E. subst. tauto.
  - destruct a as [|x a'], b as [|y b']; cbv iota beta.
    + tauto.
    + cbn [In]. tauto.
    + cbn [In]. tauto.
    + rewrite unique_sorted_In, in_app_iff. tauto.
Qed.

Lemma sub_fillna_eq a b :
  series_fillna (series_sub a b) a
  = map (fun k => (k, difference a b k))
        (align_labels (map fst a) (map fst b)).
Proof.
  unfold series_fillna, series_sub. rewrite map_map. apply map_ext.
  intros k. cbn [fst snd]. unfold difference.
  destruct (lookup k a) as [x|]; [|reflexivity].
  destruct (lookup k b) as [y|]; reflexivity.
Qed.

Lemma sub_fillna_In a b t v :
  In (t, v) (series_fillna (series_sub a b) a) <->
  (In t (map fst a) \/ In t (map fst b)) /\ v = difference a b t.
Proof.
  rewrite sub_fillna_eq, in_map_iff. split.
  - intros (k & [= -> <-] & Hk).
    apply (proj1 (align_labels_In _ _ _)) in Hk. auto.
  - intros (H & ->). exists t. split; [reflexivity|].
    now apply align_labels_In.
Qed.

End SeriesFacts.

(* ================================================================== *)
(** ** Matches, wins and losses per team *)
(* ================================================================== *)


Module TeamRecordFacts.
Import PyFacts GroupSpec GroupFacts StmtSpec StmtFacts SeriesSpec SeriesFacts.
Import LeaderSpec LeaderFacts TeamSpec.

Section Blocks.
Variable matches : frame (Match.row Z).

Lemma total_matches_run s :
  total_matches_block matches s
  = (Ok tt, State (dict_set "total_matches"
                     (Scalar (Z.of_nat (List.length (rows matches)))) (kpis s))
                  (team_wins s) (wickets s) (stdout s)).
Proof. reflexivity. Qed.

Lemma team_matches_run s :
  has_column matches "team1" = true -> has_column matches "team2" = true ->
  team_matches_block matches s
  = (Ok tt, State (dict_set "team_matches" (Series (team_matches_series (rows matches))) (kpis s))
                  (team_wins s) (wickets s) (stdout s)).
Proof.
  intros H1 H2. unfold team_matches_block, try_except, bindM, lift.
  rewrite (column_has _ _ _ H1), (column_has _ _ _ H2). reflexivity.
Qed.

Lemma filter_map_comm {A B} (f : A -> B) (p : B -> bool) l :
  filter p (map f l) = map f (filter (fun a => p (f a)) l).
Proof.
  induction l as [|a t IH]; simpl; [reflexivity|].
  destruct (p (f a)); simpl; congruence.
Qed.

Lemma most_wins_run s :
  has_column matches "winner" = true ->
  most_wins_block matches s
  = (Ok tt, State (dict_set "most_wins" (Series (team_wins_series (rows matches))) (kpis s))
                  (Some (team_wins_series (rows matches))) (wickets s) (stdout s)).
Proof.
  intros H. unfold most_wins_block, try_except, bindM, lift.
  rewrite (where_has matches "winner" Match.winner
             (fun w => negb (cell_is (u "No Result") w)) H).
  cbn [bind].
  rewrite column_has by (rewrite has_column_with_rows; exact H).
  cbn [rows with_rows assign_team_wins set_kpi kpis team_wins wickets stdout].
  replace (value_counts _) with (team_wins_series (rows matches)).
  - destruct (team_wins_series (rows matches)); reflexivity.
  - unfold team_wins_series. f_equal.
    exact (filter_map_comm Match.winner decided (rows matches)).
Qed.

Lemma most_losses_run s tm wins :
  dict_get "team_matches" (kpis s) = Some (Series tm) ->
  team_wins s = Some wins ->
  most_losses_block s
  = (Ok tt,
     State (dict_set "most_losses"
              (FloatSeries (head 1 (sort_desc_nan snd
                 (series_fillna (series_sub tm wins) tm))))
              (kpis s))
           (team_wins s) (wickets s) (stdout s)).
Proof.
  intros Hk Hw.
  unfold most_losses_block, try_except, bindM, get_kpi, read_team_wins, lift.
  rewrite Hk. cbv beta iota. cbn [series_of]. cbv beta iota.
  rewrite Hw. cbv beta iota. rewrite Hk. cbv beta iota. cbn [series_of].
  cbv beta iota. unfold set_kpi. rewrite Hw. reflexivity.
Qed.
End Blocks.

(** *** The three Series *)

Section Series.
Variable ms : list (Match.row Z).


Lemma cell_eq_dec (a b : option str) : {a = b} + {a <> b}.
Proof. decide equality. apply (list_eq_dec N.eq_dec). Qed.

Lemma appears_dec t : {appears ms t} + {~ appears ms t}.
Proof. unfold appears. apply in_dec. exact cell_eq_dec. Qed.

Lemma played_nonneg t : 0 <= played ms t.
Proof. unfold played, occurrences. lia. Qed.

Lemma tm_lookup t : appears ms t -> lookup t (team_matches_series ms) = Some (played ms t).
Proof.
  intros H. unfold team_matches_series. rewrite (value_counts_lookup _ _ H).
  unfold played. now rewrite dropna_app, occurrences_app.
Qed.

Lemma tm_lookup_none t : ~ appears ms t -> lookup t (team_matches_series ms) = None.
Proof. intros H. now apply value_counts_lookup_none. Qed.

Lemma wins_lookup t :
  lookup t (team_wins_series ms) = if 0 <? won ms t then Some (won ms t) else None.
Proof.
  unfold team_wins_series, won.
  destruct (in_dec cell_eq_dec (Some t)
              (filter decided (map Match.winner ms))) as [Hin | Hout].
  - rewrite (value_counts_lookup _ _ Hin).
    assert (0 < occurrences t (dropna (filter decided (map Match.winner ms))))
      by (apply occurrences_pos, dropna_In; exact Hin).
    replace (0 <? _) with true by (symmetry; now apply Z.ltb_lt).
    reflexivity.
  - rewrite (value_counts_lookup_none _ _ Hout).
    rewrite occurrences_zero by (rewrite dropna_In; exact Hout).
    reflexivity.
Qed.

Lemma difference_appears t :
  appears ms t -> difference (team_matches_series ms) (team_wins_series ms) t = Some (lost ms t).
Proof.
  intros H. unfold difference. rewrite (tm_lookup _ H), wins_lookup.
  unfold lost. destruct (0 <? won ms t) eqn:E; [reflexivity|].
  apply Z.ltb_ge in E.
  assert (0 <= won ms t) by (unfold won, occurrences; lia).
  f_equal. lia.
Qed.

Lemma difference_absent t : ~ appears ms t -> difference (team_matches_series ms) (team_wins_series ms) t = None.
Proof. intros H. unfold difference. now rewrite (tm_lookup_none _ H). Qed.

Lemma most_losses_short : (List.length (most_losses_series ms) <= 1)%nat.
Proof. unfold most_losses_series, head. apply firstn_le_length. Qed.

Lemma most_losses_nonempty t : appears ms t -> (most_losses_series ms) <> [].
Proof.
  intros Ht E.
  assert (Hin : In (t, Some (lost ms t))
                   (series_fillna (series_sub (team_matches_series ms) (team_wins_series ms)) (team_matches_series ms))).
  { rewrite <- (difference_appears _ Ht). apply sub_fillna_In.
    split; [|reflexivity]. left. unfold team_matches_series.
    apply value_counts_labels. exact Ht. }
  unfold most_losses_series, sort_desc_nan in E.
  apply (Permutation_in _ (Permutation_sym
           (sort_by_perm (fun x h => nan_last_desc (snd x) (snd h)) _))) in Hin.
  destruct (sort_by _ (series_fillna (series_sub (team_matches_series ms) (team_wins_series ms)) (team_matches_series ms)));
    [exact Hin | discriminate E].
Qed.

Lemma head1_In {A} (x : A) l : In x (head 1 l) -> exists r, l = x :: r.
Proof.
  destruct l as [|y r]; simpl; [contradiction|].
  intros [-> | []]. now exists r.
Qed.

Lemma most_losses_max t v :
  In (t, v) (most_losses_series ms) ->
  forall t', appears ms t' ->
    appears ms t /\ v = Some (lost ms t) /\ lost ms t' <= lost ms t.
Proof.
  intros Hin t' Ht'. unfold most_losses_series in Hin.
  apply head1_In in Hin. destruct Hin as (r & E).
  unfold sort_desc_nan in E.
  assert (Hfull : In (t, v) (series_fillna (series_sub (team_matches_series ms) (team_wins_series ms)) (team_matches_series ms))).
  { eapply Permutation_in; [apply sort_by_perm|]. rewrite E. now left. }
  apply sub_fillna_In in Hfull. destruct Hfull as (_ & Hv).
  assert (Ht'in : In (t', Some (lost ms t'))
                     (series_fillna (series_sub (team_matches_series ms) (team_wins_series ms)) (team_matches_series ms))).
  { rewrite <- (difference_appears _ Ht'). apply sub_fillna_In.
    split; [|reflexivity]. left. unfold team_matches_series.
    apply value_counts_labels. exact Ht'. }
  pose proof (sort_by_head _
    (fun a b => nan_last_total (snd a) (snd b))
    (fun a b c => nan_last_trans (snd a) (snd b) (snd c))
    _ _ _ E _ Ht'in) as Hle.
  cbn [snd] in Hle.
  destruct (appears_dec t) as [Ht | Ht].
  - rewrite (difference_appears _ Ht) in Hv. subst v. cbn in Hle.
    apply Z.leb_le in Hle. auto.
  - rewrite (difference_absent _ Ht) in Hv. subst v. discriminate.
Qed.
End Series.

End TeamRecordFacts.

Module TeamRecordTheorems.
Import PyFacts GroupSpec GroupFacts StmtSpec StmtFacts SeriesSpec SeriesFacts.
Import LeaderSpec LeaderFacts.
Import LeaderTheorems TeamSpec TeamRecordFacts.

Lemma first_three_run matches s :
  has_column matches "team1" = true -> has_column matches "team2" = true ->
  has_column matches "winner" = true ->
  run [total_matches_block matches; team_matches_block matches;
       most_wins_block matches] s
  = (Ok tt,
     State (dict_set "most_wins" (Series (team_wins_series (rows matches)))
              (dict_set "team_matches" (Series (team_matches_series (rows matches)))
                 (dict_set "total_matches"
                    (Scalar (Z.of_nat (List.length (rows matches)))) (kpis s))))
           (Some (team_wins_series (rows matches))) (wickets s) (stdout s)).
Proof.
  intros H1 H2 H3. cbn [run]. unfold bindM at 1.
  rewrite total_matches_run. unfold bindM at 1.
  rewrite (team_matches_run _ _ H1 H2). unfold bindM at 1.
  rewrite (most_wins_run _ _ H3). reflexivity.
Qed.

Lemma occurrences_cells {A} (f : A -> option str) t l :
  occurrences t (dropna (map f l))
  = Z.of_nat (List.length (filter (fun a => cell_is t (f a)) l)).
Proof.
  unfold occurrences. f_equal.
  induction l as [|a r IH]; [reflexivity|].
  cbn [map]. unfold dropna in *. cbn [flat_map filter].
  rewrite filter_app, length_app, IH.
  destruct (f a) as [x|]; cbn [cell_is filter app List.length].
  - rewrite (bool_ext (str_eqb t x) (str_eqb x t))
      by (rewrite !str_eqb_eq; split; congruence).
    destruct (str_eqb x t); reflexivity.
  - reflexivity.
Qed.

(** Where no match lists a team on both sides, the matches it played are
    the rows that list it. *)
Lemma played_rows ms t :
  (forall m, In m ms ->
     cell_is t (Match.team1 m) && cell_is t (Match.team2 m) = false) ->
  played ms t = Z.of_nat (List.length (filter (lists t) ms)).
Proof.
  intros H. unfold played. rewrite !occurrences_cells.
  rewrite <- Nat2Z.inj_add. f_equal.
  induction ms as [|m r IH]; [reflexivity|].
  cbn [filter]. unfold lists at 1.
  specialize (IH (fun m' Hm' => H m' (or_intror Hm'))).
  pose proof (H m (or_introl eq_refl)) as Hm.
  destruct (cell_is t (Match.team1 m)), (cell_is t (Match.team2 m));
    cbn [orb List.length] in *; try discriminate; lia.
Qed.

(** C6, as amended. When [calculate_kpis] returns for matches that have
    the team and winner columns, then for every team listed as team1 or
    team2: the team_matches KPI gives its matches played (the rows that
    list it, a match without a result included), the most_wins KPI gives
    its wins, with no entry for a team without a win, and wins plus losses
    (matches minus wins) is matches played. The most_losses KPI does not
    report the losses of every team: it has at most one entry, that of a
    team whose losses no listed team exceeds. *)
Theorem team_records matches deliveries kp printed :
  has_columns matches ["team1"; "team2"; "winner"]%string ->
  calculate_kpis matches deliveries = (Ok kp, printed) ->
  exists team_matches most_wins most_losses,
    dict_get "team_matches" kp = Some (Series team_matches)
    /\ dict_get "most_wins" kp = Some (Series most_wins)
    /\ dict_get "most_losses" kp = Some (FloatSeries most_losses)
    /\ (forall t, appears (rows matches) t ->
          lookup t team_matches = Some (played (rows matches) t)
          /\ lookup t most_wins
             = (if 0 <? won (rows matches) t
                then Some (won (rows matches) t) else None)
          /\ won (rows matches) t + lost (rows matches) t
             = played (rows matches) t
          /\ ((forall m, In m (rows matches) ->
                 cell_is t (Match.team1 m) && cell_is t (Match.team2 m) = false) ->
              played (rows matches) t
              = Z.of_nat (List.length (filter (lists t) (rows matches)))))
    /\ (List.length most_losses <= 1)%nat
    /\ ((exists t, appears (rows matches) t) -> most_losses <> [])
    /\ (forall t v, In (t, v) most_losses ->
          forall t', appears (rows matches) t' ->
            appears (rows matches) t
            /\ v = Some (lost (rows matches) t)
            /\ lost (rows matches) t' <= lost (rows matches) t).
Proof.
  intros Hc H. apply calculate_kpis_Ok in H. destruct H as (s' & Hrun & -> & _).
  assert (H1 : has_column matches "team1" = true)
    by (eapply has_columns_In; [exact Hc | cbn [In]; tauto]).
  assert (H2 : has_column matches "team2" = true)
    by (eapply has_columns_In; [exact Hc | cbn [In]; tauto]).
  assert (H3 : has_column matches "winner" = true)
    by (eapply has_columns_In; [exact Hc | cbn [In]; tauto]).
  clear Hc.
  exists (team_matches_series (rows matches)), (team_wins_series (rows matches)),
         (most_losses_series (rows matches)).
  split; [|split; [|split]].
  - destruct (entry_at "team_matches" 1 (team_matches_block matches)
                (blocks matches deliveries) _ _
                eq_refl ltac:(cbn [skipn blocks]; keeps_blocks) Hrun)
      as (s1 & s2 & _ & Hw & ->).
    rewrite (team_matches_run _ _ H1 H2) in Hw. injection Hw as <-.
    apply dict_get_set_same.
  - destruct (entry_at "most_wins" 2 (most_wins_block matches)
                (blocks matches deliveries) _ _
                eq_refl ltac:(cbn [skipn blocks]; keeps_blocks) Hrun)
      as (s1 & s2 & _ & Hw & ->).
    rewrite (most_wins_run _ _ H3) in Hw. injection Hw as <-.
    apply dict_get_set_same.
  - destruct (entry_at "most_losses" 3 most_losses_block
                (blocks matches deliveries) _ _
                eq_refl ltac:(cbn [skipn blocks]; keeps_blocks) Hrun)
      as (s1 & s2 & Hpre & Hw & ->).
    cbn [firstn blocks] in Hpre.
    rewrite (first_three_run _ _ H1 H2 H3) in Hpre. injection Hpre as <-.
    rewrite (most_losses_run _ (team_matches_series (rows matches))
               (team_wins_series (rows matches))) in Hw.
    + injection Hw as <-. reflexivity.
    + reflexivity.
    + reflexivity.
  - split; [|split; [|split]].
    + intros t Ht. split; [now apply tm_lookup|].
      split; [apply wins_lookup|].
      split; [unfold lost; lia | apply played_rows].
    + apply most_losses_short.
    + intros (t & Ht). eapply most_losses_nonempty. exact Ht.
    + apply most_losses_max.
Qed.

Lemma team_records_witness :
  exists team_matches most_wins most_losses,
    dict_get "team_matches" League.kpis = Some (Series team_matches)
    /\ dict_get "most_wins" League.kpis = Some (Series most_wins)
    /\ dict_get "most_losses" League.kpis = Some (FloatSeries most_losses)
    /\ (forall t, appears (rows League.matches) t ->
          lookup t team_matches = Some (played (rows League.matches) t)
          /\ lookup t most_wins
             = (if 0 <? won (rows League.matches) t
                then Some (won (rows League.matches) t) else None)
          /\ won (rows League.matches) t + lost (rows League.matches) t
             = played (rows League.matches) t
          /\ ((forall m, In m (rows League.matches) ->
                 cell_is t (Match.team1 m) && cell_is t (Match.team2 m) = false) ->
              played (rows League.matches) t
              = Z.of_nat (List.length (filter (lists t) (rows League.matches)))))
    /\ (List.length most_losses <= 1)%nat
    /\ ((exists t, appears (rows League.matches) t) -> most_losses <> [])
    /\ (forall t v, In (t, v) most_losses ->
          forall t', appears (rows League.matches) t' ->
            appears (rows League.matches) t
            /\ v = Some (lost (rows League.matches) t)
            /\ lost (rows League.matches) t' <= lost (rows League.matches) t).
Proof.
  apply (team_records League.matches League.deliveries League.kpis []).
  - repeat constructor.
  - vm_compute. reflexivity.
Defined.

(** C6, as stated, fails for the most_losses KPI: in the league Kolkata
    Knight Riders played two matches and won one, so they lost one, and
    the KPI reports Royal Challengers Bangalore only; and most_wins has no
    entry for Royal Challengers Bangalore, who won nothing. *)
Lemma most_losses_reports_one_team :
  calculate_kpis League.matches League.deliveries = (Ok League.kpis, [])
  /\ appears (rows League.matches) (u "Kolkata Knight Riders")
  /\ played (rows League.matches) (u "Kolkata Knight Riders") = 2
  /\ won (rows League.matches) (u "Kolkata Knight Riders") = 1
  /\ lost (rows League.matches) (u "Kolkata Knight Riders") = 1
  /\ dict_get "most_losses" League.kpis
     = Some (FloatSeries [(u "Royal Challengers Bangalore", Some 2)])
  /\ lookup (u "Kolkata Knight Riders")
       [(u "Royal Challengers Bangalore", Some 2)] = None
  /\ dict_get "most_wins" League.kpis
     = Some (Series [(u "Mumbai Indians", 2); (u "Kolkata Knight Riders", 1)]).
Proof.
  split; [vm_compute; reflexivity|].
  split; [vm_compute; tauto|].
  repeat split; vm_compute; reflexivity.
Qed.

End TeamRecordTheorems.

(* ================================================================== *)
(** ** Highest team totals *)
(* ================================================================== *)


Module TotalsFacts.
Import PyFacts GroupSpec GroupFacts StmtSpec StmtFacts SeriesSpec SeriesFacts.
Import LeaderSpec LeaderFacts TotalsSpec.

Lemma filter_nil_forall {A} (p : A -> bool) l :
  Forall (fun a => p a = false) l -> filter p l = [].
Proof.
  induction 1 as [|a t Ha _ IH]; simpl; [reflexivity|]. now rewrite Ha.
Qed.

Lemma filter_nil_iff_local {A} (p : A -> bool) l :
  filter p l = [] -> Forall (fun a => p a = false) l.
Proof.
  induction l as [|a t IH]; simpl; [constructor|].
  destruct (p a) eqn:E; [discriminate|]. constructor; auto.
Qed.

Lemma merge_left_In {L R} (lkey : L -> Z) (rkey : R -> Z) left right l o :
  In (l, o) (merge_left lkey rkey left right) <->
  In l left
  /\ ((exists r, o = Some r /\ In r right /\ rkey r = lkey l)
      \/ (o = None /\ forall r, In r right -> rkey r <> lkey l)).
Proof.
  unfold merge_left. rewrite in_flat_map. split.
  - intros (l' & Hl' & H).
    destruct (filter (fun r => rkey r =? lkey l') right) as [|h hits] eqn:E.
    + destruct H as [[= -> <-] | []]. split; [exact Hl'|]. right.
      split; [reflexivity|]. intros r Hr Ek.
      apply filter_nil_iff_local in E. rewrite Forall_forall in E.
      specialize (E r Hr). apply Z.eqb_neq in E. contradiction.
    + rewrite <- E in H. apply in_map_iff in H.
      destruct H as (r & [= -> <-] & Hr). apply filter_In in Hr.
      destruct Hr as (Hr & Ek). apply Z.eqb_eq in Ek.
      split; [exact Hl'|]. left. exists r. auto.
  - intros (Hl & [(r & -> & Hr & Ek) | (-> & Hnone)]); exists l;
      (split; [exact Hl|]).
    + assert (Hin : In r (filter (fun r => rkey r =? lkey l) right))
        by (apply filter_In; split; [exact Hr | now apply Z.eqb_eq]).
      destruct (filter (fun r => rkey r =? lkey l) right) as [|h hits] eqn:E;
        [contradiction|].
      rewrite <- E. apply in_map_iff. exists r. rewrite E. auto.
    + replace (filter (fun r => rkey r =? lkey l) right) with (@nil R);
        [now left|].
      symmetry. apply filter_nil_forall. apply Forall_forall.
      intros r Hr. apply Z.eqb_neq. auto.
Qed.

End TotalsFacts.

Module TotalsTheorems.
Import PyFacts GroupSpec GroupFacts StmtSpec StmtFacts SeriesSpec SeriesFacts.
Import LeaderSpec LeaderFacts.
Import LeaderTheorems TotalsSpec TotalsFacts.

Lemma team_totals_has matches deliveries :
  has_columns matches ["id"; "team1"; "team2"]%string ->
  has_columns deliveries ["match_id"; "batting_team"; "total_runs"]%string ->
  team_totals matches deliveries = Ok (all_totals matches deliveries).
Proof.
  intros Hm Hd. unfold team_totals. rewrite (needs_has _ _ Hm). cbn [bind].
  rewrite groupby_agg_has.
  - reflexivity.
  - eapply has_columns_sub; [exact Hd|]. intros c [<-|[<-|[]]]; cbn [In]; tauto.
  - eapply has_columns_In; [exact Hd | cbn [In]; tauto].
Qed.

Lemma in_group_innings mid team d :
  in_group innings_key (mid, team) d = of_innings mid team d.
Proof.
  apply bool_ext. rewrite in_group_iff. unfold of_innings, innings_key, cell_is.
  rewrite andb_true_iff, Z.eqb_eq.
  destruct (Delivery.batting_team d) as [b|].
  - rewrite str_eqb_eq. split; [intros [= -> ->]; auto | intros [-> ->]; reflexivity].
  - split; [discriminate | intros [_ ?]; discriminate].
Qed.

Lemma all_totals_In matches deliveries r :
  In r (all_totals matches deliveries)
  <-> innings_row (rows matches) (rows deliveries) r.
Proof.
  unfold all_totals. rewrite in_map_iff. split.
  - intros ([[[mid team] total] o] & <- & Hin).
    apply merge_left_In in Hin. destruct Hin as (Hin & Ho).
    apply aggregate_In in Hin. destruct Hin as ((d & Hd & Ek) & Htotal).
    rewrite (filter_ext _ _ (in_group_innings mid team)) in Htotal.
    unfold innings_row, make_row, row_match_id, row_batting_team,
      row_total_runs, get_opponent, row_team1, row_team2.
    cbn [fst snd TeamTotal.match_id TeamTotal.batting_team
         TeamTotal.total_runs TeamTotal.opponent] in *.
    split; [|split; [exact Htotal|]].
    + exists d. unfold innings_key in Ek.
      destruct (Delivery.batting_team d); [|discriminate].
      injection Ek as <- <-. auto.
    + destruct Ho as [(m & -> & Hm & Eid) | (-> & Hnone)].
      * left. exists m. auto.
      * right. auto.
  - intros ((d & Hd & Emid & Eteam) & Htotal & Hopp).
    destruct r as [mid team opp total].
    cbn [TeamTotal.match_id TeamTotal.batting_team TeamTotal.total_runs
         TeamTotal.opponent] in *.
    assert (Hagg : In (mid, team, total)
                      (aggregate (sum_of Delivery.total_runs)
                         (groupby innings_key (rows deliveries)))).
    { apply aggregate_In. split.
      - exists d. split; [exact Hd|]. unfold innings_key.
        rewrite Eteam, Emid. reflexivity.
      - rewrite (filter_ext _ _ (in_group_innings mid team)). exact Htotal. }
    destruct Hopp as [(m & Hm & Eid & ->) | (Hnone & ->)].
    + exists (mid, team, total, Some m). split; [reflexivity|].
      apply merge_left_In. split; [exact Hagg|]. left. exists m. auto.
    + exists (mid, team, total, None). split; [reflexivity|].
      apply merge_left_In. split; [exact Hagg|]. right. auto.
Qed.

Lemma highest_team_totals_entry matches deliveries s1 r s2 :
  has_columns matches ["id"; "team1"; "team2"]%string ->
  has_columns deliveries ["match_id"; "batting_team"; "total_runs"]%string ->
  highest_team_totals_block matches deliveries s1 = (r, s2) ->
  dict_get "highest_team_totals" (kpis s2)
  = Some (TeamTotals (head 10 (sort_desc TeamTotal.total_runs
                                 (all_totals matches deliveries)))).
Proof.
  intros Hm Hd. unfold highest_team_totals_block, try_except, bindM, lift.
  rewrite (team_totals_has _ _ Hm Hd).
  intros [= _ <-]. apply dict_get_set_same.
Qed.

(** C8. When [calculate_kpis] returns for tables that have the columns
    read, the highest_team_totals KPI is the first ten rows, or all of
    them when there are fewer, of the team totals sorted by descending
    total: the team totals have a row for each (match_id, batting_team)
    pair that has deliveries, its total_runs is the sum of total_runs over
    the deliveries of the pair, and its opponent is taken from the match
    row with that id: team2 when the batting team equals team1, otherwise
    team1 (and missing when no match row has the id). *)
Theorem highest_team_totals_top10 matches deliveries kp printed :
  has_columns matches ["id"; "team1"; "team2"]%string ->
  has_columns deliveries ["match_id"; "batting_team"; "total_runs"]%string ->
  calculate_kpis matches deliveries = (Ok kp, printed) ->
  exists top rest,
    dict_get "highest_team_totals" kp = Some (TeamTotals top)
    /\ (forall r, In r (top ++ rest)
                  <-> innings_row (rows matches) (rows deliveries) r)
    /\ descending (top ++ rest)
    /\ List.length top = Nat.min 10 (List.length (top ++ rest))
    /\ (forall x y, In x top -> In y rest ->
          TeamTotal.total_runs y <= TeamTotal.total_runs x).
Proof.
  intros Hm Hd H. apply calculate_kpis_Ok in H.
  destruct H as (s' & Hrun & -> & _).
  set (sorted := sort_desc TeamTotal.total_runs (all_totals matches deliveries)).
  assert (Hsorted : descending sorted).
  { unfold descending, sorted, sort_desc.
    pose proof (sort_by_sorted
      (fun x h : TeamTotal.row => TeamTotal.total_runs h <=? TeamTotal.total_runs x)
      (desc_total TeamTotal.total_runs)
      (fun a b c => desc_trans TeamTotal.total_runs a b c)
      (all_totals matches deliveries)) as Hs.
    eapply sorted_impl; [|exact Hs].
    intros a b Hab. unfold ordered in Hab. now apply Z.leb_le. }
  exists (head 10 sorted), (skipn 10 sorted).
  unfold head. rewrite firstn_skipn.
  split; [|split; [|split; [|split]]].
  - destruct (entry_at "highest_team_totals" 15
                (highest_team_totals_block matches deliveries)
                (blocks matches deliveries) _ _
                eq_refl ltac:(cbn [skipn blocks]; keeps_blocks) Hrun)
      as (s1 & s2 & _ & Hw & ->).
    eapply highest_team_totals_entry; eauto.
  - intros r. rewrite <- all_totals_In. unfold sorted, sort_desc. split.
    + apply Permutation_in, sort_by_perm.
    + apply Permutation_in, Permutation_sym, sort_by_perm.
  - exact Hsorted.
  - apply length_firstn.
  - intros x y Hx Hy.
    apply (sorted_app_le
             (fun a b => TeamTotal.total_runs b <= TeamTotal.total_runs a)
             (firstn 10 sorted) (skipn 10 sorted)); auto.
    rewrite firstn_skipn. exact Hsorted.
Qed.

Lemma highest_team_totals_top10_witness :
  exists top rest,
    dict_get "highest_team_totals" League.kpis = Some (TeamTotals top)
    /\ (forall r, In r (top ++ rest)
                  <-> innings_row (rows League.matches) (rows League.deliveries) r)
    /\ descending (top ++ rest)
    /\ List.length top = Nat.min 10 (List.length (top ++ rest))
    /\ (forall x y, In x top -> In y rest ->
          TeamTotal.total_runs y <= TeamTotal.total_runs x).
Proof.
  apply (highest_team_totals_top10 League.matches League.deliveries
           League.kpis []).
  - repeat constructor.
  - repeat constructor.
  - vm_compute. reflexivity.
Defined.

End TotalsTheorems.

(* ================================================================== *)
(** ** Cumulative runs *)
(* ================================================================== *)


Module CumulativeFacts.
Import PyFacts GroupSpec GroupFacts StmtSpec StmtFacts SeriesSpec SeriesFacts.
Import LeaderSpec LeaderFacts.
Import CumulativeSpec.

Lemma running_sum_length l : forall acc,
  List.length (running_sum acc l) = List.length l.
Proof. induction l as [|x t IH]; intros acc; simpl; [reflexivity | now rewrite IH]. Qed.

Lemma running_sum_bounds l : forall acc,
  Forall (fun x => 0 <= x) l ->
  Forall (fun y => acc <= y) (running_sum acc l).
Proof.
  induction l as [|x t IH]; intros acc H; simpl; [constructor|].
  inversion H as [|? ? Hx Ht]; subst. constructor; [lia|].
  eapply Forall_impl; [|apply (IH (acc + x) Ht)]. cbv beta. intros; lia.
Qed.

Lemma running_sum_sorted l : forall acc,
  Forall (fun x => 0 <= x) l -> StronglySorted Z.le (running_sum acc l).
Proof.
  induction l as [|x t IH]; intros acc H; simpl; [constructor|].
  inversion H as [|? ? Hx Ht]; subst. constructor; [now apply IH|].
  now apply running_sum_bounds.
Qed.

Lemma sum_of_nonneg {R} (val : R -> Z) l :
  (forall r, In r l -> 0 <= val r) -> 0 <= sum_of val l.
Proof.
  unfold sum_of. induction l as [|a t IH]; intros H; simpl; [lia|].
  specialize (IH (fun r Hr => H r (or_intror Hr))).
  specialize (H a (or_introl eq_refl)). lia.
Qed.

Lemma pair_eqb_eq p q : pair_eqb p q = true <-> p = q.
Proof.
  destruct p as [a x], q as [b y]. unfold pair_eqb. cbn [fst snd].
  rewrite andb_true_iff, Z.eqb_eq, str_eqb_eq. split.
  - intros [-> ->]. reflexivity.
  - intros [= -> ->]. auto.
Qed.

Lemma has_duplicates_NoDup l : NoDup l -> has_duplicates l = false.
Proof.
  induction 1 as [|p t Hp _ IH]; simpl; [reflexivity|].
  rewrite IH, orb_false_r. apply existsb_false, Forall_forall.
  intros q Hq. apply not_true_iff_false. rewrite pair_eqb_eq.
  intros ->. contradiction.
Qed.

Lemma NoDup_map_filter {A B} (f : A -> B) (p : A -> bool) l :
  NoDup (map f l) -> NoDup (map f (filter p l)).
Proof.
  induction l as [|a t IH]; simpl; intros H; [constructor|].
  inversion H as [|? ? Ha Ht]; subst.
  destruct (p a); simpl; [|auto]. constructor; [|auto].
  intros Hin. apply Ha. apply in_map_iff in Hin.
  destruct Hin as (b & E & Hb). apply filter_In in Hb.
  apply in_map_iff. exists b. tauto.
Qed.

Lemma cell_at_Some i c t v : cell_at i c t = Some v -> In (i, c, v) t.
Proof.
  induction t as [|[k x] r IH]; cbn [cell_at In]; [discriminate|].
  destruct (pair_eqb (i, c) k) eqn:E.
  - apply pair_eqb_eq in E. subst. intros [= ->]. now left.
  - intros H. right. auto.
Qed.

Lemma cell_at_None i c t : cell_at i c t = None -> forall v, ~ In (i, c, v) t.
Proof.
  induction t as [|[k x] r IH]; cbn [cell_at In]; [tauto|].
  destruct (pair_eqb (i, c) k) eqn:E; [discriminate|].
  intros H v [Heq | Hin].
  - injection Heq as Hk _. subst k.
    assert (E' : pair_eqb (i, c) (i, c) = true) by now apply pair_eqb_eq.
    congruence.
  - now apply (IH H v).
Qed.

Lemma str_in_In x l : str_in x l = true <-> In x l.
Proof.
  unfold str_in. rewrite existsb_exists. split.
  - intros (y & Hy & E). apply str_eqb_eq in E. now subst.
  - intros H. exists x. split; [exact H | apply str_eqb_refl].
Qed.

(** *** sort_index on a grid whose index is ascending *)

Lemma sorted_map {A B} (f : A -> B) (R : B -> B -> Prop) l :
  StronglySorted R (map f l) -> StronglySorted (fun a b => R (f a) (f b)) l.
Proof.
  induction l as [|a t IH]; simpl; intros H; [constructor|].
  inversion H as [|? ? Ht Ha]; subst. constructor; [auto|].
  rewrite Forall_map in Ha. exact Ha.
Qed.

Lemma with_index_fst {A} (l : list A) :
  map fst (with_index l) = seq 0 (List.length l).
Proof.
  unfold with_index. generalize 0%nat.
  induction l as [|x t IH]; intros n; simpl; [reflexivity|].
  f_equal. apply IH.
Qed.

Lemma loc_seq_app {A} (l : list A) : forall pre,
  loc (pre ++ l) (seq (List.length pre) (List.length l)) = l.
Proof.
  induction l as [|x t IH]; intros pre; [reflexivity|].
  cbn [List.length seq]. unfold loc. cbn [flat_map].
  rewrite nth_error_app2 by lia. rewrite Nat.sub_diag. cbn [nth_error app].
  f_equal. specialize (IH (pre ++ [x])).
  rewrite <- app_assoc, length_app in IH. cbn [app List.length] in IH.
  rewrite Nat.add_1_r in IH. exact IH.
Qed.

Lemma loc_seq {A} (l : list A) : loc l (seq 0 (List.length l)) = l.
Proof. exact (loc_seq_app l []). Qed.

Lemma sort_index_fixed (g : grid (option Z)) :
  StronglySorted Z.lt (index g) ->
  (forall c col, In (c, col) (series g) ->
     List.length col = List.length (index g)) ->
  sort_index g = g.
Proof.
  intros Hs Hlen. unfold sort_index, sort_asc.
  rewrite (sort_by_fixed (fun x h : nat * Z => snd x <=? snd h)).
  - rewrite with_index_snd, with_index_fst. destruct g as [idx ser].
    cbn [index series] in *. f_equal.
    rewrite <- (map_id ser) at 2. apply map_ext_in.
    intros [c col] Hin. cbn [fst snd]. f_equal.
    rewrite <- (Hlen c col Hin). apply loc_seq.
  - apply (sorted_map snd (fun a b : Z => (a <=? b) = true)).
    rewrite with_index_snd.
    eapply sorted_impl; [|exact Hs]. intros a b Hab.
    apply Z.leb_le. lia.
Qed.

Lemma unique_sorted_Z_lt (l : list Z) : StronglySorted Z.lt (unique_sorted l).
Proof.
  eapply sorted_impl; [|apply unique_sorted_sorted].
  intros a b Hab. unfold key_lt, compare, Ord_Z in Hab.
  now apply Z.compare_lt_iff.
Qed.

End CumulativeFacts.

Module CumulativeTheorems.
Import PyFacts GroupSpec GroupFacts StmtSpec StmtFacts SeriesSpec SeriesFacts.
Import LeaderSpec LeaderFacts.
Import LeaderTheorems CumulativeSpec CumulativeFacts.

Section Table.
Variable ds : list (Delivery.row Z).

Lemma season_table_In s b v :
  In (s, b, v) (season_table ds) <->
  (exists d, In d ds /\ Delivery.season d = s /\ Delivery.batter d = b)
  /\ v = season_runs ds b s.
Proof.
  unfold season_table, season_runs. rewrite aggregate_In.
  rewrite (filter_ext _ _ (in_group_of_player Delivery.batter s b)).
  split; intros ((d & Hd & E) & Hv); (split; [|exact Hv]); exists d.
  - injection E as <- <-. auto.
  - destruct E as (<- & <-). auto.
Qed.

Lemma pivot_top_rows : pivot (top_rows ds) = Ok (pivoted ds).
Proof.
  unfold pivot. rewrite has_duplicates_NoDup; [reflexivity|].
  unfold top_rows. apply NoDup_map_filter. apply aggregate_NoDup.
Qed.

Lemma sort_index_pivoted : sort_index (pivoted ds) = (pivoted ds).
Proof.
  apply sort_index_fixed.
  - apply unique_sorted_Z_lt.
  - intros c col Hin. cbn [series index pivoted] in *.
    apply in_map_iff in Hin. destruct Hin as (c' & [= _ <-] & _).
    apply length_map.
Qed.

Lemma batters_top b : In b (batters ds) -> In b (top_batters ds).
Proof.
  unfold batters. rewrite unique_sorted_In, in_map_iff.
  intros (r & <- & Hr). unfold top_rows in Hr. apply filter_In in Hr.
  apply str_in_In. tauto.
Qed.

Lemma batters_few : (List.length (batters ds) <= 5)%nat.
Proof.
  transitivity (List.length (top_batters ds)).
  - apply NoDup_incl_length; [apply unique_sorted_NoDup|].
    intros b. apply batters_top.
  - unfold top_batters, head. rewrite length_map. apply firstn_le_length.
Qed.

(** A cell of the pivot, a missing one filled with zero, is the runs of
    the batter in the season. *)
Lemma filled_cell b s :
  In b (batters ds) ->
  match cell_at s b (top_rows ds) with Some x => x | None => 0 end
  = season_runs ds b s.
Proof.
  intros Hb. destruct (cell_at s b (top_rows ds)) as [v|] eqn:E.
  - apply cell_at_Some in E. unfold top_rows in E. apply filter_In in E.
    destruct E as (E & _). apply season_table_In in E. tauto.
  - pose proof (cell_at_None _ _ _ E) as Hnone.
    unfold season_runs.
    replace (filter (of_player Delivery.batter s b) ds) with (@nil (Delivery.row Z));
      [reflexivity|].
    symmetry. apply TotalsFacts.filter_nil_forall. apply Forall_forall.
    intros d Hd. apply not_true_iff_false. intros Hp.
    unfold of_player in Hp. apply andb_true_iff in Hp.
    destruct Hp as (Hs & Hbat). apply Z.eqb_eq in Hs. apply str_eqb_eq in Hbat.
    apply (Hnone (season_runs ds b s)). unfold top_rows. apply filter_In.
    split.
    + apply season_table_In. split; [|reflexivity]. exists d. auto.
    + cbn [fst snd]. apply str_in_In. now apply batters_top.
Qed.

Lemma cumulative_grid_index : index (cumulative_grid ds) = (seasons ds).
Proof. reflexivity. Qed.

Lemma cumulative_grid_series b totals :
  In (b, totals) (series (cumulative_grid ds)) ->
  totals = running_sum 0 (map (season_runs ds b) (seasons ds)).
Proof.
  unfold cumulative_grid, cumsum, grid_fillna, pivoted. cbn [series index].
  rewrite !map_map. cbn [fst snd]. rewrite in_map_iff.
  intros (c & [= -> <-] & Hc). f_equal. rewrite map_map.
  apply map_ext. intros s. now apply filled_cell.
Qed.

Lemma cumulative_grid_few : (List.length (series (cumulative_grid ds)) <= 5)%nat.
Proof.
  unfold cumulative_grid, cumsum, grid_fillna, pivoted. cbn [series index].
  rewrite !length_map. apply batters_few.
Qed.

Lemma season_runs_nonneg b s :
  (forall d, In d ds -> 0 <= Delivery.batsman_runs d) ->
  0 <= season_runs ds b s.
Proof.
  intros H. unfold season_runs. apply sum_of_nonneg.
  intros d Hd. apply filter_In in Hd. apply H. tauto.
Qed.
End Table.

Lemma cumulative_runs_has deliveries :
  has_columns deliveries ["season"; "batter"; "batsman_runs"]%string ->
  cumulative_runs deliveries = Ok (cumulative_grid (rows deliveries)).
Proof.
  intros Hc. unfold cumulative_runs, runs_per_season.
  rewrite groupby_agg_has.
  - cbn [bind].
    fold (season_table (rows deliveries)).
    fold (top_batters (rows deliveries)).
    fold (top_rows (rows deliveries)).
    rewrite pivot_top_rows. cbn [bind]. rewrite sort_index_pivoted. reflexivity.
  - eapply has_columns_sub; [exact Hc|]. intros c [<-|[<-|[]]]; cbn [In]; tauto.
  - eapply has_columns_In; [exact Hc | cbn [In]; tauto].
Qed.

Lemma cumulative_runs_entry deliveries s1 r s2 :
  has_columns deliveries ["season"; "batter"; "batsman_runs"]%string ->
  cumulative_runs_block deliveries s1 = (r, s2) ->
  dict_get "cumulative_runs" (kpis s2)
  = Some (Cumulative (cumulative_grid (rows deliveries))).
Proof.
  intros Hc. unfold cumulative_runs_block, try_except, bindM, lift.
  rewrite (cumulative_runs_has _ Hc).
  intros [= _ <-]. apply dict_get_set_same.
Qed.

(** C9. When [calculate_kpis] returns for deliveries that have the columns
    read and no negative batsman_runs, the cumulative_runs KPI is a grid
    whose seasons are strictly ascending, with at most five batter columns,
    and each batter's column is the running sum, down the seasons, of the
    batter's runs in each season (zero where the batter has none): it is
    non-decreasing across the ascending seasons. *)
Theorem cumulative_runs_nondecreasing matches deliveries kp printed :
  has_columns deliveries ["season"; "batter"; "batsman_runs"]%string ->
  (forall d, In d (rows deliveries) -> 0 <= Delivery.batsman_runs d) ->
  calculate_kpis matches deliveries = (Ok kp, printed) ->
  exists g,
    dict_get "cumulative_runs" kp = Some (Cumulative g)
    /\ StronglySorted Z.lt (index g)
    /\ (List.length (series g) <= 5)%nat
    /\ forall batter totals, In (batter, totals) (series g) ->
         totals = running_sum 0
                    (map (season_runs (rows deliveries) batter) (index g))
         /\ List.length totals = List.length (index g)
         /\ StronglySorted Z.le totals.
Proof.
  intros Hc Hpos H. apply calculate_kpis_Ok in H.
  destruct H as (s' & Hrun & -> & _).
  exists (cumulative_grid (rows deliveries)).
  split; [|split; [|split]].
  - destruct (entry_at "cumulative_runs" 18 (cumulative_runs_block deliveries)
                (blocks matches deliveries) _ _
                eq_refl ltac:(cbn [skipn blocks]; keeps_blocks) Hrun)
      as (s1 & s2 & _ & Hw & ->).
    eapply cumulative_runs_entry; eauto.
  - rewrite cumulative_grid_index. apply unique_sorted_Z_lt.
  - apply cumulative_grid_few.
  - intros batter totals Hin. apply cumulative_grid_series in Hin.
    rewrite cumulative_grid_index. split; [exact Hin|]. subst totals.
    split.
    + now rewrite running_sum_length, length_map.
    + apply running_sum_sorted. apply Forall_map, Forall_forall.
      intros s _. now apply season_runs_nonneg.
Qed.

Lemma cumulative_runs_nondecreasing_witness :
  exists g,
    dict_get "cumulative_runs" League.kpis = Some (Cumulative g)
    /\ StronglySorted Z.lt (index g)
    /\ (List.length (series g) <= 5)%nat
    /\ forall batter totals, In (batter, totals) (series g) ->
         totals = running_sum 0
                    (map (season_runs (rows League.deliveries) batter) (index g))
         /\ List.length totals = List.length (index g)
         /\ StronglySorted Z.le totals.
Proof.
  apply (cumulative_runs_nondecreasing League.matches League.deliveries
           League.kpis []).
  - repeat constructor.
  - intros d Hd. cbn in Hd.
    repeat (destruct Hd as [<- | Hd]; [cbn; lia|]). contradiction.
  - vm_compute. reflexivity.
Defined.

End CumulativeTheorems.

(* ================================================================== *)
(** ** Further properties of the loader, the processor and their caller *)
(* ================================================================== *)

Module CleaningFacts.
Import PyFacts TeamNameSpec TeamFacts LoaderSpec LoaderFacts LeaderSpec LeaderFacts
       StmtSpec CleaningSpec.

Lemma needs_Ok {R} (f : frame R) labels u0 :
  needs f labels = Ok u0 -> has_columns f labels.
Proof.
  unfold needs, has_columns. revert u0.
  induction labels as [|c t IH]; intros u0 H; [constructor|].
  cbn [fold_right] in H. unfold need at 1 in H.
  destruct (has_column f c) eqn:E; cbn [bind] in H; [|discriminate].
  constructor; [exact E | eapply IH; exact H].
Qed.

Lemma needs_missing {R} (f : frame R) labels c :
  In c labels -> has_column f c = false ->
  exists c', needs f labels = Raise (KeyError c').
Proof.
  intros Hin Hc. induction labels as [|a t IH]; [contradiction|].
  unfold needs. cbn [fold_right]. unfold need at 1.
  destruct (has_column f a) eqn:E; cbn [bind].
  - destruct Hin as [->|Hin]; [congruence|]. exact (IH Hin).
  - now exists a.
Qed.

Lemma has_column_add {R} (cols : list string) (l : list R) label c :
  has_column (Frame (add_column label cols) l) c
  = existsb (String.eqb c) cols || String.eqb c label.
Proof.
  unfold has_column, add_column. cbn [columns].
  destruct (existsb (String.eqb label) cols) eqn:E.
  - destruct (String.eqb c label) eqn:Ec; [|now rewrite orb_false_r].
    apply String.eqb_eq in Ec. subst. rewrite E. reflexivity.
  - rewrite existsb_app. cbn [existsb]. now rewrite orb_false_r.
Qed.

(** [int] raises nothing but [ValueError], and so does [clean_season]. *)
Lemma int_of_str_raises s e : int_of_str s = Raise e -> e = ValueError.
Proof.
  unfold int_of_str.
  destruct (match strip s with
            | [] => (false, strip s)
            | c :: r => if (c =? ch "-")%N then (true, r)
                        else if (c =? ch "+")%N then (false, r)
                        else (false, strip s)
            end) as [negative body].
  destruct body as [|c r]; [congruence|].
  destruct (is_digit c); [|congruence].
  destruct (digits 0 false (c :: r)); congruence.
Qed.

Lemma clean_season_raises x e : clean_season x = Raise e -> e = ValueError.
Proof.
  unfold clean_season.
  destruct (str_in (py_str x) _); [discriminate|].
  destruct (contains (ch "/") (py_str x) || contains (ch "-") (py_str x));
    apply int_of_str_raises.
Qed.

Lemma mapM_raises {A B} (f : A -> result B) l :
  Exists (fun a => exists e, f a = Raise e) l ->
  exists a e, In a l /\ f a = Raise e /\ mapM f l = Raise e.
Proof.
  induction l as [|a t IH]; intros H; [inversion H|].
  cbn [mapM]. destruct (f a) as [b|e] eqn:Ea; cbn [bind].
  - inversion H as [? ? (e & He)|? ? Ht]; subst; [congruence|].
    destruct (IH Ht) as (a' & e & Hin & Hf & Hm).
    exists a', e. rewrite Hm. cbn [bind]. split; [now right | auto].
  - exists a, e. split; [now left | auto].
Qed.

(** The columns are there whenever [fill_and_merge] returns. *)
Lemma fill_and_merge_columns matches deliveries x :
  fill_and_merge matches deliveries = Ok x ->
  has_columns matches required_match_columns
  /\ has_columns deliveries required_delivery_columns.
Proof.
  unfold fill_and_merge. intros H.
  destruct (need matches "season") as [[]|] eqn:E1; cbn [bind] in H; [|discriminate].
  destruct (mapM clean_season _) as [seasons|]; cbn [bind] in H; [|discriminate].
  destruct (needs matches _) as [[]|] eqn:E2; cbn [bind] in H; [|discriminate].
  destruct (needs deliveries _) as [[]|] eqn:E3; cbn [bind] in H; [|discriminate].
  match type of H with
  | bind ?n _ = _ => destruct n as [[]|] eqn:E4; cbn [bind] in H; [|discriminate]
  end.
  destruct (need deliveries "match_id") as [[]|] eqn:E5; cbn [bind] in H;
    [|discriminate].
  apply need_Ok in E1, E4, E5. apply needs_Ok in E2, E3.
  rewrite has_column_add in E4.
  change (String.eqb "id" "home_team") with false in E4.
  rewrite orb_false_r in E4.
  unfold has_columns in *. rewrite Forall_forall in E2, E3.
  split; apply Forall_forall; intros c Hin; cbn [In required_match_columns
    required_delivery_columns] in Hin;
    repeat (destruct Hin as [<-|Hin]; [|]); try contradiction;
    first [ exact E1 | exact E4 | exact E5
          | apply E2; cbn [In]; tauto | apply E3; cbn [In]; tauto ].
Qed.

(** It raises nothing but [KeyError] and [ValueError]. *)
Lemma fill_and_merge_raises matches deliveries e :
  fill_and_merge matches deliveries = Raise e ->
  is_KeyError e = true \/ e = ValueError.
Proof.
  unfold fill_and_merge. intros H.
  unfold need at 1 in H.
  destruct (has_column matches "season"); cbn [bind] in H;
    [|injection H as <-; now left].
  destruct (mapM clean_season _) as [seasons|e0] eqn:Em; cbn [bind] in H.
  2:{ injection H as <-. right.
      assert (G : forall l e1, mapM clean_season l = Raise e1 -> e1 = ValueError).
      { induction l as [|a t IH]; cbn [mapM]; intros e1 H1; [discriminate|].
        destruct (clean_season a) eqn:Ea; cbn [bind] in H1.
        - destruct (mapM clean_season t) eqn:Et; cbn [bind] in H1;
            [discriminate|]. injection H1 as <-. now apply IH.
        - injection H1 as <-. eapply clean_season_raises; exact Ea. }
      eapply G; exact Em. }
  left. revert H.
  repeat match goal with
         | |- bind ?r _ = Raise e -> _ =>
             let E := fresh "E" in
             destruct r as [[]|e1] eqn:E; cbn [bind];
             [| intros [= <-];
                first [ exact (IsolationFacts.only_needs _ _ _ E)
                      | exact (IsolationFacts.only_need _ _ _ E)
                      | idtac ] ]
         end.
  - discriminate.
  - destruct (has_column deliveries "season"); [|discriminate].
    injection E3 as <-. reflexivity.
Qed.

Lemma clean_data_raise matches deliveries e :
  fill_and_merge matches deliveries = Raise e ->
  clean_data matches deliveries = (Raise e, []).
Proof. intros H. unfold clean_data. now rewrite H. Qed.

(** The rows of the cleaned matches, beside the rows they come from. *)
Lemma cleaned_rows cols (ms : list (Match.row cell)) : forall seasons,
  mapM clean_season (map Match.season ms) = Ok seasons ->
  Forall2 (fun m m' => exists s, clean_season (Match.season m) = Ok s
                                 /\ m' = standardize_teams cols (fill_match m s))
          ms
          (map (standardize_teams cols)
               (map (fun p => fill_match (fst p) (snd p)) (combine ms seasons))).
Proof.
  induction ms as [|m t IH]; intros seasons H.
  - constructor.
  - cbn [map mapM] in H.
    destruct (clean_season (Match.season m)) as [s|] eqn:Es; cbn [bind] in H;
      [|discriminate].
    destruct (mapM clean_season (map Match.season t)) as [ss|] eqn:Et;
      cbn [bind] in H; [|discriminate].
    injection H as <-. cbn [combine map fst snd].
    constructor; [exists s; auto | now apply IH].
Qed.

Lemma clean_data_rows matches deliveries ms' ds' printed :
  clean_data matches deliveries = (Ok (ms', ds'), printed) ->
  Forall2 (fun m m' =>
             exists s, clean_season (Match.season m) = Ok s
                       /\ m' = standardize_teams
                                 (add_column "home_team" (columns matches))
                                 (fill_match m s))
          (rows matches) (rows ms').
Proof.
  intros H. apply clean_data_Ok in H. cbv zeta in H.
  destruct H as (seasons & Es & -> & _). now apply cleaned_rows.
Qed.

Lemma clean_data_columns matches deliveries ms' ds' printed :
  clean_data matches deliveries = (Ok (ms', ds'), printed) ->
  has_columns matches required_match_columns
  /\ has_columns deliveries required_delivery_columns.
Proof.
  unfold clean_data. intros H.
  destruct (fill_and_merge matches deliveries) as [x|] eqn:E; [|discriminate].
  eapply fill_and_merge_columns; exact E.
Qed.

Lemma existsb_add label cols c :
  existsb (String.eqb c) (add_column label cols)
  = existsb (String.eqb c) cols || String.eqb c label.
Proof. exact (has_column_add cols (@nil unit) label c). Qed.

(** With distinct match ids a delivery meets at most one match row. *)
Lemma filter_id_NoDup {S} (ms : list (Match.row S)) (k : Z) :
  NoDup (map Match.id ms) ->
  (List.length (filter (fun m => (Match.id m =? k)%Z) ms) <= 1)%nat.
Proof.
  induction ms as [|m t IH]; intros H; [simpl; lia|].
  inversion H as [|? ? Hn Ht]; subst. cbn [filter].
  destruct (Match.id m =? k) eqn:E; [|now apply IH].
  apply Z.eqb_eq in E.
  replace (filter (fun m0 => Match.id m0 =? k) t) with (@nil (Match.row S));
    [simpl; lia|].
  symmetry. apply filter_nil_iff, existsb_false.
  apply Forall_forall. intros x Hx. apply Z.eqb_neq. intros Ex.
  apply Hn. rewrite E, <- Ex. now apply in_map.
Qed.

Lemma without_with_season {T} (d : Delivery.row unit) (s : T) :
  without_season (Delivery.with_season d s) = d.
Proof. destruct d as [? [] ? ? ? ? ? ? ? ? ? ?]. reflexivity. Qed.

Lemma joined_NoDup ds (ms : list (Match.row Z)) :
  NoDup (map Match.id ms) ->
  map without_season (joined ds ms) = filter (has_match ms) ds.
Proof.
  intros Hn. induction ds as [|d t IH]; [reflexivity|].
  unfold joined in *. cbn [flat_map filter]. rewrite map_app, IH.
  pose proof (filter_id_NoDup ms (Delivery.match_id d) Hn) as Hl.
  unfold has_match at 2.
  destruct (filter (fun m => Match.id m =? Delivery.match_id d) ms)
    as [|m [|m2 r]] eqn:E.
  - apply filter_nil_iff in E. rewrite E. reflexivity.
  - replace (existsb _ ms) with true.
    + cbn [map app]. f_equal. apply without_with_season.
    + symmetry. apply not_false_iff_true. rewrite <- filter_nil_iff, E.
      discriminate.
  - simpl in Hl. lia.
Qed.

Lemma filter_partition {A} (p : A -> bool) l :
  (List.length (filter p l) + List.length (filter (fun a => negb (p a)) l)
   = List.length l)%nat.
Proof.
  induction l as [|a t IH]; [reflexivity|].
  cbn [filter]. destruct (p a); cbn [negb List.length]; lia.
Qed.

End CleaningFacts.

Module CleaningTheorems.
Import PyFacts TeamNameSpec TeamFacts LoaderSpec LoaderFacts LeaderSpec LeaderFacts
       StmtSpec CleaningSpec CleaningFacts.

(** X1. When [clean_data] returns, the cleaned matches are the rows of the
    input, one for one and in order: the id and the venue are kept, the
    season is what [clean_season] makes of the label, and a missing city,
    result margin, method or player of the match reads "Unknown", 0,
    "Normal" or "None". *)
Theorem clean_data_match_defaults matches deliveries ms' ds' printed :
  clean_data matches deliveries = (Ok (ms', ds'), printed) ->
  Forall2 match_defaults (rows matches) (rows ms').
Proof.
  intros H. apply clean_data_rows in H.
  eapply Forall2_impl; [|exact H].
  intros m m' (s & Es & ->). unfold match_defaults.
  cbn [standardize_teams fill_match Match.id Match.season Match.venue
       Match.city Match.result_margin Match.method Match.player_of_match].
  repeat split; try assumption.
  - now destruct (Match.city m).
  - now destruct (Match.result_margin m).
  - now destruct (Match.method m).
  - now destruct (Match.player_of_match m).
Qed.

Lemma clean_data_match_defaults_witness :
  Forall2 match_defaults (rows LoaderExamples.one_match)
          (rows (fst LoaderExamples.cleaned))
  /\ map Match.city (rows (fst LoaderExamples.cleaned)) = [Some (u "Unknown")]
  /\ map Match.season (rows (fst LoaderExamples.cleaned)) = [2020].
Proof.
  split; [|split; reflexivity].
  apply (clean_data_match_defaults LoaderExamples.one_match
           LoaderExamples.three_balls (fst LoaderExamples.cleaned)
           (snd LoaderExamples.cleaned) [Unmatched_deliveries 1]).
  vm_compute. reflexivity.
Defined.

(** X2. When [clean_data] returns, the team columns of every cleaned match are
    standardized, its home team is its first team, and a match without a
    winner, or without a toss winner, reads "No Result", or "None": the
    default survives the standardization. *)
Theorem clean_data_team_columns matches deliveries ms' ds' printed :
  clean_data matches deliveries = (Ok (ms', ds'), printed) ->
  Forall2 (team_columns (has_column matches "team2"))
          (rows matches) (rows ms').
Proof.
  intros H. pose proof (clean_data_columns _ _ _ _ _ H) as (Hm & _).
  apply clean_data_rows in H.
  assert (Hc : forall c, In c required_match_columns ->
                 existsb (String.eqb c) (add_column "home_team" (columns matches))
                 = true).
  { intros c Hin. rewrite existsb_add.
    change (existsb (String.eqb c) (columns matches)) with (has_column matches c).
    rewrite (has_columns_In _ _ _ Hm Hin). reflexivity. }
  assert (Hh : existsb (String.eqb "home_team")
                 (add_column "home_team" (columns matches)) = true).
  { rewrite existsb_add. apply orb_true_r. }
  assert (H2 : existsb (String.eqb "team2")
                 (add_column "home_team" (columns matches))
               = has_column matches "team2").
  { rewrite existsb_add. apply orb_false_r. }
  pose proof (Hc "team1"%string ltac:(cbn; tauto)) as H1.
  pose proof (Hc "winner"%string ltac:(cbn; tauto)) as Hw.
  pose proof (Hc "toss_winner"%string ltac:(cbn; tauto)) as Ht.
  eapply Forall2_impl; [|exact H].
  intros m m' (s & _ & ->). unfold team_columns, standardize_teams.
  rewrite H1, Hw, Ht, Hh, H2.
  cbn [fill_match Match.team1 Match.team2 Match.home_team Match.winner
       Match.toss_winner].
  split; [reflexivity|]. split; [now intros ->|]. split; [reflexivity|].
  split.
  - now destruct (Match.winner m).
  - now destruct (Match.toss_winner m).
Qed.

Lemma clean_data_team_columns_witness :
  Forall2 (team_columns (has_column LoaderExamples.one_match "team2"))
          (rows LoaderExamples.one_match) (rows (fst LoaderExamples.cleaned))
  /\ map Match.home_team (rows (fst LoaderExamples.cleaned))
     = [Some (u "Sunrisers Hyderabad")]
  /\ map Match.toss_winner (rows (fst LoaderExamples.cleaned))
     = [Some (u "None")].
Proof.
  split; [|split; reflexivity].
  apply (clean_data_team_columns LoaderExamples.one_match
           LoaderExamples.three_balls (fst LoaderExamples.cleaned)
           (snd LoaderExamples.cleaned) [Unmatched_deliveries 1]).
  vm_compute. reflexivity.
Defined.

(** X3. [clean_data] needs its columns: when a column that it reads by name is
    absent from the matches or from the deliveries, it raises ([KeyError],
    or [ValueError] when a season label was rejected first), returns no
    table and prints nothing. *)
Theorem clean_data_missing_column matches deliveries c :
  (In c required_match_columns /\ has_column matches c = false)
  \/ (In c required_delivery_columns /\ has_column deliveries c = false) ->
  exists e, clean_data matches deliveries = (Raise e, [])
            /\ (is_KeyError e = true \/ e = ValueError).
Proof.
  intros H.
  destruct (fill_and_merge matches deliveries) as [x|e] eqn:E.
  - exfalso. apply fill_and_merge_columns in E. destruct E as (Hm & Hd).
    destruct H as [(Hin & Hc)|(Hin & Hc)].
    + rewrite (has_columns_In _ _ _ Hm Hin) in Hc. discriminate.
    + rewrite (has_columns_In _ _ _ Hd Hin) in Hc. discriminate.
  - exists e. split; [now apply clean_data_raise|].
    eapply fill_and_merge_raises; exact E.
Qed.

Lemma clean_data_missing_column_witness :
  exists e,
    clean_data (League.without "city" League.raw_matches) League.raw_deliveries
    = (Raise e, [])
    /\ (is_KeyError e = true \/ e = ValueError).
Proof.
  apply (clean_data_missing_column (League.without "city" League.raw_matches)
           League.raw_deliveries "city"%string).
  left. split; [cbn; tauto | reflexivity].
Defined.

(** X4. A season label that [clean_season] rejects, a missing season among
    them, makes [clean_data] raise [ValueError]: no table is returned and
    nothing is printed. *)
Theorem clean_data_bad_season matches deliveries :
  has_column matches "season" = true ->
  Exists bad_season (rows matches) ->
  clean_data matches deliveries = (Raise ValueError, []).
Proof.
  intros Hc Hb. apply clean_data_raise. unfold fill_and_merge.
  unfold need at 1. rewrite Hc. cbn [bind].
  assert (Hb' : Exists (fun x => exists e, clean_season x = Raise e)
                       (map Match.season (rows matches))).
  { apply Exists_exists in Hb. destruct Hb as (m & Hin & He).
    apply Exists_exists. exists (Match.season m). split; [now apply in_map | exact He]. }
  apply mapM_raises in Hb'. destruct Hb' as (a & e & _ & Ha & ->).
  apply clean_season_raises in Ha. now subst.
Qed.

Lemma clean_data_bad_season_witness :
  clean_season CNaN = Raise ValueError
  /\ clean_data
       (Frame LoaderExamples.match_columns
          [League.fixture 1 CNaN "Mumbai Indians" "Delhi Capitals" None
             "Wankhede" "None"])
       League.raw_deliveries
     = (Raise ValueError, []).
Proof.
  split; [reflexivity|].
  apply (clean_data_bad_season
           (Frame LoaderExamples.match_columns
              [League.fixture 1 CNaN "Mumbai Indians" "Delhi Capitals" None
                 "Wankhede" "None"])
           League.raw_deliveries).
  - reflexivity.
  - constructor. exists ValueError. reflexivity.
Defined.

(** X5. With distinct match ids the merge duplicates nothing: the cleaned
    deliveries are, season apart, the filled input deliveries that have a
    match row, each once and in order, and together with the unmatched
    ones they are as many as the input. *)
Theorem clean_data_keeps_matched_once matches deliveries ms' ds' printed :
  NoDup (map Match.id (rows matches)) ->
  clean_data matches deliveries = (Ok (ms', ds'), printed) ->
  map without_season (rows ds')
  = map fill_delivery (filter (has_match (rows matches)) (rows deliveries))
  /\ (List.length (rows ds')
      + List.length (unmatched_deliveries matches deliveries)
      = List.length (rows deliveries))%nat.
Proof.
  intros Hn H. apply clean_data_Ok in H. cbv zeta in H.
  destruct H as (seasons & Es & _ & Hds & _).
  pose proof Es as Hlen. apply mapM_Ok, Forall2_length_eq in Hlen.
  rewrite length_map in Hlen.
  assert (E : map without_season (rows ds')
              = map fill_delivery
                    (filter (has_match (rows matches)) (rows deliveries))).
  { rewrite Hds, joined_NoDup by (rewrite fill_match_ids; assumption).
    rewrite TeamRecordFacts.filter_map_comm. f_equal.
    apply filter_ext. intros d.
    change (has_match (rows matches) d)
      with (has_match (rows matches) (fill_delivery d)).
    apply has_match_ids. now apply fill_match_ids. }
  split; [exact E|].
  apply (f_equal (@List.length _)) in E. rewrite !length_map in E.
  rewrite E. unfold unmatched_deliveries. apply filter_partition.
Qed.

Lemma clean_data_keeps_matched_once_witness :
  map without_season (rows (snd LoaderExamples.cleaned))
  = map fill_delivery
      (filter (has_match (rows LoaderExamples.one_match))
              (rows LoaderExamples.three_balls))
  /\ (List.length (rows (snd LoaderExamples.cleaned))
      + List.length (unmatched_deliveries LoaderExamples.one_match
                       LoaderExamples.three_balls)
      = List.length (rows LoaderExamples.three_balls))%nat.
Proof.
  apply (clean_data_keeps_matched_once LoaderExamples.one_match
           LoaderExamples.three_balls (fst LoaderExamples.cleaned)
           (snd LoaderExamples.cleaned) [Unmatched_deliveries 1]).
  - repeat constructor. cbn. tauto.
  - vm_compute. reflexivity.
Defined.

End CleaningTheorems.

Module AliasTheorems.
Import PyFacts TeamNameSpec TeamFacts CleaningSpec AliasSpec.

(** A canonical name is its own title case after normalization: checked
    entry by entry. *)
Lemma team_mapping_finished :
  forallb (fun kv => option_str_eqb (finish (snd kv)) (Some (snd kv)))
          team_mapping = true.
Proof. vm_compute. reflexivity. Qed.

Lemma finish_canonical k c :
  lookup k team_mapping = Some c -> finish c = Some c.
Proof.
  intros H. apply lookup_In in H.
  pose proof team_mapping_finished as T. rewrite forallb_forall in T.
  apply option_str_eqb_eq. exact (T _ H).
Qed.

Lemma ends_in_space_normal s : ends_in_space (normal s) = false.
Proof.
  pose proof (normal_no_trail s) as H. unfold no_trail, no_lead in H.
  unfold ends_in_space. destruct (rev (normal s)); [reflexivity | exact H].
Qed.

Lemma lookup_filter {V} (p : str * V -> bool) k l :
  (forall v, p (k, v) = true) ->
  lookup k (filter p l) = lookup k l.
Proof.
  intros Hp. induction l as [|[k' v] t IH]; [reflexivity|].
  cbn [filter lookup]. destruct (str_eqb k k') eqn:E.
  - apply str_eqb_eq in E. subst k'. rewrite Hp. cbn [lookup].
    now rewrite str_eqb_refl.
  - destruct (p (k', v)); [|exact IH]. cbn [lookup]. now rewrite E.
Qed.

(** A canonical name is written in title case: checked entry by entry. *)
Lemma team_mapping_titled :
  forallb (fun kv => str_eqb (title (snd kv)) (snd kv)) team_mapping = true.
Proof. vm_compute. reflexivity. Qed.

(** X6. The loop body in one step: on a name of ASCII characters, the two
    passes of strip, lower-case and alias lookup and the final title-casing
    give the canonical name of the normal form when the alias table has it,
    and the title case of the normal form otherwise; the second pass
    changes nothing. *)
Theorem standardize_team_one_pass (name : str) :
  ascii_only name ->
  standardize_team (Some name) = Some (canonical (normal name))
  /\ standardize_team (Some name)
     = str_title (map_team (normalize_team_name (Some name))).
Proof.
  intros _. unfold canonical. cbn [normalize_team_name map_team].
  fold (normal name).
  destruct (lookup (normal name) team_mapping) as [c|] eqn:E.
  - rewrite (standardize_mapped _ _ E), (finish_canonical _ _ E).
    split; [reflexivity|]. cbn [str_title]. f_equal.
    pose proof team_mapping_titled as T. rewrite forallb_forall in T.
    apply lookup_In in E. symmetry. apply str_eqb_eq. exact (T _ E).
  - rewrite (standardize_unmapped _ E). split; reflexivity.
Qed.

Lemma standardize_team_one_pass_witness :
  standardize_team (Some (u " Kings XI Punjab")) = Some (u "Punjab Kings")
  /\ standardize_team (Some (u "kochi tuskers KERALA"))
     = Some (u "Kochi Tuskers Kerala")
  /\ standardize_team (Some (u " Kings XI Punjab"))
     = Some (canonical (normal (u " Kings XI Punjab"))).
Proof.
  split; [reflexivity|]. split; [reflexivity|].
  apply (standardize_team_one_pass (u " Kings XI Punjab")).
  unfold ascii_only. repeat constructor.
Defined.

(** X7. The key that the loop looks up never ends in whitespace, so the eleven
    aliases whose key ends in a space are never found: every lookup, made
    on a name that [normalize_team_name] returned, gives what the table
    without these entries gives. *)
Theorem trailing_space_aliases_unused (name : str) :
  normalize_team_name (Some name) = Some (normal name)
  /\ lookup (normal name) team_mapping = lookup (normal name) trimmed_mapping
  /\ List.length team_mapping = 30%nat
  /\ List.length trimmed_mapping = 19%nat.
Proof.
  split; [reflexivity|]. split; [|split; reflexivity].
  unfold trimmed_mapping. symmetry. apply lookup_filter. intros v. cbn [fst].
  now rewrite ends_in_space_normal.
Qed.

End AliasTheorems.

Module OutcomeFacts.
Import StmtSpec StmtFacts LeaderSpec LeaderFacts IsolationFacts OutcomeSpec.

(** *** What a statement may raise *)

Lemma only_weaken {A} (P Q : exn -> bool) (r : result A) :
  (forall e, P e = true -> Q e = true) -> only P r -> only Q r.
Proof. intros H Hr e E. apply H, Hr, E. Qed.

Lemma only_of_KeyError {A} (r : result A) : only_KeyError r -> only is_KeyError r.
Proof. exact (fun H => H). Qed.

Lemma only_result_bind {A B} P (r : result A) (f : A -> result B) :
  only P r -> (forall a, only P (f a)) -> only P (bind r f).
Proof.
  intros Hr Hf e. destruct r as [a|e']; cbn [bind].
  - apply Hf.
  - intros [= <-]. now apply Hr.
Qed.

Lemma only_result_Ok {A} P (a : A) : only P (Ok a).
Proof. intros e H. discriminate. Qed.

Lemma raises_only_lift {A} P (r : result A) : only P r -> raises_only P (lift r).
Proof. intros H s e s'. unfold lift. intros [= -> _]. now apply H. Qed.

Lemma raises_only_bind {A B} P (m : M A) (f : A -> M B) :
  raises_only P m -> (forall a, raises_only P (f a)) -> raises_only P (bindM m f).
Proof.
  intros Hm Hf s e s'. unfold bindM.
  destruct (m s) as [[a|e1] s1] eqn:E.
  - apply Hf.
  - intros [= <- <-]. eapply Hm; exact E.
Qed.

Lemma raises_only_set_kpi P k v : raises_only P (set_kpi k v).
Proof. intros s e s'. discriminate. Qed.

Lemma raises_only_assign_wickets P w : raises_only P (assign_wickets w).
Proof. intros s e s'. discriminate. Qed.

Lemma raises_only_assign_team_wins P w : raises_only P (assign_team_wins w).
Proof. intros s e s'. discriminate. Qed.

Lemma try_never_raises P (body : M unit) (h : exn -> M unit) :
  raises_only P body -> (forall e, never_raises (h e)) ->
  never_raises (try_except body P h).
Proof.
  intros Hb Hh s. unfold try_except.
  destruct (body s) as [[[]|e] s1] eqn:E.
  - now exists s1.
  - rewrite (Hb _ _ _ E). apply Hh.
Qed.

Lemma print_set2_never_raises l k v k' v' :
  never_raises (bindM (print l)
                  (fun _ => bindM (set_kpi k v) (fun _ => set_kpi k' v'))).
Proof. intros s. eexists. reflexivity. Qed.

Lemma never_raises_run bs : Forall never_raises bs -> never_raises (run bs).
Proof.
  induction 1 as [|b t Hb _ IH]; intros s.
  - exists s. reflexivity.
  - destruct (Hb s) as (s1 & E). destruct (IH s1) as (s2 & E2).
    exists s2. rewrite (run_cons_step _ _ _ _ E). exact E2.
Qed.

Ltac only_tac :=
  repeat first
    [ apply raises_only_bind; [|intro]
    | apply raises_only_set_kpi
    | apply raises_only_assign_wickets
    | apply raises_only_assign_team_wins
    | apply raises_only_lift
    | apply only_result_bind; [|intro]
    | apply only_result_Ok
    | apply only_groupby_agg | apply only_where | apply only_column
    | apply only_needs | apply only_need ].

Lemma only_pivot t : only is_KeyError_or_ValueError (pivot t).
Proof.
  intros e. unfold pivot. destruct (has_duplicates _); [|discriminate].
  intros [= <-]. reflexivity.
Qed.

Lemma only_cumulative_runs deliveries :
  only is_KeyError_or_ValueError (cumulative_runs deliveries).
Proof.
  unfold cumulative_runs, runs_per_season.
  apply only_result_bind.
  - apply (only_weaken is_KeyError); [now intros []|]. only_tac.
  - intros runs. apply only_result_bind; [apply only_pivot|].
    intros g. apply only_result_Ok.
Qed.

Section Blocks.
Variable matches : frame (Match.row Z).
Variable deliveries : frame (Delivery.row Z).

Lemma boundaries_never_raises runs total per_season what :
  never_raises (boundaries_block deliveries runs total per_season what).
Proof.
  apply try_never_raises.
  - only_tac.
  - intros e. apply print_set2_never_raises.
Qed.

Lemma fielding_never_raises kind key what :
  never_raises (fielding_block deliveries kind key what).
Proof.
  apply try_never_raises.
  - only_tac.
  - intros e. apply print_then_set_never_raises.
Qed.

Lemma most_matches_played_never_raises :
  never_raises (most_matches_played_block deliveries).
Proof.
  apply try_never_raises.
  - only_tac.
  - intros e. apply print_then_set_never_raises.
Qed.

Lemma highest_team_totals_never_raises :
  never_raises (highest_team_totals_block matches deliveries).
Proof.
  apply try_never_raises.
  - only_tac.
  - intros e. apply print_then_set_never_raises.
Qed.

Lemma most_pom_awards_never_raises :
  never_raises (most_pom_awards_block matches).
Proof.
  apply try_never_raises.
  - only_tac.
  - intros e. apply print_then_set_never_raises.
Qed.

Lemma stadium_matches_never_raises :
  never_raises (stadium_matches_block matches).
Proof.
  apply try_never_raises.
  - only_tac.
  - intros e. apply print_then_set_never_raises.
Qed.

Lemma cumulative_runs_never_raises :
  never_raises (cumulative_runs_block deliveries).
Proof.
  apply try_never_raises.
  - apply raises_only_bind;
      [apply raises_only_lift, only_cumulative_runs
      | intro; apply raises_only_set_kpi].
  - intros e. apply print_then_set_never_raises.
Qed.

(** The blocks after the overall wickets never raise. *)
Lemma rest_never_raises :
  Forall never_raises (skipn 9 (blocks matches deliveries)).
Proof.
  cbn [skipn blocks].
  repeat constructor.
  - apply boundaries_never_raises.
  - apply boundaries_never_raises.
  - apply fielding_never_raises.
  - apply fielding_never_raises.
  - apply fielding_never_raises.
  - apply most_matches_played_never_raises.
  - apply highest_team_totals_never_raises.
  - apply most_pom_awards_never_raises.
  - apply stadium_matches_never_raises.
  - apply cumulative_runs_never_raises.
Qed.
End Blocks.

End OutcomeFacts.

Module DictFacts.
Import StmtSpec StmtFacts LeaderSpec LeaderFacts IsolationFacts OutcomeSpec OutcomeFacts.

Lemma keys_set k v d : keys (dict_set k v d) = add_column k (keys d).
Proof.
  unfold keys, add_column. induction d as [|[k' v'] t IH]; [reflexivity|].
  cbn [dict_set map fst existsb].
  destruct (String.eqb k k') eqn:E; cbn [orb map fst].
  - apply String.eqb_eq in E. now subst.
  - rewrite IH. destruct (existsb (String.eqb k) (map fst t)); reflexivity.
Qed.

Lemma dict_get_key k d : In k (keys d) -> exists v, dict_get k d = Some v.
Proof.
  unfold keys. induction d as [|[k' v] t IH]; [contradiction|].
  cbn [dict_get map fst]. intros Hk.
  destruct (String.eqb k k') eqn:Ek; [eauto|].
  apply IH. destruct Hk as [Hk|Hk]; [|exact Hk].
  subst. now rewrite String.eqb_refl in Ek.
Qed.

Lemma add_column_In k l : existsb (String.eqb k) (add_column k l) = true.
Proof.
  unfold add_column. destruct (existsb (String.eqb k) l) eqn:E; [exact E|].
  rewrite existsb_app. cbn [existsb]. rewrite String.eqb_refl. apply orb_true_r.
Qed.

Lemma add_column_idem k l : add_column k (add_column k l) = add_column k l.
Proof. unfold add_column at 1. now rewrite add_column_In. Qed.

(** Running a block: the statement is unfolded and every computation it
    leaves is split into its outcomes. *)
Ltac unfold_block :=
  cbv beta iota zeta delta
    [total_matches_block team_matches_block most_wins_block most_losses_block
     toss_wins_block orange_cap_block purple_cap_block most_runs_total_block
     most_wickets_total_block boundaries_block most_sixes_block
     most_fours_block fielding_block most_catches_block most_stumps_block
     most_run_outs_block most_matches_played_block highest_team_totals_block
     most_pom_awards_block stadium_matches_block cumulative_runs_block
     try_except bindM lift ret print set_kpi get_kpi assign_team_wins
     read_team_wins assign_wickets read_wickets is_KeyError is_NameError
     is_KeyError_or_ValueError is_Exception series_of
     kpis team_wins wickets stdout fst snd].

Ltac split_outcomes :=
  repeat match goal with
         | |- context [match ?x with _ => _ end] =>
             lazymatch x with
             | context [match _ with _ => _ end] => fail
             | _ => destruct x
             end
         end.

Section Blocks.
Variable matches : frame (Match.row Z).
Variable deliveries : frame (Delivery.row Z).

Ltac assigns_tac :=
  intros s s'; destruct s as [d w1 w2 out]; unfold_block; split_outcomes;
  intros E; try discriminate E; injection E as <- <- <- <-;
  cbn [assign_keys fold_left];
  rewrite ?keys_set, ?add_column_idem; reflexivity.

Lemma blocks_assign :
  Forall2 assigns block_keys (blocks matches deliveries).
Proof.
  unfold block_keys, blocks.
  repeat (constructor; [assigns_tac|]). constructor.
Qed.
End Blocks.

Lemma run_assigns kss bs :
  Forall2 assigns kss bs ->
  forall s s', run bs s = (Ok tt, s') ->
    keys (kpis s') = fold_left (fun l ks => assign_keys ks l) kss (keys (kpis s)).
Proof.
  induction 1 as [|ks b kss bs Hb _ IH]; intros s s' H.
  - injection H as <-. reflexivity.
  - apply run_cons_Ok in H. destruct H as (s1 & E1 & E2).
    cbn [fold_left]. rewrite <- (Hb _ _ E1). now apply IH.
Qed.

(** The entry that a block leaves under its key is the entry of the
    returned dict. *)
Ltac entry_of k n w Hrun :=
  let s1 := fresh "s1" in
  let s2 := fresh "s2" in
  let Hpre := fresh "Hpre" in
  let Hw := fresh "Hw" in
  lazymatch type of Hrun with
  | run ?bs ?s0 = _ =>
      destruct (LeaderTheorems.entry_at k n w bs s0 _ eq_refl
                  ltac:(cbn [skipn blocks]; keeps_blocks) Hrun)
        as (s1 & s2 & Hpre & Hw & ->)
  end.

End DictFacts.

Module OutcomeTheorems.
Import StmtSpec StmtFacts LeaderSpec LeaderFacts IsolationFacts.
Import OutcomeSpec OutcomeFacts DictFacts.

Section Blocks.
Variable matches : frame (Match.row Z).
Variable deliveries : frame (Delivery.row Z).

Ltac keeps_wickets_tac :=
  intros s; destruct s as [d w1 w2 out]; unfold_block; split_outcomes;
  reflexivity.

Lemma total_matches_keeps_wickets : keeps_wickets (total_matches_block matches).
Proof. keeps_wickets_tac. Qed.

Lemma team_matches_keeps_wickets : keeps_wickets (team_matches_block matches).
Proof. keeps_wickets_tac. Qed.

Lemma most_wins_keeps_wickets : keeps_wickets (most_wins_block matches).
Proof. keeps_wickets_tac. Qed.

Lemma most_losses_keeps_wickets : keeps_wickets most_losses_block.
Proof. keeps_wickets_tac. Qed.

Lemma toss_wins_keeps_wickets : keeps_wickets (toss_wins_block matches).
Proof. keeps_wickets_tac. Qed.

Lemma orange_cap_keeps_wickets : keeps_wickets (orange_cap_block deliveries).
Proof. keeps_wickets_tac. Qed.

(** After the block of the team matches the entry is a Series, whatever
    happened. *)
Lemma team_matches_is_Series s s' :
  team_matches_block matches s = (Ok tt, s') ->
  exists tm, dict_get "team_matches" (kpis s') = Some (Series tm).
Proof.
  destruct s as [d w1 w2 out]. unfold_block. split_outcomes;
    intros E; try discriminate E; injection E as <-; cbn [kpis];
    eexists; apply dict_get_set_same.
Qed.

Lemma purple_cap_never_raises : never_raises (purple_cap_block deliveries).
Proof.
  apply try_never_raises.
  - only_tac.
  - intros e. apply print_then_set_never_raises.
Qed.

(** Without the dismissal kinds the purple cap block binds nothing. *)
Lemma purple_cap_unbound s :
  has_column deliveries "dismissal_kind" = false ->
  wickets (snd (purple_cap_block deliveries s)) = wickets s.
Proof.
  intros Hc. unfold purple_cap_block, try_except, bindM, lift, where_, need.
  rewrite Hc. reflexivity.
Qed.

(** The first eight blocks never raise, and they leave [wickets] bound to
    the wicket deliveries when the deliveries have a dismissal kind, and
    unbound otherwise. *)
Lemma wickets_after_eight :
  exists s8,
    run (firstn 8 (blocks matches deliveries)) initial_state = (Ok tt, s8)
    /\ wickets s8
       = (if has_column deliveries "dismissal_kind"
          then Some (wicket_deliveries deliveries) else None).
Proof.
  cbn [firstn blocks].
  destruct (total_matches_never_raises matches initial_state) as (s1 & E1).
  pose proof (total_matches_keeps_wickets initial_state) as W1.
  rewrite E1 in W1. cbn [snd] in W1.
  rewrite (run_cons_step _ _ _ _ E1).
  destruct (team_matches_never_raises matches s1) as (s2 & E2).
  pose proof (team_matches_keeps_wickets s1) as W2.
  rewrite E2 in W2. cbn [snd] in W2.
  rewrite (run_cons_step _ _ _ _ E2).
  destruct (team_matches_is_Series _ _ E2) as (tm & Htm).
  destruct (most_wins_never_raises matches s2) as (s3 & E3).
  pose proof (most_wins_keeps_wickets s2) as W3.
  rewrite E3 in W3. cbn [snd] in W3.
  rewrite (run_cons_step _ _ _ _ E3).
  assert (Htm3 : dict_get "team_matches" (kpis s3) = Some (Series tm)).
  { pose proof (keeps_most_wins matches "team_matches" ltac:(discriminate) s2) as K.
    rewrite E3 in K. cbn [snd] in K. now rewrite K. }
  destruct (most_losses_never_raises s3 tm Htm3) as (s4 & E4).
  pose proof (most_losses_keeps_wickets s3) as W4.
  rewrite E4 in W4. cbn [snd] in W4.
  rewrite (run_cons_step _ _ _ _ E4).
  destruct (toss_wins_never_raises matches s4) as (s5 & E5).
  pose proof (toss_wins_keeps_wickets s4) as W5.
  rewrite E5 in W5. cbn [snd] in W5.
  rewrite (run_cons_step _ _ _ _ E5).
  destruct (orange_cap_never_raises deliveries s5) as (s6 & E6).
  pose proof (orange_cap_keeps_wickets s5) as W6.
  rewrite E6 in W6. cbn [snd] in W6.
  rewrite (run_cons_step _ _ _ _ E6).
  assert (W : wickets s6 = None).
  { rewrite W6, W5, W4, W3, W2, W1. reflexivity. }
  assert (P : exists s7, purple_cap_block deliveries s6 = (Ok tt, s7)
                /\ wickets s7
                   = (if has_column deliveries "dismissal_kind"
                      then Some (wicket_deliveries deliveries) else None)).
  { destruct (has_column deliveries "dismissal_kind") eqn:Hc.
    - exact (purple_cap_binds_wickets deliveries s6 Hc).
    - destruct (purple_cap_never_raises s6) as (s7 & E7). exists s7.
      split; [exact E7|].
      pose proof (purple_cap_unbound s6 Hc) as W7. rewrite E7 in W7.
      cbn [snd] in W7. now rewrite W7. }
  destruct P as (s7 & E7 & W7).
  rewrite (run_cons_step _ _ _ _ E7).
  destruct (most_runs_total_never_raises deliveries s7) as (s8 & E8).
  pose proof (most_runs_total_keeps_wickets deliveries s7) as W8.
  rewrite E8 in W8. cbn [snd] in W8.
  rewrite (run_cons_step _ _ _ _ E8).
  exists s8. split; [reflexivity|]. now rewrite W8.
Qed.

(** The block of the overall wickets: what it does with [wickets] unbound,
    bound to a table with the two columns, and bound to a table without
    one of them. *)
Lemma most_wickets_total_unbound s :
  wickets s = None ->
  exists s', most_wickets_total_block s = (Ok tt, s').
Proof.
  intros W. unfold most_wickets_total_block, try_except, bindM, read_wickets.
  rewrite W. eexists. reflexivity.
Qed.

Lemma most_wickets_total_bound s w :
  wickets s = Some w ->
  has_column w "bowler" = true -> has_column w "player_dismissed" = true ->
  exists s', most_wickets_total_block s = (Ok tt, s').
Proof.
  intros W Hb Hp.
  unfold most_wickets_total_block, try_except, bindM, read_wickets, lift,
    top10_count.
  rewrite W. cbv beta iota.
  rewrite groupby_agg_has by (repeat constructor; assumption).
  eexists. reflexivity.
Qed.

Lemma most_wickets_total_leaks s w :
  wickets s = Some w ->
  has_column w "bowler" && has_column w "player_dismissed" = false ->
  exists c, most_wickets_total_block s = (Raise (KeyError c), s)
            /\ (c = "bowler" \/ c = "player_dismissed")%string.
Proof.
  intros W Hc.
  unfold most_wickets_total_block, try_except, bindM, read_wickets, lift,
    top10_count, groupby_agg, needs.
  rewrite W. cbv beta iota. cbn [fold_right]. unfold need.
  destruct (has_column w "bowler").
  - cbn [andb] in Hc. rewrite Hc. cbn [bind is_NameError].
    exists "player_dismissed"%string. auto.
  - cbn [bind is_NameError]. exists "bowler"%string. auto.
Qed.
End Blocks.

Lemma run_app_step bs1 bs2 s s1 :
  run bs1 s = (Ok tt, s1) -> run (bs1 ++ bs2) s = run bs2 s1.
Proof.
  revert s. induction bs1 as [|b t IH]; intros s H.
  - injection H as <-. reflexivity.
  - apply run_cons_Ok in H. destruct H as (s0 & Hb & Ht).
    change ((b :: t) ++ bs2) with (b :: (t ++ bs2)).
    rewrite (run_cons_step _ _ _ _ Hb). now apply IH.
Qed.

(** The two outcomes of [calculate_kpis]. *)
Lemma outcome_cases matches deliveries :
  if wickets_leak deliveries
  then exists c printed,
         calculate_kpis matches deliveries
         = (Raise (Exception_ (KeyError c)), printed)
         /\ (c = "bowler" \/ c = "player_dismissed")%string
  else exists kp printed, calculate_kpis matches deliveries = (Ok kp, printed).
Proof.
  destruct (wickets_after_eight matches deliveries) as (s8 & E8 & W8).
  unfold calculate_kpis.
  rewrite <- (firstn_skipn 8 (blocks matches deliveries)).
  rewrite (run_app_step _ _ _ _ E8).
  change (skipn 8 (blocks matches deliveries))
    with (most_wickets_total_block :: skipn 9 (blocks matches deliveries)).
  unfold wickets_leak.
  destruct (has_column deliveries "dismissal_kind"); cbn [andb].
  - destruct (has_column deliveries "bowler"
              && has_column deliveries "player_dismissed") eqn:Hc; cbn [negb].
    + apply andb_true_iff in Hc. destruct Hc as (Hb & Hp).
      destruct (most_wickets_total_bound s8 _ W8 Hb Hp) as (s9 & E9).
      rewrite (run_cons_step _ _ _ _ E9).
      destruct (never_raises_run _ (rest_never_raises matches deliveries) s9)
        as (s' & E). rewrite E. eauto.
    + destruct (most_wickets_total_leaks s8 _ W8 Hc) as (c & E9 & Hcs).
      rewrite (run_cons_raise _ _ _ _ _ E9). eauto.
  - destruct (most_wickets_total_unbound s8 W8) as (s9 & E9).
    rewrite (run_cons_step _ _ _ _ E9).
    destruct (never_raises_run _ (rest_never_raises matches deliveries) s9)
      as (s' & E). rewrite E. eauto.
Qed.

(** X8. [calculate_kpis] returns a dict for every pair of tables but those on
    which the block of the overall wickets fails: deliveries that have the
    dismissal_kind column and lack the bowler or the player_dismissed
    column. On these it raises, from the [KeyError] of the missing column;
    on all others it returns, whatever columns are missing. *)
Theorem calculate_kpis_outcome matches deliveries :
  if wickets_leak deliveries
  then exists c printed,
         calculate_kpis matches deliveries
         = (Raise (Exception_ (KeyError c)), printed)
         /\ (c = "bowler" \/ c = "player_dismissed")%string
  else exists kp printed, calculate_kpis matches deliveries = (Ok kp, printed).
Proof. exact (outcome_cases matches deliveries). Qed.

(** The keys of the returned dict. *)
Lemma returned_keys matches deliveries kp printed :
  calculate_kpis matches deliveries = (Ok kp, printed) ->
  keys kp = kpi_keys
  /\ forall k, In k kpi_keys -> exists v, dict_get k kp = Some v.
Proof.
  intros H. apply calculate_kpis_Ok in H. destruct H as (s' & Hrun & -> & _).
  pose proof (run_assigns _ _ (blocks_assign matches deliveries) _ _ Hrun) as K.
  assert (E : keys (kpis s') = kpi_keys) by exact K.
  split; [exact E|].
  intros k Hk. rewrite <- E in Hk. now apply dict_get_key.
Qed.

(** X9. When [calculate_kpis] returns, the dict has the same twenty-two keys,
    in the same order, whatever the tables hold and whichever blocks
    fell back to a default: every key can be read. *)
Theorem calculate_kpis_keys matches deliveries kp printed :
  calculate_kpis matches deliveries = (Ok kp, printed) ->
  keys kp = kpi_keys
  /\ forall k, In k kpi_keys -> exists v, dict_get k kp = Some v.
Proof. exact (returned_keys matches deliveries kp printed). Qed.

Lemma calculate_kpis_keys_witness :
  keys League.kpis = kpi_keys
  /\ forall k, In k kpi_keys -> exists v, dict_get k League.kpis = Some v.
Proof.
  apply (calculate_kpis_keys League.matches League.deliveries League.kpis []).
  vm_compute. reflexivity.
Defined.

End OutcomeTheorems.

Module KpiFacts.
Import PyFacts GroupSpec GroupFacts StmtSpec StmtFacts SeriesSpec SeriesFacts.
Import LeaderSpec LeaderFacts TeamSpec TeamRecordFacts TotalsSpec CumulativeSpec.
Import IsolationFacts OutcomeSpec OutcomeFacts DictFacts KpiSpec.

(** What each block does to the state when the columns it reads are
    there. *)
Section Blocks.
Variable matches : frame (Match.row Z).
Variable deliveries : frame (Delivery.row Z).

Lemma toss_wins_run s :
  has_column matches "toss_winner" = true ->
  toss_wins_block matches s
  = (Ok tt, put "most_toss_wins"
              (Series (head 1 (toss_wins_series (rows matches))))
              (put "toss_wins" (Series (toss_wins_series (rows matches))) s)).
Proof.
  intros H. unfold toss_wins_block, try_except, bindM, lift.
  rewrite (column_has _ _ _ H). unfold set_kpi at 1. cbv beta iota.
  unfold get_kpi. cbn [kpis]. rewrite dict_get_set_same. cbv beta iota.
  cbn [series_of]. cbv beta iota. fold (toss_wins_series (rows matches)).
  unfold put, set_kpi. cbn [kpis team_wins wickets stdout].
  destruct (toss_wins_series (rows matches)); reflexivity.
Qed.

Lemma orange_cap_run s :
  has_columns deliveries ["season"; "batter"; "batsman_runs"]%string ->
  orange_cap_block deliveries s
  = (Ok tt, put "orange_cap"
              (SeasonLeaders (season_leaders (season_table (rows deliveries)))) s).
Proof.
  intros Hc. unfold orange_cap_block, try_except, bindM, lift, runs_per_season.
  rewrite groupby_agg_has.
  - reflexivity.
  - eapply has_columns_sub; [exact Hc|]. intros c [<-|[<-|[]]]; simpl; auto.
  - eapply has_columns_In; [exact Hc|]. simpl; auto.
Qed.

Lemma purple_cap_run s :
  has_columns deliveries
    ["dismissal_kind"; "season"; "bowler"; "player_dismissed"]%string ->
  purple_cap_block deliveries s
  = (Ok tt,
     put "purple_cap"
       (SeasonLeaders (season_leaders (season_dismissals (rows deliveries))))
       (State (kpis s) (team_wins s) (Some (wicket_deliveries deliveries))
              (stdout s))).
Proof.
  intros Hc.
  unfold purple_cap_block, try_except, bindM, lift, count_per_season.
  rewrite where_has by (eapply has_columns_In; [exact Hc | simpl; auto]).
  cbn [assign_wickets]. rewrite groupby_agg_has.
  - reflexivity.
  - apply has_columns_with_rows.
    eapply has_columns_sub; [exact Hc|]. intros c [<-|[<-|[]]]; simpl; auto.
  - rewrite has_column_with_rows.
    eapply has_columns_In; [exact Hc|]. simpl; auto.
Qed.

Lemma most_runs_total_run s :
  has_columns deliveries ["batter"; "batsman_runs"]%string ->
  most_runs_total_block deliveries s
  = (Ok tt, put "most_runs_total" (Series (top10 (batter_runs (rows deliveries)))) s).
Proof.
  intros Hc. unfold most_runs_total_block, try_except, bindM, lift.
  rewrite groupby_agg_has.
  - reflexivity.
  - eapply has_columns_sub; [exact Hc|]. intros c [<-|[]]; simpl; auto.
  - eapply has_columns_In; [exact Hc|]. simpl; auto.
Qed.

Lemma most_wickets_total_run s :
  wickets s = Some (wicket_deliveries deliveries) ->
  has_columns deliveries ["bowler"; "player_dismissed"]%string ->
  most_wickets_total_block s
  = (Ok tt, put "most_wickets_total"
              (Series (top10 (bowler_dismissals (rows deliveries)))) s).
Proof.
  intros W Hc.
  unfold most_wickets_total_block, try_except, bindM, read_wickets, lift,
    top10_count.
  rewrite W. cbv beta iota. rewrite groupby_agg_has.
  - reflexivity.
  - apply has_columns_with_rows.
    eapply has_columns_sub; [exact Hc|]. intros c [<-|[]]; simpl; auto.
  - unfold wicket_deliveries. rewrite has_column_with_rows.
    eapply has_columns_In; [exact Hc|]. simpl; auto.
Qed.

Lemma boundaries_run runs total per_season what s :
  has_columns deliveries ["batsman_runs"; "batter"; "season"]%string ->
  boundaries_block deliveries runs total per_season what s
  = (Ok tt,
     put per_season
       (SeasonLeaders (season_leaders (season_boundaries runs (rows deliveries))))
       (put total (Series (top10 (boundary_counts runs (rows deliveries)))) s)).
Proof.
  intros Hc.
  assert (H1 : has_column deliveries "batsman_runs" = true)
    by (eapply has_columns_In; [exact Hc | simpl; auto]).
  assert (H2 : has_column deliveries "batter" = true)
    by (eapply has_columns_In; [exact Hc | simpl; auto]).
  assert (H3 : has_column deliveries "season" = true)
    by (eapply has_columns_In; [exact Hc | simpl; auto]).
  unfold boundaries_block, try_except, bindM, lift, count_per_season, top10_count.
  rewrite where_has by exact H1.
  rewrite !groupby_agg_has; try reflexivity;
    try (repeat constructor; assumption); try assumption.
Qed.

Lemma fielding_run kind key what s :
  has_columns deliveries
    ["dismissal_kind"; "fielder"; "player_dismissed"]%string ->
  fielding_block deliveries kind key what s
  = (Ok tt, put key (Series (top10 (fielder_counts kind (rows deliveries)))) s).
Proof.
  intros Hc.
  assert (H1 : has_column deliveries "dismissal_kind" = true)
    by (eapply has_columns_In; [exact Hc | simpl; auto]).
  assert (H2 : has_column deliveries "fielder" = true)
    by (eapply has_columns_In; [exact Hc | simpl; auto]).
  assert (H3 : has_column deliveries "player_dismissed" = true)
    by (eapply has_columns_In; [exact Hc | simpl; auto]).
  unfold fielding_block, try_except, bindM, lift, top10_count.
  rewrite where_has by exact H1.
  rewrite groupby_agg_has; try reflexivity;
    try (repeat constructor; assumption); try assumption.
Qed.

Lemma most_matches_played_run s :
  has_columns deliveries ["batter"; "match_id"]%string ->
  most_matches_played_block deliveries s
  = (Ok tt, put "most_matches_played"
              (Series (top10 (matches_batted (rows deliveries)))) s).
Proof.
  intros Hc. unfold most_matches_played_block, try_except, bindM, lift.
  rewrite (needs_has _ _ Hc). reflexivity.
Qed.

Lemma highest_team_totals_run s :
  has_columns matches ["id"; "team1"; "team2"]%string ->
  has_columns deliveries ["match_id"; "batting_team"; "total_runs"]%string ->
  highest_team_totals_block matches deliveries s
  = (Ok tt, put "highest_team_totals"
              (TeamTotals (head 10 (sort_desc TeamTotal.total_runs
                                      (all_totals matches deliveries)))) s).
Proof.
  intros Hm Hd. unfold highest_team_totals_block, try_except, bindM, lift.
  rewrite (TotalsTheorems.team_totals_has _ _ Hm Hd). reflexivity.
Qed.

Lemma most_pom_awards_run s :
  has_column matches "player_of_match" = true ->
  most_pom_awards_block matches s
  = (Ok tt, put "most_pom_awards"
              (Series (head 10 (award_counts (rows matches)))) s).
Proof.
  intros H. unfold most_pom_awards_block, try_except, bindM, lift.
  rewrite (where_has matches "player_of_match" Match.player_of_match
             (fun p => negb (cell_is (u "None") p)) H).
  rewrite column_has by (rewrite has_column_with_rows; exact H).
  cbn [rows with_rows].
  unfold award_counts.
  rewrite (filter_map_comm Match.player_of_match awarded (rows matches)).
  reflexivity.
Qed.

Lemma stadium_matches_run s :
  has_column matches "venue" = true ->
  stadium_matches_block matches s
  = (Ok tt, put "stadium_matches" (Series (venue_counts (rows matches))) s).
Proof.
  intros H. unfold stadium_matches_block, try_except, bindM, lift.
  rewrite (column_has _ _ _ H). reflexivity.
Qed.

Lemma cumulative_runs_run s :
  has_columns deliveries ["season"; "batter"; "batsman_runs"]%string ->
  cumulative_runs_block deliveries s
  = (Ok tt, put "cumulative_runs"
              (Cumulative (cumulative_grid (rows deliveries))) s).
Proof.
  intros Hc. unfold cumulative_runs_block, try_except, bindM, lift.
  rewrite (CumulativeTheorems.cumulative_runs_has _ Hc). reflexivity.
Qed.

End Blocks.
End KpiFacts.

Module KpiTheorems.
Import PyFacts GroupSpec GroupFacts StmtSpec StmtFacts SeriesSpec SeriesFacts.
Import LeaderSpec LeaderFacts TeamSpec TeamRecordFacts TotalsSpec CumulativeSpec.
Import IsolationFacts OutcomeSpec OutcomeFacts DictFacts KpiSpec KpiFacts.

Ltac col_tac H :=
  first
    [ eapply has_columns_In; [exact H | cbn; tauto]
    | eapply has_columns_sub; [exact H |];
      let c := fresh "c" in let Hc := fresh "Hc" in
      intros c Hc; cbn in Hc |- *; tauto ].

(** The run of the nineteen blocks when every column is present. *)
Lemma all_columns_run matches deliveries :
  has_columns matches match_columns_read ->
  has_columns deliveries delivery_columns_read ->
  calculate_kpis matches deliveries = (Ok (computed matches deliveries), []).
Proof.
  intros Hm Hd. unfold calculate_kpis, blocks.
  unfold most_sixes_block, most_fours_block, most_catches_block,
    most_stumps_block, most_run_outs_block.
  rewrite (run_cons_step _ _ _ _ (total_matches_run matches _)).
  rewrite (run_cons_step _ _ _ _
             (team_matches_run matches _ ltac:(col_tac Hm) ltac:(col_tac Hm))).
  rewrite (run_cons_step _ _ _ _ (most_wins_run matches _ ltac:(col_tac Hm))).
  match goal with
  | |- context [run (most_losses_block :: _) ?s] =>
      rewrite (run_cons_step _ _ s _
                 (most_losses_run s (team_matches_series (rows matches))
                    (team_wins_series (rows matches))
                    ltac:(cbn [kpis]; rewrite dict_get_set_other by discriminate;
                          apply dict_get_set_same)
                    eq_refl))
  end.
  rewrite (run_cons_step _ _ _ _ (toss_wins_run matches _ ltac:(col_tac Hm))).
  rewrite (run_cons_step _ _ _ _ (orange_cap_run deliveries _ ltac:(col_tac Hd))).
  rewrite (run_cons_step _ _ _ _ (purple_cap_run deliveries _ ltac:(col_tac Hd))).
  rewrite (run_cons_step _ _ _ _
             (most_runs_total_run deliveries _ ltac:(col_tac Hd))).
  match goal with
  | |- context [run (most_wickets_total_block :: _) ?s] =>
      rewrite (run_cons_step _ _ s _
                 (most_wickets_total_run deliveries s eq_refl ltac:(col_tac Hd)))
  end.
  rewrite (run_cons_step _ _ _ _
             (boundaries_run deliveries 6 _ _ _ _ ltac:(col_tac Hd))).
  rewrite (run_cons_step _ _ _ _
             (boundaries_run deliveries 4 _ _ _ _ ltac:(col_tac Hd))).
  rewrite (run_cons_step _ _ _ _
             (fielding_run deliveries _ _ _ _ ltac:(col_tac Hd))).
  rewrite (run_cons_step _ _ _ _
             (fielding_run deliveries _ _ _ _ ltac:(col_tac Hd))).
  rewrite (run_cons_step _ _ _ _
             (fielding_run deliveries _ _ _ _ ltac:(col_tac Hd))).
  rewrite (run_cons_step _ _ _ _
             (most_matches_played_run deliveries _ ltac:(col_tac Hd))).
  rewrite (run_cons_step _ _ _ _
             (highest_team_totals_run matches deliveries _
                ltac:(col_tac Hm) ltac:(col_tac Hd))).
  rewrite (run_cons_step _ _ _ _
             (most_pom_awards_run matches _ ltac:(col_tac Hm))).
  rewrite (run_cons_step _ _ _ _
             (stadium_matches_run matches _ ltac:(col_tac Hm))).
  rewrite (run_cons_step _ _ _ _
             (cumulative_runs_run deliveries _ ltac:(col_tac Hd))).
  reflexivity.
Qed.

(** X10. With every column present nothing fails: [calculate_kpis] prints no
    warning and returns the twenty-two entries, each computed from the two
    tables alone; no handler runs and no default is stored. *)
Theorem calculate_kpis_all_columns matches deliveries :
  has_columns matches match_columns_read ->
  has_columns deliveries delivery_columns_read ->
  calculate_kpis matches deliveries = (Ok (computed matches deliveries), []).
Proof. exact (all_columns_run matches deliveries). Qed.

Lemma calculate_kpis_all_columns_witness :
  calculate_kpis League.matches League.deliveries
  = (Ok (computed League.matches League.deliveries), []).
Proof.
  apply (calculate_kpis_all_columns League.matches League.deliveries);
    repeat constructor.
Defined.

End KpiTheorems.

Module RankingFacts.
Import PyFacts GroupSpec GroupFacts StmtSpec StmtFacts SeriesSpec SeriesFacts.
Import LeaderSpec LeaderFacts KpiSpec RankingSpec.

Lemma sort_desc_sorted {K} (l : list (K * Z)) : by_value_desc (sort_desc snd l).
Proof.
  unfold by_value_desc, sort_desc.
  eapply sorted_impl; [|apply sort_by_sorted].
  - intros a b H. unfold ordered in H. now apply Z.leb_le.
  - intros a b. apply (desc_total snd).
  - intros a b c. apply (desc_trans snd).
Qed.

(** The first [n] entries of a table sorted by descending value. *)
Lemma head_sort_desc_top {K} n (t : list (K * Z)) :
  NoDup (map fst t) ->
  top_of n (fun k v => In (k, v) t) (head n (sort_desc snd t)).
Proof.
  intros Hn. exists (skipn n (sort_desc snd t)). unfold head.
  rewrite firstn_skipn.
  assert (P : Permutation (sort_desc snd t) t) by apply sort_by_perm.
  split; [|split; [|split; [|split]]].
  - intros k v. split; apply Permutation_in; [exact P | now symmetry].
  - eapply Permutation_NoDup; [|exact Hn].
    apply Permutation_map. now symmetry.
  - apply sort_desc_sorted.
  - apply length_firstn.
  - intros x y Hx Hy.
    pose proof (sort_desc_sorted t) as S. unfold by_value_desc in S.
    rewrite <- (firstn_skipn n (sort_desc snd t)) in S.
    exact (sorted_app_le _ _ _ S x y Hx Hy).
Qed.

Lemma top_of_iff {K} n (P Q : K -> Z -> Prop) top :
  (forall k v, P k v <-> Q k v) -> top_of n P top -> top_of n Q top.
Proof.
  intros H (rest & Hin & Hr). exists rest. split; [|exact Hr].
  intros k v. rewrite Hin. apply H.
Qed.

(** The top ten of an aggregated table. *)
Lemma top10_aggregate {R} (key : R -> option str) (agg : list R -> Z) l :
  top_of 10
    (fun k v => (exists r, In r l /\ key r = Some k)
                /\ v = agg (filter (in_group key k) l))
    (top10 (aggregate agg (groupby key l))).
Proof.
  unfold top10. eapply top_of_iff; [|apply head_sort_desc_top].
  - intros k v. apply aggregate_In.
  - apply aggregate_NoDup.
Qed.

Lemma value_counts_counts cells : counts_of cells (value_counts cells).
Proof.
  split; [apply value_counts_NoDup|]. split.
  - unfold value_counts. apply sort_desc_sorted.
  - intros t v. apply value_counts_In.
Qed.

(** The group of a player. *)
Lemma in_group_Some {R} (who : R -> str) p r :
  in_group (fun r => Some (who r)) p r = str_eqb (who r) p.
Proof.
  apply bool_ext. rewrite in_group_iff, str_eqb_eq. split.
  - now intros [= ->].
  - now intros ->.
Qed.

Lemma in_group_cell {R} (who : R -> option str) p r :
  in_group who p r = cell_is p (who r).
Proof.
  apply bool_ext. rewrite in_group_iff. unfold cell_is.
  destruct (who r) as [x|]; [|split; discriminate].
  rewrite str_eqb_eq. split; [now intros [= ->] | now intros ->].
Qed.

Lemma filter_filter {A} (p q : A -> bool) l :
  filter p (filter q l) = filter (fun a => q a && p a) l.
Proof.
  induction l as [|a t IH]; [reflexivity|]. cbn [filter].
  destruct (q a); cbn [andb filter]; [|exact IH].
  destruct (p a); now rewrite IH.
Qed.

(** The sum of the counts is the number of cells that are not missing. *)
Lemma total_perm a b : Permutation a b -> total a = total b.
Proof.
  unfold total. induction 1; cbn [map fold_right]; lia.
Qed.

Lemma occurrences_cons x y l :
  occurrences x (y :: l) = (if str_eqb x y then 1 else 0) + occurrences x l.
Proof.
  unfold occurrences. cbn [filter]. destruct (str_eqb x y); cbn [List.length]; lia.
Qed.

Lemma total_counts_cons x u l :
  total (map (fun y => (y, occurrences y (x :: l))) u)
  = total (map (fun y => (y, occurrences y l)) u)
    + occurrences x u.
Proof.
  unfold total. induction u as [|y t IH]; [reflexivity|].
  cbn [map fold_right snd]. rewrite IH, occurrences_cons, (occurrences_cons x y).
  destruct (str_eqb y x) eqn:E.
  - apply str_eqb_eq in E. subst. rewrite str_eqb_refl. lia.
  - assert (E' : str_eqb x y = false).
    { apply str_eqb_neq. apply str_eqb_neq in E. congruence. }
    rewrite E'. lia.
Qed.

Lemma total_counts_filter x u l :
  total (map (fun y => (y, occurrences y l))
             (filter (fun y => negb (str_eqb y x)) u))
  + occurrences x u * occurrences x l
  = total (map (fun y => (y, occurrences y l)) u).
Proof.
  unfold total. induction u as [|y t IH]; [reflexivity|].
  cbn [filter]. rewrite occurrences_cons.
  destruct (str_eqb y x) eqn:E; cbn [negb map fold_right snd].
  - apply str_eqb_eq in E. subst. rewrite str_eqb_refl. lia.
  - assert (E' : str_eqb x y = false).
    { apply str_eqb_neq. apply str_eqb_neq in E. congruence. }
    rewrite E'. lia.
Qed.

Lemma occurrences_NoDup x u :
  NoDup u -> occurrences x u = if existsb (str_eqb x) u then 1 else 0.
Proof.
  induction 1 as [|y t Hy _ IH]; [reflexivity|].
  rewrite occurrences_cons. cbn [existsb].
  destruct (str_eqb x y) eqn:E; cbn [orb].
  - apply str_eqb_eq in E. subst.
    rewrite (occurrences_zero _ _ Hy). reflexivity.
  - rewrite IH. reflexivity.
Qed.

Lemma total_counts l :
  total (counts l) = Z.of_nat (List.length l).
Proof.
  unfold counts. induction l as [|x t IH]; [reflexivity|].
  cbn [uniques map]. unfold total in *. cbn [map fold_right snd].
  fold (total (map (fun y => (y, occurrences y (x :: t)))
                   (filter (fun y => negb (str_eqb y x)) (uniques t)))).
  rewrite total_counts_cons.
  pose proof (total_counts_filter x (uniques t) t) as F.
  fold (total (map (fun y => (y, occurrences y t)) (uniques t))) in IH.
  rewrite IH in F.
  rewrite occurrences_cons, str_eqb_refl.
  assert (Z0 : occurrences x (filter (fun y => negb (str_eqb y x)) (uniques t)) = 0).
  { apply occurrences_zero. intros Hin. apply filter_In in Hin.
    destruct Hin as (_ & Hne). now rewrite str_eqb_refl in Hne. }
  rewrite Z0.
  assert (O : occurrences x (uniques t) * occurrences x t = occurrences x t).
  { rewrite (occurrences_NoDup _ _ (uniques_NoDup t)).
    destruct (existsb (str_eqb x) (uniques t)) eqn:E; [lia|].
    rewrite (occurrences_zero x t); [lia|].
    intros Hin. apply uniques_In in Hin.
    apply not_true_iff_false in E. apply E.
    apply existsb_exists. exists x. split; [exact Hin | apply str_eqb_refl]. }
  cbn [List.length]. rewrite Nat2Z.inj_succ. lia.
Qed.

Lemma total_value_counts cells :
  total (value_counts cells) = Z.of_nat (List.length (dropna cells)).
Proof.
  rewrite (total_perm _ _ (value_counts_perm cells)). apply total_counts.
Qed.

Lemma count_of_Some {R A} (f : R -> A) (l : list R) :
  count_of (fun r => Some (f r)) l = Z.of_nat (List.length l).
Proof.
  unfold count_of. f_equal. f_equal. apply LoaderFacts.filter_all.
  apply Forall_forall. intros; reflexivity.
Qed.

End RankingFacts.

Module RankingTheorems.
Import PyFacts GroupSpec GroupFacts StmtSpec StmtFacts SeriesSpec SeriesFacts.
Import LeaderSpec LeaderFacts TeamSpec TeamRecordFacts.
Import IsolationFacts OutcomeSpec OutcomeFacts DictFacts KpiSpec KpiFacts.
Import RankingSpec RankingFacts.

(** X15. The overall runs: the ten batters with the most runs, or all when
    there are fewer, in descending order; each with the sum of
    batsman_runs over the batter's deliveries; no batter left out has
    more runs than a batter listed. *)
Theorem most_runs_total_top10 matches deliveries kp printed :
  has_columns deliveries ["batter"; "batsman_runs"]%string ->
  calculate_kpis matches deliveries = (Ok kp, printed) ->
  exists top,
    dict_get "most_runs_total" kp = Some (Series top)
    /\ top_of 10 (runs_row (rows deliveries)) top.
Proof.
  intros Hc H. apply calculate_kpis_Ok in H. destruct H as (s' & Hrun & -> & _).
  exists (top10 (batter_runs (rows deliveries))). split.
  - entry_of "most_runs_total"%string 7%nat (most_runs_total_block deliveries) Hrun.
    rewrite (most_runs_total_run _ _ Hc) in Hw. injection Hw as <-.
    apply dict_get_set_same.
  - unfold batter_runs. eapply top_of_iff; [|apply top10_aggregate].
    intros p v. unfold runs_row.
    rewrite (filter_ext _ _ (in_group_Some Delivery.batter p)).
    split; intros ((d & Hd & E) & Hv); (split; [|exact Hv]); exists d;
      (split; [exact Hd|]); congruence.
Qed.

Lemma most_runs_total_top10_witness :
  exists top,
    dict_get "most_runs_total" League.kpis = Some (Series top)
    /\ top_of 10 (runs_row (rows League.deliveries)) top.
Proof.
  apply (most_runs_total_top10 League.matches League.deliveries League.kpis []).
  - repeat constructor.
  - vm_compute. reflexivity.
Defined.

Lemma boundary_counts_row runs ds :
  forall p v, In (p, v) (boundary_counts runs ds) <-> boundary_row runs ds p v.
Proof.
  intros p v. unfold boundary_counts, boundary_row. rewrite aggregate_In.
  rewrite (filter_ext _ _ (in_group_Some Delivery.batter p)).
  rewrite count_of_Some, filter_filter.
  change (fun a => scores runs a && str_eqb (Delivery.batter a) p)
    with (fun d => scores runs d && by_batter p d).
  split; intros ((d & Hd & E) & Hv); (split; [|exact Hv]); exists d.
  - apply filter_In in Hd. destruct Hd as (Hd & Hs).
    split; [exact Hd|]. split; [exact Hs | congruence].
  - destruct E as (Hs & <-). split; [|reflexivity].
    apply filter_In. auto.
Qed.

(** X16. The sixes and the fours: for each, the ten batters who hit the most,
    or all when there are fewer, in descending order, each with the number
    of deliveries on which the batter scored six (four); a batter without
    such a delivery is not listed. *)
Theorem most_boundaries_top10 matches deliveries kp printed :
  has_columns deliveries ["batsman_runs"; "batter"; "season"]%string ->
  calculate_kpis matches deliveries = (Ok kp, printed) ->
  exists sixes fours,
    dict_get "most_sixes" kp = Some (Series sixes)
    /\ top_of 10 (boundary_row 6 (rows deliveries)) sixes
    /\ dict_get "most_fours" kp = Some (Series fours)
    /\ top_of 10 (boundary_row 4 (rows deliveries)) fours.
Proof.
  intros Hc H. apply calculate_kpis_Ok in H. destruct H as (s' & Hrun & -> & _).
  exists (top10 (boundary_counts 6 (rows deliveries))),
         (top10 (boundary_counts 4 (rows deliveries))).
  split; [|split; [|split]].
  - entry_of "most_sixes"%string 9%nat (most_sixes_block deliveries) Hrun.
    unfold most_sixes_block in Hw. rewrite (boundaries_run _ _ _ _ _ _ Hc) in Hw.
    injection Hw as <-. cbn [put kpis].
    rewrite dict_get_set_other by discriminate. apply dict_get_set_same.
  - eapply top_of_iff; [apply boundary_counts_row|].
    apply head_sort_desc_top. apply aggregate_NoDup.
  - entry_of "most_fours"%string 10%nat (most_fours_block deliveries) Hrun.
    unfold most_fours_block in Hw. rewrite (boundaries_run _ _ _ _ _ _ Hc) in Hw.
    injection Hw as <-. cbn [put kpis].
    rewrite dict_get_set_other by discriminate. apply dict_get_set_same.
  - eapply top_of_iff; [apply boundary_counts_row|].
    apply head_sort_desc_top. apply aggregate_NoDup.
Qed.

Lemma most_boundaries_top10_witness :
  exists sixes fours,
    dict_get "most_sixes" League.kpis = Some (Series sixes)
    /\ top_of 10 (boundary_row 6 (rows League.deliveries)) sixes
    /\ dict_get "most_fours" League.kpis = Some (Series fours)
    /\ top_of 10 (boundary_row 4 (rows League.deliveries)) fours.
Proof.
  apply (most_boundaries_top10 League.matches League.deliveries League.kpis []).
  - repeat constructor.
  - vm_compute. reflexivity.
Defined.

Lemma bowler_dismissals_row ds :
  forall p v, In (p, v) (bowler_dismissals ds) <-> wickets_row ds p v.
Proof.
  intros p v. unfold bowler_dismissals, wickets_row, present.
  rewrite aggregate_In.
  rewrite (filter_ext _ _ (in_group_Some Delivery.bowler p)), filter_filter.
  change (fun a => credits_bowler a && str_eqb (Delivery.bowler a) p)
    with (fun d => credits_bowler d && by_bowler p d).
  split; intros ((d & Hd & E) & Hv); (split; [|exact Hv]); exists d.
  - apply filter_In in Hd. destruct Hd as (Hd & Hs).
    split; [exact Hd|]. split; [exact Hs | congruence].
  - destruct E as (Hs & <-). split; [|reflexivity].
    apply filter_In. auto.
Qed.

(** X17. The overall wickets need no season: when the deliveries have the
    dismissal kind, the bowler and the dismissed player, the KPI is the ten
    bowlers with the most dismissals that are credited to the bowler, each
    with the number of such deliveries that name a dismissed player,
    whether or not the purple cap of the same table could be computed. *)
Theorem most_wickets_total_top10 matches deliveries kp printed :
  has_columns deliveries
    ["dismissal_kind"; "bowler"; "player_dismissed"]%string ->
  calculate_kpis matches deliveries = (Ok kp, printed) ->
  exists top,
    dict_get "most_wickets_total" kp = Some (Series top)
    /\ top_of 10 (wickets_row (rows deliveries)) top.
Proof.
  intros Hc H. apply calculate_kpis_Ok in H. destruct H as (s' & Hrun & -> & _).
  exists (top10 (bowler_dismissals (rows deliveries))). split.
  - entry_of "most_wickets_total"%string 8%nat most_wickets_total_block Hrun.
    destruct (OutcomeTheorems.wickets_after_eight matches deliveries)
      as (s8 & E8 & W8).
    rewrite E8 in Hpre. injection Hpre as <-.
    rewrite (has_columns_In _ _ _ Hc) in W8 by (cbn; tauto).
    rewrite (most_wickets_total_run deliveries s8 W8) in Hw.
    + injection Hw as <-. apply dict_get_set_same.
    + eapply has_columns_sub; [exact Hc|]. intros c Hin. cbn in Hin |- *. tauto.
  - eapply top_of_iff; [apply bowler_dismissals_row|].
    apply head_sort_desc_top. apply aggregate_NoDup.
Qed.

Lemma most_wickets_total_top10_witness :
  exists top,
    dict_get "most_wickets_total" LeagueCases.kpis_no_season
    = Some (Series top)
    /\ top_of 10 (wickets_row (rows LeagueCases.no_season)) top.
Proof.
  apply (most_wickets_total_top10 League.matches LeagueCases.no_season
           LeagueCases.kpis_no_season LeagueCases.printed_no_season).
  - repeat constructor.
  - vm_compute. reflexivity.
Defined.

End RankingTheorems.

Module FieldingTheorems.
Import PyFacts GroupSpec GroupFacts StmtSpec StmtFacts SeriesSpec SeriesFacts.
Import LeaderSpec LeaderFacts TeamSpec TeamRecordFacts.
Import IsolationFacts OutcomeSpec OutcomeFacts DictFacts KpiSpec KpiFacts.
Import RankingSpec RankingFacts.

Lemma fielder_counts_row kind ds :
  forall p v, In (p, v) (fielder_counts kind ds) <-> fielding_row kind ds p v.
Proof.
  intros p v. unfold fielder_counts, fielding_row, present.
  rewrite aggregate_In.
  rewrite (filter_ext _ _ (in_group_cell Delivery.fielder p)), filter_filter.
  change (fun a => dismissed_as kind a && cell_is p (Delivery.fielder a))
    with (fun d => dismissed_as kind d && by_fielder p d).
  split; intros ((d & Hd & E) & Hv); (split; [|exact Hv]); exists d.
  - apply filter_In in Hd. destruct Hd as (Hd & Hs). auto.
  - destruct E as (Hs & E). split; [|exact E]. apply filter_In. auto.
Qed.

Lemma fielding_top kind ds :
  top_of 10 (fielding_row kind ds) (top10 (fielder_counts kind ds)).
Proof.
  eapply top_of_iff; [apply fielder_counts_row|].
  apply head_sort_desc_top. apply aggregate_NoDup.
Qed.

(** X18. The catches, the stumpings and the run-outs: for each dismissal kind
    the ten fielders with the most dismissals of the kind, in descending
    order, each with the number of the fielder's deliveries of the kind
    that name a dismissed player. A delivery whose fielder is missing is
    counted for nobody: no entry stands for the missing fielder. *)
Theorem fielding_top10 matches deliveries kp printed :
  has_columns deliveries
    ["dismissal_kind"; "fielder"; "player_dismissed"]%string ->
  calculate_kpis matches deliveries = (Ok kp, printed) ->
  exists catches stumps run_outs,
    dict_get "most_catches" kp = Some (Series catches)
    /\ top_of 10 (fielding_row (u "caught") (rows deliveries)) catches
    /\ dict_get "most_stumps" kp = Some (Series stumps)
    /\ top_of 10 (fielding_row (u "stumped") (rows deliveries)) stumps
    /\ dict_get "most_run_outs" kp = Some (Series run_outs)
    /\ top_of 10 (fielding_row (u "run out") (rows deliveries)) run_outs.
Proof.
  intros Hc H. apply calculate_kpis_Ok in H. destruct H as (s' & Hrun & -> & _).
  exists (top10 (fielder_counts (u "caught") (rows deliveries))),
         (top10 (fielder_counts (u "stumped") (rows deliveries))),
         (top10 (fielder_counts (u "run out") (rows deliveries))).
  split; [|split; [apply fielding_top|]].
  { entry_of "most_catches"%string 11%nat (most_catches_block deliveries) Hrun.
    unfold most_catches_block in Hw. rewrite (fielding_run _ _ _ _ _ Hc) in Hw.
    injection Hw as <-. apply dict_get_set_same. }
  split; [|split; [apply fielding_top|]].
  { entry_of "most_stumps"%string 12%nat (most_stumps_block deliveries) Hrun.
    unfold most_stumps_block in Hw. rewrite (fielding_run _ _ _ _ _ Hc) in Hw.
    injection Hw as <-. apply dict_get_set_same. }
  split; [|apply fielding_top].
  { entry_of "most_run_outs"%string 13%nat (most_run_outs_block deliveries) Hrun.
    unfold most_run_outs_block in Hw. rewrite (fielding_run _ _ _ _ _ Hc) in Hw.
    injection Hw as <-. apply dict_get_set_same. }
Qed.

Lemma fielding_top10_witness :
  exists catches stumps run_outs,
    dict_get "most_catches" League.kpis = Some (Series catches)
    /\ top_of 10 (fielding_row (u "caught") (rows League.deliveries)) catches
    /\ dict_get "most_stumps" League.kpis = Some (Series stumps)
    /\ top_of 10 (fielding_row (u "stumped") (rows League.deliveries)) stumps
    /\ dict_get "most_run_outs" League.kpis = Some (Series run_outs)
    /\ top_of 10 (fielding_row (u "run out") (rows League.deliveries)) run_outs.
Proof.
  apply (fielding_top10 League.matches League.deliveries League.kpis []).
  - repeat constructor.
  - vm_compute. reflexivity.
Defined.

(** *** Matches played *)

Lemma innings_sizes_In ds p m n :
  In (p, m, n) (innings_sizes ds)
  <-> (exists d, In d ds /\ Delivery.batter d = p /\ Delivery.match_id d = m)
      /\ n = size_of (filter (in_group (fun d => Some (Delivery.batter d,
                                                       Delivery.match_id d))
                                       (p, m)) ds).
Proof.
  unfold innings_sizes. rewrite aggregate_In.
  split; intros ((d & Hd & E) & Hv); (split; [|exact Hv]); exists d.
  - injection E as <- <-. auto.
  - destruct E as (<- & <-). auto.
Qed.

Lemma matches_of_In p ds m :
  In m (matches_of p ds)
  <-> exists d, In d ds /\ Delivery.batter d = p /\ Delivery.match_id d = m.
Proof.
  unfold matches_of. rewrite unique_sorted_In, in_map_iff. split.
  - intros (d & <- & Hd). apply filter_In in Hd. destruct Hd as (Hd & E).
    apply str_eqb_eq in E. exists d. auto.
  - intros (d & Hd & Hp & <-). exists d. split; [reflexivity|].
    apply filter_In. split; [exact Hd|]. now apply str_eqb_eq.
Qed.

(** The innings of a batter are as many as the batter's matches. *)
Lemma innings_of_batter p ds :
  List.length (filter (fun r : str * Z * Z => str_eqb (fst (fst r)) p)
                      (innings_sizes ds))
  = List.length (matches_of p ds).
Proof.
  set (F := filter (fun r : str * Z * Z => str_eqb (fst (fst r)) p)
                   (innings_sizes ds)).
  rewrite <- (length_map (fun r : str * Z * Z => snd (fst r)) F).
  apply Permutation_length. apply NoDup_Permutation.
  - assert (N : NoDup (map fst F)).
    { apply CumulativeFacts.NoDup_map_filter. apply aggregate_NoDup. }
    assert (E : map fst F = map (fun m => (p, m))
                                (map (fun r : str * Z * Z => snd (fst r)) F)).
    { rewrite map_map. apply map_ext_in. intros [[q m] n] Hin.
      apply filter_In in Hin. destruct Hin as (_ & Hq). cbn [fst snd] in *.
      apply str_eqb_eq in Hq. now subst. }
    rewrite E in N. eapply NoDup_map_inv. exact N.
  - apply unique_sorted_NoDup.
  - intros m. rewrite matches_of_In, in_map_iff. split.
    + intros ([[q m'] n] & <- & Hin). apply filter_In in Hin.
      destruct Hin as (Hin & Hq). cbn [fst snd] in *.
      apply str_eqb_eq in Hq. subst q.
      apply innings_sizes_In in Hin. tauto.
    + intros (d & Hd & Hp & Hm).
      exists (p, m, size_of (filter (in_group (fun d => Some (Delivery.batter d,
                                                             Delivery.match_id d))
                                             (p, m)) ds)).
      split; [reflexivity|]. apply filter_In. split.
      * apply innings_sizes_In. split; [|reflexivity]. exists d. auto.
      * apply str_eqb_refl.
Qed.

Lemma matches_batted_row ds :
  forall p v, In (p, v) (matches_batted ds) <-> batted_row ds p v.
Proof.
  intros p v. unfold matches_batted, batted_row. rewrite aggregate_In.
  rewrite (filter_ext _ _ (in_group_Some (fun r : str * Z * Z => fst (fst r)) p)).
  rewrite count_of_Some, innings_of_batter.
  split; intros (Hex & Hv); (split; [|exact Hv]).
  - destruct Hex as ([[q m] n] & Hin & E). apply innings_sizes_In in Hin.
    destruct Hin as ((d & Hd & Hq & _) & _). exists d.
    split; [exact Hd|]. cbn [fst] in E. congruence.
  - destruct Hex as (d & Hd & Hp).
    exists (p, Delivery.match_id d,
            size_of (filter (in_group (fun d => Some (Delivery.batter d,
                                                     Delivery.match_id d))
                                      (p, Delivery.match_id d)) ds)).
    split; [|reflexivity]. apply innings_sizes_In. split; [|reflexivity].
    exists d. auto.
Qed.

(** X19. The matches played are the matches batted in: the KPI lists the ten
    batters who faced a delivery in the most matches, each with the number
    of distinct matches among the deliveries that name the player as
    batter. A match in which a player only bowled or fielded is not
    counted. *)
Theorem most_matches_played_top10 matches deliveries kp printed :
  has_columns deliveries ["batter"; "match_id"]%string ->
  calculate_kpis matches deliveries = (Ok kp, printed) ->
  exists top,
    dict_get "most_matches_played" kp = Some (Series top)
    /\ top_of 10 (batted_row (rows deliveries)) top.
Proof.
  intros Hc H. apply calculate_kpis_Ok in H. destruct H as (s' & Hrun & -> & _).
  exists (top10 (matches_batted (rows deliveries))). split.
  - entry_of "most_matches_played"%string 14%nat
      (most_matches_played_block deliveries) Hrun.
    rewrite (most_matches_played_run _ _ Hc) in Hw. injection Hw as <-.
    apply dict_get_set_same.
  - eapply top_of_iff; [apply matches_batted_row|].
    apply head_sort_desc_top. apply aggregate_NoDup.
Qed.

Lemma most_matches_played_top10_witness :
  exists top,
    dict_get "most_matches_played" League.kpis = Some (Series top)
    /\ top_of 10 (batted_row (rows League.deliveries)) top.
Proof.
  apply (most_matches_played_top10 League.matches League.deliveries
           League.kpis []).
  - repeat constructor.
  - vm_compute. reflexivity.
Defined.

End FieldingTheorems.

Module MatchKpiTheorems.
Import PyFacts GroupSpec GroupFacts StmtSpec StmtFacts SeriesSpec SeriesFacts.
Import LeaderSpec LeaderFacts TeamSpec TeamRecordFacts.
Import IsolationFacts OutcomeSpec OutcomeFacts DictFacts KpiSpec KpiFacts.
Import RankingSpec RankingFacts.

(** The first [n] entries of [value_counts]. *)
Lemma head_value_counts n cells :
  top_of n (count_row cells) (head n (value_counts cells)).
Proof.
  unfold value_counts. eapply top_of_iff; [|apply head_sort_desc_top].
  - intros t v. unfold count_row. rewrite <- value_counts_In.
    split; apply Permutation_in;
      [symmetry; apply value_counts_perm | apply value_counts_perm].
  - fold (counts (dropna cells)). rewrite counts_labels. apply uniques_NoDup.
Qed.

Lemma dropna_length {A} (l : list (option A)) :
  (List.length (dropna l) <= List.length l)%nat.
Proof.
  unfold dropna. induction l as [|[a|] t IH]; cbn [flat_map app List.length]; lia.
Qed.

(** X20. The toss wins: one entry per team that won a toss, with the number of
    tosses it won, in descending order; most_toss_wins is the first entry,
    a team that no team exceeds. The Series is empty only when no toss
    winner is recorded. *)
Theorem toss_wins_counts matches deliveries kp printed :
  has_column matches "toss_winner" = true ->
  calculate_kpis matches deliveries = (Ok kp, printed) ->
  exists toss_wins,
    dict_get "toss_wins" kp = Some (Series toss_wins)
    /\ counts_of (map Match.toss_winner (rows matches)) toss_wins
    /\ dict_get "most_toss_wins" kp = Some (Series (head 1 toss_wins))
    /\ top_of 1 (count_row (map Match.toss_winner (rows matches)))
              (head 1 toss_wins).
Proof.
  intros Hc H. apply calculate_kpis_Ok in H. destruct H as (s' & Hrun & -> & _).
  exists (toss_wins_series (rows matches)).
  split; [|split; [apply value_counts_counts|split; [|apply head_value_counts]]].
  - entry_of "toss_wins"%string 4%nat (toss_wins_block matches) Hrun.
    rewrite (toss_wins_run _ _ Hc) in Hw. injection Hw as <-. cbn [put kpis].
    rewrite dict_get_set_other by discriminate. apply dict_get_set_same.
  - entry_of "most_toss_wins"%string 4%nat (toss_wins_block matches) Hrun.
    rewrite (toss_wins_run _ _ Hc) in Hw. injection Hw as <-.
    apply dict_get_set_same.
Qed.

Lemma toss_wins_counts_witness :
  exists toss_wins,
    dict_get "toss_wins" League.kpis = Some (Series toss_wins)
    /\ counts_of (map Match.toss_winner (rows League.matches)) toss_wins
    /\ dict_get "most_toss_wins" League.kpis = Some (Series (head 1 toss_wins))
    /\ top_of 1 (count_row (map Match.toss_winner (rows League.matches)))
              (head 1 toss_wins).
Proof.
  apply (toss_wins_counts League.matches League.deliveries League.kpis []).
  - reflexivity.
  - vm_compute. reflexivity.
Defined.

Lemma awarded_In p cells :
  In (Some p) (filter awarded cells) <-> p <> u "None" /\ In (Some p) cells.
Proof.
  rewrite filter_In. unfold awarded, cell_is.
  rewrite negb_true_iff, str_eqb_neq. tauto.
Qed.

Lemma awarded_occurrences p cells :
  p <> u "None" ->
  occurrences p (dropna (filter awarded cells)) = occurrences p (dropna cells).
Proof.
  intros Hp. induction cells as [|[x|] t IH]; [reflexivity| |exact IH].
  cbn [filter]. unfold awarded at 1, cell_is.
  destruct (str_eqb x (u "None")) eqn:E; cbn [negb].
  - apply str_eqb_eq in E. subst x.
    change (dropna (Some (u "None") :: t)) with (u "None" :: dropna t).
    rewrite occurrences_cons, IH.
    replace (str_eqb p (u "None")) with false; [lia|].
    symmetry. now apply str_eqb_neq.
  - change (dropna (Some x :: filter awarded t))
      with (x :: dropna (filter awarded t)).
    change (dropna (Some x :: t)) with (x :: dropna t).
    now rewrite !occurrences_cons, IH.
Qed.

(** X21. The awards: the ten players with the most player-of-the-match awards,
    or all when there are fewer, in descending order, each with the number
    of matches that name the player; the placeholder "None", which
    [clean_data] writes where no award was given, is never listed, and a
    match with a missing cell counts for nobody. *)
Theorem most_pom_awards_top10 matches deliveries kp printed :
  has_column matches "player_of_match" = true ->
  calculate_kpis matches deliveries = (Ok kp, printed) ->
  exists top,
    dict_get "most_pom_awards" kp = Some (Series top)
    /\ top_of 10 (award_row (map Match.player_of_match (rows matches))) top.
Proof.
  intros Hc H. apply calculate_kpis_Ok in H. destruct H as (s' & Hrun & -> & _).
  exists (head 10 (award_counts (rows matches))). split.
  - entry_of "most_pom_awards"%string 16%nat (most_pom_awards_block matches) Hrun.
    rewrite (most_pom_awards_run _ _ Hc) in Hw. injection Hw as <-.
    apply dict_get_set_same.
  - unfold award_counts. eapply top_of_iff; [|apply head_value_counts].
    intros p v. unfold award_row, count_row. rewrite awarded_In. split.
    + intros ((Hp & Hin) & ->). rewrite (awarded_occurrences _ _ Hp). auto.
    + intros (Hp & Hin & ->). rewrite (awarded_occurrences _ _ Hp). auto.
Qed.

Lemma most_pom_awards_top10_witness :
  exists top,
    dict_get "most_pom_awards" League.kpis = Some (Series top)
    /\ top_of 10 (award_row (map Match.player_of_match (rows League.matches)))
              top.
Proof.
  apply (most_pom_awards_top10 League.matches League.deliveries League.kpis []).
  - reflexivity.
  - vm_compute. reflexivity.
Defined.

(** X22. The matches and their venues: total_matches is the number of rows of
    the matches table, stadium_matches counts the matches of each venue in
    descending order, and the counts add up to the number of matches that
    have a venue, which is at most total_matches. *)
Theorem stadium_matches_counts matches deliveries kp printed :
  has_column matches "venue" = true ->
  calculate_kpis matches deliveries = (Ok kp, printed) ->
  exists venues,
    dict_get "total_matches" kp
    = Some (Scalar (Z.of_nat (List.length (rows matches))))
    /\ dict_get "stadium_matches" kp = Some (Series venues)
    /\ counts_of (map Match.venue (rows matches)) venues
    /\ total venues
       = Z.of_nat (List.length (dropna (map Match.venue (rows matches))))
    /\ total venues <= Z.of_nat (List.length (rows matches)).
Proof.
  intros Hc H. apply calculate_kpis_Ok in H. destruct H as (s' & Hrun & -> & _).
  exists (venue_counts (rows matches)).
  split; [|split; [|split; [apply value_counts_counts|]]].
  - entry_of "total_matches"%string 0%nat (total_matches_block matches) Hrun.
    rewrite total_matches_run in Hw. injection Hw as <-.
    apply dict_get_set_same.
  - entry_of "stadium_matches"%string 17%nat (stadium_matches_block matches) Hrun.
    rewrite (stadium_matches_run _ _ Hc) in Hw. injection Hw as <-.
    apply dict_get_set_same.
  - unfold venue_counts. rewrite total_value_counts. split; [reflexivity|].
    pose proof (dropna_length (map Match.venue (rows matches))) as L.
    rewrite length_map in L. lia.
Qed.

Lemma stadium_matches_counts_witness :
  exists venues,
    dict_get "total_matches" League.kpis
    = Some (Scalar (Z.of_nat (List.length (rows League.matches))))
    /\ dict_get "stadium_matches" League.kpis = Some (Series venues)
    /\ counts_of (map Match.venue (rows League.matches)) venues
    /\ total venues
       = Z.of_nat (List.length (dropna (map Match.venue (rows League.matches))))
    /\ total venues <= Z.of_nat (List.length (rows League.matches)).
Proof.
  apply (stadium_matches_counts League.matches League.deliveries League.kpis []).
  - reflexivity.
  - vm_compute. reflexivity.
Defined.

(** X23. The order of the team Series: team_matches and most_wins are in
    descending order, so the first entry of most_wins is a team that no
    team exceeds in wins; the wins add up to the number of matches with a
    winner other than "No Result", and the matches played add up to the
    number of team cells, two for a match. *)
Theorem team_series_order matches deliveries kp printed :
  has_columns matches ["team1"; "team2"; "winner"]%string ->
  calculate_kpis matches deliveries = (Ok kp, printed) ->
  exists team_matches most_wins,
    dict_get "team_matches" kp = Some (Series team_matches)
    /\ dict_get "most_wins" kp = Some (Series most_wins)
    /\ by_value_desc team_matches
    /\ by_value_desc most_wins
    /\ top_of 1 (count_row (filter decided (map Match.winner (rows matches))))
              (head 1 most_wins)
    /\ total most_wins
       = Z.of_nat (List.length
                     (dropna (filter decided (map Match.winner (rows matches)))))
    /\ total team_matches
       = Z.of_nat (List.length (dropna (map Match.team1 (rows matches))))
         + Z.of_nat (List.length (dropna (map Match.team2 (rows matches)))).
Proof.
  intros Hc H. apply calculate_kpis_Ok in H. destruct H as (s' & Hrun & -> & _).
  assert (H1 : has_column matches "team1" = true)
    by (eapply has_columns_In; [exact Hc | cbn [In]; tauto]).
  assert (H2 : has_column matches "team2" = true)
    by (eapply has_columns_In; [exact Hc | cbn [In]; tauto]).
  assert (H3 : has_column matches "winner" = true)
    by (eapply has_columns_In; [exact Hc | cbn [In]; tauto]).
  exists (team_matches_series (rows matches)), (team_wins_series (rows matches)).
  split; [|split; [|split; [|split; [|split; [|split]]]]].
  - entry_of "team_matches"%string 1%nat (team_matches_block matches) Hrun.
    rewrite (team_matches_run _ _ H1 H2) in Hw. injection Hw as <-.
    apply dict_get_set_same.
  - entry_of "most_wins"%string 2%nat (most_wins_block matches) Hrun.
    rewrite (most_wins_run _ _ H3) in Hw. injection Hw as <-.
    apply dict_get_set_same.
  - apply sort_desc_sorted.
  - apply sort_desc_sorted.
  - apply head_value_counts.
  - apply total_value_counts.
  - unfold team_matches_series. rewrite total_value_counts.
    rewrite dropna_app, length_app. lia.
Qed.

Lemma team_series_order_witness :
  exists team_matches most_wins,
    dict_get "team_matches" League.kpis = Some (Series team_matches)
    /\ dict_get "most_wins" League.kpis = Some (Series most_wins)
    /\ by_value_desc team_matches
    /\ by_value_desc most_wins
    /\ top_of 1 (count_row (filter decided
                              (map Match.winner (rows League.matches))))
              (head 1 most_wins)
    /\ total most_wins
       = Z.of_nat (List.length
                     (dropna (filter decided
                                (map Match.winner (rows League.matches)))))
    /\ total team_matches
       = Z.of_nat (List.length (dropna (map Match.team1 (rows League.matches))))
         + Z.of_nat (List.length (dropna (map Match.team2 (rows League.matches)))).
Proof.
  apply (team_series_order League.matches League.deliveries League.kpis []).
  - repeat constructor.
  - vm_compute. reflexivity.
Defined.

End MatchKpiTheorems.

Module DefaultFacts.
Import PyFacts StmtSpec StmtFacts LeaderSpec LeaderFacts.
Import IsolationFacts OutcomeSpec OutcomeFacts DictFacts KpiSpec DefaultSpec.

(** Running a list of statements up to one of them and on. *)
Lemma run_at n w bs s0 s' :
  nth_error bs n = Some w ->
  run bs s0 = (Ok tt, s') ->
  exists s1 s2, run (firstn n bs) s0 = (Ok tt, s1) /\ w s1 = (Ok tt, s2)
                /\ run (skipn (S n) bs) s2 = (Ok tt, s').
Proof.
  intros Hn Hrun. rewrite (LeaderTheorems.nth_error_split _ _ _ Hn) in Hrun.
  apply run_app_Ok in Hrun. destruct Hrun as (s1 & Hpre & H).
  apply run_cons_Ok in H. destruct H as (s2 & Hw & H).
  exists s1, s2. auto.
Qed.

Lemma extends_stdout_run bs :
  Forall extends_stdout bs -> extends_stdout (run bs).
Proof.
  induction 1 as [|b t Hb _ IH]; intros s.
  - exists []. cbn [run ret snd]. now rewrite app_nil_r.
  - cbn [run]. unfold bindM. destruct (Hb s) as (l & E).
    destruct (b s) as [[[]|e] s1]; cbn [snd] in *.
    + destruct (IH s1) as (l2 & E2). exists (l ++ l2).
      rewrite E2, E. now rewrite app_assoc.
    + exists l. exact E.
Qed.

Ltac extends_stdout_tac :=
  intros s; destruct s as [d w1 w2 out]; unfold_block; split_outcomes;
  first [ exists []; symmetry; apply app_nil_r | eexists; reflexivity ].

Lemma blocks_extend_stdout matches deliveries :
  Forall extends_stdout (blocks matches deliveries).
Proof.
  unfold blocks. repeat (constructor; [extends_stdout_tac|]). constructor.
Qed.

Lemma skipn_Forall {A} (P : A -> Prop) n l : Forall P l -> Forall P (skipn n l).
Proof.
  intros H. rewrite <- (firstn_skipn n l) in H.
  apply Forall_app in H. tauto.
Qed.

(** A line that is printed stays. *)
Lemma printed_stays matches deliveries n s2 s' x :
  run (skipn n (blocks matches deliveries)) s2 = (Ok tt, s') ->
  In x (stdout s2) -> In x (stdout s').
Proof.
  intros Hrun Hin.
  destruct (extends_stdout_run _
              (skipn_Forall _ n _ (blocks_extend_stdout matches deliveries)) s2)
    as (l & E).
  rewrite Hrun in E. cbn [snd] in E. rewrite E. apply in_or_app. now left.
Qed.

End DefaultFacts.

Module DefaultTheorems.
Import PyFacts StmtSpec StmtFacts LeaderSpec LeaderFacts.
Import IsolationFacts OutcomeSpec OutcomeFacts DictFacts KpiSpec.
Import DefaultSpec DefaultFacts.

Ltac unfold_pure :=
  cbv beta iota zeta delta
    [column where_ need needs groupby_agg top10_count count_per_season
     runs_per_season team_totals cumulative_runs bind fold_right].

(** The block whose handler ran holds the default. *)
Ltac default_block Hin Hc Hw :=
  revert Hw;
  match goal with
  | |- ?b ?s = _ -> _ => destruct s as [d w1 w2 out]
  end;
  unfold_block; unfold_pure;
  cbn [In] in Hin;
  repeat (destruct Hin as [<-|Hin]; [|]); try contradiction;
  repeat first
    [ rewrite has_column_with_rows
    | rewrite Hc
    | progress cbv beta iota
    | match goal with
      | |- context [match ?x with _ => _ end] =>
          lazymatch x with
          | context [match _ with _ => _ end] => fail
          | _ => destruct x
          end
      end ];
  (let E := fresh "E" in
   intros E; try discriminate E; injection E as <-;
   rewrite ?dict_get_set_other by discriminate; apply dict_get_set_same).

Section Blocks.
Variable matches : frame (Match.row Z).
Variable deliveries : frame (Delivery.row Z).

Lemma team_matches_default c s1 s2 :
  In c ["team1"; "team2"]%string -> has_column matches c = false ->
  team_matches_block matches s1 = (Ok tt, s2) ->
  dict_get "team_matches" (kpis s2) = Some (Series []).
Proof. intros Hin Hc Hw. default_block Hin Hc Hw. Qed.

Lemma most_wins_default c s1 s2 :
  In c ["winner"]%string -> has_column matches c = false ->
  most_wins_block matches s1 = (Ok tt, s2) ->
  dict_get "most_wins" (kpis s2) = Some (Series []).
Proof. intros Hin Hc Hw. default_block Hin Hc Hw. Qed.

Lemma toss_wins_default c s1 s2 :
  In c ["toss_winner"]%string -> has_column matches c = false ->
  toss_wins_block matches s1 = (Ok tt, s2) ->
  dict_get "toss_wins" (kpis s2) = Some (Series [])
  /\ dict_get "most_toss_wins" (kpis s2) = Some (Series []).
Proof. intros Hin Hc Hw. split; default_block Hin Hc Hw. Qed.

Lemma orange_cap_default c s1 s2 :
  In c ["season"; "batter"; "batsman_runs"]%string ->
  has_column deliveries c = false ->
  orange_cap_block deliveries s1 = (Ok tt, s2) ->
  dict_get "orange_cap" (kpis s2) = Some EmptyFrame.
Proof. intros Hin Hc Hw. default_block Hin Hc Hw. Qed.

Lemma purple_cap_default c s1 s2 :
  In c ["dismissal_kind"; "season"; "bowler"; "player_dismissed"]%string ->
  has_column deliveries c = false ->
  purple_cap_block deliveries s1 = (Ok tt, s2) ->
  dict_get "purple_cap" (kpis s2) = Some EmptyFrame.
Proof. intros Hin Hc Hw. default_block Hin Hc Hw. Qed.

Lemma most_runs_total_default c s1 s2 :
  In c ["batter"; "batsman_runs"]%string ->
  has_column deliveries c = false ->
  most_runs_total_block deliveries s1 = (Ok tt, s2) ->
  dict_get "most_runs_total" (kpis s2) = Some (Series []).
Proof. intros Hin Hc Hw. default_block Hin Hc Hw. Qed.

Lemma most_sixes_default c s1 s2 :
  In c ["batsman_runs"; "batter"; "season"]%string ->
  has_column deliveries c = false ->
  most_sixes_block deliveries s1 = (Ok tt, s2) ->
  dict_get "most_sixes" (kpis s2) = Some (Series [])
  /\ dict_get "most_sixes_per_season" (kpis s2) = Some EmptyFrame.
Proof. intros Hin Hc Hw. split; default_block Hin Hc Hw. Qed.

Lemma most_fours_default c s1 s2 :
  In c ["batsman_runs"; "batter"; "season"]%string ->
  has_column deliveries c = false ->
  most_fours_block deliveries s1 = (Ok tt, s2) ->
  dict_get "most_fours" (kpis s2) = Some (Series [])
  /\ dict_get "most_fours_per_season" (kpis s2) = Some EmptyFrame.
Proof. intros Hin Hc Hw. split; default_block Hin Hc Hw. Qed.

Lemma most_catches_default c s1 s2 :
  In c ["dismissal_kind"; "fielder"; "player_dismissed"]%string ->
  has_column deliveries c = false ->
  most_catches_block deliveries s1 = (Ok tt, s2) ->
  dict_get "most_catches" (kpis s2) = Some (Series []).
Proof. intros Hin Hc Hw. default_block Hin Hc Hw. Qed.

Lemma most_stumps_default c s1 s2 :
  In c ["dismissal_kind"; "fielder"; "player_dismissed"]%string ->
  has_column deliveries c = false ->
  most_stumps_block deliveries s1 = (Ok tt, s2) ->
  dict_get "most_stumps" (kpis s2) = Some (Series []).
Proof. intros Hin Hc Hw. default_block Hin Hc Hw. Qed.

Lemma most_run_outs_default c s1 s2 :
  In c ["dismissal_kind"; "fielder"; "player_dismissed"]%string ->
  has_column deliveries c = false ->
  most_run_outs_block deliveries s1 = (Ok tt, s2) ->
  dict_get "most_run_outs" (kpis s2) = Some (Series []).
Proof. intros Hin Hc Hw. default_block Hin Hc Hw. Qed.

Lemma most_matches_played_default c s1 s2 :
  In c ["batter"; "match_id"]%string ->
  has_column deliveries c = false ->
  most_matches_played_block deliveries s1 = (Ok tt, s2) ->
  dict_get "most_matches_played" (kpis s2) = Some (Series []).
Proof. intros Hin Hc Hw. default_block Hin Hc Hw. Qed.

Lemma highest_team_totals_default_matches c s1 s2 :
  In c ["id"; "team1"; "team2"]%string ->
  has_column matches c = false ->
  highest_team_totals_block matches deliveries s1 = (Ok tt, s2) ->
  dict_get "highest_team_totals" (kpis s2) = Some EmptyFrame.
Proof. intros Hin Hc Hw. default_block Hin Hc Hw. Qed.

Lemma highest_team_totals_default_deliveries c s1 s2 :
  In c ["match_id"; "batting_team"; "total_runs"]%string ->
  has_column deliveries c = false ->
  highest_team_totals_block matches deliveries s1 = (Ok tt, s2) ->
  dict_get "highest_team_totals" (kpis s2) = Some EmptyFrame.
Proof. intros Hin Hc Hw. default_block Hin Hc Hw. Qed.

Lemma most_pom_awards_default c s1 s2 :
  In c ["player_of_match"]%string -> has_column matches c = false ->
  most_pom_awards_block matches s1 = (Ok tt, s2) ->
  dict_get "most_pom_awards" (kpis s2) = Some (Series []).
Proof. intros Hin Hc Hw. default_block Hin Hc Hw. Qed.

Lemma stadium_matches_default c s1 s2 :
  In c ["venue"]%string -> has_column matches c = false ->
  stadium_matches_block matches s1 = (Ok tt, s2) ->
  dict_get "stadium_matches" (kpis s2) = Some (Series []).
Proof. intros Hin Hc Hw. default_block Hin Hc Hw. Qed.

Lemma cumulative_runs_default c s1 s2 :
  In c ["season"; "batter"; "batsman_runs"]%string ->
  has_column deliveries c = false ->
  cumulative_runs_block deliveries s1 = (Ok tt, s2) ->
  dict_get "cumulative_runs" (kpis s2) = Some EmptyFrame.
Proof. intros Hin Hc Hw. default_block Hin Hc Hw. Qed.

(** *** The two handlers for [NameError] *)

Ltac keeps_team_wins_tac :=
  intros s; destruct s as [d w1 w2 out]; unfold_block; split_outcomes;
  reflexivity.

Lemma total_matches_keeps_team_wins :
  keeps_team_wins (total_matches_block matches).
Proof. keeps_team_wins_tac. Qed.

Lemma team_matches_keeps_team_wins :
  keeps_team_wins (team_matches_block matches).
Proof. keeps_team_wins_tac. Qed.

Lemma most_wins_unbound s :
  has_column matches "winner" = false ->
  team_wins (snd (most_wins_block matches s)) = team_wins s.
Proof.
  intros Hc. unfold most_wins_block, try_except, bindM, lift, where_, need.
  rewrite Hc. reflexivity.
Qed.

(** Without the winner column the first three blocks leave [team_wins]
    unbound, and team_matches a Series. *)
Lemma team_wins_after_three s3 :
  has_column matches "winner" = false ->
  run (firstn 3 (blocks matches deliveries)) initial_state = (Ok tt, s3) ->
  team_wins s3 = None
  /\ exists tm, dict_get "team_matches" (kpis s3) = Some (Series tm).
Proof.
  intros Hc Hrun. cbn [firstn blocks] in Hrun.
  apply run_cons_Ok in Hrun. destruct Hrun as (s1 & E1 & Hrun).
  apply run_cons_Ok in Hrun. destruct Hrun as (s2 & E2 & Hrun).
  apply run_cons_Ok in Hrun. destruct Hrun as (s3' & E3 & Hrun).
  injection Hrun as <-.
  pose proof (total_matches_keeps_team_wins initial_state) as W1.
  rewrite E1 in W1. cbn [snd] in W1.
  pose proof (team_matches_keeps_team_wins s1) as W2.
  rewrite E2 in W2. cbn [snd] in W2.
  pose proof (most_wins_unbound s2 Hc) as W3.
  rewrite E3 in W3. cbn [snd] in W3.
  split; [rewrite W3, W2, W1; reflexivity|].
  destruct (OutcomeTheorems.team_matches_is_Series _ _ _ E2) as (tm & Htm).
  exists tm.
  pose proof (keeps_most_wins matches "team_matches" ltac:(discriminate) s2) as K.
  rewrite E3 in K. cbn [snd] in K. now rewrite K.
Qed.

Lemma most_losses_unbound s tm :
  team_wins s = None ->
  dict_get "team_matches" (kpis s) = Some (Series tm) ->
  most_losses_block s
  = (Ok tt,
     State (dict_set "most_losses" (Series []) (kpis s)) (team_wins s)
           (wickets s)
           (stdout s
            ++ [Error_calculating "most losses" (NameError "team_wins")])).
Proof.
  destruct s as [d w1 w2 out]. cbn [team_wins kpis wickets stdout].
  intros -> Hk.
  unfold most_losses_block, try_except, bindM, get_kpi, read_team_wins, lift.
  cbn [kpis]. rewrite Hk. reflexivity.
Qed.

Lemma most_wickets_total_default s :
  wickets s = None ->
  most_wickets_total_block s
  = (Ok tt,
     State (dict_set "most_wickets_total" (Series []) (kpis s)) (team_wins s)
           (wickets s)
           (stdout s
            ++ [Error_calculating "most wickets" (NameError "wickets")])).
Proof.
  destruct s as [d w1 w2 out]. cbn [team_wins kpis wickets stdout].
  intros ->. reflexivity.
Qed.

Lemma purple_cap_missing_kind s :
  has_column deliveries "dismissal_kind" = false ->
  purple_cap_block deliveries s
  = (Ok tt,
     State (dict_set "purple_cap" EmptyFrame (kpis s)) (team_wins s)
           (wickets s)
           (stdout s
            ++ [Missing_column (KeyError "dismissal_kind") "purple cap"])).
Proof.
  intros Hc. unfold purple_cap_block, try_except, bindM, lift, where_, need.
  rewrite Hc. reflexivity.
Qed.

Lemma most_wins_missing_winner s :
  has_column matches "winner" = false ->
  most_wins_block matches s
  = (Ok tt,
     State (dict_set "most_wins" (Series []) (kpis s)) (team_wins s)
           (wickets s)
           (stdout s ++ [Missing_column (KeyError "winner") "most wins"])).
Proof.
  intros Hc. unfold most_wins_block, try_except, bindM, lift, where_, need.
  rewrite Hc. reflexivity.
Qed.
End Blocks.

(** X13. Without the dismissal kinds the purple cap block fails before it binds
    [wickets]; the block of the overall wickets then meets the unbound
    name, which its handler does catch: [calculate_kpis] returns, with an
    empty purple cap and no overall wickets, and both failures are
    reported. *)
Theorem missing_dismissal_kind matches deliveries :
  has_column deliveries "dismissal_kind" = false ->
  exists kp printed,
    calculate_kpis matches deliveries = (Ok kp, printed)
    /\ dict_get "purple_cap" kp = Some EmptyFrame
    /\ dict_get "most_wickets_total" kp = Some (Series [])
    /\ In (Missing_column (KeyError "dismissal_kind") "purple cap") printed
    /\ In (Error_calculating "most wickets" (NameError "wickets")) printed.
Proof.
  intros Hc.
  pose proof (OutcomeTheorems.outcome_cases matches deliveries) as O.
  unfold wickets_leak in O. rewrite Hc in O. cbn [andb] in O.
  destruct O as (kp & printed & E). exists kp, printed.
  split; [exact E|].
  apply calculate_kpis_Ok in E. destruct E as (s' & Hrun & -> & ->).
  split; [|split; [|split]].
  - entry_of "purple_cap"%string 6%nat (purple_cap_block deliveries) Hrun.
    rewrite (purple_cap_missing_kind _ _ Hc) in Hw. injection Hw as <-.
    apply dict_get_set_same.
  - entry_of "most_wickets_total"%string 8%nat most_wickets_total_block Hrun.
    destruct (OutcomeTheorems.wickets_after_eight matches deliveries)
      as (s8 & E8 & W8).
    rewrite E8 in Hpre. injection Hpre as <-. rewrite Hc in W8.
    rewrite (most_wickets_total_default _ W8) in Hw. injection Hw as <-.
    apply dict_get_set_same.
  - destruct (run_at 6 (purple_cap_block deliveries) (blocks matches deliveries) _ _ eq_refl Hrun)
      as (s1 & s2 & _ & Hw & Hrest).
    rewrite (purple_cap_missing_kind _ _ Hc) in Hw. injection Hw as <-.
    eapply printed_stays; [exact Hrest|].
    cbn [stdout]. apply in_or_app. right. now left.
  - destruct (run_at 8 most_wickets_total_block (blocks matches deliveries) _ _ eq_refl Hrun)
      as (s1 & s2 & Hpre & Hw & Hrest).
    destruct (OutcomeTheorems.wickets_after_eight matches deliveries)
      as (s8 & E8 & W8).
    rewrite E8 in Hpre. injection Hpre as <-. rewrite Hc in W8.
    rewrite (most_wickets_total_default _ W8) in Hw. injection Hw as <-.
    eapply printed_stays; [exact Hrest|].
    cbn [stdout]. apply in_or_app. right. now left.
Qed.

Lemma missing_dismissal_kind_witness :
  exists kp printed,
    calculate_kpis League.matches
      (League.without "dismissal_kind" League.deliveries) = (Ok kp, printed)
    /\ dict_get "purple_cap" kp = Some EmptyFrame
    /\ dict_get "most_wickets_total" kp = Some (Series [])
    /\ In (Missing_column (KeyError "dismissal_kind") "purple cap") printed
    /\ In (Error_calculating "most wickets" (NameError "wickets")) printed.
Proof.
  apply (missing_dismissal_kind League.matches
           (League.without "dismissal_kind" League.deliveries)).
  reflexivity.
Defined.

(** X14. Without the winner column the block of the wins fails before it binds
    [team_wins]; the block of the losses then meets the unbound name and
    its handler stores an empty Series: when [calculate_kpis] returns,
    most_wins and most_losses are empty and both failures are reported. *)
Theorem missing_winner matches deliveries kp printed :
  has_column matches "winner" = false ->
  calculate_kpis matches deliveries = (Ok kp, printed) ->
  dict_get "most_wins" kp = Some (Series [])
  /\ dict_get "most_losses" kp = Some (Series [])
  /\ In (Missing_column (KeyError "winner") "most wins") printed
  /\ In (Error_calculating "most losses" (NameError "team_wins")) printed.
Proof.
  intros Hc E.
  apply calculate_kpis_Ok in E. destruct E as (s' & Hrun & -> & ->).
  split; [|split; [|split]].
  - entry_of "most_wins"%string 2%nat (most_wins_block matches) Hrun.
    rewrite (most_wins_missing_winner _ _ Hc) in Hw. injection Hw as <-.
    apply dict_get_set_same.
  - entry_of "most_losses"%string 3%nat most_losses_block Hrun.
    destruct (team_wins_after_three _ _ _ Hc Hpre) as (W & tm & Htm).
    rewrite (most_losses_unbound _ _ W Htm) in Hw. injection Hw as <-.
    apply dict_get_set_same.
  - destruct (run_at 2 (most_wins_block matches) (blocks matches deliveries) _ _ eq_refl Hrun)
      as (s1 & s2 & _ & Hw & Hrest).
    rewrite (most_wins_missing_winner _ _ Hc) in Hw. injection Hw as <-.
    eapply printed_stays; [exact Hrest|].
    cbn [stdout]. apply in_or_app. right. now left.
  - destruct (run_at 3 most_losses_block (blocks matches deliveries) _ _ eq_refl Hrun)
      as (s1 & s2 & Hpre & Hw & Hrest).
    destruct (team_wins_after_three _ _ _ Hc Hpre) as (W & tm & Htm).
    rewrite (most_losses_unbound _ _ W Htm) in Hw. injection Hw as <-.
    eapply printed_stays; [exact Hrest|].
    cbn [stdout]. apply in_or_app. right. now left.
Qed.

Lemma missing_winner_witness :
  dict_get "most_wins" LeagueCases.kpis_no_winner = Some (Series [])
  /\ dict_get "most_losses" LeagueCases.kpis_no_winner = Some (Series [])
  /\ In (Missing_column (KeyError "winner") "most wins")
        LeagueCases.printed_no_winner
  /\ In (Error_calculating "most losses" (NameError "team_wins"))
        LeagueCases.printed_no_winner.
Proof.
  apply (missing_winner LeagueCases.no_winner League.deliveries
           LeagueCases.kpis_no_winner LeagueCases.printed_no_winner).
  - reflexivity.
  - vm_compute. reflexivity.
Defined.

End DefaultTheorems.

Module FallbackTheorems.
Import PyFacts StmtSpec StmtFacts LeaderSpec LeaderFacts.
Import IsolationFacts OutcomeSpec OutcomeFacts DictFacts KpiSpec.
Import DefaultSpec DefaultFacts DefaultTheorems.

(** X12. One table of fallbacks for the whole function: when [calculate_kpis]
    returns and a column that an entry depends on is absent, the entry
    holds its default, an empty Series or an empty DataFrame. The columns
    of an entry include those read for the entry that shares its block:
    without the season the overall sixes and fours are empty too. *)
Theorem missing_column_default matches deliveries kp printed k cols dflt :
  In (k, cols, dflt) defaults ->
  lacks matches deliveries cols ->
  calculate_kpis matches deliveries = (Ok kp, printed) ->
  dict_get k kp = Some dflt.
Proof.
  intros Hk (c & Hl) E.
  apply calculate_kpis_Ok in E. destruct E as (s' & Hrun & -> & _).
  unfold defaults in Hk. cbn [In] in Hk.
  repeat (destruct Hk as [Hk|Hk];
          [injection Hk as <- <- <-; cbn [fst snd] in Hl;
           destruct Hl as [(Hin & Hc)|(Hin & Hc)];
           try (exfalso; exact Hin) |]);
    try contradiction.
  - entry_of "team_matches"%string 1%nat (team_matches_block matches) Hrun.
    eapply team_matches_default; eauto.
  - entry_of "most_wins"%string 2%nat (most_wins_block matches) Hrun.
    eapply most_wins_default; eauto.
  - destruct Hin as [<-|[]].
    entry_of "most_losses"%string 3%nat most_losses_block Hrun.
    destruct (team_wins_after_three _ _ _ Hc Hpre) as (W & tm & Htm).
    rewrite (most_losses_unbound _ _ W Htm) in Hw. injection Hw as <-.
    apply dict_get_set_same.
  - entry_of "toss_wins"%string 4%nat (toss_wins_block matches) Hrun.
    eapply toss_wins_default; eauto.
  - entry_of "most_toss_wins"%string 4%nat (toss_wins_block matches) Hrun.
    eapply toss_wins_default; eauto.
  - entry_of "orange_cap"%string 5%nat (orange_cap_block deliveries) Hrun.
    eapply orange_cap_default; eauto.
  - entry_of "purple_cap"%string 6%nat (purple_cap_block deliveries) Hrun.
    eapply purple_cap_default; eauto.
  - entry_of "most_runs_total"%string 7%nat (most_runs_total_block deliveries) Hrun.
    eapply most_runs_total_default; eauto.
  - destruct Hin as [<-|[]].
    entry_of "most_wickets_total"%string 8%nat most_wickets_total_block Hrun.
    destruct (OutcomeTheorems.wickets_after_eight matches deliveries)
      as (s8 & E8 & W8).
    rewrite E8 in Hpre. injection Hpre as <-. rewrite Hc in W8.
    rewrite (most_wickets_total_default _ W8) in Hw. injection Hw as <-.
    apply dict_get_set_same.
  - entry_of "most_sixes"%string 9%nat (most_sixes_block deliveries) Hrun.
    eapply most_sixes_default; eauto.
  - entry_of "most_sixes_per_season"%string 9%nat (most_sixes_block deliveries) Hrun.
    eapply most_sixes_default; eauto.
  - entry_of "most_fours"%string 10%nat (most_fours_block deliveries) Hrun.
    eapply most_fours_default; eauto.
  - entry_of "most_fours_per_season"%string 10%nat (most_fours_block deliveries) Hrun.
    eapply most_fours_default; eauto.
  - entry_of "most_catches"%string 11%nat (most_catches_block deliveries) Hrun.
    eapply most_catches_default; eauto.
  - entry_of "most_stumps"%string 12%nat (most_stumps_block deliveries) Hrun.
    eapply most_stumps_default; eauto.
  - entry_of "most_run_outs"%string 13%nat (most_run_outs_block deliveries) Hrun.
    eapply most_run_outs_default; eauto.
  - entry_of "most_matches_played"%string 14%nat
      (most_matches_played_block deliveries) Hrun.
    eapply most_matches_played_default; eauto.
  - entry_of "highest_team_totals"%string 15%nat
      (highest_team_totals_block matches deliveries) Hrun.
    eapply highest_team_totals_default_matches; eauto.
  - entry_of "highest_team_totals"%string 15%nat
      (highest_team_totals_block matches deliveries) Hrun.
    eapply highest_team_totals_default_deliveries; eauto.
  - entry_of "most_pom_awards"%string 16%nat (most_pom_awards_block matches) Hrun.
    eapply most_pom_awards_default; eauto.
  - entry_of "stadium_matches"%string 17%nat (stadium_matches_block matches) Hrun.
    eapply stadium_matches_default; eauto.
  - entry_of "cumulative_runs"%string 18%nat (cumulative_runs_block deliveries) Hrun.
    eapply cumulative_runs_default; eauto.
Qed.

Lemma missing_column_default_witness :
  dict_get "most_sixes" LeagueCases.kpis_no_season = Some (Series [])
  /\ dict_get "cumulative_runs" LeagueCases.kpis_no_season = Some EmptyFrame.
Proof.
  split.
  - apply (missing_column_default League.matches LeagueCases.no_season
             LeagueCases.kpis_no_season LeagueCases.printed_no_season
             "most_sixes"%string
             ([], ["batsman_runs"; "batter"; "season"]%string) (Series [])).
    + cbn. tauto.
    + exists "season"%string. right. split; [cbn; tauto | reflexivity].
    + vm_compute. reflexivity.
  - apply (missing_column_default League.matches LeagueCases.no_season
             LeagueCases.kpis_no_season LeagueCases.printed_no_season
             "cumulative_runs"%string
             ([], ["season"; "batter"; "batsman_runs"]%string) EmptyFrame).
    + cbn. tauto.
    + exists "season"%string. right. split; [cbn; tauto | reflexivity].
    + vm_compute. reflexivity.
Defined.

End FallbackTheorems.

Module SaveFailureTheorems.
Import PyFacts StmtSpec StmtFacts SaveSpec LeaderSpec LeaderFacts.
Import OutcomeSpec OutcomeFacts DictFacts KpiSpec SaveFailureSpec App.

Lemma save_items_split fs items :
  save_items fs items
  = (map artifact (filter (written fs) items),
     map (fun e => Failed_to_save (fst e)) (filter (failed fs) items)).
Proof.
  induction items as [|[key data] rest IH]; [reflexivity|].
  cbn [save_items filter]. rewrite IH. unfold written, failed.
  change (saved (key, data)) with (is_table data && negb (empty data)).
  cbn [fst].
  destruct (is_table data && negb (empty data)); cbn [andb]; [|reflexivity].
  destruct (to_json_ok fs key); reflexivity.
Qed.

Lemma filter_split_length {A} (p q : A -> bool) l :
  (List.length (filter (fun a => p a && q a) l)
   + List.length (filter (fun a => p a && negb (q a)) l)
   = List.length (filter p l))%nat.
Proof.
  induction l as [|a t IH]; [reflexivity|]. cbn [filter].
  destruct (p a), (q a); cbn [andb negb List.length]; lia.
Qed.

(** X24. A write that fails is reported and skipped, and the loop goes on:
    [save_precomputed_stats] writes one file for each entry to be saved
    whose write succeeds, prints one warning for each whose write fails,
    both in the order of the dict, and so accounts for every entry to be
    saved; when the directory cannot be made it writes nothing and prints
    one warning. It raises in neither case. *)
Theorem save_reports_failures fs (kp : dict) :
  save_precomputed_stats fs kp
  = (if makedirs_ok fs
     then (map artifact (filter (written fs) kp),
           map (fun e => Failed_to_save (fst e)) (filter (failed fs) kp))
     else ([], [Failed_to_create_directory]))
  /\ (makedirs_ok fs = true ->
      (List.length (fst (save_precomputed_stats fs kp))
       + List.length (snd (save_precomputed_stats fs kp))
       = List.length (filter saved kp))%nat).
Proof.
  unfold save_precomputed_stats. rewrite save_items_split.
  split; [reflexivity|]. intros ->. cbn [fst snd].
  rewrite !length_map. unfold written, failed.
  apply (filter_split_length saved (fun e => to_json_ok fs (fst e))).
Qed.

Lemma NoDup_kpi_keys : NoDup kpi_keys.
Proof.
  unfold kpi_keys.
  repeat (constructor; [cbn [In]; intuition discriminate|]). constructor.
Qed.

Lemma In_dict_get k v (d : dict) :
  NoDup (keys d) -> In (k, v) d -> dict_get k d = Some v.
Proof.
  unfold keys. induction d as [|[k' v'] t IH]; [contradiction|].
  cbn [map fst dict_get]. intros Hn [E|Hin].
  - injection E as -> ->. now rewrite String.eqb_refl.
  - inversion Hn as [|? ? Hk Ht]; subst.
    destruct (String.eqb_spec k k') as [->|Hne]; [|now apply IH].
    exfalso. apply Hk. apply in_map_iff. now exists (k', v).
Qed.

(** X25. [get_kpis] returns what [calculate_kpis] returns, whatever happens to
    the files; and whatever the file system does, it writes at most
    twenty-one files, each named by a key of the dict other than
    total_matches, and no two for the same key. *)
Theorem get_kpis_files fs matches deliveries :
  fst (fst (App.get_kpis fs matches deliveries))
  = fst (calculate_kpis matches deliveries)
  /\ exists ks,
       map fst (snd (fst (App.get_kpis fs matches deliveries)))
       = map file_name ks
       /\ NoDup ks /\ incl ks table_keys /\ (List.length ks <= 21)%nat.
Proof.
  unfold App.get_kpis.
  destruct (calculate_kpis matches deliveries) as [[kp|e] printed] eqn:E.
  2:{ split; [reflexivity|]. exists []. cbn [fst snd map].
      split; [reflexivity|]. split; [constructor|].
      split; [intros x []|cbn; lia]. }
  destruct (save_precomputed_stats fs kp) as [files warnings] eqn:Es.
  split; [reflexivity|]. cbn [fst snd].
  pose proof (OutcomeTheorems.returned_keys _ _ _ _ E) as (Hkeys & _).
  assert (Htotal : exists n, dict_get "total_matches" kp = Some (Scalar n)).
  { apply calculate_kpis_Ok in E. destruct E as (s' & Hrun & -> & _).
    destruct (LeaderTheorems.entry_at "total_matches" 0
                (total_matches_block matches) (blocks matches deliveries)
                initial_state _ eq_refl
                ltac:(cbn [skipn blocks]; keeps_blocks) Hrun)
      as (s1 & s2 & _ & Hw & ->).
    rewrite TeamRecordFacts.total_matches_run in Hw. injection Hw as <-.
    eexists. apply dict_get_set_same. }
  destruct Htotal as (n & Htotal).
  assert (Hn : NoDup (keys kp)) by (rewrite Hkeys; apply NoDup_kpi_keys).
  assert (S : save_precomputed_stats fs kp
              = (if makedirs_ok fs
                 then (map artifact (filter (written fs) kp),
                       map (fun e => Failed_to_save (fst e))
                           (filter (failed fs) kp))
                 else ([], [Failed_to_create_directory])))
    by (unfold save_precomputed_stats; now rewrite save_items_split).
  rewrite Es in S.
  assert (Hfiles : exists kept,
             files = map artifact kept /\ NoDup (map fst kept)
             /\ forall e, In e kept -> In e kp /\ saved e = true).
  { destruct (makedirs_ok fs).
    - injection S as -> _. exists (filter (written fs) kp).
      split; [reflexivity|]. split.
      + apply CumulativeFacts.NoDup_map_filter. exact Hn.
      + intros e He. apply filter_In in He. destruct He as (He & Hw).
        unfold written in Hw. apply andb_true_iff in Hw. tauto.
    - injection S as -> _. exists []. split; [reflexivity|].
      split; [constructor | intros e []]. }
  destruct Hfiles as (kept & -> & Hnk & Hkept).
  exists (map fst kept).
  assert (Hincl : incl (map fst kept) table_keys).
  { intros k Hk. apply in_map_iff in Hk. destruct Hk as ([k' v] & <- & He).
    destruct (Hkept _ He) as (Hin & Hs). cbn [fst].
    assert (Hk : In k' kpi_keys).
    { rewrite <- Hkeys. unfold keys. apply in_map_iff. now exists (k', v). }
    unfold table_keys, kpi_keys in *. cbn [tl]. destruct Hk as [<-|Hk]; [|exact Hk].
    exfalso. rewrite (In_dict_get _ _ _ Hn Hin) in Htotal.
    injection Htotal as ->. discriminate Hs. }
  split; [|split; [exact Hnk | split; [exact Hincl|]]].
  - rewrite !map_map. reflexivity.
  - apply (NoDup_incl_length Hnk) in Hincl. exact Hincl.
Qed.

End SaveFailureTheorems.

Module PipelineTheorems.
Import PyFacts LoaderSpec LoaderFacts StmtSpec StmtFacts LeaderSpec LeaderFacts.
Import CleaningSpec CleaningFacts OutcomeSpec OutcomeFacts DictFacts KpiSpec.

(** The headers of the cleaned tables. *)
Lemma clean_data_headers matches deliveries ms' ds' printed :
  clean_data matches deliveries = (Ok (ms', ds'), printed) ->
  columns ms' = add_column "home_team" (columns matches)
  /\ columns ds' = columns deliveries ++ ["season"%string].
Proof.
  unfold clean_data. intros H.
  destruct (fill_and_merge matches deliveries) as [[m2 merged]|] eqn:E;
    [|discriminate].
  apply fill_and_merge_Ok in E. destruct E as (seasons & _ & -> & _).
  match type of H with
  | (bind ?r _, _) = _ => destruct r as [typed|]; cbn [bind] in H; [|discriminate]
  end.
  destruct (has_column deliveries "id"); cbn [bind] in H; [discriminate|].
  injection H as <- <- _. split; reflexivity.
Qed.

Lemma has_column_app {R} (cols : list string) (l : list R) extra c :
  has_column (Frame (cols ++ extra) l) c
  = existsb (String.eqb c) cols || existsb (String.eqb c) extra.
Proof. unfold has_column. cbn [columns]. apply existsb_app. Qed.

(** X26. [clean_data] and [calculate_kpis] in sequence: the cleaned
    deliveries always have the season, the dismissal kind and the
    dismissed player, so on cleaned tables [calculate_kpis] returns exactly
    when the deliveries came with a bowler column, which [clean_data] does
    not ask for; without it [calculate_kpis] raises. *)
Theorem cleaned_tables_outcome matches deliveries ms' ds' printed :
  clean_data matches deliveries = (Ok (ms', ds'), printed) ->
  has_columns ds'
    ["season"; "dismissal_kind"; "player_dismissed"; "fielder";
     "batting_team"; "match_id"]%string
  /\ has_columns ms'
       ["id"; "team1"; "winner"; "toss_winner"; "player_of_match";
        "home_team"]%string
  /\ (if has_column deliveries "bowler"
      then exists kp out, calculate_kpis ms' ds' = (Ok kp, out)
      else exists out,
             calculate_kpis ms' ds'
             = (Raise (Exception_ (KeyError "bowler")), out)).
Proof.
  intros H.
  pose proof (clean_data_columns _ _ _ _ _ H) as (Hm & Hd).
  pose proof (clean_data_headers _ _ _ _ _ H) as (Em & Ed).
  assert (Hds : forall c, has_column ds' c
                          = has_column deliveries c || String.eqb c "season").
  { intros c. destruct ds' as [cols l]. cbn [columns] in Ed. subst cols.
    rewrite has_column_app. cbn [existsb]. now rewrite orb_false_r. }
  assert (Hms : forall c, has_column ms' c
                          = has_column matches c || String.eqb c "home_team").
  { intros c. destruct ms' as [cols l]. cbn [columns] in Em. subst cols.
    apply has_column_add. }
  split; [|split].
  - unfold has_columns. apply Forall_forall. intros c Hin. rewrite Hds.
    cbn [In] in Hin.
    repeat (destruct Hin as [<-|Hin]; [|]); try contradiction;
      try (apply orb_true_r);
      rewrite (has_columns_In _ _ _ Hd) by (cbn; tauto); reflexivity.
  - unfold has_columns. apply Forall_forall. intros c Hin. rewrite Hms.
    cbn [In] in Hin.
    repeat (destruct Hin as [<-|Hin]; [|]); try contradiction;
      try (apply orb_true_r);
      rewrite (has_columns_In _ _ _ Hm) by (cbn; tauto); reflexivity.
  - assert (Dk : has_column deliveries "dismissal_kind" = true)
      by (eapply has_columns_In; [exact Hd | cbn; tauto]).
    assert (Pd : has_column deliveries "player_dismissed" = true)
      by (eapply has_columns_In; [exact Hd | cbn; tauto]).
    destruct (has_column deliveries "bowler") eqn:Hb.
    + pose proof (OutcomeTheorems.outcome_cases ms' ds') as O.
      unfold wickets_leak in O. rewrite !Hds in O. rewrite Dk, Pd, Hb in O.
      exact O.
    + destruct (OutcomeTheorems.wickets_after_eight ms' ds') as (s8 & E8 & W8).
      rewrite Hds, Dk in W8. cbn [orb] in W8.
      unfold calculate_kpis.
      rewrite <- (firstn_skipn 8 (blocks ms' ds')).
      rewrite (OutcomeTheorems.run_app_step _ _ _ _ E8).
      change (skipn 8 (blocks ms' ds'))
        with (most_wickets_total_block :: skipn 9 (blocks ms' ds')).
      rewrite (IsolationFacts.run_cons_raise most_wickets_total_block _ s8
                 (KeyError "bowler") s8).
      * eexists. reflexivity.
      * unfold most_wickets_total_block, try_except, bindM, read_wickets, lift,
          top10_count, groupby_agg, needs.
        rewrite W8. cbv beta iota. cbn [fold_right]. unfold need at 1.
        unfold wicket_deliveries. rewrite has_column_with_rows, Hds, Hb.
        reflexivity.
Qed.

Lemma cleaned_tables_outcome_witness :
  has_columns League.deliveries
    ["season"; "dismissal_kind"; "player_dismissed"; "fielder";
     "batting_team"; "match_id"]%string
  /\ has_columns League.matches
       ["id"; "team1"; "winner"; "toss_winner"; "player_of_match";
        "home_team"]%string
  /\ (if has_column League.raw_deliveries "bowler"
      then exists kp out,
             calculate_kpis League.matches League.deliveries = (Ok kp, out)
      else exists out,
             calculate_kpis League.matches League.deliveries
             = (Raise (Exception_ (KeyError "bowler")), out)).
Proof.
  apply (cleaned_tables_outcome League.raw_matches League.raw_deliveries
           League.matches League.deliveries []).
  vm_compute. reflexivity.
Defined.

End PipelineTheorems.

Module WarningTheorems.
Import PyFacts StmtSpec StmtFacts LeaderSpec LeaderFacts.
Import IsolationFacts OutcomeSpec OutcomeFacts DictFacts KpiSpec.
Import DefaultSpec DefaultFacts DefaultTheorems.

(** The block whose handler ran has printed its warning. *)
Ltac warns_block Hin Hc Hw :=
  revert Hw;
  match goal with
  | |- ?b ?s = _ -> _ => destruct s as [d w1 w2 out]
  end;
  unfold_block; unfold_pure;
  cbn [In] in Hin;
  repeat (destruct Hin as [<-|Hin]; [|]); try contradiction;
  repeat first
    [ rewrite has_column_with_rows
    | rewrite Hc
    | progress cbv beta iota
    | match goal with
      | |- context [match ?x with _ => _ end] =>
          lazymatch x with
          | context [match _ with _ => _ end] => fail
          | _ => destruct x
          end
      end ];
  (let E := fresh "E" in
   intros E; try discriminate E; injection E as <- <- <- <-;
   eexists; reflexivity).

Section Blocks.
Variable matches : frame (Match.row Z).
Variable deliveries : frame (Delivery.row Z).

Lemma team_matches_warns c s1 s2 :
  In c ["team1"; "team2"]%string -> has_column matches c = false ->
  team_matches_block matches s1 = (Ok tt, s2) ->
  exists l, stdout s2 = stdout s1 ++ [l].
Proof. intros Hin Hc Hw. warns_block Hin Hc Hw. Qed.

Lemma most_wins_warns c s1 s2 :
  In c ["winner"]%string -> has_column matches c = false ->
  most_wins_block matches s1 = (Ok tt, s2) ->
  exists l, stdout s2 = stdout s1 ++ [l].
Proof. intros Hin Hc Hw. warns_block Hin Hc Hw. Qed.

Lemma toss_wins_warns c s1 s2 :
  In c ["toss_winner"]%string -> has_column matches c = false ->
  toss_wins_block matches s1 = (Ok tt, s2) ->
  exists l, stdout s2 = stdout s1 ++ [l].
Proof. intros Hin Hc Hw. warns_block Hin Hc Hw. Qed.

Lemma highest_team_totals_warns_matches c s1 s2 :
  In c ["id"]%string -> has_column matches c = false ->
  highest_team_totals_block matches deliveries s1 = (Ok tt, s2) ->
  exists l, stdout s2 = stdout s1 ++ [l].
Proof. intros Hin Hc Hw. warns_block Hin Hc Hw. Qed.

Lemma highest_team_totals_warns_deliveries c s1 s2 :
  In c ["batting_team"; "total_runs"]%string ->
  has_column deliveries c = false ->
  highest_team_totals_block matches deliveries s1 = (Ok tt, s2) ->
  exists l, stdout s2 = stdout s1 ++ [l].
Proof. intros Hin Hc Hw. warns_block Hin Hc Hw. Qed.

Lemma most_pom_awards_warns c s1 s2 :
  In c ["player_of_match"]%string -> has_column matches c = false ->
  most_pom_awards_block matches s1 = (Ok tt, s2) ->
  exists l, stdout s2 = stdout s1 ++ [l].
Proof. intros Hin Hc Hw. warns_block Hin Hc Hw. Qed.

Lemma stadium_matches_warns c s1 s2 :
  In c ["venue"]%string -> has_column matches c = false ->
  stadium_matches_block matches s1 = (Ok tt, s2) ->
  exists l, stdout s2 = stdout s1 ++ [l].
Proof. intros Hin Hc Hw. warns_block Hin Hc Hw. Qed.

Lemma orange_cap_warns c s1 s2 :
  In c ["season"; "batter"; "batsman_runs"]%string ->
  has_column deliveries c = false ->
  orange_cap_block deliveries s1 = (Ok tt, s2) ->
  exists l, stdout s2 = stdout s1 ++ [l].
Proof. intros Hin Hc Hw. warns_block Hin Hc Hw. Qed.

Lemma purple_cap_warns c s1 s2 :
  In c ["dismissal_kind"; "bowler"; "player_dismissed"]%string ->
  has_column deliveries c = false ->
  purple_cap_block deliveries s1 = (Ok tt, s2) ->
  exists l, stdout s2 = stdout s1 ++ [l].
Proof. intros Hin Hc Hw. warns_block Hin Hc Hw. Qed.

Lemma most_catches_warns c s1 s2 :
  In c ["fielder"]%string -> has_column deliveries c = false ->
  most_catches_block deliveries s1 = (Ok tt, s2) ->
  exists l, stdout s2 = stdout s1 ++ [l].
Proof. intros Hin Hc Hw. warns_block Hin Hc Hw. Qed.

Lemma most_matches_played_warns c s1 s2 :
  In c ["match_id"]%string -> has_column deliveries c = false ->
  most_matches_played_block deliveries s1 = (Ok tt, s2) ->
  exists l, stdout s2 = stdout s1 ++ [l].
Proof. intros Hin Hc Hw. warns_block Hin Hc Hw. Qed.

(** A warning printed by a block is in the output of the run. *)
Lemma warning_stays n w s' :
  nth_error (blocks matches deliveries) n = Some w ->
  run (blocks matches deliveries) initial_state = (Ok tt, s') ->
  (forall s1 s2, w s1 = (Ok tt, s2) -> exists l, stdout s2 = stdout s1 ++ [l]) ->
  stdout s' <> [].
Proof.
  intros Hn Hrun Hwarn.
  destruct (run_at n w _ _ _ Hn Hrun) as (s1 & s2 & _ & Hw & Hrest).
  destruct (Hwarn _ _ Hw) as (l & El).
  assert (Hin : In l (stdout s')).
  { eapply printed_stays; [exact Hrest|]. rewrite El.
    apply in_or_app. right. now left. }
  intros E. rewrite E in Hin. contradiction.
Qed.
End Blocks.

(** X11. [calculate_kpis] returns without a warning exactly when every column
    that it reads is present: a missing column is always reported by some
    block, and with all columns present nothing is printed. *)
Theorem warnings_iff_missing matches deliveries kp printed :
  calculate_kpis matches deliveries = (Ok kp, printed) ->
  printed = []
  <-> has_columns matches match_columns_read
      /\ has_columns deliveries delivery_columns_read.
Proof.
  intros H. split.
  - intros ->. apply calculate_kpis_Ok in H.
    destruct H as (s' & Hrun & _ & Hout). symmetry in Hout.
    split; apply Forall_forall; intros c Hin;
      [destruct (has_column matches c) eqn:Hc
      | destruct (has_column deliveries c) eqn:Hc]; try reflexivity;
      exfalso; revert Hout;
      cbn [In match_columns_read delivery_columns_read] in Hin;
      repeat (destruct Hin as [<-|Hin]; [|]); try contradiction.
    + apply (warning_stays matches deliveries 1 (team_matches_block matches));
        [reflexivity | exact Hrun |].
      intros s1 s2. apply team_matches_warns with (c := "team1"%string);
        [cbn; tauto | exact Hc].
    + apply (warning_stays matches deliveries 1 (team_matches_block matches));
        [reflexivity | exact Hrun |].
      intros s1 s2. apply team_matches_warns with (c := "team2"%string);
        [cbn; tauto | exact Hc].
    + apply (warning_stays matches deliveries 2 (most_wins_block matches));
        [reflexivity | exact Hrun |].
      intros s1 s2. apply most_wins_warns with (c := "winner"%string);
        [cbn; tauto | exact Hc].
    + apply (warning_stays matches deliveries 4 (toss_wins_block matches));
        [reflexivity | exact Hrun |].
      intros s1 s2. apply toss_wins_warns with (c := "toss_winner"%string);
        [cbn; tauto | exact Hc].
    + apply (warning_stays matches deliveries 15
               (highest_team_totals_block matches deliveries));
        [reflexivity | exact Hrun |].
      intros s1 s2.
      apply highest_team_totals_warns_matches with (c := "id"%string);
        [cbn; tauto | exact Hc].
    + apply (warning_stays matches deliveries 16 (most_pom_awards_block matches));
        [reflexivity | exact Hrun |].
      intros s1 s2.
      apply most_pom_awards_warns with (c := "player_of_match"%string);
        [cbn; tauto | exact Hc].
    + apply (warning_stays matches deliveries 17 (stadium_matches_block matches));
        [reflexivity | exact Hrun |].
      intros s1 s2. apply stadium_matches_warns with (c := "venue"%string);
        [cbn; tauto | exact Hc].
    + apply (warning_stays matches deliveries 5 (orange_cap_block deliveries));
        [reflexivity | exact Hrun |].
      intros s1 s2. apply orange_cap_warns with (c := "season"%string);
        [cbn; tauto | exact Hc].
    + apply (warning_stays matches deliveries 5 (orange_cap_block deliveries));
        [reflexivity | exact Hrun |].
      intros s1 s2. apply orange_cap_warns with (c := "batter"%string);
        [cbn; tauto | exact Hc].
    + apply (warning_stays matches deliveries 5 (orange_cap_block deliveries));
        [reflexivity | exact Hrun |].
      intros s1 s2. apply orange_cap_warns with (c := "batsman_runs"%string);
        [cbn; tauto | exact Hc].
    + apply (warning_stays matches deliveries 6 (purple_cap_block deliveries));
        [reflexivity | exact Hrun |].
      intros s1 s2. apply purple_cap_warns with (c := "dismissal_kind"%string);
        [cbn; tauto | exact Hc].
    + apply (warning_stays matches deliveries 6 (purple_cap_block deliveries));
        [reflexivity | exact Hrun |].
      intros s1 s2. apply purple_cap_warns with (c := "bowler"%string);
        [cbn; tauto | exact Hc].
    + apply (warning_stays matches deliveries 6 (purple_cap_block deliveries));
        [reflexivity | exact Hrun |].
      intros s1 s2. apply purple_cap_warns with (c := "player_dismissed"%string);
        [cbn; tauto | exact Hc].
    + apply (warning_stays matches deliveries 11 (most_catches_block deliveries));
        [reflexivity | exact Hrun |].
      intros s1 s2. apply most_catches_warns with (c := "fielder"%string);
        [cbn; tauto | exact Hc].
    + apply (warning_stays matches deliveries 14
               (most_matches_played_block deliveries));
        [reflexivity | exact Hrun |].
      intros s1 s2. apply most_matches_played_warns with (c := "match_id"%string);
        [cbn; tauto | exact Hc].
    + apply (warning_stays matches deliveries 15
               (highest_team_totals_block matches deliveries));
        [reflexivity | exact Hrun |].
      intros s1 s2.
      apply highest_team_totals_warns_deliveries with (c := "batting_team"%string);
        [cbn; tauto | exact Hc].
    + apply (warning_stays matches deliveries 15
               (highest_team_totals_block matches deliveries));
        [reflexivity | exact Hrun |].
      intros s1 s2.
      apply highest_team_totals_warns_deliveries with (c := "total_runs"%string);
        [cbn; tauto | exact Hc].
  - intros (Hm & Hd).
    rewrite (KpiTheorems.all_columns_run _ _ Hm Hd) in H.
    now injection H as _ <-.
Qed.

Lemma warnings_iff_missing_witness :
  LeagueCases.printed_no_season = []
  <-> has_columns League.matches match_columns_read
      /\ has_columns LeagueCases.no_season delivery_columns_read.
Proof.
  apply (warnings_iff_missing League.matches LeagueCases.no_season
           LeagueCases.kpis_no_season LeagueCases.printed_no_season).
  vm_compute. reflexivity.
Defined.

End WarningTheorems.

Module SeasonEdgeTheorems.
Import PyFacts SeasonSpec SeasonFacts.

(** The last segment of a split: whatever comes before the last
    separator. *)
Lemma split_last sep b :
  contains sep b = false ->
  forall a, exists h r,
    split sep (a ++ sep :: b) = h :: r /\ r <> [] /\ last r [] = b.
Proof.
  intros Hb. induction a as [|c t IH].
  - exists [], [b]. cbn [app split]. rewrite N.eqb_refl.
    rewrite (split_no_sep _ _ Hb). split; [reflexivity|].
    split; [discriminate | reflexivity].
  - destruct IH as (h & r & E & Hr & Hl). cbn [app split]. rewrite E.
    destruct (c =? sep)%N.
    + exists [], (h :: r). split; [reflexivity|]. split; [discriminate|].
      destruct r as [|x r']; [contradiction | exact Hl].
    + exists (c :: h), r. auto.
Qed.

Lemma last_item_split sep a b :
  contains sep b = false -> last_item (split sep (a ++ sep :: b)) = b.
Proof.
  intros Hb. destruct (split_last sep b Hb a) as (h & r & E & Hr & Hl).
  rewrite E. unfold last_item. destruct r as [|x r']; [contradiction | exact Hl].
Qed.

Lemma not_dual_slash a b :
  List.length b = 4%nat -> a ++ ch "/" :: b <> u "2020/21".
Proof.
  intros Hlen E.
  change (u "2020/21") with [50; 48; 50; 48; 47; 50; 49]%N in E.
  change (ch "/") with 47%N in E.
  destruct a as [|a0 [|a1 [|a2 [|a3 [|a4 [|a5 [|a6 a7]]]]]]];
    cbn [app] in E; try discriminate E.
  - injection E as _ _ _ _ ->. discriminate Hlen.
  - destruct a7; discriminate E.
Qed.

Lemma not_dual_dash a b : a ++ ch "/" :: b <> u "2020-21".
Proof.
  intros E. apply (f_equal (contains (ch "/"))) in E.
  rewrite contains_mid in E. discriminate E.
Qed.

Lemma not_dual_dash' a b :
  List.length b = 4%nat -> a ++ ch "-" :: b <> u "2020-21".
Proof.
  intros Hlen E.
  change (u "2020-21") with [50; 48; 50; 48; 45; 50; 49]%N in E.
  change (ch "-") with 45%N in E.
  destruct a as [|a0 [|a1 [|a2 [|a3 [|a4 [|a5 [|a6 a7]]]]]]];
    cbn [app] in E; try discriminate E.
  - injection E as _ _ _ _ ->. discriminate Hlen.
  - destruct a7; discriminate E.
Qed.

Lemma not_dual_slash' a b :
  contains (ch "/") a = false -> all_digits b ->
  a ++ ch "-" :: b <> u "2020/21".
Proof.
  intros Ha Hb E. apply (f_equal (contains (ch "/"))) in E.
  rewrite contains_app, Ha in E. unfold contains in E. cbn [existsb orb] in E.
  fold (contains (ch "/") b) in E.
  rewrite (all_digits_no_char b _ Hb slash_not_digit) in E.
  vm_compute in E. discriminate E.
Qed.

(** X27. Only the part after the last separator counts: whatever text comes
    before the last slash, a label that ends in a four-digit year is
    cleaned to that year, and the same holds for the last dash when the
    text before it has no slash. The leading part is never validated. *)
Theorem clean_season_reads_last_part (a b : str) :
  year4 b ->
  clean_season (CStr (a ++ ch "/" :: b)) = Ok (number_of b)
  /\ (contains (ch "/") a = false ->
      clean_season (CStr (a ++ ch "-" :: b)) = Ok (number_of b)).
Proof.
  intros Hy. pose proof Hy as (Hlen & Hd & _).
  pose proof (all_digits_no_char b _ Hd slash_not_digit) as Hbs.
  pose proof (all_digits_no_char b _ Hd dash_not_digit) as Hbd.
  assert (H4 : (List.length b =? 2)%nat = false) by (now rewrite Hlen).
  split.
  - unfold clean_season, py_str.
    rewrite (str_in_two _ _ _ (not_dual_slash a b Hlen) (not_dual_dash a b)).
    rewrite contains_mid. cbn [orb]. cbv iota.
    rewrite (last_item_split _ a _ Hbs), (strip_all_digits b Hd), H4.
    apply int_of_str_all_digits; [exact Hd | now apply year4_nonempty].
  - intros Ha. unfold clean_season, py_str.
    rewrite (str_in_two _ _ _ (not_dual_slash' a b Ha Hd)
               (not_dual_dash' a b Hlen)).
    assert (E : contains (ch "/") (a ++ ch "-" :: b) = false).
    { rewrite contains_app, Ha. unfold contains in *. cbn [existsb orb].
      exact Hbs. }
    rewrite E, contains_mid. cbn [orb]. cbv iota.
    rewrite (last_item_split _ a _ Hbd), (strip_all_digits b Hd), H4.
    apply int_of_str_all_digits; [exact Hd | now apply year4_nonempty].
Qed.

Lemma clean_season_reads_last_part_witness :
  clean_season (CStr (u "season 2009/2010")) = Ok 2010
  /\ clean_season (CStr (u "n/a/2011")) = Ok 2011
  /\ clean_season (CStr (u "IPL-2012")) = Ok 2012.
Proof.
  split; [|split].
  - apply (proj1 (clean_season_reads_last_part (u "season 2009") (u "2010")
                    ltac:(repeat split; [repeat constructor | discriminate]))).
  - reflexivity.
  - reflexivity.
Defined.

End SeasonEdgeTheorems.
